(** * The cpufreq core (drivers/cpufreq/cpufreq.c): policy table, reference
      discipline, transition engine, governor dispatch and attribute writes.

    The C code is embedded as functions over an explicit kernel state
    [kstate].  A function that dereferences a NULL pointer or hits a BUG_ON
    has no result ([None]); every other path returns its C return value
    together with the new state.  Pointers to policies are keys of the
    [policies] heap, pointers to governors are keys resolved by
    [governor_at]; struct arguments that the C code passes by pointer to a
    stack copy (the proposed [policy] of [__cpufreq_set_policy], [freqs])
    are passed in and handed back as values.

    Field names carry a one-letter prefix of their struct ([p_min] is
    [policy->min], [u_max] is [user_policy.max], [d_verify] is
    [cpufreq_driver->verify], [g_name] is [governor->name]) because the C
    code reuses the same identifiers for locals and fields.

    The dprintk/printk/trace_* sinks, the debug rate limiter and
    loops_per_jiffy (adjust_jiffies is empty on SMP builds) are not part of
    the model.  Execution is sequential with interrupts enabled: spin locks
    and rw-semaphores are modelled by the result of taking them (see
    [lock_policy_rwsem]). *)

From Stdlib Require Import ZArith Lia String Ascii List DecimalString.
From stdpp Require Import base gmap strings list.

Local Open Scope Z_scope.

(** ** Constants of the headers the file includes *)

(** Modelled from the spec: the error codes exposed at the boundary
    (IoError, NoMemory, Busy, NoSuchDevice, InvalidArgument), with the values
    of asm-generic/errno-base.h, which is not among the sources. *)
Definition EIO : Z := 5.
Definition ENOMEM : Z := 12.
Definition EBUSY : Z := 16.
Definition ENODEV : Z := 19.
Definition EINVAL : Z := 22.

(** Modelled from the spec: linux/cpufreq.h is not among the sources; the
    name buffers hold at most 15 characters and a terminator. *)
Definition CPUFREQ_NAME_LEN : nat := 16.

(** Modelled from the spec: the driver flag word of linux/cpufreq.h, with
    [sticky] in bit 0 and [const_loops] in bit 1. *)
Definition CPUFREQ_STICKY : Z := 1.
Definition CPUFREQ_CONST_LOOPS : Z := 2.

(** Modelled from the spec: the two direct modes of a set_policy driver,
    Powersave and Performance; 0 stands for a governed policy. *)
Definition CPUFREQ_POLICY_POWERSAVE : Z := 1.
Definition CPUFREQ_POLICY_PERFORMANCE : Z := 2.

(** [(unsigned int) x] and the conversion of an [unsigned int] to the 32-bit
    [ssize_t] of the ARM target. *)
Definition to_uint (x : Z) : Z := x mod 2 ^ 32.
Definition to_ssize (x : Z) : Z :=
  let u := x mod 2 ^ 32 in if u <? 2 ^ 31 then u else u - 2 ^ 32.

Inductive transition_state :=
| CPUFREQ_PRECHANGE | CPUFREQ_POSTCHANGE
| CPUFREQ_RESUMECHANGE | CPUFREQ_SUSPENDCHANGE.

Inductive policy_event :=
| CPUFREQ_ADJUST | CPUFREQ_INCOMPATIBLE | CPUFREQ_NOTIFY | CPUFREQ_START.

Inductive gov_event :=
| CPUFREQ_GOV_START | CPUFREQ_GOV_STOP | CPUFREQ_GOV_LIMITS.

Definition gov_event_eqb (a b : gov_event) : bool :=
  match a, b with
  | CPUFREQ_GOV_START, CPUFREQ_GOV_START
  | CPUFREQ_GOV_STOP, CPUFREQ_GOV_STOP
  | CPUFREQ_GOV_LIMITS, CPUFREQ_GOV_LIMITS => true
  | _, _ => false
  end.

(** ** Data model *)

Definition gov_ptr := nat.
Definition policy_ptr := nat.
Definition module_id := nat.

(** A cpumask is a bitmap indexed by cpu number. *)
Definition cpumask := N.
Definition cpumask_test_cpu (c : nat) (m : cpumask) : bool := N.testbit m (N.of_nat c).
Definition cpumask_of (c : nat) : cpumask := N.shiftl 1 (N.of_nat c).
Definition cpumask_clear_cpu (c : nat) (m : cpumask) : cpumask := N.clearbit m (N.of_nat c).
Definition for_each_cpu (nr : nat) (m : cpumask) : list nat :=
  List.filter (fun c => cpumask_test_cpu c m) (seq 0 nr).

Record cpufreq_cpuinfo := {
  max_freq : Z;
  min_freq : Z;
  transition_latency : Z
}.

Record cpufreq_real_policy := {
  u_min : Z;
  u_max : Z;
  u_policy : Z;
  u_governor : option gov_ptr
}.

Record cpufreq_policy := {
  p_cpus : cpumask;
  p_related_cpus : cpumask;
  p_cpu : nat;
  p_cpuinfo : cpufreq_cpuinfo;
  p_min : Z;
  p_max : Z;
  p_cur : Z;
  p_policy : Z;
  p_governor : option gov_ptr;
  p_user_policy : cpufreq_real_policy;
  p_kobj : Z;                 (* kobj.kref.refcount *)
  p_kobj_unregister : bool    (* the completion has been signalled *)
}.

Record cpufreq_freqs := {
  f_cpu : nat;
  f_old : Z;
  f_new : Z;
  f_flags : Z
}.

Record cpufreq_governor := {
  g_name : string;
  g_owner : option module_id;
  max_transition_latency : Z;
  g_governor : cpufreq_policy -> gov_event -> Z * cpufreq_policy;
  g_store_setspeed : option (cpufreq_policy -> Z -> cpufreq_policy)
}.

Record cpufreq_driver_t := {
  d_name : string;
  d_owner : option module_id;
  d_flags : Z;
  d_init : cpufreq_policy -> Z * cpufreq_policy;
  d_verify : cpufreq_policy -> Z * cpufreq_policy;
  d_setpolicy : option (cpufreq_policy -> Z * cpufreq_policy);
  d_target : option (cpufreq_policy -> Z -> Z -> Z * cpufreq_policy);
  d_get : option (nat -> Z);
  d_exit : option (cpufreq_policy -> Z * cpufreq_policy);
  d_bios_limit : option (nat -> Z * Z);
  d_attr : list string         (* names of the driver's own attributes *)
}.

Record module_t := {
  m_live : bool;     (* MODULE_STATE_LIVE: try_module_get can succeed *)
  m_refcnt : Z
}.

(** A subscriber of the blocking policy chain receives the event and a
    pointer to the proposed policy, which it may rewrite. *)
Definition notifier_block := policy_event -> cpufreq_policy -> cpufreq_policy.

(** Calls that leave the core, in the order they are made. *)
Inductive kcall :=
| call_verify (p : cpufreq_policy)
| call_setpolicy (p : cpufreq_policy)
| call_init (p : cpufreq_policy)
| call_exit (p : cpufreq_policy)
| call_get (c : nat)
| call_policy_notifier (ev : policy_event) (p : cpufreq_policy)
| call_transition_notifier (st : transition_state) (f : cpufreq_freqs)
| call_governor (g : gov_ptr) (ev : gov_event)
| call_sysfs (c : nat).

Record kstate := {
  cpufreq_driver : option cpufreq_driver_t;
  cpufreq_cpu_data : gmap nat policy_ptr;
  cpufreq_policy_cpu : gmap nat Z;
  cpufreq_governor_list : list gov_ptr;
  cpufreq_policy_notifier_list : list notifier_block;
  policies : gmap policy_ptr cpufreq_policy;
  modules : gmap module_id module_t;
  cpu_online_mask : cpumask;
  cpu_present_mask : cpumask;
  pm_qos_cpu_freq_min : Z;    (* pm_qos_request(PM_QOS_CPU_FREQ_MIN), an int *)
  pm_qos_cpu_freq_max : Z;
  system_wq : list policy_ptr; (* pending [policy->update] work items *)
  trace : list kcall
}.

(** *** Field updates *)

Definition set_p_cpus v p := {|
  p_cpus := v; p_related_cpus := p_related_cpus p; p_cpu := p_cpu p;
  p_cpuinfo := p_cpuinfo p; p_min := p_min p; p_max := p_max p; p_cur := p_cur p;
  p_policy := p_policy p; p_governor := p_governor p;
  p_user_policy := p_user_policy p; p_kobj := p_kobj p;
  p_kobj_unregister := p_kobj_unregister p |}.
Definition set_p_cpuinfo v p := {|
  p_cpus := p_cpus p; p_related_cpus := p_related_cpus p; p_cpu := p_cpu p;
  p_cpuinfo := v; p_min := p_min p; p_max := p_max p; p_cur := p_cur p;
  p_policy := p_policy p; p_governor := p_governor p;
  p_user_policy := p_user_policy p; p_kobj := p_kobj p;
  p_kobj_unregister := p_kobj_unregister p |}.
Definition set_p_min v p := {|
  p_cpus := p_cpus p; p_related_cpus := p_related_cpus p; p_cpu := p_cpu p;
  p_cpuinfo := p_cpuinfo p; p_min := v; p_max := p_max p; p_cur := p_cur p;
  p_policy := p_policy p; p_governor := p_governor p;
  p_user_policy := p_user_policy p; p_kobj := p_kobj p;
  p_kobj_unregister := p_kobj_unregister p |}.
Definition set_p_max v p := {|
  p_cpus := p_cpus p; p_related_cpus := p_related_cpus p; p_cpu := p_cpu p;
  p_cpuinfo := p_cpuinfo p; p_min := p_min p; p_max := v; p_cur := p_cur p;
  p_policy := p_policy p; p_governor := p_governor p;
  p_user_policy := p_user_policy p; p_kobj := p_kobj p;
  p_kobj_unregister := p_kobj_unregister p |}.
Definition set_p_cur v p := {|
  p_cpus := p_cpus p; p_related_cpus := p_related_cpus p; p_cpu := p_cpu p;
  p_cpuinfo := p_cpuinfo p; p_min := p_min p; p_max := p_max p; p_cur := v;
  p_policy := p_policy p; p_governor := p_governor p;
  p_user_policy := p_user_policy p; p_kobj := p_kobj p;
  p_kobj_unregister := p_kobj_unregister p |}.
Definition set_p_policy v p := {|
  p_cpus := p_cpus p; p_related_cpus := p_related_cpus p; p_cpu := p_cpu p;
  p_cpuinfo := p_cpuinfo p; p_min := p_min p; p_max := p_max p; p_cur := p_cur p;
  p_policy := v; p_governor := p_governor p;
  p_user_policy := p_user_policy p; p_kobj := p_kobj p;
  p_kobj_unregister := p_kobj_unregister p |}.
Definition set_p_governor v p := {|
  p_cpus := p_cpus p; p_related_cpus := p_related_cpus p; p_cpu := p_cpu p;
  p_cpuinfo := p_cpuinfo p; p_min := p_min p; p_max := p_max p; p_cur := p_cur p;
  p_policy := p_policy p; p_governor := v;
  p_user_policy := p_user_policy p; p_kobj := p_kobj p;
  p_kobj_unregister := p_kobj_unregister p |}.
Definition set_p_user_policy v p := {|
  p_cpus := p_cpus p; p_related_cpus := p_related_cpus p; p_cpu := p_cpu p;
  p_cpuinfo := p_cpuinfo p; p_min := p_min p; p_max := p_max p; p_cur := p_cur p;
  p_policy := p_policy p; p_governor := p_governor p;
  p_user_policy := v; p_kobj := p_kobj p;
  p_kobj_unregister := p_kobj_unregister p |}.
Definition set_p_kobj v b p := {|
  p_cpus := p_cpus p; p_related_cpus := p_related_cpus p; p_cpu := p_cpu p;
  p_cpuinfo := p_cpuinfo p; p_min := p_min p; p_max := p_max p; p_cur := p_cur p;
  p_policy := p_policy p; p_governor := p_governor p;
  p_user_policy := p_user_policy p; p_kobj := v;
  p_kobj_unregister := b |}.

Definition set_u_min v u :=
  {| u_min := v; u_max := u_max u; u_policy := u_policy u; u_governor := u_governor u |}.
Definition set_u_max v u :=
  {| u_min := u_min u; u_max := v; u_policy := u_policy u; u_governor := u_governor u |}.
Definition set_u_policy_governor v g u :=
  {| u_min := u_min u; u_max := u_max u; u_policy := v; u_governor := g |}.

Definition set_modules v s := {|
  cpufreq_driver := cpufreq_driver s; cpufreq_cpu_data := cpufreq_cpu_data s;
  cpufreq_policy_cpu := cpufreq_policy_cpu s;
  cpufreq_governor_list := cpufreq_governor_list s;
  cpufreq_policy_notifier_list := cpufreq_policy_notifier_list s;
  policies := policies s; modules := v;
  cpu_online_mask := cpu_online_mask s; cpu_present_mask := cpu_present_mask s;
  pm_qos_cpu_freq_min := pm_qos_cpu_freq_min s;
  pm_qos_cpu_freq_max := pm_qos_cpu_freq_max s;
  system_wq := system_wq s; trace := trace s |}.
Definition set_policies v s := {|
  cpufreq_driver := cpufreq_driver s; cpufreq_cpu_data := cpufreq_cpu_data s;
  cpufreq_policy_cpu := cpufreq_policy_cpu s;
  cpufreq_governor_list := cpufreq_governor_list s;
  cpufreq_policy_notifier_list := cpufreq_policy_notifier_list s;
  policies := v; modules := modules s;
  cpu_online_mask := cpu_online_mask s; cpu_present_mask := cpu_present_mask s;
  pm_qos_cpu_freq_min := pm_qos_cpu_freq_min s;
  pm_qos_cpu_freq_max := pm_qos_cpu_freq_max s;
  system_wq := system_wq s; trace := trace s |}.
Definition set_cpu_data v s := {|
  cpufreq_driver := cpufreq_driver s; cpufreq_cpu_data := v;
  cpufreq_policy_cpu := cpufreq_policy_cpu s;
  cpufreq_governor_list := cpufreq_governor_list s;
  cpufreq_policy_notifier_list := cpufreq_policy_notifier_list s;
  policies := policies s; modules := modules s;
  cpu_online_mask := cpu_online_mask s; cpu_present_mask := cpu_present_mask s;
  pm_qos_cpu_freq_min := pm_qos_cpu_freq_min s;
  pm_qos_cpu_freq_max := pm_qos_cpu_freq_max s;
  system_wq := system_wq s; trace := trace s |}.
Definition set_policy_cpu v s := {|
  cpufreq_driver := cpufreq_driver s; cpufreq_cpu_data := cpufreq_cpu_data s;
  cpufreq_policy_cpu := v;
  cpufreq_governor_list := cpufreq_governor_list s;
  cpufreq_policy_notifier_list := cpufreq_policy_notifier_list s;
  policies := policies s; modules := modules s;
  cpu_online_mask := cpu_online_mask s; cpu_present_mask := cpu_present_mask s;
  pm_qos_cpu_freq_min := pm_qos_cpu_freq_min s;
  pm_qos_cpu_freq_max := pm_qos_cpu_freq_max s;
  system_wq := system_wq s; trace := trace s |}.
Definition set_governor_list v s := {|
  cpufreq_driver := cpufreq_driver s; cpufreq_cpu_data := cpufreq_cpu_data s;
  cpufreq_policy_cpu := cpufreq_policy_cpu s;
  cpufreq_governor_list := v;
  cpufreq_policy_notifier_list := cpufreq_policy_notifier_list s;
  policies := policies s; modules := modules s;
  cpu_online_mask := cpu_online_mask s; cpu_present_mask := cpu_present_mask s;
  pm_qos_cpu_freq_min := pm_qos_cpu_freq_min s;
  pm_qos_cpu_freq_max := pm_qos_cpu_freq_max s;
  system_wq := system_wq s; trace := trace s |}.
Definition set_system_wq v s := {|
  cpufreq_driver := cpufreq_driver s; cpufreq_cpu_data := cpufreq_cpu_data s;
  cpufreq_policy_cpu := cpufreq_policy_cpu s;
  cpufreq_governor_list := cpufreq_governor_list s;
  cpufreq_policy_notifier_list := cpufreq_policy_notifier_list s;
  policies := policies s; modules := modules s;
  cpu_online_mask := cpu_online_mask s; cpu_present_mask := cpu_present_mask s;
  pm_qos_cpu_freq_min := pm_qos_cpu_freq_min s;
  pm_qos_cpu_freq_max := pm_qos_cpu_freq_max s;
  system_wq := v; trace := trace s |}.
Definition set_trace v s := {|
  cpufreq_driver := cpufreq_driver s; cpufreq_cpu_data := cpufreq_cpu_data s;
  cpufreq_policy_cpu := cpufreq_policy_cpu s;
  cpufreq_governor_list := cpufreq_governor_list s;
  cpufreq_policy_notifier_list := cpufreq_policy_notifier_list s;
  policies := policies s; modules := modules s;
  cpu_online_mask := cpu_online_mask s; cpu_present_mask := cpu_present_mask s;
  pm_qos_cpu_freq_min := pm_qos_cpu_freq_min s;
  pm_qos_cpu_freq_max := pm_qos_cpu_freq_max s;
  system_wq := system_wq s; trace := v |}.

(** ** The monad of kernel code: state passing, [None] for an oops *)

Definition M (A : Type) : Type := kstate -> option (A * kstate).

Definition ret {A} (a : A) : M A := fun s => Some (a, s).
Definition bind {A B} (m : M A) (k : A -> M B) : M B :=
  fun s => match m s with Some (a, s') => k a s' | None => None end.
Definition oops {A} : M A := fun _ => None.
Definition gets {A} (f : kstate -> A) : M A := fun s => Some (f s, s).
Definition modify (f : kstate -> kstate) : M unit := fun s => Some (tt, f s).
Definition record (c : kcall) : M unit :=
  modify (fun s => set_trace (trace s ++ [c]) s).

Notation "'let*' x ':=' m 'in' k" := (bind m (fun x => k))
  (at level 10, x pattern, m at level 100, k at level 200).

(** Iterate a loop body over the elements of a list, in order. *)
Fixpoint for_each {A} (l : list A) (body : A -> M unit) : M unit :=
  match l with
  | [] => ret tt
  | x :: l' => let* _ := body x in for_each l' body
  end.

(** *** Module references (linux/module.h) *)

Definition try_module_get (owner : option module_id) : M bool :=
  match owner with
  | None => ret true
  | Some m => fun s =>
      match modules s !! m with
      | Some md =>
          if m_live md
          then Some (true, set_modules (<[m := {| m_live := true; m_refcnt := m_refcnt md + 1 |}]> (modules s)) s)
          else Some (false, s)
      | None => Some (false, s)
      end
  end.

Definition module_put (owner : option module_id) : M unit :=
  match owner with
  | None => ret tt
  | Some m => fun s =>
      match modules s !! m with
      | Some md =>
          Some (tt, set_modules (<[m := {| m_live := m_live md; m_refcnt := m_refcnt md - 1 |}]> (modules s)) s)
      | None => Some (tt, s)
      end
  end.

(** *** Policy objects: loads, stores and the embedded kobject *)

Definition load (p : policy_ptr) : M cpufreq_policy :=
  fun s => match policies s !! p with Some v => Some (v, s) | None => None end.
Definition store (p : policy_ptr) (v : cpufreq_policy) : M unit :=
  modify (fun s => set_policies (<[p := v]> (policies s)) s).

Definition kobject_get (p : policy_ptr) : M unit :=
  let* v := load p in
  store p (set_p_kobj (p_kobj v + 1) (p_kobj_unregister v) v).

(** Dropping the last reference runs [cpufreq_sysfs_release], which
    completes [kobj_unregister]. *)
Definition kobject_put (p : policy_ptr) : M unit :=
  let* v := load p in
  let n := p_kobj v - 1 in
  store p (set_p_kobj n (if n =? 0 then true else p_kobj_unregister v) v).

(** ** What lives outside this file

    The build configuration, the governor objects that governor pointers
    refer to, and the library and allocator calls whose code is elsewhere in
    the tree.  Every definition below is parametric in it. *)
Class kernel_env := {
  nr_cpu_ids : nat;
  CONFIG_SMP : bool;
  CONFIG_HOTPLUG_CPU : bool;
  (** [Some g] when CONFIG_CPU_FREQ_GOV_PERFORMANCE is set, [g] being
      [&cpufreq_gov_performance]; [None] otherwise. *)
  cpufreq_gov_performance : option gov_ptr;
  CPUFREQ_DEFAULT_GOVERNOR : gov_ptr;
  governor_at : gov_ptr -> cpufreq_governor;
  (** [request_module(name)]: its return value and the governors that the
      loaded module registers from its init function. *)
  request_module : string -> Z * list gov_ptr;
  (** [sscanf(buf, "%u", &x)] and [sscanf(buf, "%15s", str)]: the converted
      item when the call returns 1. *)
  sscanf_u : string -> option Z;
  sscanf_s : string -> option string;
  strnicmp : string -> string -> nat -> Z;
  (** allocation and sysfs calls: do they succeed in this state? *)
  kzalloc : kstate -> bool;
  kobject_init_and_add : kstate -> nat -> Z;
  sysfs_create_file : kstate -> nat -> string -> Z;
  sysfs_create_link : kstate -> nat -> Z
}.

Section Core.

Context {K : kernel_env}.

(** ** cpufreq_cpu_get / cpufreq_cpu_put *)

Definition cpufreq_cpu_get (cpu : nat) : M (option policy_ptr) :=
  if (nr_cpu_ids <=? cpu)%nat then ret None
  else
    let* drv := gets cpufreq_driver in
    match drv with
    | None => ret None
    | Some d =>
        let* ok := try_module_get (d_owner d) in
        if negb ok then ret None
        else
          let* data := gets (fun s => cpufreq_cpu_data s !! cpu) in
          match data with
          | None => let* _ := module_put (d_owner d) in ret None
          | Some p => let* _ := kobject_get p in ret (Some p)
          end
    end.

Definition cpufreq_cpu_put (data : policy_ptr) : M unit :=
  let* _ := kobject_put data in
  let* drv := gets cpufreq_driver in
  match drv with
  | None => oops
  | Some d => module_put (d_owner d)
  end.

(** ** Per-policy lock (lines 90-121): BUG_ON an unset policy cpu, and the
      check that the cpu is still online after the lock is taken *)

Definition cpu_online (cpu : nat) : M bool :=
  gets (fun s => cpumask_test_cpu cpu (cpu_online_mask s)).

Definition per_cpu_policy_cpu (cpu : nat) : M Z :=
  gets (fun s => default (-1) (cpufreq_policy_cpu s !! cpu)).

Definition lock_policy_rwsem (cpu : nat) : M Z :=
  let* policy_cpu := per_cpu_policy_cpu cpu in
  if policy_cpu =? -1 then oops
  else
    let* on := cpu_online cpu in
    if negb on then ret (-1) else ret 0.

Definition unlock_policy_rwsem (cpu : nat) : M unit :=
  let* policy_cpu := per_cpu_policy_cpu cpu in
  if policy_cpu =? -1 then oops else ret tt.

(** ** Notifier chains *)

Definition blocking_notifier_call_chain (ev : policy_event) (policy : cpufreq_policy)
  : M cpufreq_policy :=
  let* _ := record (call_policy_notifier ev policy) in
  let* chain := gets cpufreq_policy_notifier_list in
  ret (fold_left (fun p (nb : notifier_block) => nb ev p) chain policy).

Definition srcu_notifier_call_chain (st : transition_state) (freqs : cpufreq_freqs)
  : M unit :=
  record (call_transition_notifier st freqs).

(** ** cpufreq_notify_transition (lines 339-383) *)

Definition cpufreq_notify_transition (freqs : cpufreq_freqs) (state : transition_state)
  : M cpufreq_freqs :=
  let* drv := gets cpufreq_driver in
  match drv with
  | None => oops
  | Some d =>
      let freqs := {| f_cpu := f_cpu freqs; f_old := f_old freqs;
                      f_new := f_new freqs; f_flags := d_flags d |} in
      let* policy := gets (fun s => cpufreq_cpu_data s !! f_cpu freqs) in
      match state with
      | CPUFREQ_PRECHANGE =>
          let* freqs :=
            if Z.land (d_flags d) CPUFREQ_CONST_LOOPS =? 0 then
              match policy with
              | Some p =>
                  let* v := load p in
                  if (p_cpu v =? f_cpu freqs)%nat && negb (p_cur v =? 0)
                     && negb (p_cur v =? f_old freqs)
                  then ret {| f_cpu := f_cpu freqs; f_old := p_cur v;
                              f_new := f_new freqs; f_flags := f_flags freqs |}
                  else ret freqs
              | None => ret freqs
              end
            else ret freqs in
          let* _ := srcu_notifier_call_chain CPUFREQ_PRECHANGE freqs in
          ret freqs
      | CPUFREQ_POSTCHANGE =>
          let* _ := srcu_notifier_call_chain CPUFREQ_POSTCHANGE freqs in
          let* _ :=
            match policy with
            | Some p =>
                let* v := load p in
                if (p_cpu v =? f_cpu freqs)%nat
                then store p (set_p_cur (f_new freqs) v)
                else ret tt
            | None => ret tt
            end in
          ret freqs
      | _ => ret freqs
      end
  end.

(** ** Governor dispatch: __cpufreq_governor (lines 1939-1984) *)

Definition put_governor_module (policy : cpufreq_policy) : M unit :=
  match p_governor policy with
  | None => oops
  | Some g => module_put (g_owner (governor_at g))
  end.

Definition __cpufreq_governor (policy : cpufreq_policy) (event : gov_event)
  : M (Z * cpufreq_policy) :=
  let gov := cpufreq_gov_performance in
  match p_governor policy with
  | None => oops
  | Some g0 =>
      let lat := max_transition_latency (governor_at g0) in
      let too_slow :=
        negb (lat =? 0) && (lat <? transition_latency (p_cpuinfo policy)) in
      match (if too_slow then gov else Some g0) with
      | None => ret (- EINVAL, policy)
      | Some g =>
          let policy := if too_slow then set_p_governor (Some g) policy else policy in
          let* ok := try_module_get (g_owner (governor_at g)) in
          if negb ok then ret (- EINVAL, policy)
          else
            let* _ := record (call_governor g event) in
            let '(r, policy) := g_governor (governor_at g) policy event in
            let* _ :=
              if negb (gov_event_eqb event CPUFREQ_GOV_START) || negb (r =? 0)
              then put_governor_module policy else ret tt in
            let* _ :=
              if gov_event_eqb event CPUFREQ_GOV_STOP && (r =? 0)
              then put_governor_module policy else ret tt in
            ret (r, policy)
      end
  end.

(** ** The transition engine: __cpufreq_set_policy (lines 2068-2168)

    [data] is the live policy, [policy] the proposed copy; both are handed
    back, together with the return value. *)

Definition __cpufreq_set_policy (data policy : cpufreq_policy)
  : M (Z * cpufreq_policy * cpufreq_policy) :=
  let pmin := p_min policy in
  let pmax := p_max policy in
  let* req_min := gets pm_qos_cpu_freq_min in
  let* req_max := gets pm_qos_cpu_freq_max in
  let qmin := Z.min (to_uint req_min) (u_max (p_user_policy data)) in
  let qmax := Z.max (to_uint req_max) (u_min (p_user_policy data)) in
  (* error_out: restore the limits that the policy requested *)
  let error_out (r : Z) (data policy : cpufreq_policy) :=
    ret (r, data, set_p_max pmax (set_p_min pmin policy)) in
  (* clamp the new policy to PM QoS limits *)
  let policy := set_p_min (Z.max pmin qmin) policy in
  let policy := set_p_max (Z.min pmax qmax) policy in
  let policy := set_p_cpuinfo (p_cpuinfo data) policy in
  if (u_max (p_user_policy data) <? p_min policy)
     || (p_max policy <? u_min (p_user_policy data))
  then error_out (- EINVAL) data policy
  else
    let* drv := gets cpufreq_driver in
    match drv with
    | None => oops
    | Some d =>
        let* _ := record (call_verify policy) in
        let '(r, policy) := d_verify d policy in
        if negb (r =? 0) then error_out r data policy
        else
          let* policy := blocking_notifier_call_chain CPUFREQ_ADJUST policy in
          let* policy := blocking_notifier_call_chain CPUFREQ_INCOMPATIBLE policy in
          let* _ := record (call_verify policy) in
          let '(r, policy) := d_verify d policy in
          if negb (r =? 0) then error_out r data policy
          else
            let* policy := blocking_notifier_call_chain CPUFREQ_NOTIFY policy in
            let data := set_p_min (p_min policy) data in
            let data := set_p_max (p_max policy) data in
            match d_setpolicy d with
            | Some setpolicy =>
                let data := set_p_policy (p_policy policy) data in
                let* _ := record (call_setpolicy policy) in
                let '(r, policy) := setpolicy policy in
                error_out r data policy
            | None =>
                if bool_decide (p_governor policy = p_governor data)
                then
                  let* (_, data) := __cpufreq_governor data CPUFREQ_GOV_LIMITS in
                  error_out r data policy
                else
                  (* save old, working values *)
                  let old_gov := p_governor data in
                  (* end old governor *)
                  let* data :=
                    match p_governor data with
                    | Some _ =>
                        let* (_, data) := __cpufreq_governor data CPUFREQ_GOV_STOP in
                        ret data
                    | None => ret data
                    end in
                  (* start new governor *)
                  let data := set_p_governor (p_governor policy) data in
                  let* (started, data) := __cpufreq_governor data CPUFREQ_GOV_START in
                  if negb (started =? 0) then
                    (* new governor failed, so re-start old one *)
                    let* data :=
                      match old_gov with
                      | Some _ =>
                          let data := set_p_governor old_gov data in
                          let* (_, data) := __cpufreq_governor data CPUFREQ_GOV_START in
                          ret data
                      | None => ret data
                      end in
                    error_out (- EINVAL) data policy
                  else
                    let* (_, data) := __cpufreq_governor data CPUFREQ_GOV_LIMITS in
                    error_out r data policy
            end
    end.

(** ** Governor registry (lines 392-401, 1987-2004) *)

Definition __find_governor (str_governor : string) : M (option gov_ptr) :=
  gets (fun s =>
    List.find (fun t => strnicmp str_governor (g_name (governor_at t)) CPUFREQ_NAME_LEN =? 0)
              (cpufreq_governor_list s)).

Definition cpufreq_register_governor (governor : option gov_ptr) : M Z :=
  match governor with
  | None => ret (- EINVAL)
  | Some g =>
      let* t := __find_governor (g_name (governor_at g)) in
      match t with
      | None =>
          let* _ := modify (fun s => set_governor_list (g :: cpufreq_governor_list s) s) in
          ret 0
      | Some _ => ret (- EBUSY)
      end
  end.

(** cpufreq_parse_governor (lines 406-450); the two out-parameters are the
    [policy] and [governor] fields of the caller's [new_policy]. *)
Definition cpufreq_parse_governor (str_governor : string) (new_policy : cpufreq_policy)
  : M (Z * cpufreq_policy) :=
  let* drv := gets cpufreq_driver in
  match drv with
  | None => ret (- EINVAL, new_policy)
  | Some d =>
      match d_setpolicy d, d_target d with
      | Some _, _ =>
          if strnicmp str_governor "performance" CPUFREQ_NAME_LEN =? 0
          then ret (0, set_p_policy CPUFREQ_POLICY_PERFORMANCE new_policy)
          else if strnicmp str_governor "powersave" CPUFREQ_NAME_LEN =? 0
          then ret (0, set_p_policy CPUFREQ_POLICY_POWERSAVE new_policy)
          else ret (- EINVAL, new_policy)
      | None, Some _ =>
          let* t := __find_governor str_governor in
          let* t :=
            match t with
            | Some _ => ret t
            | None =>
                let '(r, loaded) := request_module ("cpufreq_" ++ str_governor) in
                let* _ := for_each loaded
                            (fun g => let* _ := cpufreq_register_governor (Some g) in ret tt) in
                if r =? 0 then __find_governor str_governor else ret None
            end in
          match t with
          | Some g => ret (0, set_p_governor (Some g) new_policy)
          | None => ret (- EINVAL, new_policy)
          end
      | None, None => ret (- EINVAL, new_policy)
      end
  end.

(** ** cpufreq_get_policy (lines 2046-2060): [None] is the return value
      -EINVAL, [Some v] is 0 with [v] copied into the caller's buffer. *)
Definition cpufreq_get_policy (cpu : nat) : M (option cpufreq_policy) :=
  let* cpu_policy := cpufreq_cpu_get cpu in
  match cpu_policy with
  | None => ret None
  | Some p =>
      let* v := load p in
      let* _ := cpufreq_cpu_put p in
      ret (Some v)
  end.

(** ** Attribute writes *)

(** The [object] argument of the [store_one] macro. *)
Inductive limit_object := object_min | object_max.

Definition set_object (o : limit_object) (v : Z) (p : cpufreq_policy) :=
  match o with object_min => set_p_min v p | object_max => set_p_max v p end.
Definition get_object (o : limit_object) (p : cpufreq_policy) : Z :=
  match o with object_min => p_min p | object_max => p_max p end.
Definition set_user_object (o : limit_object) (v : Z) (p : cpufreq_policy) :=
  match o with
  | object_min => set_p_user_policy (set_u_min v (p_user_policy p)) p
  | object_max => set_p_user_policy (set_u_max v (p_user_policy p)) p
  end.

(** store_one (lines 483-502).  [ret] is an [unsigned int] and the result an
    [ssize_t]. *)
Definition store_one (object : limit_object) (policy : policy_ptr) (buf : string) (count : Z)
  : M Z :=
  let* pv := load policy in
  let* got := cpufreq_get_policy (p_cpu pv) in
  match got with
  | None => ret (- EINVAL)
  | Some new_policy =>
      match sscanf_u buf with
      | None => ret (- EINVAL)
      | Some x =>
          let new_policy := set_object object x new_policy in
          let* data := load policy in
          let* (r, data, new_policy) := __cpufreq_set_policy data new_policy in
          let* _ := store policy (set_user_object object (get_object object new_policy) data) in
          ret (to_ssize (if to_uint r =? 0 then count else to_uint r))
      end
  end.

Definition store_scaling_min_freq := store_one object_min.
Definition store_scaling_max_freq := store_one object_max.

(** store_scaling_governor (lines 539-583) *)
Definition store_scaling_governor (policy : policy_ptr) (buf : string) (count : Z) : M Z :=
  match sscanf_s buf with
  | None => ret (- EINVAL)
  | Some str_governor =>
      let* _ :=
        if CONFIG_HOTPLUG_CPU then
          let* present := gets cpu_present_mask in
          for_each (for_each_cpu nr_cpu_ids present) (fun cpu =>
            let* got := cpufreq_get_policy cpu in
            match got with
            | None => ret tt
            | Some new_policy =>
                let* (err, new_policy) := cpufreq_parse_governor str_governor new_policy in
                if negb (err =? 0) then ret tt
                else
                  let* data := load policy in
                  let* (_, data, _) := __cpufreq_set_policy data new_policy in
                  store policy
                    (set_p_user_policy
                       (set_u_policy_governor (p_policy data) (p_governor data)
                          (p_user_policy data)) data)
            end)
        else ret tt in
      ret (to_ssize count)
  end.

(** ** Out-of-sync detection (lines 1586-1683) *)

Definition cpufreq_out_of_sync (cpu : nat) (old_freq new_freq : Z) : M unit :=
  (* [freqs.flags] is only assigned inside cpufreq_notify_transition *)
  let freqs := {| f_cpu := cpu; f_old := old_freq; f_new := new_freq; f_flags := 0 |} in
  let* freqs := cpufreq_notify_transition freqs CPUFREQ_PRECHANGE in
  let* _ := cpufreq_notify_transition freqs CPUFREQ_POSTCHANGE in
  ret tt.

(** [schedule_work(&policy->update)]: a work item that is already pending is
    not queued again. *)
Definition schedule_work (p : policy_ptr) : M unit :=
  modify (fun s =>
    if bool_decide (p ∈ system_wq s) then s else set_system_wq (system_wq s ++ [p]) s).

Definition __cpufreq_get (cpu : nat) : M Z :=
  let* policy := gets (fun s => cpufreq_cpu_data s !! cpu) in
  let* drv := gets cpufreq_driver in
  match drv with
  | None => oops
  | Some d =>
      match d_get d with
      | None => ret 0
      | Some get =>
          let* _ := record (call_get cpu) in
          let ret_freq := get cpu in
          let* _ :=
            if negb (ret_freq =? 0) then
              match policy with
              | None => oops
              | Some p =>
                  let* v := load p in
                  if negb (p_cur v =? 0) && (Z.land (d_flags d) CPUFREQ_CONST_LOOPS =? 0)
                  then
                    if negb (ret_freq =? p_cur v) then
                      let* _ := cpufreq_out_of_sync cpu (p_cur v) ret_freq in
                      schedule_work p
                    else ret tt
                  else ret tt
              end
            else ret tt in
          ret ret_freq
      end
  end.

Definition cpufreq_get (cpu : nat) : M Z :=
  let* policy := cpufreq_cpu_get cpu in
  match policy with
  | None => ret 0
  | Some p =>
      let* locked := lock_policy_rwsem cpu in
      let* ret_freq :=
        if negb (locked =? 0) then ret 0
        else
          let* r := __cpufreq_get cpu in
          let* _ := unlock_policy_rwsem cpu in
          ret r in
      let* _ := cpufreq_cpu_put p in
      ret ret_freq
  end.

(** cpufreq_update_policy (lines 2177-2222), the body of the deferred
    [policy->update] work (handle_update, lines 1586-1593). *)
Definition cpufreq_update_policy (cpu : nat) : M Z :=
  let* got := cpufreq_cpu_get cpu in
  match got with
  | None => ret (- ENODEV)
  | Some data =>
      let* locked := lock_policy_rwsem cpu in
      let* r :=
        if negb (locked =? 0) then ret (- EINVAL)
        else
          let* dv := load data in
          let policy := set_p_min (u_min (p_user_policy dv)) dv in
          let policy := set_p_max (u_max (p_user_policy dv)) policy in
          let policy := set_p_policy (u_policy (p_user_policy dv)) policy in
          let policy := set_p_governor (u_governor (p_user_policy dv)) policy in
          let* drv := gets cpufreq_driver in
          match drv with
          | None => oops
          | Some d =>
              let* policy :=
                match d_get d with
                | None => ret policy
                | Some get =>
                    let* _ := record (call_get cpu) in
                    let policy := set_p_cur (get cpu) policy in
                    let* _ :=
                      if p_cur dv =? 0 then store data (set_p_cur (p_cur policy) dv)
                      else if negb (p_cur dv =? p_cur policy)
                      then cpufreq_out_of_sync cpu (p_cur dv) (p_cur policy)
                      else ret tt in
                    ret policy
                end in
              let* dv := load data in
              let* (r, dv, _) := __cpufreq_set_policy dv policy in
              let* _ := store data dv in
              let* _ := unlock_policy_rwsem cpu in
              ret r
          end in
      let* _ := cpufreq_cpu_put data in
      ret r
  end.

Definition handle_update (work : policy_ptr) : M unit :=
  let* v := load work in
  let* _ := cpufreq_update_policy (p_cpu v) in
  ret tt.

(** ** Attachment: cpufreq_add_dev and its helpers (lines 1101-1426) *)

(** A zeroed policy, as kzalloc returns it. *)
Definition zero_policy : cpufreq_policy := {|
  p_cpus := 0%N; p_related_cpus := 0%N; p_cpu := 0%nat;
  p_cpuinfo := {| max_freq := 0; min_freq := 0; transition_latency := 0 |};
  p_min := 0; p_max := 0; p_cur := 0; p_policy := 0; p_governor := None;
  p_user_policy := {| u_min := 0; u_max := 0; u_policy := 0; u_governor := None |};
  p_kobj := 0; p_kobj_unregister := false |}.

Definition kfree (p : policy_ptr) : M unit :=
  modify (fun s => set_policies (delete p (policies s)) s).

(** [wait_for_completion(&policy->kobj_unregister)] returns only once the
    last reference is gone; while references remain the caller never gets a
    result.  Returning takes the completion: a second wait finds it
    unsignalled again. *)
Definition wait_for_completion (p : policy_ptr) : M unit :=
  let* v := load p in
  if p_kobj_unregister v then store p (set_p_kobj (p_kobj v) false v) else oops.

Definition driver_exit (p : policy_ptr) : M unit :=
  let* drv := gets cpufreq_driver in
  match drv with
  | None => oops
  | Some d =>
      match d_exit d with
      | None => ret tt
      | Some f =>
          let* v := load p in
          let* _ := record (call_exit v) in
          store p (snd (f v))
      end
  end.

Definition set_per_cpu_data (cpu : nat) (p : option policy_ptr) : M unit :=
  modify (fun s =>
    set_cpu_data (match p with
                  | Some q => <[cpu := q]> (cpufreq_cpu_data s)
                  | None => delete cpu (cpufreq_cpu_data s)
                  end) s).

Definition set_per_cpu_policy_cpu (cpu : nat) (v : Z) : M unit :=
  modify (fun s => set_policy_cpu (<[cpu := v]> (cpufreq_policy_cpu s)) s).

(** cpufreq_add_dev_policy (lines 1101-1179): the loop over [policy->cpus],
    left at the first sibling that already has a policy. *)
Fixpoint add_dev_policy_loop (cpu : nat) (policy : policy_ptr) (js : list nat) : M Z :=
  match js with
  | [] => ret 0
  | j :: js' =>
      if (cpu =? j)%nat then add_dev_policy_loop cpu policy js'
      else
        let* managed_policy := cpufreq_cpu_get j in
        match managed_policy with
        | None => add_dev_policy_loop cpu policy js'
        | Some mp =>
            (* Set proper policy_cpu *)
            let* _ := unlock_policy_rwsem cpu in
            let* mv := load mp in
            let* _ := set_per_cpu_policy_cpu cpu (Z.of_nat (p_cpu mv)) in
            let* locked := lock_policy_rwsem cpu in
            if locked <? 0 then
              let* _ := driver_exit policy in
              let* _ := cpufreq_cpu_put mp in
              ret (- EBUSY)
            else
              let* pv := load policy in
              let* mv := load mp in
              let* _ := store mp (set_p_cpus (p_cpus pv) mv) in
              let* _ := set_per_cpu_data cpu (Some mp) in
              let* _ := record (call_sysfs cpu) in
              let* r := gets (fun s => sysfs_create_link s cpu) in
              let* _ := if negb (r =? 0) then cpufreq_cpu_put mp else ret tt in
              let* _ := driver_exit policy in
              if r =? 0 then ret 1 else ret r
        end
  end.

Definition cpufreq_add_dev_policy (cpu : nat) (policy : policy_ptr) : M Z :=
  if CONFIG_SMP then
    let* pv := load policy in
    add_dev_policy_loop cpu policy (for_each_cpu nr_cpu_ids (p_cpus pv))
  else ret 0.

(** cpufreq_add_dev_symlink (lines 1183-1209) *)
Fixpoint add_dev_symlink_loop (cpu : nat) (js : list nat) : M Z :=
  match js with
  | [] => ret 0
  | j :: js' =>
      let* on := cpu_online j in
      if (j =? cpu)%nat || negb on then add_dev_symlink_loop cpu js'
      else
        let* managed_policy := cpufreq_cpu_get cpu in
        let* _ := record (call_sysfs j) in
        let* r := gets (fun s => sysfs_create_link s j) in
        if negb (r =? 0) then
          match managed_policy with
          | None => oops
          | Some mp => let* _ := cpufreq_cpu_put mp in ret r
          end
        else add_dev_symlink_loop cpu js'
  end.

Definition cpufreq_add_dev_symlink (cpu : nat) (policy : policy_ptr) : M Z :=
  let* pv := load policy in
  add_dev_symlink_loop cpu (for_each_cpu nr_cpu_ids (p_cpus pv)).

(** The [sysfs_create_file] calls of cpufreq_add_dev_interface, stopping at
    the first failure. *)
Fixpoint create_files (cpu : nat) (names : list string) : M Z :=
  match names with
  | [] => ret 0
  | n :: names' =>
      let* _ := record (call_sysfs cpu) in
      let* r := gets (fun s => sysfs_create_file s cpu n) in
      if negb (r =? 0) then ret r else create_files cpu names'
  end.

(** cpufreq_add_dev_interface (lines 1211-1284) *)
Definition cpufreq_add_dev_interface (cpu : nat) (policy : policy_ptr) : M Z :=
  let err_out_kobj_put (r : Z) :=
    let* _ := kobject_put policy in
    let* _ := wait_for_completion policy in
    ret r in
  (* prepare interface data *)
  let* pv := load policy in
  let* _ := store policy (set_p_kobj 1 (p_kobj_unregister pv) pv) in
  let* _ := record (call_sysfs cpu) in
  let* r := gets (fun s => kobject_init_and_add s cpu) in
  if negb (r =? 0) then ret r
  else
    let* drv := gets cpufreq_driver in
    match drv with
    | None => oops
    | Some d =>
        (* set up files for this cpu device *)
        let* r := create_files cpu
                    (d_attr d
                     ++ (if bool_decide (is_Some (d_get d))
                         then ["cpuinfo_cur_freq"%string] else [])
                     ++ (if bool_decide (is_Some (d_target d))
                         then ["scaling_cur_freq"%string] else [])
                     ++ (if bool_decide (is_Some (d_bios_limit d))
                         then ["bios_limit"%string] else [])) in
        if negb (r =? 0) then err_out_kobj_put r
        else
          let* pv := load policy in
          let* _ := for_each (for_each_cpu nr_cpu_ids (p_cpus pv)) (fun j =>
                      let* on := cpu_online j in
                      if negb on then ret tt
                      else
                        let* _ := set_per_cpu_data j (Some policy) in
                        set_per_cpu_policy_cpu j (Z.of_nat (p_cpu pv))) in
          let* r := cpufreq_add_dev_symlink cpu policy in
          if negb (r =? 0) then err_out_kobj_put r
          else
            let* new_policy := load policy in
            (* assure that the starting sequence is run in __cpufreq_set_policy *)
            let data := set_p_governor None new_policy in
            (* set default policy *)
            let* (r, data, _) := __cpufreq_set_policy data new_policy in
            let* _ := store policy
                        (set_p_user_policy
                           (set_u_policy_governor (p_policy data) (p_governor data)
                              (p_user_policy data)) data) in
            let* _ := if negb (r =? 0) then driver_exit policy else ret tt in
            ret r
    end.

(** The search of lines 1353-1361 for an online sibling whose policy lists
    [cpu] among its related cpus. *)
Definition sibling_governor (cpu : nat) (s : kstate) : option gov_ptr :=
  let match_of sibling :=
    match cpufreq_cpu_data s !! sibling with
    | Some cp =>
        match policies s !! cp with
        | Some cv =>
            match p_governor cv with
            | Some g => if cpumask_test_cpu cpu (p_related_cpus cv) then Some g else None
            | None => None
            end
        | None => None
        end
    | None => None
    end in
  head (omap match_of (for_each_cpu nr_cpu_ids (cpu_online_mask s))).

(** cpufreq_add_dev (lines 1296-1426).  Line 1363 reads [f (!found)]; it is
    taken as the [if (!found)] it stands for.  alloc_cpumask_var and
    zalloc_cpumask_var cannot fail on this target (the masks are embedded in
    the policy). *)
Definition cpufreq_add_dev (cpu : nat) : M Z :=
  let* on := cpu_online cpu in
  if negb on then ret 0
  else
    (* check whether a different CPU already registered this CPU because it
       is in the same boat. *)
    let* already := if CONFIG_SMP then cpufreq_cpu_get cpu else ret None in
    match already with
    | Some p => let* _ := cpufreq_cpu_put p in ret 0
    | None =>
        let* drv := gets cpufreq_driver in
        match drv with
        | None => oops
        | Some d =>
            let* ok := try_module_get (d_owner d) in
            if negb ok then ret (- EINVAL)
            else
              let nomem_out (r : Z) := let* _ := module_put (d_owner d) in ret r in
              let* can := gets kzalloc in
              if negb can then nomem_out (- ENOMEM)
              else
                let* policy := gets (fun s => fresh (dom (policies s))) in
                let err_unlock_policy (r : Z) :=
                  let* _ := unlock_policy_rwsem cpu in
                  let* _ := kfree policy in
                  nomem_out r in
                let* _ := store policy (set_p_cpus (cpumask_of cpu)
                                          {| p_cpus := 0%N; p_related_cpus := 0%N; p_cpu := cpu;
                                             p_cpuinfo := p_cpuinfo zero_policy;
                                             p_min := 0; p_max := 0; p_cur := 0; p_policy := 0;
                                             p_governor := None;
                                             p_user_policy := p_user_policy zero_policy;
                                             p_kobj := 0; p_kobj_unregister := false |}) in
                (* Initially set CPU itself as the policy_cpu *)
                let* _ := set_per_cpu_policy_cpu cpu (Z.of_nat cpu) in
                let* _ := lock_policy_rwsem cpu in
                (* Set governor before ->init, so that driver could check it *)
                let* found := if CONFIG_HOTPLUG_CPU then gets (sibling_governor cpu)
                              else ret None in
                let gov := match found with
                           | Some g => g
                           | None => CPUFREQ_DEFAULT_GOVERNOR
                           end in
                let* pv := load policy in
                let pv := set_p_governor (Some gov) pv in
                (* call driver *)
                let* _ := record (call_init pv) in
                let '(r, pv) := d_init d pv in
                let* _ := store policy pv in
                if negb (r =? 0) then err_unlock_policy r
                else
                  let pv := set_p_user_policy
                              (set_u_max (p_max pv) (set_u_min (p_min pv) (p_user_policy pv))) pv in
                  let* pv := blocking_notifier_call_chain CPUFREQ_START pv in
                  let* _ := store policy pv in
                  let* r := cpufreq_add_dev_policy cpu policy in
                  if negb (r =? 0) then
                    (* a managed cpu, symlink created: exit with 0 *)
                    err_unlock_policy (if 0 <? r then 0 else r)
                  else
                    let* r := cpufreq_add_dev_interface cpu policy in
                    if negb (r =? 0) then
                      (* err_out_unregister *)
                      let* pv := load policy in
                      let* _ := for_each (for_each_cpu nr_cpu_ids (p_cpus pv))
                                  (fun j => set_per_cpu_data j None) in
                      let* _ := kobject_put policy in
                      let* _ := wait_for_completion policy in
                      err_unlock_policy r
                    else
                      let* _ := unlock_policy_rwsem cpu in
                      let* _ := module_put (d_owner d) in
                      ret 0
        end
    end.

End Core.

(** ** Vocabulary of the statements *)

(** The reference count of the kobject embedded in policy [p]. *)
Definition kref (p : policy_ptr) (s : kstate) : Z :=
  match policies s !! p with Some v => p_kobj v | None => 0 end.

(** The reference count of the module [owner] points to. *)
Definition module_refs (owner : option module_id) (s : kstate) : Z :=
  match owner with
  | Some m => match modules s !! m with Some md => m_refcnt md | None => 0 end
  | None => 0
  end.

(** [try_module_get owner] succeeds: the code is built in, or its module is
    loaded and live. *)
Definition module_pinnable (owner : option module_id) (s : kstate) : Prop :=
  match owner with
  | Some m => exists md, modules s !! m = Some md /\ m_live md = true
  | None => True
  end.

(** The governor callbacks among a list of calls. *)
Definition governor_calls (t : list kcall) : list (gov_ptr * gov_event) :=
  omap (fun c => match c with call_governor g ev => Some (g, ev) | _ => None end) t.

(** The window [__cpufreq_set_policy] derives from the proposed bounds, the
    user limits and the QoS requests, as the claim writes it. *)
Definition window_min (pmin umax qos_min : Z) : Z := Z.max pmin (Z.min qos_min umax).
Definition window_max (pmax umin qos_max : Z) : Z := Z.min pmax (Z.max qos_max umin).

Section Vocabulary.

Context {K : kernel_env}.

(** Governor [g] accepts hardware with this transition latency: it declares
    no bound, or the latency is within its bound. *)
Definition tolerates (g : gov_ptr) (latency : Z) : Prop :=
  max_transition_latency (governor_at g) = 0 \/
  latency <= max_transition_latency (governor_at g).

(** The callback of governor [g] leaves the governor pointer and the
    hardware description of the policy alone. *)
Definition keeps_governor (g : gov_ptr) : Prop :=
  forall p ev,
    p_governor (snd (g_governor (governor_at g) p ev)) = p_governor p /\
    p_cpuinfo (snd (g_governor (governor_at g) p ev)) = p_cpuinfo p.

(** No governor callback moves the limits of the policy it is given. *)
Definition governors_keep_limits : Prop :=
  forall g p ev,
    p_min (snd (g_governor (governor_at g) p ev)) = p_min p /\
    p_max (snd (g_governor (governor_at g) p ev)) = p_max p.

(** Every policy in the table is allocated and referenced. *)
Definition table_wf (s : kstate) : Prop :=
  forall cpu p, cpufreq_cpu_data s !! cpu = Some p ->
    exists v, policies s !! p = Some v /\ p_kobj v <> 0.

(** No governor answers to [name]: what makes cpufreq_parse_governor fail
    for a driver of either kind. *)
Definition unknown_governor (name : string) (s : kstate) : Prop :=
  match cpufreq_driver s with
  | None => True
  | Some d =>
      match d_setpolicy d, d_target d with
      | Some _, _ =>
          strnicmp name "performance" CPUFREQ_NAME_LEN <> 0 /\
          strnicmp name "powersave" CPUFREQ_NAME_LEN <> 0
      | None, Some _ =>
          (forall t, t ∈ cpufreq_governor_list s ->
                     strnicmp name (g_name (governor_at t)) CPUFREQ_NAME_LEN <> 0) /\
          snd (request_module ("cpufreq_" ++ name)) = []
      | None, None => True
      end
  end.

End Vocabulary.

(** ** A concrete machine for the scenarios

    Four cpus, of which 0 and 1 are online and share one policy; a driver of
    the target kind with hardware bounds 200000..2000000 kHz and a transition
    latency of 10 us; the governors performance, strict (tolerates 1 us),
    broken (refuses to start) and ondemand (in a loadable module). *)

(** Modelled from the spec: lib/ctype.c and lib/vsprintf.c are not among the
    sources; "integer fields accept decimal kHz; names are at most 15
    non-whitespace characters". *)
Definition isspace (c : ascii) : bool :=
  let n := nat_of_ascii c in ((9 <=? n) && (n <=? 13) || (n =? 32))%nat.

Definition isdigit (c : ascii) : bool :=
  let n := nat_of_ascii c in ((48 <=? n) && (n <=? 57))%nat.

Fixpoint skip_spaces (s : string) : string :=
  match s with
  | String c s' => if isspace c then skip_spaces s' else s
  | EmptyString => EmptyString
  end.

Fixpoint take_word (n : nat) (s : string) : string :=
  match n, s with
  | S n', String c s' => if isspace c then EmptyString else String c (take_word n' s')
  | _, _ => EmptyString
  end.

(** Modelled from the spec: the "%15s" conversion, which yields a name of at
    most 15 non-whitespace characters. *)
Definition scan_word (buf : string) : option string :=
  match take_word 15 (skip_spaces buf) with
  | EmptyString => None
  | w => Some w
  end.

Fixpoint scan_digits (acc : Z) (s : string) : Z :=
  match s with
  | String c s' =>
      if isdigit c then scan_digits (acc * 10 + (Z.of_nat (nat_of_ascii c) - 48)) s' else acc
  | EmptyString => acc
  end.

(** Modelled from the spec: the "%u" conversion, a decimal number stored in
    an [unsigned int]. *)
Definition scan_uint (buf : string) : option Z :=
  match skip_spaces buf with
  | String c _ as s => if isdigit c then Some (to_uint (scan_digits 0 s)) else None
  | EmptyString => None
  end.

Definition tolower (c : ascii) : Z :=
  let n := Z.of_nat (nat_of_ascii c) in
  if (65 <=? n) && (n <=? 90) then n + 32 else n.

(** Modelled from the spec: lib/string.c is not among the sources; governor
    names are compared without regard to case over at most [len] characters. *)
Fixpoint strnicmp_model (s1 s2 : string) (len : nat) : Z :=
  match len with
  | O => 0
  | S len' =>
      match s1, s2 with
      | String c1 s1', String c2 s2' =>
          if tolower c1 =? tolower c2 then strnicmp_model s1' s2' len'
          else tolower c1 - tolower c2
      | String c1 _, EmptyString => Z.of_nat (nat_of_ascii c1)
      | EmptyString, String c2 _ => - Z.of_nat (nat_of_ascii c2)
      | EmptyString, EmptyString => 0
      end
  end.

Definition ex_governor (name : string) (owner : option module_id) (latency : Z)
    (start : Z) : cpufreq_governor := {|
  g_name := name;
  g_owner := owner;
  max_transition_latency := latency;
  g_governor := fun p ev =>
    (match ev with CPUFREQ_GOV_START => start | _ => 0 end, p);
  g_store_setspeed := None |}.

Definition gov_performance : gov_ptr := 0%nat.
Definition gov_strict : gov_ptr := 1%nat.
Definition gov_broken : gov_ptr := 2%nat.
Definition gov_ondemand : gov_ptr := 3%nat.

Definition ex_governor_at (g : gov_ptr) : cpufreq_governor :=
  match g with
  | 0%nat => ex_governor "performance" None 0 0
  | 1%nat => ex_governor "strict" None 1000 0
  | 2%nat => ex_governor "broken" None 0 (- EINVAL)
  | _ => ex_governor "ondemand" (Some 7%nat) 10000000 0
  end.

Definition ex_env : kernel_env := {|
  nr_cpu_ids := 4;
  CONFIG_SMP := true;
  CONFIG_HOTPLUG_CPU := true;
  cpufreq_gov_performance := Some gov_performance;
  CPUFREQ_DEFAULT_GOVERNOR := gov_performance;
  governor_at := ex_governor_at;
  request_module := fun _ => (-2, []);
  sscanf_u := scan_uint;
  sscanf_s := scan_word;
  strnicmp := strnicmp_model;
  kzalloc := fun _ => true;
  kobject_init_and_add := fun _ _ => 0;
  sysfs_create_file := fun _ _ _ => 0;
  sysfs_create_link := fun _ _ => 0 |}.

(** The same machine built without the performance governor. *)
Definition ex_env_no_fallback : kernel_env := {|
  nr_cpu_ids := 4;
  CONFIG_SMP := true;
  CONFIG_HOTPLUG_CPU := true;
  cpufreq_gov_performance := None;
  CPUFREQ_DEFAULT_GOVERNOR := gov_strict;
  governor_at := ex_governor_at;
  request_module := fun _ => (-2, []);
  sscanf_u := scan_uint;
  sscanf_s := scan_word;
  strnicmp := strnicmp_model;
  kzalloc := fun _ => true;
  kobject_init_and_add := fun _ _ => 0;
  sysfs_create_file := fun _ _ _ => 0;
  sysfs_create_link := fun _ _ => 0 |}.

Definition ex_cpuinfo : cpufreq_cpuinfo :=
  {| max_freq := 2000000; min_freq := 200000; transition_latency := 10000 |}.

(** The driver's verify clamps the window to the hardware bounds, as
    cpufreq_verify_within_limits does. *)
Definition ex_verify (p : cpufreq_policy) : Z * cpufreq_policy :=
  let lo := min_freq (p_cpuinfo p) in
  let hi := max_freq (p_cpuinfo p) in
  let clamp v := Z.min hi (Z.max lo v) in
  let pmax := clamp (p_max p) in
  let pmin := Z.min (clamp (p_min p)) pmax in
  (0, set_p_max pmax (set_p_min pmin p)).

Definition ex_init (p : cpufreq_policy) : Z * cpufreq_policy :=
  (0, set_p_cpus 3%N
        (set_p_cur 1000000
           (set_p_max 2000000 (set_p_min 200000 (set_p_cpuinfo ex_cpuinfo p))))).

Definition ex_driver (get : nat -> Z) : cpufreq_driver_t := {|
  d_name := "tegra";
  d_owner := Some 1%nat;
  d_flags := 0;
  d_init := ex_init;
  d_verify := ex_verify;
  d_setpolicy := None;
  d_target := Some (fun p _ _ => (0, p));
  d_get := Some get;
  d_exit := None;
  d_bios_limit := None;
  d_attr := [] |}.

(** A driver of the set_policy kind, whose verify accepts every window as
    it is; cpufreq_register_driver has set its const_loops flag. *)
Definition ex_driver_setpolicy : cpufreq_driver_t := {|
  d_name := "longrun";
  d_owner := Some 1%nat;
  d_flags := CPUFREQ_CONST_LOOPS;
  d_init := ex_init;
  d_verify := fun p => (0, p);
  d_setpolicy := Some (fun p => (0, p));
  d_target := None;
  d_get := None;
  d_exit := None;
  d_bios_limit := None;
  d_attr := [] |}.

Definition ex_policy : cpufreq_policy := {|
  p_cpus := 3%N; p_related_cpus := 3%N; p_cpu := 0%nat;
  p_cpuinfo := ex_cpuinfo;
  p_min := 200000; p_max := 2000000; p_cur := 1000000; p_policy := 0;
  p_governor := Some gov_performance;
  p_user_policy := {| u_min := 200000; u_max := 2000000; u_policy := 0;
                      u_governor := Some gov_performance |};
  p_kobj := 3; p_kobj_unregister := false |}.

(** The user has asked for at least 800000 kHz (scenario B). *)
Definition ex_policy_user_800 : cpufreq_policy :=
  set_p_user_policy (set_u_min 800000 (p_user_policy ex_policy)) (set_p_min 800000 ex_policy).

(** The claims about POSTCHANGE and about out-of-sync detection, as the
    specification words them. *)
Section ClaimsAsWorded.

Context {K : kernel_env}.

(** "the Policy attached to that cpu has cur equal to new if and only if
    such a Policy exists and its owner cpu equals the event's cpu" *)
Definition postchange_cur_iff_owner (freqs : cpufreq_freqs) (s s' : kstate) : Prop :=
  (exists p v, cpufreq_cpu_data s' !! f_cpu freqs = Some p /\
               policies s' !! p = Some v /\ p_cur v = f_new freqs)
  <->
  (exists p v, cpufreq_cpu_data s !! f_cpu freqs = Some p /\
               policies s !! p = Some v /\ p_cpu v = f_cpu freqs).

(** "when the result differs from cur while const_loops is clear, the core
    enqueues the update work and synthesizes one PreChange followed by one
    PostChange carrying old = cur and new = the observed frequency" *)
Definition out_of_sync_always_repaired (cpu : nat) (s : kstate) : Prop :=
  forall d get p v,
    cpufreq_driver s = Some d -> d_get d = Some get ->
    cpufreq_cpu_data s !! cpu = Some p -> policies s !! p = Some v ->
    get cpu <> p_cur v -> Z.land (d_flags d) CPUFREQ_CONST_LOOPS = 0 ->
    exists r s' f,
      __cpufreq_get cpu s = Some (r, s') /\
      p ∈ system_wq s' /\
      f_old f = p_cur v /\ f_new f = get cpu /\
      trace s' = trace s ++ [call_get cpu;
                             call_transition_notifier CPUFREQ_PRECHANGE f;
                             call_transition_notifier CPUFREQ_POSTCHANGE f].

(** "the error is propagated to the caller as the return value and no policy
    state changes": the write returned [r] and took the state from [s] to
    [s']. *)
Definition write_rejected_without_effect (r : Z) (s s' : kstate) : Prop :=
  r < 0 /\ policies s' = policies s.

(** "the engine stops the old governor, installs the new governor reference,
    and starts the new one; if starting the new governor fails, it reinstalls
    and restarts the old governor and returns the InvalidGovernor
    (InvalidArgument) error to the caller": the run on a proposed governor
    [new] calls the START of [new], and ends either with 0 and [new]
    installed, or with -EINVAL and the governor the live policy had. *)
Definition switch_starts_new_or_restores_old
    (data policy : cpufreq_policy) (new : gov_ptr) (s : kstate) : Prop :=
  exists r data' policy' s' calls,
    __cpufreq_set_policy data policy s = Some (r, data', policy', s') /\
    trace s' = trace s ++ calls /\
    (new, CPUFREQ_GOV_START) ∈ governor_calls calls /\
    ((r = 0 /\ p_governor data' = Some new) \/
     (r = - EINVAL /\ p_governor data' = p_governor data)).

End ClaimsAsWorded.

Definition ex_modules : gmap module_id module_t :=
  {[ 1%nat := {| m_live := true; m_refcnt := 1 |};
     7%nat := {| m_live := true; m_refcnt := 0 |} ]}.

(** The driver is registered and no cpu is attached yet. *)
Definition ex_boot : kstate := {|
  cpufreq_driver := Some (ex_driver (fun _ => 1000000));
  cpufreq_cpu_data := ∅;
  cpufreq_policy_cpu := {[ 0%nat := -1; 1%nat := -1; 2%nat := -1; 3%nat := -1 ]};
  cpufreq_governor_list := [gov_broken; gov_strict; gov_performance];
  cpufreq_policy_notifier_list := [];
  policies := ∅;
  modules := ex_modules;
  cpu_online_mask := 3%N;
  cpu_present_mask := 15%N;
  pm_qos_cpu_freq_min := 0;
  pm_qos_cpu_freq_max := 2147483647;
  system_wq := [];
  trace := [] |}.

(** Cpus 0 and 1 share policy 10, owned by cpu 0. *)
Definition ex_state (drv : cpufreq_driver_t) (pol : cpufreq_policy) (qos_min : Z)
  : kstate := {|
  cpufreq_driver := Some drv;
  cpufreq_cpu_data := {[ 0%nat := 10%nat; 1%nat := 10%nat ]};
  cpufreq_policy_cpu := {[ 0%nat := 0; 1%nat := 0; 2%nat := -1; 3%nat := -1 ]};
  cpufreq_governor_list := [gov_broken; gov_strict; gov_performance];
  cpufreq_policy_notifier_list := [];
  policies := {[ 10%nat := pol ]};
  modules := ex_modules;
  cpu_online_mask := 3%N;
  cpu_present_mask := 15%N;
  pm_qos_cpu_freq_min := qos_min;
  pm_qos_cpu_freq_max := 2147483647;
  system_wq := [];
  trace := [] |}.

(** * The rest of the interface: attribute reads, the sysfs entry points,
      frequency queries, suspend and resume, governor selection by name,
      and detachment. *)

(** ** More of what lives outside this file

    Library calls and the members of [struct cpufreq_driver] and
    [struct cpufreq_governor] that the records above do not carry, each as a
    function of the object it belongs to. *)
Class kernel_lib := {
  PAGE_SIZE : Z;
  (** the text the conversion "%u" produces *)
  fmt_u : Z -> string;
  (** [scnprintf(buf, size, ...)]: the part of the formatted text it stores;
      its length is the return value *)
  scnprintf : Z -> string -> string;
  strncmp : string -> string -> nat -> Z;
  strcmp : string -> string -> Z;
  (** [strncpy(dst, src, n)]: what [dst] holds afterwards *)
  strncpy : string -> nat -> string;
  (** the cpu the caller runs on *)
  smp_processor_id : kstate -> nat;
  d_suspend : cpufreq_driver_t -> option (cpufreq_policy -> Z * cpufreq_policy);
  d_resume : cpufreq_driver_t -> option (cpufreq_policy -> Z * cpufreq_policy);
  g_show_setspeed : cpufreq_governor -> option (cpufreq_policy -> Z * string)
}.

(** The line feed that ends every attribute text. *)
Definition newline : string := String "010" EmptyString.

Section Interface.

Context {K : kernel_env} {L : kernel_lib}.

(** [sprintf(buf, ...)] with the formatted text: the return value and the
    text left in the buffer. *)
Definition sprintf (text : string) : Z * string :=
  (Z.of_nat (String.length text), text).

Definition scnprintf_to (size : Z) (text : string) : Z * string :=
  let stored := scnprintf size text in (Z.of_nat (String.length stored), stored).

(** ** Attribute reads (lines 461-475, 510-533, 588-692) *)

(** The [show_one] macro with its [object]. *)
Definition show_one (object : cpufreq_policy -> Z) (policy : cpufreq_policy) : Z * string :=
  sprintf (fmt_u (object policy) ++ newline).

Definition show_cpuinfo_min_freq := show_one (fun p => min_freq (p_cpuinfo p)).
Definition show_cpuinfo_max_freq := show_one (fun p => max_freq (p_cpuinfo p)).
Definition show_cpuinfo_transition_latency :=
  show_one (fun p => transition_latency (p_cpuinfo p)).
Definition show_scaling_min_freq := show_one p_min.
Definition show_scaling_max_freq := show_one p_max.
Definition show_scaling_cur_freq := show_one p_cur.
Definition show_policy_min_freq := show_one (fun p => u_min (p_user_policy p)).
Definition show_policy_max_freq := show_one (fun p => u_max (p_user_policy p)).

Definition show_cpuinfo_cur_freq (policy : policy_ptr) : M (Z * string) :=
  let* pv := load policy in
  let* cur_freq := __cpufreq_get (p_cpu pv) in
  if cur_freq =? 0 then ret (sprintf "<unknown>")
  else ret (sprintf (fmt_u cur_freq ++ newline)).

Definition show_scaling_governor (policy : cpufreq_policy) : Z * string :=
  if p_policy policy =? CPUFREQ_POLICY_POWERSAVE then sprintf ("powersave" ++ newline)
  else if p_policy policy =? CPUFREQ_POLICY_PERFORMANCE then sprintf ("performance" ++ newline)
  else
    match p_governor policy with
    | Some g => scnprintf_to (Z.of_nat CPUFREQ_NAME_LEN) (g_name (governor_at g) ++ newline)
    | None => (- EINVAL, EmptyString)
    end.

Definition show_scaling_driver : M (Z * string) :=
  let* drv := gets cpufreq_driver in
  match drv with
  | None => oops
  | Some d => ret (scnprintf_to (Z.of_nat CPUFREQ_NAME_LEN) (d_name d ++ newline))
  end.

(** The loop of show_scaling_available_governors over the registered
    governors; [buf] is what has been written so far and [i] its length. *)
Fixpoint available_governors_loop (ts : list gov_ptr) (i : Z) (buf : string) : Z * string :=
  match ts with
  | [] => (i, buf)
  | t :: ts' =>
      if PAGE_SIZE - (Z.of_nat CPUFREQ_NAME_LEN + 2) <=? i then (i, buf)
      else
        let '(n, stored) :=
          scnprintf_to (Z.of_nat CPUFREQ_NAME_LEN) (g_name (governor_at t) ++ " ") in
        available_governors_loop ts' (i + n) (buf ++ stored)%string
  end.

Definition show_scaling_available_governors : M (Z * string) :=
  let* drv := gets cpufreq_driver in
  match drv with
  | None => oops
  | Some d =>
      let* (i, buf) :=
        match d_target d with
        | None => ret (sprintf "performance powersave")
        | Some _ =>
            let* ts := gets cpufreq_governor_list in
            ret (available_governors_loop ts 0 EmptyString)
        end in
      let '(n, nl) := sprintf newline in
      ret (i + n, (buf ++ nl)%string)
  end.

(** show_cpus (lines 618-632): the loop over the cpus of the mask, left when
    the buffer is nearly full. *)
Fixpoint show_cpus_loop (cpus : list nat) (i : Z) (buf : string) : Z * string :=
  match cpus with
  | [] => (i, buf)
  | cpu :: cpus' =>
      let '(i, buf) :=
        if negb (i =? 0) then
          let '(n, stored) := scnprintf_to (PAGE_SIZE - i - 2) " " in
          (i + n, (buf ++ stored)%string)
        else (i, buf) in
      let '(n, stored) := scnprintf_to (PAGE_SIZE - i - 2) (fmt_u (Z.of_nat cpu)) in
      let i := i + n in
      let buf := (buf ++ stored)%string in
      if PAGE_SIZE - 5 <=? i then (i, buf) else show_cpus_loop cpus' i buf
  end.

Definition show_cpus (mask : cpumask) : Z * string :=
  let '(i, buf) := show_cpus_loop (for_each_cpu nr_cpu_ids mask) 0 EmptyString in
  let '(n, nl) := sprintf newline in
  (i + n, (buf ++ nl)%string).

Definition cpumask_empty (mask : cpumask) : bool :=
  match for_each_cpu nr_cpu_ids mask with [] => true | _ => false end.

Definition show_related_cpus (policy : cpufreq_policy) : Z * string :=
  if cpumask_empty (p_related_cpus policy) then show_cpus (p_cpus policy)
  else show_cpus (p_related_cpus policy).

Definition show_affected_cpus (policy : cpufreq_policy) : Z * string :=
  show_cpus (p_cpus policy).

(** store_scaling_setspeed (lines 653-669) *)
Definition store_scaling_setspeed (policy : policy_ptr) (buf : string) (count : Z) : M Z :=
  let* pv := load policy in
  match p_governor pv with
  | None => ret (- EINVAL)
  | Some g =>
      match g_store_setspeed (governor_at g) with
      | None => ret (- EINVAL)
      | Some store_setspeed =>
          match sscanf_u buf with
          | None => ret (- EINVAL)
          | Some freq =>
              let* _ := store policy (store_setspeed pv freq) in
              ret (to_ssize count)
          end
      end
  end.

Definition show_scaling_setspeed (policy : cpufreq_policy) : Z * string :=
  match p_governor policy with
  | None => sprintf ("<unsupported>" ++ newline)
  | Some g =>
      match g_show_setspeed (governor_at g) with
      | None => sprintf ("<unsupported>" ++ newline)
      | Some show_setspeed => show_setspeed policy
      end
  end.

Definition show_bios_limit (policy : cpufreq_policy) : M (Z * string) :=
  let* drv := gets cpufreq_driver in
  match drv with
  | None => oops
  | Some d =>
      let by_default := sprintf (fmt_u (max_freq (p_cpuinfo policy)) ++ newline) in
      match d_bios_limit d with
      | Some bios_limit =>
          let '(r, limit) := bios_limit (p_cpu policy) in
          if r =? 0 then ret (sprintf (fmt_u limit ++ newline)) else ret by_default
      | None => ret by_default
      end
  end.

(** ** The sysfs entry points show and store (lines 1028-1075)

    [kobj] is the policy the attribute file belongs to; the methods of the
    attribute stand for [fattr->show] and [fattr->store]. *)
Record freq_attr := {
  fa_show : option (policy_ptr -> M (Z * string));
  fa_store : option (policy_ptr -> string -> Z -> M Z)
}.

Definition sysfs_show (kobj : policy_ptr) (fattr : freq_attr) : M (Z * string) :=
  let* kv := load kobj in
  let* got := cpufreq_cpu_get (p_cpu kv) in
  match got with
  | None => ret (- EINVAL, EmptyString)
  | Some policy =>
      let* pv := load policy in
      let* locked := lock_policy_rwsem (p_cpu pv) in
      let* r :=
        if locked <? 0 then ret (- EINVAL, EmptyString)
        else
          let* r := match fa_show fattr with
                    | Some f => f policy
                    | None => ret (- EIO, EmptyString)
                    end in
          let* pv := load policy in
          let* _ := unlock_policy_rwsem (p_cpu pv) in
          ret r in
      let* _ := cpufreq_cpu_put policy in
      ret r
  end.

Definition sysfs_store (kobj : policy_ptr) (fattr : freq_attr) (buf : string) (count : Z)
  : M Z :=
  let* kv := load kobj in
  let* got := cpufreq_cpu_get (p_cpu kv) in
  match got with
  | None => ret (- EINVAL)
  | Some policy =>
      let* pv := load policy in
      let* locked := lock_policy_rwsem (p_cpu pv) in
      let* r :=
        if locked <? 0 then ret (- EINVAL)
        else
          let* r := match fa_store fattr with
                    | Some f => f policy buf count
                    | None => ret (- EIO)
                    end in
          let* pv := load policy in
          let* _ := unlock_policy_rwsem (p_cpu pv) in
          ret r in
      let* _ := cpufreq_cpu_put policy in
      ret r
  end.

(** The attribute files scaling_min_freq, scaling_max_freq and
    scaling_governor (lines 980-982). *)
Definition pure_show (f : cpufreq_policy -> Z * string) (policy : policy_ptr)
  : M (Z * string) :=
  let* pv := load policy in ret (f pv).

Definition scaling_min_freq : freq_attr :=
  {| fa_show := Some (pure_show show_scaling_min_freq);
     fa_store := Some store_scaling_min_freq |}.
Definition scaling_max_freq : freq_attr :=
  {| fa_show := Some (pure_show show_scaling_max_freq);
     fa_store := Some store_scaling_max_freq |}.
Definition scaling_governor : freq_attr :=
  {| fa_show := Some (pure_show show_scaling_governor);
     fa_store := Some store_scaling_governor |}.
Definition policy_min_freq : freq_attr :=
  {| fa_show := Some (pure_show show_policy_min_freq); fa_store := None |}.
Definition policy_max_freq : freq_attr :=
  {| fa_show := Some (pure_show show_policy_max_freq); fa_store := None |}.

(** ** Frequency queries (lines 1627-1659) *)

Definition cpufreq_quick_get (cpu : nat) : M Z :=
  let* policy := cpufreq_cpu_get cpu in
  match policy with
  | Some p =>
      let* v := load p in
      let* _ := cpufreq_cpu_put p in
      ret (p_cur v)
  | None => ret 0
  end.

Definition cpufreq_quick_get_max (cpu : nat) : M Z :=
  let* policy := cpufreq_cpu_get cpu in
  match policy with
  | Some p =>
      let* v := load p in
      let* _ := cpufreq_cpu_put p in
      ret (p_max v)
  | None => ret 0
  end.

(** ** Suspend and resume of the boot cpu (lines 1725-1790) *)

Definition cpufreq_bp_suspend : M Z :=
  let* cpu := gets smp_processor_id in
  let* cpu_policy := cpufreq_cpu_get cpu in
  match cpu_policy with
  | None => ret 0
  | Some p =>
      let* drv := gets cpufreq_driver in
      match drv with
      | None => oops
      | Some d =>
          let* r :=
            match d_suspend d with
            | Some suspend =>
                let* v := load p in
                let '(r, v) := suspend v in
                let* _ := store p v in
                ret r
            | None => ret 0
            end in
          let* _ := cpufreq_cpu_put p in
          ret r
      end
  end.

Definition cpufreq_bp_resume : M unit :=
  let* cpu := gets smp_processor_id in
  let* cpu_policy := cpufreq_cpu_get cpu in
  match cpu_policy with
  | None => ret tt
  | Some p =>
      let* drv := gets cpufreq_driver in
      match drv with
      | None => oops
      | Some d =>
          let* r :=
            match d_resume d with
            | Some resume =>
                let* v := load p in
                let '(r, v) := resume v in
                let* _ := store p v in
                ret r
            | None => ret 0
            end in
          let* _ := if r =? 0 then schedule_work p else ret tt in
          cpufreq_cpu_put p
      end
  end.

(** ** Governor selection by name (lines 2230-2332) *)

(** cpufreq_set_gov; [None] is a NULL [target_gov]. *)
Definition cpufreq_set_gov (target_gov : option string) (cpu : nat) : M Z :=
  match target_gov with
  | None => ret (- EINVAL)
  | Some target_gov =>
      (* Get current governor *)
      let* got := cpufreq_cpu_get cpu in
      match got with
      | None => ret (- EINVAL)
      | Some cur_policy =>
          let* cv := load cur_policy in
          let* locked := lock_policy_rwsem (p_cpu cv) in
          let* r :=
            if locked <? 0 then ret (- EINVAL)
            else
              match p_governor cv with
              | None =>
                  let* _ := unlock_policy_rwsem (p_cpu cv) in
                  ret (- EINVAL)
              | Some g =>
                  let same := strncmp (g_name (governor_at g)) target_gov
                                (String.length target_gov) in
                  let* _ := unlock_policy_rwsem (p_cpu cv) in
                  if same =? 0 then ret (- EINVAL)
                  else
                    let* new_policy := load cur_policy in
                    let* (err, new_policy) := cpufreq_parse_governor target_gov new_policy in
                    if negb (err =? 0) then ret (- EINVAL)
                    else
                      let* cv := load cur_policy in
                      let* locked := lock_policy_rwsem (p_cpu cv) in
                      if locked <? 0 then ret (- EINVAL)
                      else
                        let* (r, cv, _) := __cpufreq_set_policy cv new_policy in
                        let* _ := store cur_policy
                                    (set_p_user_policy
                                       (set_u_policy_governor (p_policy cv) (p_governor cv)
                                          (p_user_policy cv)) cv) in
                        let* _ := unlock_policy_rwsem (p_cpu cv) in
                        ret r
              end in
          let* _ := cpufreq_cpu_put cur_policy in
          ret r
      end
  end.

Definition cpufreq_current_gov (cpu : nat) : M (Z * string) :=
  if (nr_cpu_ids <=? cpu)%nat then ret (- EINVAL, EmptyString)
  else
    (* Get current governor *)
    let* got := cpufreq_cpu_get cpu in
    match got with
    | None => ret (- EINVAL, EmptyString)
    | Some policy =>
        let* pv := load policy in
        let* locked := lock_policy_rwsem (p_cpu pv) in
        let* r :=
          if locked <? 0 then ret (- EINVAL, EmptyString)
          else
            let r :=
              if p_policy pv =? CPUFREQ_POLICY_POWERSAVE then sprintf ("powersave" ++ newline)
              else if p_policy pv =? CPUFREQ_POLICY_PERFORMANCE then sprintf ("performance" ++ newline)
              else
                match p_governor pv with
                | Some g => scnprintf_to (Z.of_nat CPUFREQ_NAME_LEN) (g_name (governor_at g))
                | None => (- EINVAL, EmptyString)
                end in
            let* _ := unlock_policy_rwsem (p_cpu pv) in
            ret r in
        let* _ := cpufreq_cpu_put policy in
        ret r
    end.

(** ** Detachment: __cpufreq_remove_dev and cpufreq_remove_dev
      (lines 1436-1583)

    The per-cpu name buffers [cpufreq_cpu_governor] (line 64) are passed in
    and handed back; a cpu without an entry has the zeroed buffer of a static
    per-cpu variable.  In this file the saved names are written here and read
    by cpufreq_unregister_governor only. *)
Definition saved_governor (saved : gmap nat string) (cpu : nat) : string :=
  default EmptyString (saved !! cpu).

Definition cpumask_weight (m : cpumask) : Z :=
  Z.of_nat (length (for_each_cpu nr_cpu_ids m)).

Definition cpumask_first (m : cpumask) : nat :=
  match for_each_cpu nr_cpu_ids m with c :: _ => c | [] => nr_cpu_ids end.

(** The name of the governor of [data], as [data->governor->name] reads it. *)
Definition governor_name (data : policy_ptr) : M string :=
  let* dv := load data in
  match p_governor dv with
  | None => oops
  | Some g => ret (g_name (governor_at g))
  end.

(** The second loop over the siblings (lines 1503-1517). *)
Fixpoint remove_dev_unlink (cpu : nat) (data : policy_ptr) (js : list nat)
    (saved : gmap nat string) : M (gmap nat string) :=
  match js with
  | [] => ret saved
  | j :: js' =>
      if (j =? cpu)%nat then remove_dev_unlink cpu data js' saved
      else
        let* saved :=
          if CONFIG_HOTPLUG_CPU then
            let* name := governor_name data in
            ret (<[j := strncpy name CPUFREQ_NAME_LEN]> saved)
          else ret saved in
        let* _ := unlock_policy_rwsem cpu in
        let* _ := record (call_sysfs j) in
        let* _ := lock_policy_rwsem cpu in
        let* _ := cpufreq_cpu_put data in
        remove_dev_unlink cpu data js' saved
  end.

(** __cpufreq_remove_dev calls itself once the first sibling has taken the
    policy over (line 1558); [fuel] bounds the depth of that recursion. *)
Fixpoint __cpufreq_remove_dev (fuel : nat) (cpu : nat) (saved : gmap nat string)
  : M (Z * gmap nat string) :=
  match fuel with
  | O => oops
  | S fuel' =>
      let* data := gets (fun s => cpufreq_cpu_data s !! cpu) in
      match data with
      | None =>
          let* _ := unlock_policy_rwsem cpu in
          ret (- EINVAL, saved)
      | Some data =>
          let* _ := set_per_cpu_data cpu None in
          let* dv := load data in
          (* if this isn't the CPU which is the parent of the kobj, we only
             need to unlink, put and exit *)
          if CONFIG_SMP && negb (cpu =? p_cpu dv)%nat then
            let* _ := store data (set_p_cpus (cpumask_clear_cpu cpu (p_cpus dv)) dv) in
            let* _ := cpufreq_cpu_put data in
            let* _ := unlock_policy_rwsem cpu in
            let* _ := record (call_sysfs cpu) in
            ret (0, saved)
          else
            let* saved :=
              if CONFIG_SMP then
                let* saved :=
                  if CONFIG_HOTPLUG_CPU then
                    let* name := governor_name data in
                    ret (<[cpu := strncpy name CPUFREQ_NAME_LEN]> saved)
                  else ret saved in
                (* if we have other CPUs still registered, we need to unlink
                   them, or else wait_for_completion below will lock up *)
                let* _ :=
                  if 1 <? cpumask_weight (p_cpus dv) then
                    for_each (for_each_cpu nr_cpu_ids (p_cpus dv)) (fun j =>
                      if (j =? cpu)%nat then ret tt else set_per_cpu_data j None)
                  else ret tt in
                if 1 <? cpumask_weight (p_cpus dv) then
                  remove_dev_unlink cpu data (for_each_cpu nr_cpu_ids (p_cpus dv)) saved
                else ret saved
              else ret saved in
            let* drv := gets cpufreq_driver in
            match drv with
            | None => oops
            | Some d =>
                let* _ :=
                  match d_target d with
                  | Some _ =>
                      let* dv := load data in
                      let* (_, dv) := __cpufreq_governor dv CPUFREQ_GOV_STOP in
                      store data dv
                  | None => ret tt
                  end in
                let* _ := unlock_policy_rwsem cpu in
                let* _ := kobject_put data in
                (* we need to make sure that the underlying kobj is actually
                   not referenced anymore by anybody before we proceed with
                   unloading *)
                let* _ := wait_for_completion data in
                let* _ := lock_policy_rwsem cpu in
                let* _ := driver_exit data in
                let* _ := unlock_policy_rwsem cpu in
                let* saved :=
                  if CONFIG_HOTPLUG_CPU then
                    (* when the CPU which is the parent of the kobj is
                       hotplugged offline, check for siblings, and create
                       cpufreq sysfs interface and symlinks *)
                    let* dv := load data in
                    if 1 <? cpumask_weight (p_cpus dv) then
                      (* first sibling now owns the new sysfs dir *)
                      let cpus := cpumask_clear_cpu cpu (p_cpus dv) in
                      let* _ := store data (set_p_cpus cpus dv) in
                      let* _ := cpufreq_add_dev (cpumask_first cpus) in
                      (* finally remove our own symlink *)
                      let* _ := lock_policy_rwsem cpu in
                      let* (_, saved) := __cpufreq_remove_dev fuel' cpu saved in
                      ret saved
                    else ret saved
                  else ret saved in
                let* _ := kfree data in
                ret (0, saved)
            end
      end
  end.

Definition cpufreq_remove_dev (fuel : nat) (cpu : nat) (saved : gmap nat string)
  : M (Z * gmap nat string) :=
  let* on := cpu_online cpu in
  if negb on then ret (0, saved)
  else
    let* locked := lock_policy_rwsem cpu in
    if negb (locked =? 0) then oops
    else __cpufreq_remove_dev fuel cpu saved.

(** ** cpufreq_unregister_governor (lines 2008-2030)

    [list_del] of a governor that is not on the list follows the NULL or
    poisoned links of its list node. *)
Definition cpufreq_unregister_governor (governor : option gov_ptr) (saved : gmap nat string)
  : M (gmap nat string) :=
  match governor with
  | None => ret saved
  | Some g =>
      let* saved :=
        if CONFIG_HOTPLUG_CPU then
          let* present := gets cpu_present_mask in
          let* online := gets cpu_online_mask in
          ret (fold_left (fun saved cpu =>
                 if cpumask_test_cpu cpu online then saved
                 else if strcmp (saved_governor saved cpu) (g_name (governor_at g)) =? 0
                 then <[cpu := EmptyString]> saved
                 else saved)
               (for_each_cpu nr_cpu_ids present) saved)
        else ret saved in
      let* registered := gets cpufreq_governor_list in
      if bool_decide (g ∈ registered) then
        let* _ := modify (fun s =>
                    set_governor_list
                      (List.filter (fun t => negb (t =? g)%nat) (cpufreq_governor_list s)) s) in
        ret saved
      else oops
  end.

(** ** cpu_freq_notify (lines 2487-2501), the subscriber of both PM QoS
      frequency classes *)
Definition cpu_freq_notify : M unit :=
  let* online := gets cpu_online_mask in
  for_each (for_each_cpu nr_cpu_ids online) (fun cpu =>
    let* got := cpufreq_cpu_get cpu in
    match got with
    | Some policy =>
        let* pv := load policy in
        let* _ := cpufreq_update_policy (p_cpu pv) in
        cpufreq_cpu_put policy
    | None => ret tt
    end).

End Interface.

(** ** More vocabulary *)

(** The policy cpu of [cpu] has been set, so that taking or releasing its
    lock does not run into the BUG_ON of lines 94 and 113. *)
Definition policy_cpu_known (cpu : nat) (s : kstate) : Prop :=
  default (-1) (cpufreq_policy_cpu s !! cpu) <> -1.

Definition cpu_is_online (cpu : nat) (s : kstate) : Prop :=
  cpumask_test_cpu cpu (cpu_online_mask s) = true.

(** [policy->user_policy.object] for the [object] of the [store_one] macro. *)
Definition get_user_object (o : limit_object) (p : cpufreq_policy) : Z :=
  match o with
  | object_min => u_min (p_user_policy p)
  | object_max => u_max (p_user_policy p)
  end.

(** [s'] differs from [s] at most in the module reference counts and in the
    record of calls. *)
Definition only_refs_and_trace (s s' : kstate) : Prop :=
  s' = set_modules (modules s') (set_trace (trace s') s).

(** The contract of [scnprintf]: it stores at most [size - 1] characters. *)
Definition scnprintf_truncates {L : kernel_lib} : Prop :=
  forall size text, 0 < size -> Z.of_nat (String.length (scnprintf size text)) <= size - 1.

(** ** Vocabulary of attachment *)

Section AttachVocabulary.

Context {K : kernel_env}.

(** The governor cpufreq_add_dev gives a new policy before the driver's init
    sees it: under CONFIG_HOTPLUG_CPU that of the first online sibling whose
    policy lists the cpu as related, the default governor otherwise. *)
Definition first_governor (cpu : nat) (s : kstate) : gov_ptr :=
  default CPUFREQ_DEFAULT_GOVERNOR
    (if CONFIG_HOTPLUG_CPU then sibling_governor cpu s else None).

(** The policy cpufreq_add_dev hands to the driver's init: zeroed by kzalloc
    but for the cpu, its bit in [cpus], and the governor. *)
Definition unattached_policy (cpu : nat) (gov : gov_ptr) : cpufreq_policy := {|
  p_cpus := cpumask_of cpu; p_related_cpus := 0%N; p_cpu := cpu;
  p_cpuinfo := p_cpuinfo zero_policy;
  p_min := 0; p_max := 0; p_cur := 0; p_policy := 0; p_governor := Some gov;
  p_user_policy := p_user_policy zero_policy;
  p_kobj := 0; p_kobj_unregister := false |}.

End AttachVocabulary.

(** ** Vocabulary of the governor switch *)

Section SwitchVocabulary.

Context {K : kernel_env}.

(** The governor __cpufreq_governor calls for a policy whose governor is [g],
    on hardware with this transition latency: [g] itself, or the performance
    governor when [g] declares a bound and the latency is above it; none when
    the kernel was then built without the performance governor. *)
Definition dispatched (g : gov_ptr) (latency : Z) : option gov_ptr :=
  if negb (max_transition_latency (governor_at g) =? 0)
     && (max_transition_latency (governor_at g) <? latency)
  then cpufreq_gov_performance else Some g.

(** The subscribers of the policy chain, one after the other. *)
Definition policy_chain (ev : policy_event) (p : cpufreq_policy) (s : kstate)
  : cpufreq_policy :=
  fold_left (fun p (nb : notifier_block) => nb ev p) (cpufreq_policy_notifier_list s) p.

(** The proposed policy as __cpufreq_set_policy hands it to the driver's
    first verify: clamped to the QoS window, with the hardware description of
    the live policy. *)
Definition clamped_policy (data policy : cpufreq_policy) (s : kstate) : cpufreq_policy :=
  let qmin := Z.min (to_uint (pm_qos_cpu_freq_min s)) (u_max (p_user_policy data)) in
  let qmax := Z.max (to_uint (pm_qos_cpu_freq_max s)) (u_min (p_user_policy data)) in
  set_p_cpuinfo (p_cpuinfo data)
    (set_p_max (Z.min (p_max policy) qmax) (set_p_min (Z.max (p_min policy) qmin) policy)).

(** The same policy as the subscribers hand it to the second verify. *)
Definition adjusted_policy (d : cpufreq_driver_t) (data policy : cpufreq_policy) (s : kstate)
  : cpufreq_policy :=
  policy_chain CPUFREQ_INCOMPATIBLE
    (policy_chain CPUFREQ_ADJUST (snd (d_verify d (clamped_policy data policy s))) s) s.

(** Both calls of the driver's verify return 0. *)
Definition verify_accepts (d : cpufreq_driver_t) (data policy : cpufreq_policy) (s : kstate)
  : Prop :=
  fst (d_verify d (clamped_policy data policy s)) = 0 /\
  fst (d_verify d (adjusted_policy d data policy s)) = 0.

(** The proposed policy once the driver and the subscribers have had their
    say: what the engine compares with the live policy and commits. *)
Definition agreed_policy (d : cpufreq_driver_t) (data policy : cpufreq_policy) (s : kstate)
  : cpufreq_policy :=
  policy_chain CPUFREQ_NOTIFY (snd (d_verify d (adjusted_policy d data policy s))) s.

(** The entry a governor callback leaves in the trace. *)
Definition governor_call (c : gov_ptr * gov_event) : kcall := call_governor c.1 c.2.

End SwitchVocabulary.

(** ** The library of the concrete machine *)

(** Modelled from the spec: lib/vsprintf.c and lib/string.c are not among the
    sources; attribute reads "return the formatted text and its byte length",
    with integers in decimal. *)
Definition fmt_u_model (x : Z) : string :=
  NilZero.string_of_uint (N.to_uint (Z.to_N x)).

(** Modelled from the spec: a bounded print stores at most [size - 1]
    characters of the text. *)
Definition scnprintf_model (size : Z) (text : string) : string :=
  if size <=? 0 then EmptyString else String.substring 0 (Z.to_nat (size - 1)) text.

(** Modelled from the spec: names are compared character by character over
    at most [len] characters. *)
Fixpoint strncmp_model (s1 s2 : string) (len : nat) : Z :=
  match len with
  | O => 0
  | S len' =>
      match s1, s2 with
      | String c1 s1', String c2 s2' =>
          if (nat_of_ascii c1 =? nat_of_ascii c2)%nat then strncmp_model s1' s2' len'
          else Z.of_nat (nat_of_ascii c1) - Z.of_nat (nat_of_ascii c2)
      | String c1 _, EmptyString => Z.of_nat (nat_of_ascii c1)
      | EmptyString, String c2 _ => - Z.of_nat (nat_of_ascii c2)
      | EmptyString, EmptyString => 0
      end
  end.

Definition strcmp_model (s1 s2 : string) : Z :=
  strncmp_model s1 s2 (S (Nat.max (String.length s1) (String.length s2))).

Definition ex_lib_with (resume : Z) : kernel_lib := {|
  PAGE_SIZE := 4096;
  fmt_u := fmt_u_model;
  scnprintf := scnprintf_model;
  strncmp := strncmp_model;
  strcmp := strcmp_model;
  strncpy := fun name n => String.substring 0 n name;
  smp_processor_id := fun _ => 0%nat;
  d_suspend := fun _ => Some (fun p => (0, p));
  d_resume := fun _ => Some (fun p => (resume, p));
  g_show_setspeed := fun _ => None |}.

Definition ex_lib : kernel_lib := ex_lib_with 0.

(** The same library with a driver whose resume callback fails. *)
Definition ex_lib_resume_fails : kernel_lib := ex_lib_with (- EIO).

(** The machine with an allocator that is out of memory. *)
Definition ex_env_nomem : kernel_env := {|
  nr_cpu_ids := 4;
  CONFIG_SMP := true;
  CONFIG_HOTPLUG_CPU := true;
  cpufreq_gov_performance := Some gov_performance;
  CPUFREQ_DEFAULT_GOVERNOR := gov_performance;
  governor_at := ex_governor_at;
  request_module := fun _ => (-2, []);
  sscanf_u := scan_uint;
  sscanf_s := scan_word;
  strnicmp := strnicmp_model;
  kzalloc := fun _ => false;
  kobject_init_and_add := fun _ _ => 0;
  sysfs_create_file := fun _ _ _ => 0;
  sysfs_create_link := fun _ _ => 0 |}.

(** The machine with a sysfs that adds the kobject and then has no room for
    a file. *)
Definition ex_env_no_files : kernel_env := {|
  nr_cpu_ids := 4;
  CONFIG_SMP := true;
  CONFIG_HOTPLUG_CPU := true;
  cpufreq_gov_performance := Some gov_performance;
  CPUFREQ_DEFAULT_GOVERNOR := gov_performance;
  governor_at := ex_governor_at;
  request_module := fun _ => (-2, []);
  sscanf_u := scan_uint;
  sscanf_s := scan_word;
  strnicmp := strnicmp_model;
  kzalloc := fun _ => true;
  kobject_init_and_add := fun _ _ => 0;
  sysfs_create_file := fun _ _ _ => - ENOMEM;
  sysfs_create_link := fun _ _ => 0 |}.

(** The machine with a sysfs that cannot add the kobject. *)
Definition ex_env_no_kobject : kernel_env := {|
  nr_cpu_ids := 4;
  CONFIG_SMP := true;
  CONFIG_HOTPLUG_CPU := true;
  cpufreq_gov_performance := Some gov_performance;
  CPUFREQ_DEFAULT_GOVERNOR := gov_performance;
  governor_at := ex_governor_at;
  request_module := fun _ => (-2, []);
  sscanf_u := scan_uint;
  sscanf_s := scan_word;
  strnicmp := strnicmp_model;
  kzalloc := fun _ => true;
  kobject_init_and_add := fun _ _ => - ENOMEM;
  sysfs_create_file := fun _ _ _ => 0;
  sysfs_create_link := fun _ _ => 0 |}.

(** The machine with the module cpufreq_ondemand on disk. *)
Definition ex_env_modprobe : kernel_env := {|
  nr_cpu_ids := 4;
  CONFIG_SMP := true;
  CONFIG_HOTPLUG_CPU := true;
  cpufreq_gov_performance := Some gov_performance;
  CPUFREQ_DEFAULT_GOVERNOR := gov_performance;
  governor_at := ex_governor_at;
  request_module := fun name =>
    if String.eqb name "cpufreq_ondemand" then (0, [gov_ondemand]) else (-2, []);
  sscanf_u := scan_uint;
  sscanf_s := scan_word;
  strnicmp := strnicmp_model;
  kzalloc := fun _ => true;
  kobject_init_and_add := fun _ _ => 0;
  sysfs_create_file := fun _ _ _ => 0;
  sysfs_create_link := fun _ _ => 0 |}.

(** A driver of the target kind whose verify accepts every window as it is. *)
Definition ex_driver_plain : cpufreq_driver_t := {|
  d_name := "plain";
  d_owner := Some 1%nat;
  d_flags := 0;
  d_init := ex_init;
  d_verify := fun p => (0, p);
  d_setpolicy := None;
  d_target := Some (fun p _ _ => (0, p));
  d_get := Some (fun _ => 1000000);
  d_exit := Some (fun p => (0, p));
  d_bios_limit := None;
  d_attr := [] |}.

(** A driver whose init finds no hardware. *)
Definition ex_driver_init_fails : cpufreq_driver_t := {|
  d_name := "absent";
  d_owner := Some 1%nat;
  d_flags := 0;
  d_init := fun p => (- ENODEV, p);
  d_verify := fun p => (0, p);
  d_setpolicy := None;
  d_target := Some (fun p _ _ => (0, p));
  d_get := None;
  d_exit := None;
  d_bios_limit := None;
  d_attr := [] |}.

(** Cpu 0 alone owns policy 10, which nobody but its sysfs directory
    references. *)
Definition ex_state_unshared (drv : cpufreq_driver_t) : kstate :=
  set_cpu_data {[ 0%nat := 10%nat ]}
    (ex_state drv (set_p_kobj 1 false (set_p_cpus 1%N ex_policy)) 0).

(** The machine at boot with driver [drv] registered. *)
Definition ex_boot_with (drv : cpufreq_driver_t) : kstate := {|
  cpufreq_driver := Some drv;
  cpufreq_cpu_data := ∅;
  cpufreq_policy_cpu := {[ 0%nat := -1; 1%nat := -1; 2%nat := -1; 3%nat := -1 ]};
  cpufreq_governor_list := [gov_broken; gov_strict; gov_performance];
  cpufreq_policy_notifier_list := [];
  policies := ∅;
  modules := ex_modules;
  cpu_online_mask := 3%N;
  cpu_present_mask := 15%N;
  pm_qos_cpu_freq_min := 0;
  pm_qos_cpu_freq_max := 2147483647;
  system_wq := [];
  trace := [] |}.

(** A driver with one clock per cpu: its init leaves [cpus] at the cpu it
    was called for. *)
Definition ex_driver_percpu : cpufreq_driver_t := {|
  d_name := "percpu";
  d_owner := Some 1%nat;
  d_flags := 0;
  d_init := fun p =>
    (0, set_p_cur 1000000
          (set_p_max 2000000 (set_p_min 200000 (set_p_cpuinfo ex_cpuinfo p))));
  d_verify := fun p => (0, p);
  d_setpolicy := None;
  d_target := Some (fun p _ _ => (0, p));
  d_get := Some (fun _ => 1000000);
  d_exit := Some (fun p => (0, p));
  d_bios_limit := None;
  d_attr := [] |}.

(** Cpu 1 owns policy 10, which runs the governor whose start fails and
    lists cpu 0 as related; cpu 0 is online and has no policy. *)
Definition ex_state_sibling_broken : kstate :=
  set_policy_cpu {[ 0%nat := -1; 1%nat := 1; 2%nat := -1; 3%nat := -1 ]}
    (set_cpu_data {[ 1%nat := 10%nat ]}
       (ex_state ex_driver_percpu
          {| p_cpus := 2%N; p_related_cpus := 3%N; p_cpu := 1%nat;
             p_cpuinfo := ex_cpuinfo;
             p_min := 200000; p_max := 2000000; p_cur := 1000000; p_policy := 0;
             p_governor := Some gov_broken;
             p_user_policy := {| u_min := 200000; u_max := 2000000; u_policy := 0;
                                 u_governor := Some gov_broken |};
             p_kobj := 1; p_kobj_unregister := false |} 0)).

(** * Properties *)

Arguments __cpufreq_governor : simpl never.
Arguments __cpufreq_set_policy : simpl never.
Arguments try_module_get : simpl never.
Arguments module_put : simpl never.
Arguments cpufreq_cpu_get : simpl never.
Arguments cpufreq_cpu_put : simpl never.
Arguments cpufreq_get_policy : simpl never.
Arguments cpufreq_parse_governor : simpl never.
Arguments cpufreq_notify_transition : simpl never.

(** Unfold the monad and compute. *)
Ltac msimpl :=
  unfold bind, gets, ret, modify, oops, record, load, store in *; cbn in *.

(** Case analysis on the scrutinee of the outermost stuck [match] or [if]. *)
Ltac case_step :=
  match goal with
  | |- context [match ?x with _ => _ end] =>
      match x with
      | context [match _ with _ => _ end] => fail 1
      | _ => destruct x eqn:?
      end
  | |- context [if ?x then _ else _] =>
      match x with
      | context [if _ then _ else _] => fail 1
      | context [match _ with _ => _ end] => fail 1
      | _ => destruct x eqn:?
      end
  end.

(** The example machine has no subscriber on the policy chain. *)
Ltac no_subscriber :=
  let H := fresh in intros ? ? ? H; cbn in H; by apply elem_of_nil in H.

Section CoreProperties.

Context {K : kernel_env}.

(** ** Records and references *)

Lemma kstate_set_modules_id s : set_modules (modules s) s = s.
Proof. by destruct s. Qed.

Lemma kstate_set_policies_id s : set_policies (policies s) s = s.
Proof. by destruct s. Qed.

Lemma module_t_eta md : {| m_live := m_live md; m_refcnt := m_refcnt md |} = md.
Proof. by destruct md. Qed.

Lemma set_p_kobj_id v : set_p_kobj (p_kobj v) (p_kobj_unregister v) v = v.
Proof. by destruct v. Qed.

Lemma try_module_get_total owner s :
  exists b s', try_module_get owner s = Some (b, s').
Proof.
  unfold try_module_get. destruct owner as [m|]; cbn; eauto.
  destruct (modules s !! m) as [md|]; [destruct (m_live md)|]; eauto.
Qed.

Lemma try_module_get_frame owner s b s' :
  try_module_get owner s = Some (b, s') -> s' = set_modules (modules s') s.
Proof.
  unfold try_module_get. destruct owner as [m|]; cbn.
  - destruct (modules s !! m) as [md|]; [destruct (m_live md)|];
      intros [= <- <-]; by destruct s.
  - intros [= <- <-]. by destruct s.
Qed.

Lemma try_module_get_put owner s s' :
  try_module_get owner s = Some (true, s') -> module_put owner s' = Some (tt, s).
Proof.
  unfold try_module_get, module_put. destruct owner as [m|]; cbn.
  - destruct (modules s !! m) as [md|] eqn:Hm; [|discriminate].
    destruct (m_live md) eqn:Hl; [|discriminate].
    intros [= <-]. cbn. rewrite lookup_insert_eq. cbn.
    rewrite insert_insert_eq. f_equal. f_equal.
    replace (m_refcnt md + 1 - 1) with (m_refcnt md) by lia.
    rewrite <- Hl, module_t_eta, insert_id by done.
    by destruct s.
  - by intros [= <-].
Qed.

Lemma try_module_get_false owner s s' :
  try_module_get owner s = Some (false, s') -> s' = s.
Proof.
  unfold try_module_get. destruct owner as [m|]; cbn; [|discriminate].
  destruct (modules s !! m) as [md|]; [|congruence].
  destruct (m_live md); congruence.
Qed.

Lemma try_module_get_true_refs owner s s' :
  try_module_get owner s = Some (true, s') ->
  forall m, owner = Some m -> module_refs owner s' = module_refs owner s + 1.
Proof.
  unfold try_module_get. intros H m ->. cbn in *.
  destruct (modules s !! m) as [md|] eqn:Hm; [|discriminate].
  destruct (m_live md); [|discriminate].
  injection H as <-. cbn. by rewrite lookup_insert_eq.
Qed.

Lemma try_module_get_pinnable owner s :
  module_pinnable owner s -> exists s', try_module_get owner s = Some (true, s').
Proof.
  unfold try_module_get, module_pinnable. destruct owner as [m|]; cbn; eauto.
  intros (md & -> & ->). eauto.
Qed.

Lemma module_put_set_policies owner P s s' Q :
  module_put owner s = Some (tt, s') ->
  module_put owner (set_policies P (set_policies Q s)) = Some (tt, set_policies P s').
Proof.
  unfold module_put. destruct owner as [m|]; cbn.
  - destruct (modules s !! m) as [md|]; intros [= <-]; done.
  - intros [= <-]. done.
Qed.

(** ** cpufreq_cpu_get and cpufreq_cpu_put *)

Lemma cpufreq_cpu_get_fails cpu s :
  (nr_cpu_ids <= cpu)%nat \/ cpufreq_driver s = None \/ cpufreq_cpu_data s !! cpu = None ->
  cpufreq_cpu_get cpu s = Some (None, s).
Proof.
  intros H. unfold cpufreq_cpu_get.
  destruct (nr_cpu_ids <=? cpu)%nat eqn:Hn; [done|].
  apply Nat.leb_gt in Hn.
  destruct H as [H|[H|H]]; [lia| |].
  - msimpl. by rewrite H.
  - msimpl. destruct (cpufreq_driver s) as [d|] eqn:Hd; [|done].
    destruct (try_module_get_total (d_owner d) s) as (b & s1 & Hg). rewrite Hg.
    destruct b; cbn.
    + rewrite (try_module_get_frame _ _ _ _ Hg). cbn. rewrite H.
      rewrite <- (try_module_get_frame _ _ _ _ Hg).
      by rewrite (try_module_get_put _ _ _ Hg).
    + by rewrite (try_module_get_false _ _ _ Hg).
Qed.

Lemma cpufreq_cpu_get_success cpu s data s' :
  cpufreq_cpu_get cpu s = Some (Some data, s') ->
  exists d v s1,
    (cpu < nr_cpu_ids)%nat /\ cpufreq_driver s = Some d /\
    cpufreq_cpu_data s !! cpu = Some data /\ policies s !! data = Some v /\
    try_module_get (d_owner d) s = Some (true, s1) /\
    s' = set_policies (<[data := set_p_kobj (p_kobj v + 1) (p_kobj_unregister v) v]> (policies s)) s1.
Proof.
  unfold cpufreq_cpu_get.
  destruct (nr_cpu_ids <=? cpu)%nat eqn:Hn; [done|].
  apply Nat.leb_gt in Hn. msimpl.
  destruct (cpufreq_driver s) as [d|] eqn:Hd; [|done].
  destruct (try_module_get_total (d_owner d) s) as (b & s1 & Hg). rewrite Hg.
  destruct b; cbn; [|done].
  pose proof (try_module_get_frame _ _ _ _ Hg) as Hf.
  assert (cpufreq_cpu_data s1 = cpufreq_cpu_data s) as Hc by (by rewrite Hf).
  assert (policies s1 = policies s) as Hp by (by rewrite Hf).
  rewrite Hc. destruct (cpufreq_cpu_data s !! cpu) as [p|] eqn:Hd'; cbn.
  - unfold kobject_get. msimpl. rewrite Hp.
    destruct (policies s !! p) as [v|] eqn:Hv; [|done].
    cbn. intros [= <- <-]. exists d, v, s1. by rewrite Hp.
  - destruct (module_put (d_owner d) s1) as [[]|]; done.
Qed.

Lemma cpufreq_cpu_put_after_get cpu s data s' :
  cpufreq_cpu_get cpu s = Some (Some data, s') ->
  exists s'',
    cpufreq_cpu_put data s' = Some (tt, s'') /\
    kref data s'' = kref data s /\
    (forall o, module_refs o s'' = module_refs o s) /\
    (kref data s <> 0 -> s'' = s).
Proof.
  intros Hget.
  destruct (cpufreq_cpu_get_success _ _ _ _ Hget)
    as (d & v & s1 & Hcpu & Hd & Hdata & Hv & Hmod & ->).
  pose proof (try_module_get_frame _ _ _ _ Hmod) as Hf.
  assert (policies s1 = policies s) as Hp by (by rewrite Hf).
  assert (cpufreq_driver s1 = Some d) as Hd1 by (by rewrite Hf).
  set (k := p_kobj v + 1 - 1).
  set (v' := set_p_kobj k (if k =? 0 then true else p_kobj_unregister v) v).
  assert (k = p_kobj v) as Hk by (unfold k; lia).
  exists (set_policies (<[data := v']> (policies s)) s). split; [|split; [|split]].
  - unfold cpufreq_cpu_put, kobject_put. msimpl.
    rewrite lookup_insert_eq. cbn. rewrite Hd1.
    rewrite insert_insert_eq.
    pose proof (try_module_get_put _ _ _ Hmod) as Hput.
    exact (module_put_set_policies _ (<[data := v']> (policies s)) _ _ _ Hput).
  - unfold kref. cbn. by rewrite lookup_insert_eq, Hv.
  - by intros [m|].
  - unfold kref. rewrite Hv. intros Hne.
    assert (v' = v) as ->.
    { unfold v'. rewrite Hk. destruct (p_kobj v =? 0) eqn:E; [lia|].
      apply set_p_kobj_id. }
    rewrite insert_id by done. apply kstate_set_policies_id.
Qed.

Lemma cpufreq_cpu_get_attached cpu s d data v :
  (cpu < nr_cpu_ids)%nat -> cpufreq_driver s = Some d ->
  module_pinnable (d_owner d) s ->
  cpufreq_cpu_data s !! cpu = Some data -> policies s !! data = Some v ->
  exists s', cpufreq_cpu_get cpu s = Some (Some data, s').
Proof.
  intros Hcpu Hd Hpin Hdata Hv. unfold cpufreq_cpu_get.
  destruct (nr_cpu_ids <=? cpu)%nat eqn:Hn; [apply Nat.leb_le in Hn; lia|].
  msimpl. rewrite Hd.
  destruct (try_module_get_pinnable _ _ Hpin) as [s1 Hg]. rewrite Hg. cbn.
  pose proof (try_module_get_frame _ _ _ _ Hg) as Hf.
  rewrite Hf. cbn. rewrite Hdata. cbn. unfold kobject_get. msimpl. rewrite Hv. cbn. eauto.
Qed.

Lemma cpufreq_cpu_get_cases cpu s :
  table_wf s ->
  cpufreq_cpu_get cpu s = Some (None, s) \/
  exists data s', cpufreq_cpu_get cpu s = Some (Some data, s') /\
                  is_Some (policies s' !! data) /\ kref data s <> 0.
Proof.
  intros Hwf. unfold cpufreq_cpu_get.
  destruct (nr_cpu_ids <=? cpu)%nat eqn:Hn; [by left|].
  msimpl. destruct (cpufreq_driver s) as [d|] eqn:Hd; [|by left].
  destruct (try_module_get_total (d_owner d) s) as (b & s1 & Hg). rewrite Hg.
  pose proof (try_module_get_frame _ _ _ _ Hg) as Hf.
  destruct b; cbn.
  - rewrite Hf. cbn. destruct (cpufreq_cpu_data s !! cpu) as [p|] eqn:Hp; cbn.
    + destruct (Hwf _ _ Hp) as (v & Hv & Hk). right.
      unfold kobject_get. msimpl. rewrite Hv. cbn.
      eexists _, _. split; [done|]. cbn. rewrite lookup_insert_eq.
      split; [done|]. unfold kref. by rewrite Hv.
    + left. rewrite <- Hf. by rewrite (try_module_get_put _ _ _ Hg).
  - left. by rewrite (try_module_get_false _ _ _ Hg).
Qed.

Lemma cpufreq_get_policy_neutral cpu s :
  table_wf s -> exists o, cpufreq_get_policy cpu s = Some (o, s).
Proof.
  intros Hwf. unfold cpufreq_get_policy.
  destruct (cpufreq_cpu_get_cases cpu s Hwf) as [H|(data & s' & H & [v Hv] & Hk)].
  - unfold bind. rewrite H. eauto.
  - unfold bind at 1. rewrite H. msimpl. rewrite Hv.
    destruct (cpufreq_cpu_put_after_get _ _ _ _ H) as (s'' & -> & _ & _ & Hs).
    rewrite (Hs Hk). eauto.
Qed.

(** C9: cpufreq_cpu_get returns NULL, leaving every reference count as it
    was, whenever the cpu index is out of range, no driver is registered or no
    policy is attached to the cpu.  On every successful return the policy's
    kobject count and the count of the driver's module have both gone up by
    one, and cpufreq_cpu_put on the returned policy drops exactly these two:
    both counts are back at their old value, and the whole state is, as long
    as the policy was referenced before. *)
Theorem cpufreq_cpu_get_put_references cpu s :
  ((nr_cpu_ids <= cpu)%nat \/ cpufreq_driver s = None \/ cpufreq_cpu_data s !! cpu = None ->
   cpufreq_cpu_get cpu s = Some (None, s))
  /\
  (forall data s', cpufreq_cpu_get cpu s = Some (Some data, s') ->
     exists d,
       cpufreq_driver s = Some d /\ cpufreq_cpu_data s !! cpu = Some data /\
       kref data s' = kref data s + 1 /\
       (forall m, d_owner d = Some m ->
                  module_refs (d_owner d) s' = module_refs (d_owner d) s + 1) /\
       exists s'',
         cpufreq_cpu_put data s' = Some (tt, s'') /\
         kref data s'' = kref data s /\
         module_refs (d_owner d) s'' = module_refs (d_owner d) s /\
         (kref data s <> 0 -> s'' = s)).
Proof.
  split; [apply cpufreq_cpu_get_fails|].
  intros data s' Hget.
  destruct (cpufreq_cpu_put_after_get _ _ _ _ Hget) as (s'' & Hput & Hk & Hm & Hs).
  destruct (cpufreq_cpu_get_success _ _ _ _ Hget)
    as (d & v & s1 & Hcpu & Hd & Hdata & Hv & Hmod & ->).
  pose proof (try_module_get_frame _ _ _ _ Hmod) as Hf.
  assert (policies s1 = policies s) as Hp by (by rewrite Hf).
  exists d. split; [done|]. split; [done|]. split; [|split].
  - unfold kref. cbn. by rewrite lookup_insert_eq, Hv.
  - intros m Hown. unfold module_refs at 1. cbn. rewrite Hown.
    pose proof (try_module_get_true_refs _ _ _ Hmod m Hown) as Hr.
    rewrite Hown in Hr. exact Hr.
  - exists s''. eauto.
Qed.

(** ** The transition engine *)

(** C10: whenever __cpufreq_set_policy returns, with success or with an
    error, the proposed record has the min and max it was passed in with; and
    it does return for every driver of the set_policy kind. *)
Theorem set_policy_restores_proposed_limits data policy s :
  (forall r data' policy' s',
     __cpufreq_set_policy data policy s = Some (r, data', policy', s') ->
     p_min policy' = p_min policy /\ p_max policy' = p_max policy)
  /\
  (forall d, cpufreq_driver s = Some d -> is_Some (d_setpolicy d) ->
     is_Some (__cpufreq_set_policy data policy s)).
Proof.
  split.
  - intros r data' policy' s'.
    unfold __cpufreq_set_policy, blocking_notifier_call_chain. msimpl.
    repeat (case_step; cbn; try discriminate);
      intros Heq; inversion Heq; subst; cbn; auto.
  - intros d Hd [f Hf].
    unfold __cpufreq_set_policy, blocking_notifier_call_chain. msimpl.
    repeat (case_step; cbn; try congruence; try (by eexists)).
Qed.

Lemma set_policy_range_check data policy s :
  let umin := u_min (p_user_policy data) in
  let umax := u_max (p_user_policy data) in
  window_min (p_min policy) umax (to_uint (pm_qos_cpu_freq_min s)) > umax \/
  window_max (p_max policy) umin (to_uint (pm_qos_cpu_freq_max s)) < umin ->
  __cpufreq_set_policy data policy s =
    Some (- EINVAL, data, set_p_cpuinfo (p_cpuinfo data) policy, s).
Proof.
  cbn. unfold window_min, window_max. intros H.
  unfold __cpufreq_set_policy. msimpl.
  match goal with |- context [if ?c then _ else _] => assert (c = true) as -> end.
  { apply orb_true_iff. destruct H; [left|right]; apply Z.ltb_lt; lia. }
  by destruct policy.
Qed.

(** C2: when the window left by the QoS clamp lies above the user's maximum
    or below the user's minimum, __cpufreq_set_policy returns -EINVAL and
    nothing else happens: the live policy is handed back as it was (min, max,
    policy and governor included), the proposed record has only received the
    hardware description of the live policy, and the state is the one before
    the call, so neither the driver nor a notifier nor a governor was called. *)
Theorem set_policy_rejects_window_outside_user_limits data policy s :
  let umin := u_min (p_user_policy data) in
  let umax := u_max (p_user_policy data) in
  let proposed_min := window_min (p_min policy) umax (to_uint (pm_qos_cpu_freq_min s)) in
  let proposed_max := window_max (p_max policy) umin (to_uint (pm_qos_cpu_freq_max s)) in
  proposed_min > umax \/ proposed_max < umin ->
  __cpufreq_set_policy data policy s =
    Some (- EINVAL, data, set_p_cpuinfo (p_cpuinfo data) policy, s).
Proof. cbn. intros H. by apply set_policy_range_check. Qed.

Lemma module_put_frame owner s :
  exists s', module_put owner s = Some (tt, s') /\ s' = set_modules (modules s') s /\
    forall o, module_pinnable o s -> module_pinnable o s'.
Proof.
  unfold module_put. destruct owner as [m|]; cbn.
  - destruct (modules s !! m) as [md|] eqn:Hm; eexists; (split; [reflexivity|]); cbn.
    + split; [by destruct s|]. intros [m'|]; cbn; [|done].
      intros (md' & Hm' & Hl). destruct (decide (m = m')) as [<-|Hne].
      * rewrite lookup_insert_eq. eexists; split; [done|]. cbn. congruence.
      * rewrite lookup_insert_ne by done. eauto.
    + split; [by destruct s|]. done.
  - eexists; split; [done|]. split; [by destruct s|done].
Qed.

Lemma try_module_get_pinnable_frame owner s :
  module_pinnable owner s ->
  exists s', try_module_get owner s = Some (true, s') /\ s' = set_modules (modules s') s /\
    forall o, module_pinnable o s -> module_pinnable o s'.
Proof.
  unfold try_module_get. destruct owner as [m|]; cbn.
  - intros (md & Hm & Hl). rewrite Hm, Hl. eexists; split; [done|]. cbn.
    split; [by destruct s|]. intros [m'|]; cbn; [|done].
    intros (md' & Hm' & Hl'). destruct (decide (m = m')) as [<-|Hne].
    + rewrite lookup_insert_eq. eauto.
    + rewrite lookup_insert_ne by done. eauto.
  - intros _. eexists; split; [done|]. split; [by destruct s|done].
Qed.

Lemma cpufreq_governor_plain g p ev s :
  p_governor p = Some g ->
  tolerates g (transition_latency (p_cpuinfo p)) ->
  module_pinnable (g_owner (governor_at g)) s ->
  keeps_governor g ->
  exists s',
    __cpufreq_governor p ev s = Some (g_governor (governor_at g) p ev, s') /\
    trace s' = trace s ++ [call_governor g ev] /\
    (forall o, module_pinnable o s -> module_pinnable o s').
Proof.
  intros Hg Htol Hpin Hkeep. unfold __cpufreq_governor. rewrite Hg.
  assert (negb (max_transition_latency (governor_at g) =? 0)
          && (max_transition_latency (governor_at g) <? transition_latency (p_cpuinfo p)) = false) as ->.
  { destruct Htol as [->|Hle]; [done|].
    apply andb_false_iff. right. apply Z.ltb_ge. lia. }
  cbn.
  destruct (try_module_get_pinnable_frame _ _ Hpin) as (s1 & Hget & Hf1 & Hp1).
  unfold bind at 1. rewrite Hget. cbn.
  destruct (Hkeep p ev) as [Hkg _].
  destruct (g_governor (governor_at g) p ev) as [r p'] eqn:Hcb. cbn in Hkg.
  unfold put_governor_module. rewrite Hkg, Hg.
  msimpl.
  set (s2 := set_trace (trace s1 ++ [call_governor g ev]) s1).
  assert (forall o, module_pinnable o s -> module_pinnable o s2) as Hp2.
  { intros o Ho. apply Hp1 in Ho. by destruct o. }
  assert (trace s2 = trace s ++ [call_governor g ev]) as Ht2.
  { unfold s2. cbn. by rewrite Hf1. }
  destruct (module_put_frame (g_owner (governor_at g)) s2) as (s3 & Hput3 & Hf3 & Hp3).
  destruct (module_put_frame (g_owner (governor_at g)) s3) as (s4 & Hput4 & Hf4 & Hp4).
  assert (trace s3 = trace s2) as Ht3 by (by rewrite Hf3).
  assert (trace s4 = trace s3) as Ht4 by (by rewrite Hf4).
  destruct (negb (gov_event_eqb ev CPUFREQ_GOV_START) || negb (r =? 0)) eqn:E1;
    destruct (gov_event_eqb ev CPUFREQ_GOV_STOP && (r =? 0)) eqn:E2; cbn;
    rewrite ?Hput3; cbn; rewrite ?Hput4; cbn.
  - exists s4. split; [done|]. split; [congruence|]. eauto.
  - exists s3. split; [done|]. split; [congruence|]. eauto.
  - destruct ev; cbn in *; try discriminate.
  - exists s2. split; [done|]. split; [congruence|]. eauto.
Qed.

Lemma notifier_chain_keeps_governor (chain : list notifier_block) ev p :
  (forall nb ev p, nb ∈ chain -> p_governor (nb ev p) = p_governor p) ->
  p_governor (fold_left (fun p (nb : notifier_block) => nb ev p) chain p) = p_governor p.
Proof.
  revert p. induction chain as [|nb chain IH]; intros p H; cbn; [done|].
  rewrite IH.
  - apply H. by left.
  - intros nb' ev' p' Hin. apply H. by right.
Qed.

Lemma module_pinnable_set_trace o t s :
  module_pinnable o s -> module_pinnable o (set_trace t s).
Proof. by destruct o. Qed.

Lemma try_module_get_trace owner s b s' :
  try_module_get owner s = Some (b, s') -> trace s' = trace s.
Proof. intros H. by rewrite (try_module_get_frame _ _ _ _ H). Qed.

Lemma module_put_trace owner s u s' :
  module_put owner s = Some (u, s') -> trace s' = trace s.
Proof.
  destruct (module_put_frame owner s) as (s1 & H1 & Hf & _).
  rewrite H1. intros [= _ <-]. by rewrite Hf.
Qed.

Lemma put_governor_module_trace p s u s' :
  put_governor_module p s = Some (u, s') -> trace s' = trace s.
Proof.
  unfold put_governor_module. destruct (p_governor p); [|done].
  apply module_put_trace.
Qed.

Lemma cpufreq_governor_effect p ev s r p' s' :
  __cpufreq_governor p ev s = Some (r, p', s') ->
  (exists calls, trace s' = trace s ++ calls) /\
  (governors_keep_limits -> p_min p' = p_min p /\ p_max p' = p_max p).
Proof.
  unfold __cpufreq_governor.
  destruct (p_governor p) as [g0|]; [|done].
  set (too_slow := negb _ && _).
  destruct (if too_slow then cpufreq_gov_performance else Some g0) as [g|]; cbn.
  2:{ intros [= <- <- <-]. split; [exists []; by rewrite app_nil_r|done]. }
  set (q := if too_slow then set_p_governor (Some g) p else p).
  assert (p_min q = p_min p /\ p_max q = p_max p) as [Hqmin Hqmax].
  { unfold q. by destruct too_slow. }
  clearbody q. unfold bind at 1.
  destruct (try_module_get (g_owner (governor_at g)) s) as [[ok s1]|] eqn:Hget; [|done].
  apply try_module_get_trace in Hget.
  destruct ok; cbn.
  2:{ intros [= <- <- <-]. split; [exists []; by rewrite app_nil_r, Hget|done]. }
  destruct (g_governor (governor_at g) q ev) as [r1 q1] eqn:Hcb.
  set (s2 := set_trace _ s1).
  assert (trace s2 = trace s ++ [call_governor g ev]) as Ht2 by (cbn; by rewrite Hget).
  clearbody s2.
  assert (governors_keep_limits -> p_min q1 = p_min p /\ p_max q1 = p_max p) as Hlim.
  { intros Hk. destruct (Hk g q ev) as [H1 H2]. rewrite Hcb in H1, H2. cbn in *. lia. }
  unfold bind at 1.
  destruct ((if negb (gov_event_eqb ev CPUFREQ_GOV_START) || negb (r1 =? 0)
             then put_governor_module q1 else ret ()) s2) as [[[] s3]|] eqn:H3; [|done].
  assert (trace s3 = trace s2) as Ht3.
  { destruct (negb _ || _) in H3; [by apply put_governor_module_trace in H3|].
    by injection H3 as <-. }
  unfold bind at 1.
  destruct ((if gov_event_eqb ev CPUFREQ_GOV_STOP && (r1 =? 0)
             then put_governor_module q1 else ret ()) s3) as [[[] s4]|] eqn:H4; [|done].
  assert (trace s4 = trace s3) as Ht4.
  { destruct (_ && _) in H4; [by apply put_governor_module_trace in H4|].
    by injection H4 as <-. }
  intros [= <- <- <-]. split; [|done].
  eexists. by rewrite Ht4, Ht3, Ht2.
Qed.

Lemma notifier_chain_keeps_limits (chain : list notifier_block) ev p :
  (forall nb ev p, nb ∈ chain -> p_min (nb ev p) = p_min p /\ p_max (nb ev p) = p_max p) ->
  let p' := fold_left (fun p (nb : notifier_block) => nb ev p) chain p in
  p_min p' = p_min p /\ p_max p' = p_max p.
Proof.
  revert p. induction chain as [|nb chain IH]; intros p H; cbn; [done|].
  destruct (IH (nb ev p)) as [-> ->].
  - intros nb' ev' p' Hin. apply H. by right.
  - apply H. by left.
Qed.

(** C1: with proposed bounds pmin and pmax, user limits umin and umax and QoS
    requests qos_min and qos_max, the window of __cpufreq_set_policy is
    min = max(pmin, min(qos_min, umax)) and max = min(pmax, max(qos_max, umin)).
    It is the window the range check is made on, the window handed to the
    driver's verify, and, when neither the driver nor a subscriber nor a
    governor moves the limits, the window committed to the live policy. *)
Theorem set_policy_qos_window data policy s :
  let umin := u_min (p_user_policy data) in
  let umax := u_max (p_user_policy data) in
  let proposed_min := window_min (p_min policy) umax (to_uint (pm_qos_cpu_freq_min s)) in
  let proposed_max := window_max (p_max policy) umin (to_uint (pm_qos_cpu_freq_max s)) in
  forall r data' policy' s',
    __cpufreq_set_policy data policy s = Some (r, data', policy', s') ->
    (* the range check is made on the window *)
    (proposed_min > umax \/ proposed_max < umin -> r = - EINVAL /\ data' = data /\ s' = s) /\
    (* it is the window that goes to the driver for verification *)
    (~ (proposed_min > umax \/ proposed_max < umin) ->
     exists w rest,
       trace s' = trace s ++ call_verify w :: rest /\
       p_min w = proposed_min /\ p_max w = proposed_max) /\
    (* and the window that is committed, when nobody moves it *)
    (forall d, cpufreq_driver s = Some d ->
       (forall p, p_min (snd (d_verify d p)) = p_min p /\ p_max (snd (d_verify d p)) = p_max p) ->
       (forall nb ev p, nb ∈ cpufreq_policy_notifier_list s ->
                        p_min (nb ev p) = p_min p /\ p_max (nb ev p) = p_max p) ->
       governors_keep_limits ->
       r = 0 ->
       p_min data' = proposed_min /\ p_max data' = proposed_max).
Proof.
  intros umin umax proposed_min proposed_max r data' policy' s' Hrun.
  split; [|split].
  - intros Hout.
    rewrite (set_policy_range_check data policy s Hout) in Hrun.
    by injection Hrun as <- <- _ <-.
  - intros Hin. revert Hrun.
    unfold __cpufreq_set_policy, blocking_notifier_call_chain. msimpl.
    match goal with |- context [if ?c then _ else _] => assert (c = false) as -> end.
    { apply orb_false_iff. unfold proposed_min, proposed_max, window_min, window_max in Hin.
      split; apply Z.ltb_ge; subst umin umax; lia. }
    repeat (case_step; cbn; try discriminate);
      intros Heq; inversion Heq; subst; cbn;
      repeat match goal with
             | H : __cpufreq_governor _ _ _ = Some _ |- _ =>
                 apply cpufreq_governor_effect in H as [[? H] _]
             end;
      repeat match goal with H : trace _ = _ |- _ => rewrite H; clear H end;
      cbn; rewrite <- ?app_assoc; cbn; eexists _, _; (split; [reflexivity|done]).
  - intros d Hd Hver Hnot Hgov ->. revert Hrun.
    unfold __cpufreq_set_policy, blocking_notifier_call_chain. msimpl.
    case_step; [intros [= H _]; by unfold EINVAL in H|].
    rewrite Hd.
    assert (forall ev p,
      let p' := fold_left (fun p (nb : notifier_block) => nb ev p)
                  (cpufreq_policy_notifier_list s) p in
      p_min p' = p_min p /\ p_max p' = p_max p) as Hfold.
    { intros ev p. by apply notifier_chain_keeps_limits. }
    cbn in Hfold.
    repeat (case_step; cbn; try discriminate);
      intros Heq; inversion Heq; subst; cbn; try done;
      repeat match goal with
             | H : __cpufreq_governor _ _ _ = Some _ |- _ =>
                 apply cpufreq_governor_effect in H as [_ H]; specialize (H Hgov); cbn in H
             end;
      repeat match goal with
             | H : d_verify d ?p = (_, ?q) |- _ =>
                 let H1 := fresh in let H2 := fresh in
                 destruct (Hver p) as [H1 H2]; rewrite H in H1, H2; cbn in H1, H2; clear H
             end;
      repeat match goal with
             | |- context [fold_left ?f ?l ?p] =>
                 let H1 := fresh in let H2 := fresh in
                 destruct (Hfold CPUFREQ_NOTIFY p) as [H1 H2]; revert H1 H2;
                 generalize (fold_left f l p); intros
             end.
    all: rewrite ?(fun ev p => proj1 (Hfold ev p)), ?(fun ev p => proj2 (Hfold ev p)) in *.
    all: unfold proposed_min, proposed_max, window_min, window_max, umin, umax;
      repeat match goal with H : _ /\ _ |- _ => destruct H end; split; congruence.
Qed.

(** ** Governor dispatch *)

Lemma store_scaling_governor_result policy buf count s r s' :
  store_scaling_governor policy buf count s = Some (r, s') ->
  is_Some (sscanf_s buf) -> r = to_ssize count.
Proof.
  unfold store_scaling_governor. intros H [name Hname]. rewrite Hname in H.
  unfold bind at 1 in H.
  match type of H with match ?m with _ => _ end = _ => destruct m as [[[] s1]|] end;
    [|done].
  by injection H as <- _.
Qed.

Lemma governor_latency_fallback policy event s g0 :
  p_governor policy = Some g0 ->
  max_transition_latency (governor_at g0) <> 0 ->
  max_transition_latency (governor_at g0) < transition_latency (p_cpuinfo policy) ->
  match cpufreq_gov_performance with
  | Some perf =>
      let fallen_back := set_p_governor (Some perf) policy in
      let result := g_governor (governor_at perf) fallen_back event in
      module_pinnable (g_owner (governor_at perf)) s ->
      is_Some (p_governor (snd result)) ->
      exists s',
        __cpufreq_governor policy event s = Some (result, s') /\
        trace s' = trace s ++ [call_governor perf event]
  | None =>
      __cpufreq_governor policy event s = Some (- EINVAL, policy, s)
  end.
Proof.
  intros Hg Hlat Hslow. unfold __cpufreq_governor. rewrite Hg.
  assert (negb (max_transition_latency (governor_at g0) =? 0)
          && (max_transition_latency (governor_at g0) <? transition_latency (p_cpuinfo policy)) = true) as ->.
  { apply andb_true_iff. split; [apply negb_true_iff, Z.eqb_neq|apply Z.ltb_lt]; done. }
  destruct cpufreq_gov_performance as [perf|]; [|done].
  cbn. intros Hpin Hkeep.
  destruct (try_module_get_pinnable_frame _ _ Hpin) as (s1 & Hget & Hf1 & _).
  unfold bind at 1. rewrite Hget. cbn.
  destruct (g_governor (governor_at perf) (set_p_governor (Some perf) policy) event)
    as [r p'] eqn:Hcb.
  cbn in Hkeep. destruct Hkeep as [g' Hg'].
  unfold put_governor_module. rewrite Hg'. msimpl.
  set (s2 := set_trace (trace s1 ++ [call_governor perf event]) s1).
  assert (trace s2 = trace s ++ [call_governor perf event]) as Ht2.
  { unfold s2. cbn. by rewrite Hf1. }
  destruct (module_put_frame (g_owner (governor_at g')) s2) as (s3 & Hput3 & Hf3 & _).
  destruct (module_put_frame (g_owner (governor_at g')) s3) as (s4 & Hput4 & Hf4 & _).
  assert (trace s3 = trace s2) as Ht3 by (by rewrite Hf3).
  assert (trace s4 = trace s3) as Ht4 by (by rewrite Hf4).
  destruct (negb (gov_event_eqb event CPUFREQ_GOV_START) || negb (r =? 0));
    destruct (gov_event_eqb event CPUFREQ_GOV_STOP && (r =? 0)); cbn;
    rewrite ?Hput3; cbn; rewrite ?Hput4; cbn; eexists; (split; [done|congruence]).
Qed.


(** C5: when the policy's governor declares a non-zero max_transition_latency
    below the hardware transition latency, __cpufreq_governor puts the
    compiled-in performance governor in its place and delivers the event to
    it, returning what that governor returns; without a compiled-in fallback
    it returns -EINVAL and calls nobody.  A write to scaling_governor that
    names a governor returns the byte count in either case. *)
Theorem governor_too_slow_falls_back_to_performance policy event s g0 :
  p_governor policy = Some g0 ->
  max_transition_latency (governor_at g0) <> 0 ->
  max_transition_latency (governor_at g0) < transition_latency (p_cpuinfo policy) ->
  match cpufreq_gov_performance with
  | Some perf =>
      let fallen_back := set_p_governor (Some perf) policy in
      let result := g_governor (governor_at perf) fallen_back event in
      module_pinnable (g_owner (governor_at perf)) s ->
      is_Some (p_governor (snd result)) ->
      exists s',
        __cpufreq_governor policy event s = Some (result, s') /\
        trace s' = trace s ++ [call_governor perf event]
  | None =>
      __cpufreq_governor policy event s = Some (- EINVAL, policy, s)
  end
  /\
  (forall attr buf count r s',
     store_scaling_governor attr buf count s = Some (r, s') ->
     is_Some (sscanf_s buf) -> r = to_ssize count).
Proof.
  intros Hg Hlat Hslow. split.
  - exact (governor_latency_fallback policy event s g0 Hg Hlat Hslow).
  - intros attr buf count r s'. apply store_scaling_governor_result.
Qed.

(** ** Frequency transitions *)

Lemma notify_postchange freqs s d :
  cpufreq_driver s = Some d ->
  (forall p, cpufreq_cpu_data s !! f_cpu freqs = Some p -> is_Some (policies s !! p)) ->
  let delivered := {| f_cpu := f_cpu freqs; f_old := f_old freqs;
                      f_new := f_new freqs; f_flags := d_flags d |} in
  exists s',
    cpufreq_notify_transition freqs CPUFREQ_POSTCHANGE s = Some (delivered, s') /\
    trace s' = trace s ++ [call_transition_notifier CPUFREQ_POSTCHANGE delivered] /\
    s' = set_policies (policies s') (set_trace (trace s') s) /\
    (forall p v, cpufreq_cpu_data s !! f_cpu freqs = Some p -> policies s !! p = Some v ->
       p_cpu v = f_cpu freqs ->
       policies s' = <[p := set_p_cur (f_new freqs) v]> (policies s)) /\
    (cpufreq_cpu_data s !! f_cpu freqs = None \/
     (exists p v, cpufreq_cpu_data s !! f_cpu freqs = Some p /\ policies s !! p = Some v /\
                  p_cpu v <> f_cpu freqs) ->
     policies s' = policies s).
Proof.
  intros Hd Hwf delivered. unfold cpufreq_notify_transition, srcu_notifier_call_chain.
  msimpl. rewrite Hd. cbn.
  destruct (cpufreq_cpu_data s !! f_cpu freqs) as [p|] eqn:Hp; cbn.
  - destruct (Hwf p eq_refl) as [v Hv]. rewrite Hv. cbn.
    destruct (p_cpu v =? f_cpu freqs)%nat eqn:E; cbn.
    + apply Nat.eqb_eq in E. eexists. split; [done|]. cbn.
      split; [done|]. split; [done|]. split.
      * intros p' v' [= <-] Hv'. rewrite Hv in Hv'. by injection Hv' as <-.
      * intros [?|(p' & v' & [= <-] & Hv' & Hne)]; [done|]. congruence.
    + apply Nat.eqb_neq in E. eexists. split; [done|]. cbn.
      split; [done|]. split; [by destruct s|]. split; [|done].
      intros p' v' [= <-] Hv'. rewrite Hv in Hv'. injection Hv' as <-. done.
  - eexists. split; [done|]. cbn.
    split; [done|]. split; [by destruct s|]. split; done.
Qed.

Lemma notify_prechange_in_sync cpu old new s d :
  cpufreq_driver s = Some d ->
  (forall p, cpufreq_cpu_data s !! cpu = Some p ->
             exists v, policies s !! p = Some v /\ (p_cur v = 0 \/ p_cur v = old)) ->
  let delivered := {| f_cpu := cpu; f_old := old; f_new := new; f_flags := d_flags d |} in
  forall flags,
  cpufreq_notify_transition {| f_cpu := cpu; f_old := old; f_new := new; f_flags := flags |}
    CPUFREQ_PRECHANGE s =
  Some (delivered,
        set_trace (trace s ++ [call_transition_notifier CPUFREQ_PRECHANGE delivered]) s).
Proof.
  intros Hd Hwf delivered flags. unfold cpufreq_notify_transition, srcu_notifier_call_chain.
  msimpl. rewrite Hd. cbn.
  destruct (Z.land (d_flags d) CPUFREQ_CONST_LOOPS =? 0); cbn; [|done].
  destruct (cpufreq_cpu_data s !! cpu) as [p|] eqn:Hp; cbn; [|done].
  destruct (Hwf p eq_refl) as (v & -> & Hcur). cbn.
  destruct (p_cpu v =? cpu)%nat; cbn; [|done].
  destruct Hcur as [->| ->]; cbn; [done|].
  rewrite Z.eqb_refl. cbn. by rewrite andb_false_r.
Qed.

(** C8, as the code has it: when the driver reports a frequency that differs
    from the policy's [cur], the const_loops flag is clear and neither of the
    two frequencies is zero, __cpufreq_get delivers one PRECHANGE and then one
    POSTCHANGE carrying old = cur and new = the reported frequency, and leaves
    the policy's update work pending (queueing it unless it already was). *)
Theorem cpufreq_get_repairs_out_of_sync cpu s d get p v :
  cpufreq_driver s = Some d -> d_get d = Some get ->
  cpufreq_cpu_data s !! cpu = Some p -> policies s !! p = Some v ->
  get cpu <> 0 -> p_cur v <> 0 -> get cpu <> p_cur v ->
  Z.land (d_flags d) CPUFREQ_CONST_LOOPS = 0 ->
  let freqs := {| f_cpu := cpu; f_old := p_cur v; f_new := get cpu; f_flags := d_flags d |} in
  exists s',
    __cpufreq_get cpu s = Some (get cpu, s') /\
    trace s' = trace s ++ [call_get cpu;
                           call_transition_notifier CPUFREQ_PRECHANGE freqs;
                           call_transition_notifier CPUFREQ_POSTCHANGE freqs] /\
    p ∈ system_wq s' /\
    (p ∈ system_wq s -> system_wq s' = system_wq s) /\
    (p ∉ system_wq s -> system_wq s' = system_wq s ++ [p]) /\
    (p_cpu v = cpu -> policies s' !! p = Some (set_p_cur (get cpu) v)).
Proof.
  intros Hd Hget Hp Hv Hret Hcur Hdiff Hflags freqs.
  unfold __cpufreq_get. msimpl. rewrite Hp, Hd, Hget. cbn.
  rewrite (proj2 (Z.eqb_neq _ _) Hret). cbn. rewrite Hv. cbn.
  rewrite (proj2 (Z.eqb_neq _ _) Hcur), Hflags. cbn.
  rewrite (proj2 (Z.eqb_neq _ _) Hdiff). cbn.
  unfold cpufreq_out_of_sync. msimpl.
  rewrite (notify_prechange_in_sync cpu (p_cur v) (get cpu) _ d); [|done|].
  2:{ intros p' Hp'. cbn in Hp'. rewrite Hp in Hp'. injection Hp' as <-.
      exists v. split; [done|by right]. }
  cbn. fold freqs.
  set (s1 := set_trace _ _).
  destruct (notify_postchange freqs s1 d) as (s2 & Hpost & Ht2 & Hf2 & Hown & _); [done| |].
  { intros p'. cbn. rewrite Hp. intros [= <-]. by rewrite Hv. }
  replace {| f_cpu := f_cpu freqs; f_old := f_old freqs; f_new := f_new freqs;
             f_flags := d_flags d |} with freqs in Hpost, Ht2 by done.
  rewrite Hpost. cbn.
  assert (system_wq s2 = system_wq s) as Hwq by (by rewrite Hf2).
  assert (trace s2 = trace s ++ [call_get cpu;
                           call_transition_notifier CPUFREQ_PRECHANGE freqs;
                           call_transition_notifier CPUFREQ_POSTCHANGE freqs]) as Htr.
  { rewrite Ht2. unfold s1. cbn. by rewrite <- !app_assoc. }
  eexists. split; [done|].
  destruct (bool_decide (p ∈ system_wq s2)) eqn:E; cbn.
  - apply bool_decide_eq_true in E. rewrite Hwq in E.
    repeat split; try done; try congruence.
    intros Hown'. rewrite (Hown p v); [by rewrite lookup_insert_eq|done|done|done].
  - apply bool_decide_eq_false in E. rewrite Hwq in E.
    repeat split; try done; try congruence.
    + rewrite Hwq. apply elem_of_app. right. by left.
    + intros Hown'. rewrite (Hown p v); [by rewrite lookup_insert_eq|done|done|done].
Qed.

(** C6, as the code has it: after a POSTCHANGE for {cpu, old, new} the policy
    attached to [cpu] has [cur] = new when it exists and [cpu] is its owner,
    and no other policy is touched; for a cpu that is not the owner of its
    policy, or has none, no policy changes at all, so its [cur] is new only
    if it was new before. *)
Theorem postchange_sets_owner_cur freqs s d :
  cpufreq_driver s = Some d ->
  (forall p, cpufreq_cpu_data s !! f_cpu freqs = Some p -> is_Some (policies s !! p)) ->
  exists delivered s',
    cpufreq_notify_transition freqs CPUFREQ_POSTCHANGE s = Some (delivered, s') /\
    cpufreq_cpu_data s' = cpufreq_cpu_data s /\
    (forall p v, cpufreq_cpu_data s !! f_cpu freqs = Some p -> policies s !! p = Some v ->
       p_cpu v = f_cpu freqs ->
       policies s' !! p = Some (set_p_cur (f_new freqs) v) /\
       forall q, q <> p -> policies s' !! q = policies s !! q) /\
    (cpufreq_cpu_data s !! f_cpu freqs = None \/
     (exists p v, cpufreq_cpu_data s !! f_cpu freqs = Some p /\ policies s !! p = Some v /\
                  p_cpu v <> f_cpu freqs) ->
     policies s' = policies s).
Proof.
  intros Hd Hwf.
  destruct (notify_postchange freqs s d Hd Hwf) as (s' & Hrun & _ & Hf & Hown & Hother).
  eexists _, s'. split; [exact Hrun|]. split; [by rewrite Hf|]. split; [|done].
  intros p v Hp Hv Hcpu. rewrite (Hown p v Hp Hv Hcpu). split.
  - by rewrite lookup_insert_eq.
  - intros q Hq. by rewrite lookup_insert_ne.
Qed.

(** ** Attribute writes *)

Lemma for_each_neutral {A} (l : list A) (body : A -> M unit) s :
  (forall x, body x s = Some (tt, s)) -> for_each l body s = Some (tt, s).
Proof.
  intros H. induction l as [|x l IH]; cbn; [done|].
  unfold bind. by rewrite H.
Qed.

Lemma find_none_all {A} (f : A -> bool) (l : list A) :
  (forall x, x ∈ l -> f x = false) -> List.find f l = None.
Proof.
  induction l as [|x l IH]; cbn; [done|]. intros H.
  rewrite (H x) by by left. apply IH. intros y Hy. apply H. by right.
Qed.

Lemma parse_unknown_governor name new_policy s :
  unknown_governor name s ->
  cpufreq_parse_governor name new_policy s = Some (- EINVAL, new_policy, s).
Proof.
  unfold unknown_governor, cpufreq_parse_governor. msimpl.
  destruct (cpufreq_driver s) as [d|]; [|done].
  destruct (d_setpolicy d) as [f|].
  - intros [H1 H2]. apply Z.eqb_neq in H1, H2. by rewrite H1, H2.
  - destruct (d_target d) as [f|]; [|done].
    intros [Hlist Hreq]. unfold __find_governor. msimpl.
    assert (List.find (fun t => strnicmp name (g_name (governor_at t)) CPUFREQ_NAME_LEN =? 0)
              (cpufreq_governor_list s) = None) as Hfind.
    { apply find_none_all. intros t Hin. by apply Z.eqb_neq, Hlist. }
    rewrite Hfind. cbn.
    destruct (request_module ("cpufreq_" ++ name)) as [r loaded]. cbn in Hreq. subst loaded.
    cbn. destruct (r =? 0); cbn; [by rewrite Hfind|done].
Qed.

Lemma to_ssize_einval count :
  to_ssize (if to_uint (- EINVAL) =? 0 then count else to_uint (- EINVAL)) = - EINVAL.
Proof. reflexivity. Qed.

(** C3, and where the code departs from it.  A write to scaling_min_freq or
    scaling_max_freq whose text does not parse returns -EINVAL and changes
    nothing, and so does a write to scaling_governor without a name: these
    are as claimed.  A limit whose window the transition engine refuses
    returns the engine's -EINVAL, but store_one has then written the refused
    value to user_policy.min or user_policy.max (lines 498-501): that is the
    only change to the state, and the one the claim rules out.  A write that
    names an unknown governor changes nothing, but returns the byte count,
    not an error (line 582). *)
Theorem rejected_attribute_writes object policy buf count s :
  table_wf s ->
  (* a limit that does not parse *)
  (sscanf_u buf = None -> is_Some (policies s !! policy) ->
   store_one object policy buf count s = Some (- EINVAL, s)) /\
  (* a limit the transition engine refuses for its range *)
  (forall x pv d,
     sscanf_u buf = Some x ->
     policies s !! policy = Some pv ->
     cpufreq_cpu_data s !! p_cpu pv = Some policy ->
     (p_cpu pv < nr_cpu_ids)%nat ->
     cpufreq_driver s = Some d -> module_pinnable (d_owner d) s ->
     let proposed := set_object object x pv in
     let umin := u_min (p_user_policy pv) in
     let umax := u_max (p_user_policy pv) in
     window_min (p_min proposed) umax (to_uint (pm_qos_cpu_freq_min s)) > umax \/
     window_max (p_max proposed) umin (to_uint (pm_qos_cpu_freq_max s)) < umin ->
     store_one object policy buf count s
       = Some (- EINVAL,
               set_policies (<[policy := set_user_object object x pv]> (policies s)) s)) /\
  (* a governor write without a name *)
  (sscanf_s buf = None ->
   store_scaling_governor policy buf count s = Some (- EINVAL, s)) /\
  (* a governor write with a name nobody answers to *)
  (forall name,
     sscanf_s buf = Some name -> unknown_governor name s ->
     store_scaling_governor policy buf count s = Some (to_ssize count, s)).
Proof.
  intros Hwf. split; [|split; [|split]].
  - intros Hscan [pv Hpv]. unfold store_one. msimpl. rewrite Hpv. cbn.
    destruct (cpufreq_get_policy_neutral (p_cpu pv) s Hwf) as [o ->].
    destruct o; by rewrite ?Hscan.
  - intros x pv d Hscan Hpv Hattached Hcpu Hd Hpin proposed umin umax Hout.
    unfold store_one. msimpl. rewrite Hpv. cbn.
    unfold cpufreq_get_policy.
    destruct (Hwf _ _ Hattached) as (v & Hv & Hk).
    assert (v = pv) as -> by congruence.
    destruct (cpufreq_cpu_get_attached _ _ _ _ _ Hcpu Hd Hpin Hattached Hpv) as [s1 Hget].
    unfold bind at 1. rewrite Hget.
    destruct (cpufreq_cpu_get_success _ _ _ _ Hget)
      as (d' & v' & s0 & _ & _ & _ & Hv' & _ & Hs1).
    assert (v' = pv) as -> by congruence.
    destruct (cpufreq_cpu_put_after_get _ _ _ _ Hget) as (s2 & Hput & _ & _ & Hs2).
    assert (s2 = s) as ->.
    { apply Hs2. unfold kref. by rewrite Hpv. }
    assert (policies s1 !! policy
            = Some (set_p_kobj (p_kobj pv + 1) (p_kobj_unregister pv) pv)) as Hcopy.
    { rewrite Hs1. cbn. by rewrite lookup_insert_eq. }
    msimpl. rewrite Hcopy. cbn.
    rewrite Hput. cbn. rewrite Hscan, Hpv. cbn.
    set (np := set_object object x _).
    rewrite (set_policy_range_check pv np s).
    + cbn. rewrite to_ssize_einval. do 2 f_equal.
      unfold np. by destruct object.
    + cbn. assert (p_min np = p_min proposed /\ p_max np = p_max proposed) as [-> ->].
      { unfold np, proposed. by destruct object. }
      exact Hout.
  - intros Hscan. unfold store_scaling_governor. by rewrite Hscan.
  - intros name Hscan Hunknown. unfold store_scaling_governor. rewrite Hscan.
    unfold bind at 1.
    assert ((if CONFIG_HOTPLUG_CPU
             then let* present := gets cpu_present_mask in
                  for_each (for_each_cpu nr_cpu_ids present) (fun cpu =>
                    let* got := cpufreq_get_policy cpu in
                    match got with
                    | None => ret tt
                    | Some new_policy =>
                        let* (err, new_policy) := cpufreq_parse_governor name new_policy in
                        if negb (err =? 0) then ret tt
                        else
                          let* data := load policy in
                          let* (_, data, _) := __cpufreq_set_policy data new_policy in
                          store policy
                            (set_p_user_policy
                               (set_u_policy_governor (p_policy data) (p_governor data)
                                  (p_user_policy data)) data)
                    end)
             else ret tt) s = Some (tt, s)) as ->; [|done].
    destruct CONFIG_HOTPLUG_CPU; [|done].
    unfold bind at 1. cbn. apply for_each_neutral. intros cpu.
    destruct (cpufreq_get_policy_neutral cpu s Hwf) as [o Ho].
    unfold bind at 1. rewrite Ho. destruct o as [np|]; [|done].
    unfold bind at 1. by rewrite (parse_unknown_governor name np s Hunknown).
Qed.

(** ** Attachment *)

Lemma cpufreq_add_dev_attached cpu s d data v :
  CONFIG_SMP = true -> (cpu < nr_cpu_ids)%nat ->
  cpufreq_driver s = Some d -> module_pinnable (d_owner d) s ->
  cpufreq_cpu_data s !! cpu = Some data -> policies s !! data = Some v -> p_kobj v <> 0 ->
  cpufreq_add_dev cpu s = Some (0, s).
Proof.
  intros Hsmp Hcpu Hd Hpin Hdata Hv Hk. unfold cpufreq_add_dev, cpu_online.
  unfold bind at 1. unfold gets at 1.
  destruct (cpumask_test_cpu cpu (cpu_online_mask s)); cbn; [|done].
  rewrite Hsmp.
  destruct (cpufreq_cpu_get_attached _ _ _ _ _ Hcpu Hd Hpin Hdata Hv) as [s1 Hget].
  unfold bind at 1. rewrite Hget.
  destruct (cpufreq_cpu_put_after_get _ _ _ _ Hget) as (s2 & Hput & _ & _ & Hs2).
  unfold bind at 1. rewrite Hput. cbn.
  rewrite Hs2; [done|]. unfold kref. by rewrite Hv.
Qed.

(** C7: for a cpu that already has an entry in cpufreq_cpu_data,
    cpufreq_add_dev returns 0 and leaves the state as it found it: no policy
    is allocated and no table entry changes.  So a second cpufreq_add_dev
    right after one that attached the cpu leaves the table the first call
    produced.  (The check is compiled under CONFIG_SMP; the driver must be
    registered and its module live, as they are while cpus are attached.) *)
Theorem cpufreq_add_dev_idempotent cpu s d data v :
  CONFIG_SMP = true -> (cpu < nr_cpu_ids)%nat ->
  cpufreq_driver s = Some d -> module_pinnable (d_owner d) s ->
  cpufreq_cpu_data s !! cpu = Some data -> policies s !! data = Some v -> p_kobj v <> 0 ->
  cpufreq_add_dev cpu s = Some (0, s) /\
  (forall s0 r, cpufreq_add_dev cpu s0 = Some (r, s) ->
     (let* _ := cpufreq_add_dev cpu in cpufreq_add_dev cpu) s0 = Some (0, s)).
Proof.
  intros Hsmp Hcpu Hd Hpin Hdata Hv Hk.
  pose proof (cpufreq_add_dev_attached _ _ _ _ _ Hsmp Hcpu Hd Hpin Hdata Hv Hk) as Hagain.
  split; [done|]. intros s0 r Hfirst. unfold bind. by rewrite Hfirst.
Qed.

End CoreProperties.

(** * Properties of the rest of the interface *)

Arguments __find_governor : simpl never.
Arguments cpufreq_register_governor : simpl never.

Section Running.

(** ** Running the monad step by step *)

Lemma bind_run {A B} (m : M A) (k : A -> M B) s a s' :
  m s = Some (a, s') -> bind m k s = k a s'.
Proof. unfold bind. by intros ->. Qed.

Lemma load_run p s v : policies s !! p = Some v -> load p s = Some (v, s).
Proof. unfold load. by intros ->. Qed.

Lemma gets_run {A B} (f : kstate -> A) (k : A -> M B) s : bind (gets f) k s = k (f s) s.
Proof. done. Qed.

Lemma ret_run {A B} (a : A) (k : A -> M B) s : bind (ret a) k s = k a s.
Proof. done. Qed.

Lemma store_run {B} p v (k : unit -> M B) s :
  bind (store p v) k s = k tt (set_policies (<[p := v]> (policies s)) s).
Proof. done. Qed.

Lemma record_run {B} c (k : unit -> M B) s :
  bind (record c) k s = k tt (set_trace (trace s ++ [c]) s).
Proof. done. Qed.

Lemma bind_assoc {A B C} (m : M A) (k : A -> M B) (k' : B -> M C) s :
  bind (bind m k) k' s = bind m (fun x => bind (k x) k') s.
Proof. unfold bind. by destruct (m s) as [[a s']|]. Qed.

End Running.

Section InterfaceProperties.

Context {K : kernel_env} {L : kernel_lib}.

(** ** Transition notices *)

(** X1: when a PRECHANGE notice arrives for the owner cpu of a policy whose
    [cur] is neither 0 nor the old frequency of the notice, and the driver's
    const_loops flag is clear, cpufreq_notify_transition puts the policy's
    [cur] in place of the old frequency before the notice goes to the
    transition chain; nothing but the record of calls changes.  With
    const_loops set the notice goes out with the old frequency it came with. *)
Theorem prechange_adopts_policy_cur cpu old new flags s d :
  cpufreq_driver s = Some d ->
  let notice := {| f_cpu := cpu; f_old := old; f_new := new; f_flags := flags |} in
  let delivered o := {| f_cpu := cpu; f_old := o; f_new := new; f_flags := d_flags d |} in
  let sent o := set_trace (trace s ++ [call_transition_notifier CPUFREQ_PRECHANGE (delivered o)]) s in
  (forall p v,
     Z.land (d_flags d) CPUFREQ_CONST_LOOPS = 0 ->
     cpufreq_cpu_data s !! cpu = Some p -> policies s !! p = Some v ->
     p_cpu v = cpu -> p_cur v <> 0 -> p_cur v <> old ->
     cpufreq_notify_transition notice CPUFREQ_PRECHANGE s
       = Some (delivered (p_cur v), sent (p_cur v))) /\
  (Z.land (d_flags d) CPUFREQ_CONST_LOOPS <> 0 ->
     cpufreq_notify_transition notice CPUFREQ_PRECHANGE s = Some (delivered old, sent old)).
Proof.
  intros Hd notice delivered sent. split.
  - intros p v Hflags Hp Hv Hcpu Hcur Hdiff.
    unfold cpufreq_notify_transition, srcu_notifier_call_chain. msimpl.
    rewrite Hd. cbn. rewrite Hflags, Hp. cbn. rewrite Hv. cbn.
    rewrite Hcpu, Nat.eqb_refl.
    rewrite (proj2 (Z.eqb_neq _ _) Hcur), (proj2 (Z.eqb_neq _ _) Hdiff). cbn.
    by subst cpu.
  - intros Hflags.
    unfold cpufreq_notify_transition, srcu_notifier_call_chain. msimpl.
    rewrite Hd. cbn. by rewrite (proj2 (Z.eqb_neq _ _) Hflags).
Qed.

(** ** The governor registry *)

Lemma find_governor_state name s : exists o, __find_governor name s = Some (o, s).
Proof. unfold __find_governor, gets. eauto. Qed.

(** X2: cpufreq_register_governor returns -EINVAL for a NULL governor, and
    -EBUSY, leaving the list alone, when a registered governor already answers
    to the name.  Otherwise it returns 0 and puts the governor at the head of
    the list; the governor is then found under its own name, and registering
    it a second time returns -EBUSY.  (A name has to compare equal to itself
    under strnicmp.) *)
Theorem register_governor_once g s :
  cpufreq_register_governor None s = Some (- EINVAL, s) /\
  (forall t, __find_governor (g_name (governor_at g)) s = Some (Some t, s) ->
     cpufreq_register_governor (Some g) s = Some (- EBUSY, s)) /\
  (__find_governor (g_name (governor_at g)) s = Some (None, s) ->
   strnicmp (g_name (governor_at g)) (g_name (governor_at g)) CPUFREQ_NAME_LEN = 0 ->
   exists s',
     cpufreq_register_governor (Some g) s = Some (0, s') /\
     s' = set_governor_list (g :: cpufreq_governor_list s) s /\
     __find_governor (g_name (governor_at g)) s' = Some (Some g, s') /\
     cpufreq_register_governor (Some g) s' = Some (- EBUSY, s')).
Proof.
  split; [done|]. split.
  - intros t Hfind. unfold cpufreq_register_governor, bind. by rewrite Hfind.
  - intros Hfind Hrefl. eexists. split; [|split; [reflexivity|]].
    + unfold cpufreq_register_governor, bind. by rewrite Hfind.
    + assert (__find_governor (g_name (governor_at g))
                (set_governor_list (g :: cpufreq_governor_list s) s)
              = Some (Some g, set_governor_list (g :: cpufreq_governor_list s) s)) as Hnow.
      { unfold __find_governor, gets. cbn. by rewrite Hrefl. }
      split; [done|]. unfold cpufreq_register_governor, bind. by rewrite Hnow.
Qed.

(** X3: for a driver of the target kind cpufreq_parse_governor resolves a
    name to the registered governor that answers to it and touches nothing
    else.  When nobody answers, it asks for the module cpufreq_<name>: if the
    load succeeds and the module registers a governor that answers to the
    name, that governor is the result and it stays registered; if nothing gets
    registered the result is -EINVAL and the state is unchanged. *)
Theorem parse_governor_resolves name new_policy s d :
  cpufreq_driver s = Some d -> d_setpolicy d = None -> is_Some (d_target d) ->
  (* a registered governor answers to the name *)
  (forall g, __find_governor name s = Some (Some g, s) ->
     cpufreq_parse_governor name new_policy s
       = Some (0, set_p_governor (Some g) new_policy, s)) /\
  (* nobody answers, and the module loaded for the name registers one that does *)
  (forall g,
     __find_governor name s = Some (None, s) ->
     request_module ("cpufreq_" ++ name) = (0, [g]) ->
     __find_governor (g_name (governor_at g)) s = Some (None, s) ->
     strnicmp name (g_name (governor_at g)) CPUFREQ_NAME_LEN = 0 ->
     cpufreq_parse_governor name new_policy s
       = Some (0, set_p_governor (Some g) new_policy,
               set_governor_list (g :: cpufreq_governor_list s) s)) /\
  (* nobody answers and the module cannot be loaded *)
  (forall r,
     __find_governor name s = Some (None, s) ->
     request_module ("cpufreq_" ++ name) = (r, []) ->
     cpufreq_parse_governor name new_policy s = Some (- EINVAL, new_policy, s)).
Proof.
  intros Hd Hset [f Htarget]. split; [|split].
  - intros g Hfind. unfold cpufreq_parse_governor. msimpl.
    rewrite Hd, Hset, Htarget. by rewrite Hfind.
  - intros g Hfind Hreq Hfresh Hmatch. unfold cpufreq_parse_governor. msimpl.
    rewrite Hd, Hset, Htarget. rewrite Hfind. cbn.
    rewrite Hreq. cbn.
    unfold cpufreq_register_governor. msimpl. rewrite Hfresh. cbn.
    unfold __find_governor, gets. cbn. by rewrite Hmatch.
  - intros r Hfind Hreq. unfold cpufreq_parse_governor. msimpl.
    rewrite Hd, Hset, Htarget. rewrite Hfind. cbn.
    rewrite Hreq. cbn. destruct (r =? 0); [|done].
    by rewrite Hfind.
Qed.

(** ** Snapshots and quick reads *)

Lemma try_module_get_unpinnable owner s :
  ~ module_pinnable owner s -> try_module_get owner s = Some (false, s).
Proof.
  unfold try_module_get, module_pinnable. destruct owner as [m|]; cbn; [|tauto].
  intros H. destruct (modules s !! m) as [md|] eqn:Hm; [|done].
  destruct (m_live md) eqn:Hl; [|done]. exfalso. apply H. eauto.
Qed.

Lemma cpufreq_cpu_get_unpinnable cpu s d :
  cpufreq_driver s = Some d -> ~ module_pinnable (d_owner d) s ->
  cpufreq_cpu_get cpu s = Some (None, s).
Proof.
  intros Hd Hpin. unfold cpufreq_cpu_get.
  destruct (nr_cpu_ids <=? cpu)%nat; [done|]. msimpl. rewrite Hd.
  by rewrite (try_module_get_unpinnable _ _ Hpin).
Qed.

(** Holding a reference across a step that leaves the state alone. *)
Lemma cpufreq_cpu_get_hold cpu s d data v :
  (cpu < nr_cpu_ids)%nat -> cpufreq_driver s = Some d ->
  module_pinnable (d_owner d) s ->
  cpufreq_cpu_data s !! cpu = Some data -> policies s !! data = Some v -> p_kobj v <> 0 ->
  exists s1,
    cpufreq_cpu_get cpu s = Some (Some data, s1) /\
    cpufreq_cpu_put data s1 = Some (tt, s) /\
    policies s1 = <[data := set_p_kobj (p_kobj v + 1) (p_kobj_unregister v) v]> (policies s) /\
    s1 = set_policies (policies s1) (set_modules (modules s1) s) /\
    (forall o, module_pinnable o s -> module_pinnable o s1).
Proof.
  intros Hcpu Hd Hpin Hdata Hv Hk.
  destruct (cpufreq_cpu_get_attached _ _ _ _ _ Hcpu Hd Hpin Hdata Hv) as [s1 Hget].
  exists s1. split; [done|].
  destruct (cpufreq_cpu_put_after_get _ _ _ _ Hget) as (s2 & Hput & _ & _ & Hs2).
  rewrite Hs2 in Hput by (unfold kref; by rewrite Hv).
  split; [done|].
  destruct (cpufreq_cpu_get_success _ _ _ _ Hget)
    as (d' & v' & s0 & _ & Hd' & _ & Hv' & Hmod & ->).
  assert (v' = v) as -> by congruence.
  assert (d' = d) as -> by congruence.
  destruct (try_module_get_pinnable_frame _ _ Hpin) as (s0' & Hmod' & Hf & Hpins).
  assert (s0' = s0) as -> by congruence.
  split; [done|]. split.
  - cbn. rewrite Hf. by destruct s.
  - intros o Ho. specialize (Hpins o Ho). by destruct o.
Qed.

Lemma cpufreq_get_policy_attached cpu s d data v :
  table_wf s ->
  (cpu < nr_cpu_ids)%nat -> cpufreq_driver s = Some d ->
  module_pinnable (d_owner d) s ->
  cpufreq_cpu_data s !! cpu = Some data -> policies s !! data = Some v ->
  cpufreq_get_policy cpu s
    = Some (Some (set_p_kobj (p_kobj v + 1) (p_kobj_unregister v) v), s).
Proof.
  intros Hwf Hcpu Hd Hpin Hdata Hv.
  destruct (Hwf _ _ Hdata) as (v' & Hv' & Hk).
  assert (v' = v) as -> by congruence.
  destruct (cpufreq_cpu_get_hold _ _ _ _ _ Hcpu Hd Hpin Hdata Hv Hk)
    as (s1 & Hget & Hput & Hp1 & _).
  unfold cpufreq_get_policy. unfold bind at 1. rewrite Hget. msimpl.
  rewrite Hp1, lookup_insert_eq. cbn. by rewrite Hput.
Qed.

(** X4: cpufreq_get_policy leaves the state as it found it.  For an attached
    cpu it hands back a copy of the policy taken while the reference is held,
    so the kobject count of the copy is one above the count at rest; it fails
    when the cpu is out of range, no driver is registered, the cpu has no
    policy, or the driver's module cannot be pinned. *)
Theorem cpufreq_get_policy_snapshot cpu s :
  table_wf s ->
  (forall d data v,
     (cpu < nr_cpu_ids)%nat -> cpufreq_driver s = Some d ->
     module_pinnable (d_owner d) s ->
     cpufreq_cpu_data s !! cpu = Some data -> policies s !! data = Some v ->
     cpufreq_get_policy cpu s
       = Some (Some (set_p_kobj (p_kobj v + 1) (p_kobj_unregister v) v), s)) /\
  ((nr_cpu_ids <= cpu)%nat \/ cpufreq_driver s = None \/
   cpufreq_cpu_data s !! cpu = None \/
   (exists d, cpufreq_driver s = Some d /\ ~ module_pinnable (d_owner d) s) ->
   cpufreq_get_policy cpu s = Some (None, s)).
Proof.
  intros Hwf. split.
  - intros d data v. by apply cpufreq_get_policy_attached.
  - intros H. unfold cpufreq_get_policy, bind.
    assert (cpufreq_cpu_get cpu s = Some (None, s)) as ->; [|done].
    destruct H as [H|[H|[H|(d & Hd & Hpin)]]].
    + apply cpufreq_cpu_get_fails. by left.
    + apply cpufreq_cpu_get_fails. right. by left.
    + apply cpufreq_cpu_get_fails. right. by right.
    + by apply (cpufreq_cpu_get_unpinnable _ _ d).
Qed.

(** X5: cpufreq_quick_get and cpufreq_quick_get_max return [cur] and [max]
    of the policy attached to the cpu, without calling the driver and without
    changing the state; they return 0 whenever cpufreq_cpu_get fails. *)
Theorem cpufreq_quick_get_reads_policy cpu s :
  table_wf s ->
  (forall d data v,
     (cpu < nr_cpu_ids)%nat -> cpufreq_driver s = Some d ->
     module_pinnable (d_owner d) s ->
     cpufreq_cpu_data s !! cpu = Some data -> policies s !! data = Some v ->
     cpufreq_quick_get cpu s = Some (p_cur v, s) /\
     cpufreq_quick_get_max cpu s = Some (p_max v, s)) /\
  ((nr_cpu_ids <= cpu)%nat \/ cpufreq_driver s = None \/
   cpufreq_cpu_data s !! cpu = None \/
   (exists d, cpufreq_driver s = Some d /\ ~ module_pinnable (d_owner d) s) ->
   cpufreq_quick_get cpu s = Some (0, s) /\
   cpufreq_quick_get_max cpu s = Some (0, s)).
Proof.
  intros Hwf. split.
  - intros d data v Hcpu Hd Hpin Hdata Hv.
    destruct (Hwf _ _ Hdata) as (v' & Hv' & Hk).
    assert (v' = v) as -> by congruence.
    destruct (cpufreq_cpu_get_hold _ _ _ _ _ Hcpu Hd Hpin Hdata Hv Hk)
      as (s1 & Hget & Hput & Hp1 & _).
    unfold cpufreq_quick_get, cpufreq_quick_get_max.
    unfold bind at 1. unfold bind at 3. rewrite Hget. msimpl.
    rewrite Hp1, lookup_insert_eq. cbn. by rewrite Hput.
  - intros H. unfold cpufreq_quick_get, cpufreq_quick_get_max, bind.
    assert (cpufreq_cpu_get cpu s = Some (None, s)) as ->; [|done].
    destruct H as [H|[H|[H|(d & Hd & Hpin)]]].
    + apply cpufreq_cpu_get_fails. by left.
    + apply cpufreq_cpu_get_fails. right. by left.
    + apply cpufreq_cpu_get_fails. right. by right.
    + by apply (cpufreq_cpu_get_unpinnable _ _ d).
Qed.

End InterfaceProperties.

Arguments lock_policy_rwsem : simpl never.
Arguments unlock_policy_rwsem : simpl never.

Section EntryPoints.

Context {K : kernel_env} {L : kernel_lib}.

Lemma lock_policy_rwsem_run cpu s :
  policy_cpu_known cpu s ->
  lock_policy_rwsem cpu s
    = Some (if cpumask_test_cpu cpu (cpu_online_mask s) then 0 else -1, s) /\
  unlock_policy_rwsem cpu s = Some (tt, s).
Proof.
  unfold policy_cpu_known, lock_policy_rwsem, unlock_policy_rwsem, per_cpu_policy_cpu,
    cpu_online.
  intros H. apply Z.eqb_neq in H. msimpl. rewrite H.
  by destruct (cpumask_test_cpu cpu (cpu_online_mask s)).
Qed.

Lemma lock_policy_rwsem_held cpu s P Mo :
  policy_cpu_known cpu s ->
  lock_policy_rwsem cpu (set_policies P (set_modules Mo s))
    = Some (if cpumask_test_cpu cpu (cpu_online_mask s) then 0 else -1,
            set_policies P (set_modules Mo s)) /\
  unlock_policy_rwsem cpu (set_policies P (set_modules Mo s))
    = Some (tt, set_policies P (set_modules Mo s)).
Proof. intros H. by apply (lock_policy_rwsem_run cpu (set_policies P (set_modules Mo s))). Qed.

(** X6: the sysfs entry points show and store return -EINVAL when nobody
    answers for the cpu of the kobject or when that cpu has gone offline, and
    -EIO when the attribute lacks the method; in each of these cases the
    references taken are dropped again and the state is unchanged.  A read of
    an attribute that only formats fields of the policy returns the formatted
    text and leaves the state unchanged. *)
Theorem sysfs_entry_points kobj fattr buf count s kv :
  table_wf s -> policies s !! kobj = Some kv ->
  (* nobody answers for the cpu of the kobject *)
  ((nr_cpu_ids <= p_cpu kv)%nat \/ cpufreq_driver s = None \/
   cpufreq_cpu_data s !! p_cpu kv = None ->
   sysfs_show kobj fattr s = Some (- EINVAL, EmptyString, s) /\
   sysfs_store kobj fattr buf count s = Some (- EINVAL, s)) /\
  (forall d policy pv,
     (p_cpu kv < nr_cpu_ids)%nat -> cpufreq_driver s = Some d ->
     module_pinnable (d_owner d) s ->
     cpufreq_cpu_data s !! p_cpu kv = Some policy -> policies s !! policy = Some pv ->
     policy_cpu_known (p_cpu pv) s ->
     (* the cpu has gone offline *)
     (~ cpu_is_online (p_cpu pv) s ->
      sysfs_show kobj fattr s = Some (- EINVAL, EmptyString, s) /\
      sysfs_store kobj fattr buf count s = Some (- EINVAL, s)) /\
     (* the attribute lacks the method *)
     (cpu_is_online (p_cpu pv) s -> fa_show fattr = None ->
      sysfs_show kobj fattr s = Some (- EIO, EmptyString, s)) /\
     (cpu_is_online (p_cpu pv) s -> fa_store fattr = None ->
      sysfs_store kobj fattr buf count s = Some (- EIO, s)) /\
     (* a read that only formats fields of the policy *)
     (forall f, cpu_is_online (p_cpu pv) s -> fa_show fattr = Some (pure_show f) ->
      sysfs_show kobj fattr s
        = Some (f (set_p_kobj (p_kobj pv + 1) (p_kobj_unregister pv) pv), s))).
Proof.
  intros Hwf Hkv. pose proof (load_run _ _ _ Hkv) as Hload. split.
  - intros H. pose proof (cpufreq_cpu_get_fails _ _ H) as Hget.
    unfold sysfs_show, sysfs_store.
    by rewrite !(bind_run _ _ _ _ _ Hload), !(bind_run _ _ _ _ _ Hget).
  - intros d policy pv Hcpu Hd Hpin Hdata Hpv Hknown.
    destruct (Hwf _ _ Hdata) as (v' & Hv' & Hk).
    assert (v' = pv) as -> by congruence.
    destruct (cpufreq_cpu_get_hold _ _ _ _ _ Hcpu Hd Hpin Hdata Hpv Hk)
      as (s1 & Hget & Hput & Hp1 & Hf1 & _).
    set (held := set_p_kobj (p_kobj pv + 1) (p_kobj_unregister pv) pv) in *.
    assert (load policy s1 = Some (held, s1)) as Hload1.
    { apply load_run. by rewrite Hp1, lookup_insert_eq. }
    destruct (lock_policy_rwsem_held (p_cpu pv) s (policies s1) (modules s1) Hknown)
      as [Hlock Hunlock].
    rewrite <- Hf1 in Hlock, Hunlock.
    change (lock_policy_rwsem (p_cpu pv)) with (lock_policy_rwsem (p_cpu held)) in Hlock.
    change (unlock_policy_rwsem (p_cpu pv)) with (unlock_policy_rwsem (p_cpu held)) in Hunlock.
    unfold cpu_is_online. unfold sysfs_show, sysfs_store.
    rewrite !(bind_run _ _ _ _ _ Hload), !(bind_run _ _ _ _ _ Hget).
    rewrite !(bind_run _ _ _ _ _ Hload1), !(bind_run _ _ _ _ _ Hlock).
    split; [|split; [|split]].
    + intros Hoff. apply not_true_is_false in Hoff. rewrite Hoff. cbn.
      split; unfold bind, ret; by rewrite Hput.
    + intros Hon Hnone. rewrite Hon, Hnone. cbn.
      unfold bind, ret. by rewrite Hload1, Hunlock, Hput.
    + intros Hon Hnone. rewrite Hon, Hnone. cbn.
      unfold bind, ret. by rewrite Hload1, Hunlock, Hput.
    + intros f Hon Hsome. rewrite Hon, Hsome. cbn.
      unfold pure_show, bind, ret. by rewrite !Hload1, Hunlock, Hput.
Qed.

End EntryPoints.

Section Selection.

Context {K : kernel_env} {L : kernel_lib}.

Lemma unknown_governor_held name s P Mo :
  unknown_governor name s -> unknown_governor name (set_policies P (set_modules Mo s)).
Proof. done. Qed.

(** X7: cpufreq_set_gov returns -EINVAL and changes nothing when the name is
    NULL, the cpu has no policy, the policy's cpu is offline, the policy has no
    governor, the name of the current governor begins with the target name
    (the comparison runs over the length of the target only), or nobody
    answers to the target name. *)
Theorem cpufreq_set_gov_rejections target cpu s :
  table_wf s ->
  cpufreq_set_gov None cpu s = Some (- EINVAL, s) /\
  ((nr_cpu_ids <= cpu)%nat \/ cpufreq_driver s = None \/ cpufreq_cpu_data s !! cpu = None ->
   cpufreq_set_gov (Some target) cpu s = Some (- EINVAL, s)) /\
  (forall d policy pv,
     (cpu < nr_cpu_ids)%nat -> cpufreq_driver s = Some d ->
     module_pinnable (d_owner d) s ->
     cpufreq_cpu_data s !! cpu = Some policy -> policies s !! policy = Some pv ->
     policy_cpu_known (p_cpu pv) s ->
     (~ cpu_is_online (p_cpu pv) s ->
      cpufreq_set_gov (Some target) cpu s = Some (- EINVAL, s)) /\
     (cpu_is_online (p_cpu pv) s -> p_governor pv = None ->
      cpufreq_set_gov (Some target) cpu s = Some (- EINVAL, s)) /\
     (forall g, cpu_is_online (p_cpu pv) s -> p_governor pv = Some g ->
        strncmp (g_name (governor_at g)) target (String.length target) = 0 ->
        cpufreq_set_gov (Some target) cpu s = Some (- EINVAL, s)) /\
     (forall g, cpu_is_online (p_cpu pv) s -> p_governor pv = Some g ->
        strncmp (g_name (governor_at g)) target (String.length target) <> 0 ->
        unknown_governor target s ->
        cpufreq_set_gov (Some target) cpu s = Some (- EINVAL, s))).
Proof.
  intros Hwf. split; [done|]. split.
  - intros H. pose proof (cpufreq_cpu_get_fails _ _ H) as Hget.
    unfold cpufreq_set_gov. by rewrite (bind_run _ _ _ _ _ Hget).
  - intros d policy pv Hcpu Hd Hpin Hdata Hpv Hknown.
    destruct (Hwf _ _ Hdata) as (v' & Hv' & Hk).
    assert (v' = pv) as -> by congruence.
    destruct (cpufreq_cpu_get_hold _ _ _ _ _ Hcpu Hd Hpin Hdata Hpv Hk)
      as (s1 & Hget & Hput & Hp1 & Hf1 & _).
    set (held := set_p_kobj (p_kobj pv + 1) (p_kobj_unregister pv) pv) in *.
    assert (load policy s1 = Some (held, s1)) as Hload1.
    { apply load_run. by rewrite Hp1, lookup_insert_eq. }
    destruct (lock_policy_rwsem_held (p_cpu pv) s (policies s1) (modules s1) Hknown)
      as [Hlock Hunlock].
    rewrite <- Hf1 in Hlock, Hunlock.
    assert (p_cpu held = p_cpu pv) as Hsame by done.
    assert (p_governor held = p_governor pv) as Hgov by done.
    clearbody held.
    unfold cpu_is_online, cpufreq_set_gov.
    rewrite !(bind_run _ _ _ _ _ Hget), !(bind_run _ _ _ _ _ Hload1).
    rewrite Hsame, Hgov, !(bind_run _ _ _ _ _ Hlock).
    split; [|split; [|split]].
    + intros Hoff. apply not_true_is_false in Hoff. rewrite Hoff. cbn.
      unfold bind, ret. by rewrite Hput.
    + intros Hon Hnone. rewrite Hon, Hnone. cbn.
      unfold bind, ret. by rewrite Hunlock, Hput.
    + intros g Hon Hg Hsame'. rewrite Hon, Hg, Hsame'. cbn.
      unfold bind, ret. by rewrite Hunlock, Hput.
    + intros g Hon Hg Hdiff Hunknown. rewrite Hon, Hg. cbn.
      apply Z.eqb_neq in Hdiff. rewrite Hdiff. cbn.
      assert (cpufreq_parse_governor target held s1 = Some (- EINVAL, held, s1)) as Hparse.
      { apply parse_unknown_governor. rewrite Hf1. by apply unknown_governor_held. }
      unfold bind, ret. rewrite Hunlock, Hload1, Hparse.
      change (negb (- EINVAL =? 0)) with true. cbn. by rewrite Hput.
Qed.

(** X8: cpufreq_update_policy returns -ENODEV when cpufreq_cpu_get fails (the
    cpu number is out of range, no driver is registered, the cpu has no
    policy, or the driver's module cannot be pinned) and -EINVAL when the cpu
    is offline; the state is unchanged in both cases. *)
Theorem cpufreq_update_policy_errors cpu s :
  table_wf s ->
  ((nr_cpu_ids <= cpu)%nat \/ cpufreq_driver s = None \/ cpufreq_cpu_data s !! cpu = None \/
   (exists d, cpufreq_driver s = Some d /\ ~ module_pinnable (d_owner d) s) ->
   cpufreq_update_policy cpu s = Some (- ENODEV, s)) /\
  (forall d data v,
     (cpu < nr_cpu_ids)%nat -> cpufreq_driver s = Some d ->
     module_pinnable (d_owner d) s ->
     cpufreq_cpu_data s !! cpu = Some data -> policies s !! data = Some v ->
     policy_cpu_known cpu s -> ~ cpu_is_online cpu s ->
     cpufreq_update_policy cpu s = Some (- EINVAL, s)).
Proof.
  intros Hwf. split.
  - intros H.
    assert (cpufreq_cpu_get cpu s = Some (None, s)) as Hget.
    { destruct H as [H|[H|[H|(d & Hd & Hnp)]]].
      - apply cpufreq_cpu_get_fails. by left.
      - apply cpufreq_cpu_get_fails. right. by left.
      - apply cpufreq_cpu_get_fails. right. by right.
      - by apply (cpufreq_cpu_get_unpinnable cpu s d). }
    unfold cpufreq_update_policy. by rewrite (bind_run _ _ _ _ _ Hget).
  - intros d data v Hcpu Hd Hpin Hdata Hv Hknown Hoff.
    destruct (Hwf _ _ Hdata) as (v' & Hv' & Hk).
    assert (v' = v) as -> by congruence.
    destruct (cpufreq_cpu_get_hold _ _ _ _ _ Hcpu Hd Hpin Hdata Hv Hk)
      as (s1 & Hget & Hput & Hp1 & Hf1 & _).
    destruct (lock_policy_rwsem_held cpu s (policies s1) (modules s1) Hknown)
      as [Hlock _].
    rewrite <- Hf1 in Hlock.
    apply not_true_is_false in Hoff. unfold cpu_is_online in Hoff. rewrite Hoff in Hlock.
    unfold cpufreq_update_policy.
    rewrite (bind_run _ _ _ _ _ Hget), (bind_run _ _ _ _ _ Hlock). cbn.
    unfold bind, ret. by rewrite Hput.
Qed.

End Selection.

Arguments cpufreq_add_dev : simpl never.
Arguments schedule_work : simpl never.

Section Lifecycle.

Context {K : kernel_env} {L : kernel_lib}.

Lemma cpufreq_cpu_put_run data s d v :
  cpufreq_driver s = Some d -> policies s !! data = Some v ->
  exists s',
    cpufreq_cpu_put data s = Some (tt, s') /\
    policies s' = <[data := set_p_kobj (p_kobj v - 1)
                              (if p_kobj v - 1 =? 0 then true else p_kobj_unregister v) v]>
                    (policies s) /\
    s' = set_policies (policies s') (set_modules (modules s') s) /\
    (forall m, d_owner d = Some m -> is_Some (modules s !! m) ->
               module_refs (d_owner d) s' = module_refs (d_owner d) s - 1).
Proof.
  intros Hd Hv. unfold cpufreq_cpu_put, kobject_put. msimpl. rewrite Hv. cbn. rewrite Hd.
  set (s0 := set_policies _ s).
  destruct (module_put_frame (d_owner d) s0) as (s' & Hput & Hf & _).
  exists s'. split; [done|]. split; [by rewrite Hf|]. split.
  - assert (policies s' = policies s0) as Hp by (by rewrite Hf).
    rewrite Hp. rewrite Hf at 1. unfold s0. cbn. by destruct s.
  - intros m Hm [md Hmd]. revert Hput. unfold module_put. rewrite Hm. unfold s0. cbn.
    rewrite Hmd. intros [= <-]. unfold module_refs. cbn. by rewrite lookup_insert_eq.
Qed.

(** X9: without a policy for the boot cpu cpufreq_bp_suspend returns 0 and
    cpufreq_bp_resume returns, both leaving the state alone.  Otherwise
    suspend returns what the driver's suspend callback returns (0 without
    one) and queues nothing; resume leaves the policy's update work pending
    when the driver has no resume callback or the callback returns 0, and
    does not touch the work queue when the callback fails. *)
Theorem cpufreq_bp_suspend_resume s :
  let cpu := smp_processor_id s in
  ((nr_cpu_ids <= cpu)%nat \/ cpufreq_driver s = None \/ cpufreq_cpu_data s !! cpu = None ->
   cpufreq_bp_suspend s = Some (0, s) /\ cpufreq_bp_resume s = Some (tt, s)) /\
  (forall d p v,
     (cpu < nr_cpu_ids)%nat -> cpufreq_driver s = Some d ->
     module_pinnable (d_owner d) s ->
     cpufreq_cpu_data s !! cpu = Some p -> policies s !! p = Some v ->
     let held := set_p_kobj (p_kobj v + 1) (p_kobj_unregister v) v in
     (exists s',
        cpufreq_bp_suspend s
          = Some (match d_suspend d with Some suspend => fst (suspend held) | None => 0 end,
                  s') /\
        system_wq s' = system_wq s) /\
     (exists s',
        cpufreq_bp_resume s = Some (tt, s') /\
        (d_resume d = None \/ (exists resume, d_resume d = Some resume /\
                                              fst (resume held) = 0) ->
         p ∈ system_wq s') /\
        (forall resume, d_resume d = Some resume -> fst (resume held) <> 0 ->
         system_wq s' = system_wq s))).
Proof.
  intros cpu. split.
  - intros H. pose proof (cpufreq_cpu_get_fails _ _ H) as Hget.
    unfold cpufreq_bp_suspend, cpufreq_bp_resume. rewrite !gets_run. fold cpu.
    by rewrite !(bind_run _ _ _ _ _ Hget).
  - intros d p v Hcpu Hd Hpin Hdata Hv held.
    destruct (cpufreq_cpu_get_attached _ _ _ _ _ Hcpu Hd Hpin Hdata Hv) as [s1 Hget].
    destruct (cpufreq_cpu_get_success _ _ _ _ Hget)
      as (d' & v' & s0 & _ & Hd' & _ & Hv' & Hmod & Hs1).
    assert (v' = v) as -> by congruence.
    assert (d' = d) as -> by congruence.
    pose proof (try_module_get_frame _ _ _ _ Hmod) as Hf0.
    assert (cpufreq_driver s1 = Some d) as Hd1 by (rewrite Hs1, Hf0; done).
    assert (system_wq s1 = system_wq s) as Hwq1 by (rewrite Hs1, Hf0; done).
    assert (load p s1 = Some (held, s1)) as Hload1.
    { apply load_run. rewrite Hs1. cbn. by rewrite lookup_insert_eq. }
    split.
    + unfold cpufreq_bp_suspend. rewrite gets_run. fold cpu.
      rewrite (bind_run _ _ _ _ _ Hget), gets_run, Hd1.
      destruct (d_suspend d) as [suspend|].
      * rewrite bind_assoc, (bind_run _ _ _ _ _ Hload1).
        destruct (suspend held) as [r w] eqn:Hcb. cbn.
        set (s2 := set_policies _ s1).
        destruct (cpufreq_cpu_put_run p s2 d w) as (s3 & Hput & _ & Hf3 & _).
        { done. } { unfold s2. cbn. by rewrite lookup_insert_eq. }
        rewrite (bind_run _ _ _ _ _ Hput). eexists. split; [done|].
        rewrite Hf3. cbn. done.
      * destruct (cpufreq_cpu_put_run p s1 d held) as (s3 & Hput & _ & Hf3 & _); [done| |].
        { rewrite Hs1. cbn. by rewrite lookup_insert_eq. }
        rewrite ret_run, (bind_run _ _ _ _ _ Hput). eexists. split; [done|].
        rewrite Hf3. cbn. done.
    + unfold cpufreq_bp_resume. rewrite gets_run. fold cpu.
      rewrite (bind_run _ _ _ _ _ Hget), gets_run, Hd1.
      assert (forall s2 w, cpufreq_driver s2 = Some d -> policies s2 !! p = Some w ->
                exists s3, (let* _ := schedule_work p in cpufreq_cpu_put p) s2 = Some (tt, s3) /\
                           p ∈ system_wq s3) as Hqueue.
      { intros s2 w Hd2 Hw. unfold schedule_work, modify. unfold bind at 1.
        set (s2' := if bool_decide (p ∈ system_wq s2) then s2
                    else set_system_wq (system_wq s2 ++ [p]) s2).
        assert (p ∈ system_wq s2') as Hin.
        { unfold s2'. destruct (bool_decide (p ∈ system_wq s2)) eqn:E.
          - by apply bool_decide_eq_true in E.
          - cbn. apply elem_of_app. right. by left. }
        destruct (cpufreq_cpu_put_run p s2' d w) as (s3 & Hput & _ & Hf3 & _).
        { unfold s2'. by destruct (bool_decide _). }
        { unfold s2'. by destruct (bool_decide _). }
        exists s3. split; [done|]. by rewrite Hf3. }
      destruct (d_resume d) as [resume|].
      * rewrite bind_assoc, (bind_run _ _ _ _ _ Hload1).
        destruct (resume held) as [r w] eqn:Hcb. cbn.
        set (s2 := set_policies _ s1).
        assert (system_wq s2 = system_wq s) as Hwq2 by done.
        destruct (r =? 0) eqn:Hr.
        -- destruct (Hqueue s2 w) as (s3 & Hrun & Hin); [done| |].
           { unfold s2. cbn. by rewrite lookup_insert_eq. }
           rewrite Hrun. eexists. split; [done|]. split; [done|].
           intros resume' [= <-]. rewrite Hcb. cbn. by apply Z.eqb_eq in Hr.
        -- rewrite ret_run.
           destruct (cpufreq_cpu_put_run p s2 d w) as (s3 & Hput & _ & Hf3 & _).
           { done. } { unfold s2. cbn. by rewrite lookup_insert_eq. }
           rewrite Hput. eexists. split; [done|]. split.
           ++ intros [?|(resume' & [= <-] & H0)]; [done|].
              rewrite Hcb in H0. cbn in H0. by apply Z.eqb_neq in Hr.
           ++ intros _ _ _. rewrite Hf3. done.
      * rewrite ret_run. cbn.
        destruct (Hqueue s1 held) as (s3 & Hrun & Hin); [done| |].
        { rewrite Hs1. cbn. by rewrite lookup_insert_eq. }
        rewrite Hrun. eexists. split; [done|]. split; [done|]. by intros resume' [=].
Qed.

End Lifecycle.

Section Detachment.

Context {K : kernel_env} {L : kernel_lib}.

(** X10: __cpufreq_remove_dev returns -EINVAL and changes nothing for a cpu
    without a policy.  For a cpu that is not the owner of its policy
    (CONFIG_SMP) it returns 0 after clearing the cpu's table entry, clearing
    the cpu in the policy's [cpus] and dropping one reference to the policy
    and one to the driver's module; the saved governor names, the policy cpus
    and the governor list stay as they are. *)
Theorem remove_dev_unlinks_sibling fuel cpu (saved : gmap nat string) s :
  policy_cpu_known cpu s ->
  (cpufreq_cpu_data s !! cpu = None ->
   __cpufreq_remove_dev (S fuel) cpu saved s = Some (- EINVAL, saved, s)) /\
  (forall d data dv,
     CONFIG_SMP = true -> cpufreq_driver s = Some d ->
     cpufreq_cpu_data s !! cpu = Some data -> policies s !! data = Some dv ->
     p_cpu dv <> cpu ->
     exists s',
       __cpufreq_remove_dev (S fuel) cpu saved s = Some (0, saved, s') /\
       cpufreq_cpu_data s' = delete cpu (cpufreq_cpu_data s) /\
       policies s'
         = <[data := set_p_kobj (p_kobj dv - 1)
                       (if p_kobj dv - 1 =? 0 then true else p_kobj_unregister dv)
                       (set_p_cpus (cpumask_clear_cpu cpu (p_cpus dv)) dv)]> (policies s) /\
       (forall m, d_owner d = Some m -> is_Some (modules s !! m) ->
                  module_refs (d_owner d) s' = module_refs (d_owner d) s - 1) /\
       trace s' = trace s ++ [call_sysfs cpu] /\
       cpufreq_policy_cpu s' = cpufreq_policy_cpu s /\
       cpufreq_governor_list s' = cpufreq_governor_list s).
Proof.
  intros Hknown. split.
  - intros Hnone. cbn [__cpufreq_remove_dev]. rewrite gets_run, Hnone.
    destruct (lock_policy_rwsem_run cpu s Hknown) as [_ Hunlock].
    by rewrite (bind_run _ _ _ _ _ Hunlock).
  - intros d data dv Hsmp Hd Hdata Hdv Hne. cbn [__cpufreq_remove_dev]. rewrite gets_run, Hdata.
    unfold set_per_cpu_data, modify. unfold bind at 1.
    set (s1 := set_cpu_data _ s).
    assert (load data s1 = Some (dv, s1)) as Hload by (by apply load_run).
    rewrite (bind_run _ _ _ _ _ Hload), Hsmp.
    assert ((cpu =? p_cpu dv)%nat = false) as -> by (apply Nat.eqb_neq; congruence).
    cbn. set (s2 := set_policies _ s1).
    destruct (cpufreq_cpu_put_run data s2 d (set_p_cpus (cpumask_clear_cpu cpu (p_cpus dv)) dv))
      as (s3 & Hput & Hp3 & Hf3 & Hrefs).
    { done. } { unfold s2. cbn. by rewrite lookup_insert_eq. }
    rewrite (bind_run _ _ _ _ _ Hput).
    assert (policy_cpu_known cpu s3) as Hknown3 by (by rewrite Hf3).
    destruct (lock_policy_rwsem_run cpu s3 Hknown3) as [_ Hunlock].
    rewrite (bind_run _ _ _ _ _ Hunlock). cbn.
    eexists. split; [done|]. cbn.
    split; [by rewrite Hf3|]. split; [|split; [|split; [|split]]].
    + rewrite Hp3. unfold s2. cbn. by rewrite insert_insert_eq.
    + intros m Hm Hmd.
      change (module_refs (d_owner d) s3 = module_refs (d_owner d) s2 - 1).
      by apply (Hrefs m).
    + by rewrite Hf3.
    + by rewrite Hf3.
    + by rewrite Hf3.
Qed.

(** ** The governor registry, continued *)

Lemma blank_saved_governors name online (cpus : list nat) :
  NoDup cpus ->
  forall saved : gmap nat string,
  let blank (saved : gmap nat string) cpu :=
    if cpumask_test_cpu cpu online then saved
    else if strcmp (saved_governor saved cpu) name =? 0
    then <[cpu := EmptyString]> saved else saved in
  let saved' := fold_left blank cpus saved in
  forall cpu,
    saved_governor saved' cpu
      = if bool_decide (cpu ∈ cpus) && negb (cpumask_test_cpu cpu online)
           && (strcmp (saved_governor saved cpu) name =? 0)
        then EmptyString else saved_governor saved cpu.
Proof.
  induction 1 as [|c cpus Hc Hnd IH]; intros saved blank saved' cpu.
  - done.
  - unfold saved'. cbn. rewrite IH.
    destruct (decide (cpu = c)) as [->|Hne].
    + rewrite (bool_decide_eq_false_2 (c ∈ cpus)) by done.
      rewrite bool_decide_eq_true_2 by by left. cbn.
      unfold blank. destruct (cpumask_test_cpu c online); [done|]. cbn.
      destruct (strcmp (saved_governor saved c) name =? 0) eqn:E; [|done].
      unfold saved_governor. by rewrite lookup_insert_eq.
    + assert (saved_governor (blank saved c) cpu = saved_governor saved cpu) as ->.
      { unfold blank. destruct (cpumask_test_cpu c online); [done|].
        destruct (strcmp (saved_governor saved c) name =? 0); [|done].
        unfold saved_governor. by rewrite lookup_insert_ne. }
      destruct (decide (cpu ∈ cpus)) as [Hin|Hnin].
      * rewrite !bool_decide_eq_true_2; [done| |done]. by right.
      * rewrite !bool_decide_eq_false_2; [done| |done].
        intros [?|?]%elem_of_cons; done.
Qed.

Lemma list_del_gone (g : gov_ptr) (l : list gov_ptr) :
  g ∉ List.filter (fun t => negb (t =? g)%nat) l.
Proof.
  induction l as [|t l IH]; cbn; [by intros ?%elem_of_nil|].
  destruct (t =? g)%nat eqn:E; cbn; [done|].
  apply Nat.eqb_neq in E. intros [?|?]%elem_of_cons; [congruence|done].
Qed.

Lemma list_del_keeps (g t : gov_ptr) (l : list gov_ptr) :
  t <> g -> t ∈ l -> t ∈ List.filter (fun t => negb (t =? g)%nat) l.
Proof.
  intros Hne. induction l as [|u l IH]; [done|].
  intros [Heq|Hin]%elem_of_cons; cbn.
  - subst u. rewrite (proj2 (Nat.eqb_neq t g) Hne). cbn. by left.
  - destruct (u =? g)%nat; cbn; [by apply IH|]. right. by apply IH.
Qed.

Lemma list_del_absent (g : gov_ptr) (l : list gov_ptr) :
  g ∉ l -> List.filter (fun t => negb (t =? g)%nat) l = l.
Proof.
  intros Hnin. induction l as [|t l IH]; [done|].
  cbn. destruct (t =? g)%nat eqn:E.
  - apply Nat.eqb_eq in E. subst. exfalso. apply Hnin. by left.
  - cbn. f_equal. apply IH. intros ?. apply Hnin. by right.
Qed.

Lemma for_each_cpu_NoDup nr m : NoDup (for_each_cpu nr m).
Proof. unfold for_each_cpu. apply NoDup_ListNoDup, List.NoDup_filter, List.seq_NoDup. Qed.

Lemma unregister_governor_registered g (saved : gmap nat string) s :
  g ∈ cpufreq_governor_list s ->
  exists saved',
    cpufreq_unregister_governor (Some g) saved s
      = Some (saved', set_governor_list
                        (List.filter (fun t => negb (t =? g)%nat) (cpufreq_governor_list s)) s) /\
    (CONFIG_HOTPLUG_CPU = true ->
     forall cpu,
       saved_governor saved' cpu
         = if bool_decide (cpu ∈ for_each_cpu nr_cpu_ids (cpu_present_mask s))
              && negb (cpumask_test_cpu cpu (cpu_online_mask s))
              && (strcmp (saved_governor saved cpu) (g_name (governor_at g)) =? 0)
           then EmptyString else saved_governor saved cpu) /\
    (CONFIG_HOTPLUG_CPU = false -> saved' = saved).
Proof.
  intros Hin. unfold cpufreq_unregister_governor.
  destruct CONFIG_HOTPLUG_CPU eqn:Hhot.
  - rewrite bind_assoc, gets_run, bind_assoc, gets_run, ret_run, gets_run.
    rewrite bool_decide_eq_true_2 by done. cbn.
    eexists. split; [done|]. split; [|done]. intros _ cpu.
    apply (blank_saved_governors (g_name (governor_at g)) (cpu_online_mask s)
             (for_each_cpu nr_cpu_ids (cpu_present_mask s))).
    apply for_each_cpu_NoDup.
  - rewrite ret_run, gets_run. rewrite bool_decide_eq_true_2 by done. cbn.
    eexists. split; [done|]. split; done.
Qed.

(** X11: cpufreq_unregister_governor does nothing for a NULL governor and has
    no result for a governor that is not on the list.  For a registered
    governor it takes that governor, and no other, off the list and, under
    CONFIG_HOTPLUG_CPU, blanks the saved governor name of every present cpu
    that is offline and has that name saved, leaving the other saved names
    alone.  Unregistering a governor right after registering it restores the
    state. *)
Theorem unregister_governor_forgets g (saved : gmap nat string) s :
  cpufreq_unregister_governor None saved s = Some (saved, s) /\
  (g ∉ cpufreq_governor_list s ->
   cpufreq_unregister_governor (Some g) saved s = None) /\
  (g ∈ cpufreq_governor_list s ->
   exists saved' s',
     cpufreq_unregister_governor (Some g) saved s = Some (saved', s') /\
     (g ∉ cpufreq_governor_list s') /\
     (forall t, t <> g -> t ∈ cpufreq_governor_list s -> t ∈ cpufreq_governor_list s') /\
     (CONFIG_HOTPLUG_CPU = true ->
      forall cpu,
        saved_governor saved' cpu
          = if bool_decide (cpu ∈ for_each_cpu nr_cpu_ids (cpu_present_mask s))
               && negb (cpumask_test_cpu cpu (cpu_online_mask s))
               && (strcmp (saved_governor saved cpu) (g_name (governor_at g)) =? 0)
            then EmptyString else saved_governor saved cpu) /\
     (CONFIG_HOTPLUG_CPU = false -> saved' = saved)) /\
  (* registering a governor and unregistering it again *)
  (g ∉ cpufreq_governor_list s ->
   forall s', cpufreq_register_governor (Some g) s = Some (0, s') ->
     exists saved', cpufreq_unregister_governor (Some g) saved s' = Some (saved', s)).
Proof.
  split; [done|]. split; [|split].
  - intros Hnin. unfold cpufreq_unregister_governor.
    destruct CONFIG_HOTPLUG_CPU; cbn; rewrite ?gets_run; cbn;
      by rewrite bool_decide_eq_false_2.
  - intros Hin.
    destruct (unregister_governor_registered g saved s Hin) as (saved' & Hrun & Hhot & Hcold).
    eexists _, _. split; [exact Hrun|]. cbn. split; [apply list_del_gone|].
    split; [|done]. intros t Hne Ht. by apply list_del_keeps.
  - intros Hnin s' Hreg. unfold cpufreq_register_governor in Hreg.
    destruct (find_governor_state (g_name (governor_at g)) s) as [o Hfind].
    rewrite (bind_run _ _ _ _ _ Hfind) in Hreg. destruct o; [done|].
    cbn in Hreg. injection Hreg as <-.
    destruct (unregister_governor_registered g saved
                (set_governor_list (g :: cpufreq_governor_list s) s))
      as (saved' & Hrun & _); [by left|].
    exists saved'. rewrite Hrun. cbn. rewrite Nat.eqb_refl. cbn.
    rewrite (list_del_absent _ _ Hnin). by destruct s.
Qed.

End Detachment.

Section Buffers.

Context {K : kernel_env} {L : kernel_lib}.

Lemma string_length_app (a b : string) :
  String.length (a ++ b) = (String.length a + String.length b)%nat.
Proof.
  induction a as [|c a IH]; [done|].
  change (String c a ++ b)%string with (String c (a ++ b)). cbn. by rewrite IH.
Qed.

Lemma show_cpus_loop_fits cpus i buf :
  scnprintf_truncates -> 3 <= PAGE_SIZE ->
  i = Z.of_nat (String.length buf) -> i = 0 \/ i < PAGE_SIZE - 5 ->
  let '(n, text) := show_cpus_loop cpus i buf in
  n = Z.of_nat (String.length text) /\ n <= PAGE_SIZE - 3.
Proof.
  intros Hsc Hpage. revert i buf.
  induction cpus as [|cpu cpus IH]; intros i buf Hlen Hi; cbn.
  - split; [done|]. lia.
  - unfold scnprintf_to.
    set (sep := if negb (i =? 0)
                then (i + Z.of_nat (String.length (scnprintf (PAGE_SIZE - i - 2) " ")),
                      (buf ++ scnprintf (PAGE_SIZE - i - 2) " ")%string)
                else (i, buf)).
    assert (sep.1 = Z.of_nat (String.length sep.2) /\ i <= sep.1 <= PAGE_SIZE - 3)
      as [Hlen1 Hi1].
    { unfold sep. destruct (i =? 0) eqn:E; cbn.
      - apply Z.eqb_eq in E. split; [done|]. lia.
      - apply Z.eqb_neq in E.
        pose proof (Hsc (PAGE_SIZE - i - 2) " "%string) as Hb.
        rewrite string_length_app, Nat2Z.inj_add. lia. }
    destruct sep as [i1 buf1]. cbn in Hlen1, Hi1. cbn.
    pose proof (Hsc (PAGE_SIZE - i1 - 2) (fmt_u (Z.of_nat cpu))) as Hb.
    set (n := Z.of_nat (String.length (scnprintf (PAGE_SIZE - i1 - 2) (fmt_u (Z.of_nat cpu))))) in *.
    assert (i1 + n = Z.of_nat (String.length (buf1 ++ scnprintf (PAGE_SIZE - i1 - 2)
                                                        (fmt_u (Z.of_nat cpu))))) as Hlen2.
    { rewrite string_length_app, Nat2Z.inj_add. unfold n. lia. }
    destruct (PAGE_SIZE - 5 <=? i1 + n) eqn:E.
    + split; [done|]. lia.
    + apply Z.leb_gt in E. apply IH; [done|]. right. lia.
Qed.

Lemma available_governors_loop_fits ts i buf :
  scnprintf_truncates ->
  i = Z.of_nat (String.length buf) -> i <= Z.max 0 (PAGE_SIZE - 4) ->
  let '(n, text) := available_governors_loop ts i buf in
  n = Z.of_nat (String.length text) /\ n <= Z.max 0 (PAGE_SIZE - 4).
Proof.
  intros Hsc. revert i buf.
  induction ts as [|t ts IH]; intros i buf Hlen Hi; cbn; [done|].
  destruct (PAGE_SIZE - (Z.of_nat CPUFREQ_NAME_LEN + 2) <=? i) eqn:E; [done|].
  apply Z.leb_gt in E. unfold scnprintf_to.
  pose proof (Hsc (Z.of_nat CPUFREQ_NAME_LEN) (g_name (governor_at t) ++ " ")%string) as Hb.
  apply IH.
  - rewrite string_length_app, Nat2Z.inj_add. lia.
  - unfold CPUFREQ_NAME_LEN in *. lia.
Qed.

(** X12: given that scnprintf stores at most size - 1 characters, and a page
    of at least 23 bytes, the text of show_cpus (hence of related_cpus and
    affected_cpus) and the text of scaling_available_governors are shorter
    than PAGE_SIZE, whatever the mask and however many governors are
    registered; the length returned is the length of the text. *)
Theorem cpu_lists_fit_the_page :
  scnprintf_truncates -> 23 <= PAGE_SIZE ->
  (forall mask,
     (show_cpus mask).1 = Z.of_nat (String.length (show_cpus mask).2) /\
     (show_cpus mask).1 < PAGE_SIZE) /\
  (forall policy,
     (show_related_cpus policy).1 < PAGE_SIZE /\ (show_affected_cpus policy).1 < PAGE_SIZE) /\
  (forall s, is_Some (cpufreq_driver s) ->
     exists n text,
       show_scaling_available_governors s = Some (n, text, s) /\
       n = Z.of_nat (String.length text) /\ n < PAGE_SIZE).
Proof.
  intros Hsc Hpage.
  assert (forall mask,
     (show_cpus mask).1 = Z.of_nat (String.length (show_cpus mask).2) /\
     (show_cpus mask).1 < PAGE_SIZE) as Hcpus.
  { intros mask. unfold show_cpus.
    pose proof (show_cpus_loop_fits (for_each_cpu nr_cpu_ids mask) 0 EmptyString Hsc) as H.
    destruct (show_cpus_loop _ _ _) as [n text]. cbn.
    destruct H as [Hn Hle]; [lia|done|by left|].
    rewrite string_length_app, Nat2Z.inj_add. cbn. lia. }
  split; [done|]. split.
  - intros policy. unfold show_related_cpus, show_affected_cpus.
    destruct (cpumask_empty _); split; apply Hcpus.
  - intros s [d Hd]. unfold show_scaling_available_governors.
    rewrite gets_run, Hd.
    destruct (d_target d) as [f|].
    + rewrite bind_assoc, gets_run, ret_run.
      pose proof (available_governors_loop_fits (cpufreq_governor_list s) 0 EmptyString Hsc) as H.
      destruct (available_governors_loop _ _ _) as [n text]. cbn.
      destruct H as [Hn Hle]; [done|lia|].
      eexists _, _. split; [done|].
      rewrite string_length_app, Nat2Z.inj_add. cbn. lia.
    + rewrite ret_run. cbn. eexists _, _. split; [done|].
      rewrite string_length_app. cbn. lia.
Qed.

End Buffers.

Arguments module_refs : simpl never.

Section Engine.

Context {K : kernel_env} {L : kernel_lib}.

(** ** Governor dispatch, continued *)

Lemma module_refs_get m s md o :
  modules s !! m = Some md ->
  module_refs o (set_modules (<[m := {| m_live := m_live md; m_refcnt := m_refcnt md + 1 |}]>
                                (modules s)) s)
    = module_refs o s + (if bool_decide (o = Some m) then 1 else 0).
Proof.
  intros Hmd. unfold module_refs. destruct o as [m'|]; cbn; [|done].
  destruct (decide (m' = m)) as [->|Hne].
  - rewrite bool_decide_eq_true_2 by done. by rewrite lookup_insert_eq, Hmd.
  - rewrite bool_decide_eq_false_2 by congruence. rewrite lookup_insert_ne by done. lia.
Qed.

Lemma module_put_refs m s md :
  modules s !! m = Some md ->
  exists s' md',
    module_put (Some m) s = Some (tt, s') /\ modules s' !! m = Some md' /\
    (forall o, module_refs o s'
               = module_refs o s - (if bool_decide (o = Some m) then 1 else 0)).
Proof.
  intros Hmd. unfold module_put. rewrite Hmd. eexists _, _. split; [done|]. cbn.
  split; [by rewrite lookup_insert_eq|].
  unfold module_refs. intros [m'|]; cbn; [|done].
  destruct (decide (m' = m)) as [->|Hne].
  - rewrite bool_decide_eq_true_2 by done. by rewrite lookup_insert_eq, Hmd.
  - rewrite bool_decide_eq_false_2 by congruence. rewrite lookup_insert_ne by done. lia.
Qed.

(** X13: __cpufreq_governor keeps the reference count of the governor's
    module in step with the governor's life: after the call the count is one
    higher when a START succeeded, one lower when a STOP succeeded, and
    unchanged in every other case (LIMITS, a START or STOP that failed, a module
    that cannot be pinned); no other module's count changes.  (The governor
    tolerates the hardware latency and leaves policy->governor alone.) *)
Theorem governor_module_accounting p ev s g m r p' s' :
  p_governor p = Some g ->
  tolerates g (transition_latency (p_cpuinfo p)) ->
  keeps_governor g ->
  g_owner (governor_at g) = Some m ->
  __cpufreq_governor p ev s = Some (r, p', s') ->
  module_refs (Some m) s'
    = module_refs (Some m) s
      + match ev with
        | CPUFREQ_GOV_START => if r =? 0 then 1 else 0
        | CPUFREQ_GOV_STOP => if r =? 0 then -1 else 0
        | CPUFREQ_GOV_LIMITS => 0
        end /\
  (forall o, o <> Some m -> module_refs o s' = module_refs o s).
Proof.
  intros Hg Htol Hkeep Hown. unfold __cpufreq_governor. rewrite Hg.
  assert (negb (max_transition_latency (governor_at g) =? 0)
          && (max_transition_latency (governor_at g) <? transition_latency (p_cpuinfo p)) = false) as ->.
  { destruct Htol as [->|Hle]; [done|].
    apply andb_false_iff. right. apply Z.ltb_ge. lia. }
  cbn. rewrite Hown.
  destruct (modules s !! m) as [md|] eqn:Hmd.
  2:{ assert (try_module_get (Some m) s = Some (false, s)) as Hget.
      { unfold try_module_get. by rewrite Hmd. }
      rewrite (bind_run _ _ _ _ _ Hget). cbn.
      intros [= <- <- <-]. unfold EINVAL.
      destruct ev; try change (- (22) =? 0) with false; cbn beta iota; (split; [lia|done]). }
  destruct (m_live md) eqn:Hlive.
  2:{ assert (try_module_get (Some m) s = Some (false, s)) as Hget.
      { unfold try_module_get. by rewrite Hmd, Hlive. }
      rewrite (bind_run _ _ _ _ _ Hget). cbn.
      intros [= <- <- <-]. unfold EINVAL.
      destruct ev; try change (- (22) =? 0) with false; cbn beta iota; (split; [lia|done]). }
  assert (try_module_get (Some m) s
          = Some (true, set_modules (<[m := {| m_live := m_live md; m_refcnt := m_refcnt md + 1 |}]>
                                       (modules s)) s)) as Hget.
  { unfold try_module_get. by rewrite Hmd, Hlive. }
  rewrite (bind_run _ _ _ _ _ Hget). cbn.
  set (s1 := set_modules _ s).
  pose proof (fun o => module_refs_get m s md o Hmd) as Hrefs1. fold s1 in Hrefs1.
  assert (exists md1, modules s1 !! m = Some md1) as [md1 Hm1].
  { unfold s1. cbn. rewrite lookup_insert_eq. eauto. }
  destruct (Hkeep p ev) as [Hkg _].
  destruct (g_governor (governor_at g) p ev) as [r1 p1] eqn:Hcb. cbn in Hkg.
  unfold put_governor_module. rewrite Hkg, Hg, Hown.
  set (s2 := set_trace _ s1).
  assert (forall o, module_refs o s2 = module_refs o s1) as Hrefs2 by done.
  assert (modules s2 !! m = Some md1) as Hm2 by done.
  destruct (module_put_refs m s2 md1 Hm2) as (s3 & md3 & Hput3 & Hm3 & Hrefs3).
  destruct (module_put_refs m s3 md3 Hm3) as (s4 & md4 & Hput4 & _ & Hrefs4).
  assert (forall o, o <> Some m -> (if bool_decide (o = Some m) then 1 else 0) = 0) as Hother.
  { intros o Ho. by rewrite bool_decide_eq_false_2. }
  assert ((if bool_decide (Some m = Some m) then 1 else 0) = 1) as Hself.
  { by rewrite bool_decide_eq_true_2. }
  destruct ev; cbn.
  - (* START *)
    destruct (r1 =? 0) eqn:Hr; cbn.
    + intros [= <- <- <-]. rewrite Hr. split.
      * rewrite Hrefs2, Hrefs1, Hself. done.
      * intros o Ho. rewrite Hrefs2, Hrefs1, (Hother o Ho). lia.
    + unfold bind. rewrite Hput3. intros [= <- <- <-]. rewrite Hr. split.
      * rewrite Hrefs3, Hrefs2, Hrefs1, Hself. lia.
      * intros o Ho. rewrite Hrefs3, Hrefs2, Hrefs1, (Hother o Ho). lia.
  - (* STOP *)
    unfold bind at 1. rewrite Hput3.
    destruct (r1 =? 0) eqn:Hr; cbn.
    + unfold bind. rewrite Hput4. intros [= <- <- <-]. rewrite Hr. split.
      * rewrite Hrefs4, Hrefs3, Hrefs2, Hrefs1, Hself. lia.
      * intros o Ho. rewrite Hrefs4, Hrefs3, Hrefs2, Hrefs1, (Hother o Ho). lia.
    + intros [= <- <- <-]. rewrite Hr. split.
      * rewrite Hrefs3, Hrefs2, Hrefs1, Hself. lia.
      * intros o Ho. rewrite Hrefs3, Hrefs2, Hrefs1, (Hother o Ho). lia.
  - (* LIMITS *)
    unfold bind at 1. rewrite Hput3. cbn. intros [= <- <- <-]. split.
    + rewrite Hrefs3, Hrefs2, Hrefs1, Hself. lia.
    + intros o Ho. rewrite Hrefs3, Hrefs2, Hrefs1, (Hother o Ho). lia.
Qed.

End Engine.

Section EngineFrame.

Context {K : kernel_env} {L : kernel_lib}.

Lemma only_refs_and_trace_refl s : only_refs_and_trace s s.
Proof. unfold only_refs_and_trace. by destruct s. Qed.

Lemma only_refs_and_trace_trans s1 s2 s3 :
  only_refs_and_trace s1 s2 -> only_refs_and_trace s2 s3 -> only_refs_and_trace s1 s3.
Proof.
  unfold only_refs_and_trace. intros H12 H23. rewrite H23 at 1. rewrite H12 at 1. done.
Qed.

Lemma only_refs_and_trace_record s t : only_refs_and_trace s (set_trace t s).
Proof. unfold only_refs_and_trace. by destruct s. Qed.

Lemma try_module_get_only_refs owner s b s' :
  try_module_get owner s = Some (b, s') -> only_refs_and_trace s s'.
Proof.
  intros H. apply try_module_get_frame in H. unfold only_refs_and_trace.
  assert (trace s' = trace s) as -> by (by rewrite H).
  rewrite H at 1. by destruct s.
Qed.

Lemma module_put_only_refs owner s u s' :
  module_put owner s = Some (u, s') -> only_refs_and_trace s s'.
Proof.
  destruct (module_put_frame owner s) as (s0 & Hput & Hf & _). rewrite Hput.
  intros [= _ <-]. unfold only_refs_and_trace.
  assert (trace s0 = trace s) as -> by (by rewrite Hf).
  rewrite Hf at 1. by destruct s.
Qed.

Lemma cpufreq_governor_frame p ev s r p' s' :
  __cpufreq_governor p ev s = Some (r, p', s') -> only_refs_and_trace s s'.
Proof.
  unfold __cpufreq_governor.
  destruct (p_governor p) as [g0|]; [|done].
  set (too_slow := negb _ && _).
  destruct (if too_slow then cpufreq_gov_performance else Some g0) as [g|]; cbn.
  2:{ intros [= _ _ <-]. apply only_refs_and_trace_refl. }
  unfold bind at 1.
  destruct (try_module_get (g_owner (governor_at g)) s) as [[ok s1]|] eqn:Hget; [|done].
  apply try_module_get_only_refs in Hget.
  destruct ok; cbn.
  2:{ by intros [= _ _ <-]. }
  destruct (g_governor (governor_at g) _ ev) as [r1 q1].
  set (s2 := set_trace _ s1).
  assert (only_refs_and_trace s s2) as H2.
  { eapply only_refs_and_trace_trans; [exact Hget|apply only_refs_and_trace_record]. }
  clearbody s2. unfold bind at 1.
  destruct ((if negb (gov_event_eqb ev CPUFREQ_GOV_START) || negb (r1 =? 0)
             then put_governor_module q1 else ret ()) s2) as [[[] s3]|] eqn:H3; [|done].
  assert (only_refs_and_trace s2 s3) as H23.
  { destruct (negb _ || _) in H3.
    - unfold put_governor_module in H3. destruct (p_governor q1); [|done].
      by apply module_put_only_refs in H3.
    - injection H3 as <-. apply only_refs_and_trace_refl. }
  unfold bind at 1.
  destruct ((if gov_event_eqb ev CPUFREQ_GOV_STOP && (r1 =? 0)
             then put_governor_module q1 else ret ()) s3) as [[[] s4]|] eqn:H4; [|done].
  assert (only_refs_and_trace s3 s4) as H34.
  { destruct (_ && _) in H4.
    - unfold put_governor_module in H4. destruct (p_governor q1); [|done].
      by apply module_put_only_refs in H4.
    - injection H4 as <-. apply only_refs_and_trace_refl. }
  intros [= _ _ <-].
  eauto using only_refs_and_trace_trans.
Qed.

Lemma set_policy_frame data policy s r data' policy' s' :
  __cpufreq_set_policy data policy s = Some (r, data', policy', s') ->
  only_refs_and_trace s s'.
Proof.
  unfold __cpufreq_set_policy, blocking_notifier_call_chain. msimpl.
  repeat (case_step; cbn; try discriminate);
    intros Heq; inversion Heq; subst; cbn;
    repeat match goal with
           | H : __cpufreq_governor _ _ _ = Some _ |- _ =>
               apply cpufreq_governor_frame in H
           end;
    repeat match goal with
           | |- only_refs_and_trace ?s ?s => apply only_refs_and_trace_refl
           | |- only_refs_and_trace _ (set_trace _ _) =>
               eapply only_refs_and_trace_trans; [|apply only_refs_and_trace_record]
           | H : only_refs_and_trace _ ?s' |- only_refs_and_trace _ ?s' =>
               eapply only_refs_and_trace_trans; [|exact H]
           end.
Qed.

(** The limits of the live policy after a run of the engine: the window, or
    what they were when the proposal was refused before the commit. *)
Lemma set_policy_limits data policy s d r data' policy' s' :
  cpufreq_driver s = Some d ->
  (forall p, p_min (snd (d_verify d p)) = p_min p /\ p_max (snd (d_verify d p)) = p_max p) ->
  (forall nb ev p, nb ∈ cpufreq_policy_notifier_list s ->
                   p_min (nb ev p) = p_min p /\ p_max (nb ev p) = p_max p) ->
  governors_keep_limits ->
  __cpufreq_set_policy data policy s = Some (r, data', policy', s') ->
  let umin := u_min (p_user_policy data) in
  let umax := u_max (p_user_policy data) in
  (p_min data' = window_min (p_min policy) umax (to_uint (pm_qos_cpu_freq_min s)) /\
   p_max data' = window_max (p_max policy) umin (to_uint (pm_qos_cpu_freq_max s))) \/
  (data' = data /\ r <> 0 /\
   ((window_min (p_min policy) umax (to_uint (pm_qos_cpu_freq_min s)) > umax \/
     window_max (p_max policy) umin (to_uint (pm_qos_cpu_freq_max s)) < umin) \/
    exists p, r = fst (d_verify d p))).
Proof.
  intros Hd Hver Hnot Hgov Hrun umin umax. revert Hrun.
  unfold __cpufreq_set_policy, blocking_notifier_call_chain. msimpl.
  case_step.
  { intros [= <- <- _ _]. right. split; [done|]. split; [by unfold EINVAL|left].
    unfold window_min, window_max, umin, umax.
    match goal with H : _ || _ = true |- _ =>
      apply orb_true_iff in H as [H|H]; apply Z.ltb_lt in H; [left|right]; lia end. }
  rewrite Hd.
  assert (forall ev p,
    let p' := fold_left (fun p (nb : notifier_block) => nb ev p)
                (cpufreq_policy_notifier_list s) p in
    p_min p' = p_min p /\ p_max p' = p_max p) as Hfold.
  { intros ev p. by apply notifier_chain_keeps_limits. }
  cbn in Hfold.
  repeat (case_step; cbn; try discriminate);
    intros Heq; inversion Heq; subst; cbn;
    try (right; split; [done|]; split;
         [match goal with H : negb (_ =? 0) = true |- _ =>
            by apply negb_true_iff, Z.eqb_neq in H end
         |right; eexists;
          match goal with H : d_verify d ?p = (_, _) |- _ = fst (d_verify d ?q) =>
            unify p q; by rewrite H end]);
    left;
    repeat match goal with
           | H : __cpufreq_governor _ _ _ = Some _ |- _ =>
               apply cpufreq_governor_effect in H as [_ H]; specialize (H Hgov); cbn in H
           end;
    repeat match goal with
           | H : d_verify d ?p = (_, ?q) |- _ =>
               let H1 := fresh in let H2 := fresh in
               destruct (Hver p) as [H1 H2]; rewrite H in H1, H2; cbn in H1, H2; clear H
           end;
    repeat match goal with
           | |- context [fold_left ?f ?l ?p] =>
               let H1 := fresh in let H2 := fresh in
               destruct (Hfold CPUFREQ_NOTIFY p) as [H1 H2]; revert H1 H2;
               generalize (fold_left f l p); intros
           end.
  all: rewrite ?(fun ev p => proj1 (Hfold ev p)), ?(fun ev p => proj2 (Hfold ev p)) in *.
  all: unfold window_min, window_max, umin, umax;
    repeat match goal with H : _ /\ _ |- _ => destruct H end; split; congruence.
Qed.

Lemma set_policy_restores data policy s r data' policy' s' :
  __cpufreq_set_policy data policy s = Some (r, data', policy', s') ->
  p_min policy' = p_min policy /\ p_max policy' = p_max policy.
Proof.
  unfold __cpufreq_set_policy, blocking_notifier_call_chain. msimpl.
  repeat (case_step; cbn; try discriminate);
    intros Heq; inversion Heq; subst; cbn; auto.
Qed.

Lemma set_policy_commits data policy s d :
  let umin := u_min (p_user_policy data) in
  let umax := u_max (p_user_policy data) in
  let proposed_min := window_min (p_min policy) umax (to_uint (pm_qos_cpu_freq_min s)) in
  let proposed_max := window_max (p_max policy) umin (to_uint (pm_qos_cpu_freq_max s)) in
  cpufreq_driver s = Some d ->
  ~ (proposed_min > umax \/ proposed_max < umin) ->
  (forall p, fst (d_verify d p) = 0 /\
             p_min (snd (d_verify d p)) = p_min p /\ p_max (snd (d_verify d p)) = p_max p) ->
  (forall nb ev p, nb ∈ cpufreq_policy_notifier_list s ->
                   p_min (nb ev p) = p_min p /\ p_max (nb ev p) = p_max p) ->
  governors_keep_limits ->
  forall r data' policy' s',
    __cpufreq_set_policy data policy s = Some (r, data', policy', s') ->
    p_min data' = proposed_min /\ p_max data' = proposed_max /\
    p_min policy' = p_min policy /\ p_max policy' = p_max policy /\
    only_refs_and_trace s s'.
Proof.
  intros umin umax proposed_min proposed_max Hd Hin Hver Hnot Hgov r data' policy' s' Hrun.
  destruct (set_policy_restores _ _ _ _ _ _ _ Hrun) as [Hrmin Hrmax].
  pose proof (set_policy_frame _ _ _ _ _ _ _ Hrun) as Hframe.
  destruct (set_policy_limits data policy s d r data' policy' s' Hd) as [[H1 H2]|(_ & Hr & Hwhy)];
    try done.
  - intros p. destruct (Hver p) as (_ & ? & ?). done.
  - destruct Hwhy as [Hout|[p Hp]]; [done|].
    destruct (Hver p) as (H0 & _). congruence.
Qed.

(** X14: once the window lies inside the user limits and the driver's verify
    accepts it, __cpufreq_set_policy writes the window to the live policy
    before it deals with the governor: the live min and max are the window
    whatever the call returns, also when the new governor refuses to start or
    the driver's setpolicy fails.  The proposed record gets its own min and
    max back, and the state changes in module counts and the record of calls
    only. *)
Theorem set_policy_commits_window_before_governor data policy s d :
  let umin := u_min (p_user_policy data) in
  let umax := u_max (p_user_policy data) in
  let proposed_min := window_min (p_min policy) umax (to_uint (pm_qos_cpu_freq_min s)) in
  let proposed_max := window_max (p_max policy) umin (to_uint (pm_qos_cpu_freq_max s)) in
  cpufreq_driver s = Some d ->
  ~ (proposed_min > umax \/ proposed_max < umin) ->
  (forall p, fst (d_verify d p) = 0 /\
             p_min (snd (d_verify d p)) = p_min p /\ p_max (snd (d_verify d p)) = p_max p) ->
  (forall nb ev p, nb ∈ cpufreq_policy_notifier_list s ->
                   p_min (nb ev p) = p_min p /\ p_max (nb ev p) = p_max p) ->
  governors_keep_limits ->
  forall r data' policy' s',
    __cpufreq_set_policy data policy s = Some (r, data', policy', s') ->
    p_min data' = proposed_min /\ p_max data' = proposed_max /\
    p_min policy' = p_min policy /\ p_max policy' = p_max policy /\
    only_refs_and_trace s s'.
Proof. exact (set_policy_commits data policy s d). Qed.

End EngineFrame.

Section Recommit.

Context {K : kernel_env} {L : kernel_lib}.

Lemma only_refs_and_trace_fields s s' :
  only_refs_and_trace s s' ->
  cpufreq_driver s' = cpufreq_driver s /\ policies s' = policies s /\
  cpufreq_cpu_data s' = cpufreq_cpu_data s /\
  cpufreq_policy_cpu s' = cpufreq_policy_cpu s /\
  cpu_online_mask s' = cpu_online_mask s /\
  system_wq s' = system_wq s /\
  cpufreq_governor_list s' = cpufreq_governor_list s.
Proof. unfold only_refs_and_trace. intros ->. done. Qed.

(** X15: a cpufreq_update_policy that returns leaves the live policy with
    min = max(user min, min(QoS min, user max)) and
    max = min(user max, max(QoS max, user min)): the user's limits, clamped by
    the current QoS requests.  (The cpu is attached and online, the user
    limits are ordered, the driver's get agrees with [cur], the driver's
    verify accepts, and driver, subscribers and governors do not move the
    limits.) *)
Theorem update_policy_recommits_user_limits cpu s d data v r s' :
  table_wf s -> (cpu < nr_cpu_ids)%nat ->
  cpufreq_driver s = Some d -> module_pinnable (d_owner d) s ->
  cpufreq_cpu_data s !! cpu = Some data -> policies s !! data = Some v ->
  policy_cpu_known cpu s -> cpu_is_online cpu s ->
  match d_get d with Some get => p_cur v <> 0 /\ get cpu = p_cur v | None => True end ->
  (forall p, fst (d_verify d p) = 0 /\
             p_min (snd (d_verify d p)) = p_min p /\ p_max (snd (d_verify d p)) = p_max p) ->
  (forall nb ev p, nb ∈ cpufreq_policy_notifier_list s ->
                   p_min (nb ev p) = p_min p /\ p_max (nb ev p) = p_max p) ->
  governors_keep_limits ->
  u_min (p_user_policy v) <= u_max (p_user_policy v) ->
  cpufreq_update_policy cpu s = Some (r, s') ->
  exists v',
    policies s' !! data = Some v' /\
    p_min v' = Z.max (u_min (p_user_policy v))
                 (Z.min (to_uint (pm_qos_cpu_freq_min s)) (u_max (p_user_policy v))) /\
    p_max v' = Z.min (u_max (p_user_policy v))
                 (Z.max (to_uint (pm_qos_cpu_freq_max s)) (u_min (p_user_policy v))).
Proof.
  intros Hwf Hcpu Hd Hpin Hdata Hv Hknown Hon Hsync Hver Hnot Hgov Huser.
  destruct (Hwf _ _ Hdata) as (v0 & Hv0 & Hk).
  assert (v0 = v) as -> by congruence.
  destruct (cpufreq_cpu_get_hold _ _ _ _ _ Hcpu Hd Hpin Hdata Hv Hk)
    as (s1 & Hget & Hput & Hp1 & Hf1 & _).
  set (held := set_p_kobj (p_kobj v + 1) (p_kobj_unregister v) v) in *.
  assert (load data s1 = Some (held, s1)) as Hload1.
  { apply load_run. by rewrite Hp1, lookup_insert_eq. }
  destruct (lock_policy_rwsem_held cpu s (policies s1) (modules s1) Hknown) as [Hlock _].
  rewrite <- Hf1 in Hlock. unfold cpu_is_online in Hon. rewrite Hon in Hlock.
  assert (cpufreq_driver s1 = Some d) as Hd1 by (by rewrite Hf1).
  unfold cpufreq_update_policy.
  rewrite (bind_run _ _ _ _ _ Hget), (bind_run _ _ _ _ _ Hlock). cbn [negb Z.eqb].
  rewrite bind_assoc, (bind_run _ _ _ _ _ Hload1), bind_assoc, gets_run, Hd1.
  set (proposal := set_p_governor _ (set_p_policy _ (set_p_max _ (set_p_min _ held)))).
  (* the state in which the engine runs, and what it is handed *)
  assert (exists s2 cur,
            only_refs_and_trace s1 s2 /\
            forall B (k : cpufreq_policy -> M B),
              bind (match d_get d with
                    | None => ret proposal
                    | Some get =>
                        let* _ := record (call_get cpu) in
                        let policy := set_p_cur (get cpu) proposal in
                        let* _ :=
                          if p_cur held =? 0 then store data (set_p_cur (p_cur policy) held)
                          else if negb (p_cur held =? p_cur policy)
                          then cpufreq_out_of_sync cpu (p_cur held) (p_cur policy)
                          else ret tt in
                        ret policy
                    end) k s1 = k (set_p_cur cur proposal) s2) as (s2 & cur & Hf2 & Hstep).
  { destruct (d_get d) as [get|].
    - destruct Hsync as [Hcur Hsame].
      exists (set_trace (trace s1 ++ [call_get cpu]) s1), (get cpu).
      split; [apply only_refs_and_trace_record|]. intros B k.
      rewrite bind_assoc, record_run. cbn.
      change (p_cur held) with (p_cur v).
      rewrite (proj2 (Z.eqb_neq _ _) Hcur), Hsame, Z.eqb_refl. done.
    - exists s1, (p_cur proposal). split; [apply only_refs_and_trace_refl|]. intros B k.
      rewrite ret_run. by destruct proposal. }
  rewrite bind_assoc, Hstep.
  destruct (only_refs_and_trace_fields _ _ Hf2) as (Hd2 & Hp2 & _ & Hpc2 & Hon2 & _).
  assert (load data s2 = Some (held, s2)) as Hload2.
  { apply load_run. by rewrite Hp2, Hp1, lookup_insert_eq. }
  rewrite bind_assoc, (bind_run _ _ _ _ _ Hload2), bind_assoc.
  destruct (__cpufreq_set_policy held (set_p_cur cur proposal) s2)
    as [[[[r3 dv3] pol3] s3]|] eqn:Hrun; [|by unfold bind; rewrite Hrun].
  rewrite (bind_run _ _ _ _ _ Hrun). cbn beta iota. rewrite !bind_assoc, store_run.
  set (s4 := set_policies _ s3).
  pose proof (set_policy_frame _ _ _ _ _ _ _ Hrun) as Hf3.
  destruct (only_refs_and_trace_fields _ _ Hf3) as (Hd3 & Hp3 & _ & Hpc3 & Hon3 & _).
  assert (policy_cpu_known cpu s4) as Hknown4.
  { unfold policy_cpu_known, s4. cbn. rewrite Hpc3, Hpc2, Hf1. done. }
  destruct (lock_policy_rwsem_run cpu s4 Hknown4) as [_ Hunlock].
  rewrite !bind_assoc, (bind_run _ _ _ _ _ Hunlock), ret_run.
  destruct (cpufreq_cpu_put_run data s4 d dv3) as (s5 & Hput5 & Hp5 & _).
  { unfold s4. cbn. by rewrite Hd3, Hd2. }
  { unfold s4. cbn. by rewrite lookup_insert_eq. }
  rewrite (bind_run _ _ _ _ _ Hput5). intros [= <- <-].
  eexists. split; [by rewrite Hp5, lookup_insert_eq|]. cbn.
  assert (pm_qos_cpu_freq_min s2 = pm_qos_cpu_freq_min s /\
          pm_qos_cpu_freq_max s2 = pm_qos_cpu_freq_max s /\
          cpufreq_policy_notifier_list s2 = cpufreq_policy_notifier_list s) as (Hq1 & Hq2 & Hnl).
  { unfold only_refs_and_trace in Hf2. rewrite Hf2, Hf1. done. }
  destruct (set_policy_commits held (set_p_cur cur proposal) s2 d)
    with (r := r3) (data' := dv3) (policy' := pol3) (s' := s3) as (Hmin & Hmax & _);
    try done.
  - by rewrite Hd2.
  - cbn. unfold window_min, window_max. rewrite Hq1, Hq2. lia.
  - intros nb ev p. rewrite Hnl. apply Hnot.
  - rewrite Hmin, Hmax. cbn. unfold window_min, window_max. by rewrite Hq1, Hq2.
Qed.

End Recommit.

Section Writes.

Context {K : kernel_env} {L : kernel_lib}.

(** X16: a write to scaling_min_freq or scaling_max_freq whose text parses
    stores the parsed value in user_policy.min or user_policy.max of the
    policy, whether the transition engine accepted the new limit or not;
    policy_min_freq or policy_max_freq shows that value afterwards.  The
    engine is run on the live policy and a copy of it with the new limit; the
    write returns the byte count when the engine returned 0 and the engine's
    code otherwise, and no other policy is touched. *)
Theorem store_one_records_request object policy buf count s x pv d :
  table_wf s -> sscanf_u buf = Some x ->
  policies s !! policy = Some pv ->
  (p_cpu pv < nr_cpu_ids)%nat -> cpufreq_driver s = Some d ->
  module_pinnable (d_owner d) s ->
  cpufreq_cpu_data s !! p_cpu pv = Some policy ->
  let held := set_p_kobj (p_kobj pv + 1) (p_kobj_unregister pv) pv in
  forall r s', store_one object policy buf count s = Some (r, s') ->
  exists r0 data' new_policy' s2,
    __cpufreq_set_policy pv (set_object object x held) s
      = Some (r0, data', new_policy', s2) /\
    r = to_ssize (if to_uint r0 =? 0 then count else to_uint r0) /\
    policies s' !! policy = Some (set_user_object object x data') /\
    get_user_object object (set_user_object object x data') = x /\
    show_one (get_user_object object) (set_user_object object x data')
      = sprintf (fmt_u x ++ newline) /\
    (forall q, q <> policy -> policies s' !! q = policies s !! q).
Proof.
  intros Hwf Hscan Hpv Hcpu Hd Hpin Hq held r s'.
  pose proof (cpufreq_get_policy_attached _ _ _ _ _ Hwf Hcpu Hd Hpin Hq Hpv) as Hgp.
  pose proof (load_run _ _ _ Hpv) as Hload.
  unfold store_one.
  rewrite (bind_run _ _ _ _ _ Hload), (bind_run _ _ _ _ _ Hgp), Hscan.
  rewrite (bind_run _ _ _ _ _ Hload). fold held.
  destruct (__cpufreq_set_policy pv (set_object object x held) s)
    as [[[[r0 data'] np'] s2]|] eqn:Hrun; [|by unfold bind; rewrite Hrun].
  rewrite (bind_run _ _ _ _ _ Hrun). cbn beta iota. rewrite store_run. unfold ret.
  intros [= <- <-]. exists r0, data', np', s2. split; [done|]. split; [done|].
  destruct (set_policy_restores _ _ _ _ _ _ _ Hrun) as [Hmin Hmax].
  assert (get_object object np' = x) as Hx.
  { destruct object; cbn in *; congruence. }
  rewrite Hx. cbn. rewrite lookup_insert_eq. split; [done|].
  assert (get_user_object object (set_user_object object x data') = x) as Hu.
  { by destruct object. }
  split; [done|]. split.
  - unfold show_one. by rewrite Hu.
  - intros q' Hne. rewrite lookup_insert_ne by done.
    pose proof (set_policy_frame _ _ _ _ _ _ _ Hrun) as Hf.
    by destruct (only_refs_and_trace_fields _ _ Hf) as (_ & -> & _).
Qed.

End Writes.

Section AttachFailures.

Context {K : kernel_env} {L : kernel_lib}.

Lemma module_put_restores owner s s1 s2 :
  try_module_get owner s = Some (true, s1) -> modules s2 = modules s1 ->
  module_put owner s2 = Some (tt, set_modules (modules s) s2).
Proof.
  unfold try_module_get, module_put. destruct owner as [m|]; cbn.
  - destruct (modules s !! m) as [md|] eqn:Hm; [|discriminate].
    destruct (m_live md) eqn:Hl; [|discriminate].
    intros [= <-] ->. cbn. rewrite lookup_insert_eq. cbn.
    rewrite insert_insert_eq. do 3 f_equal.
    replace (m_refcnt md + 1 - 1) with (m_refcnt md) by lia.
    rewrite <- Hl, module_t_eta, insert_id by done. done.
  - intros [= <-] Hm. unfold ret. rewrite <- Hm. by destruct s2.
Qed.

(** X17: cpufreq_add_dev returns 0 without doing anything for an offline cpu.
    For an online cpu without a policy it returns -EINVAL when the driver's
    module cannot be pinned and -ENOMEM when the policy cannot be allocated,
    leaving the state unchanged; when the driver's init refuses with r it
    returns r, the policy is freed again and the module reference dropped, and
    what remains is the record of the init call and the cpu's policy cpu, now
    the cpu itself. *)
Theorem cpufreq_add_dev_failures cpu s :
  (~ cpu_is_online cpu s -> cpufreq_add_dev cpu s = Some (0, s)) /\
  (forall d,
     cpu_is_online cpu s -> cpufreq_driver s = Some d ->
     cpufreq_cpu_data s !! cpu = None ->
     (~ module_pinnable (d_owner d) s -> cpufreq_add_dev cpu s = Some (- EINVAL, s)) /\
     (module_pinnable (d_owner d) s -> (forall t, kzalloc t = false) ->
      cpufreq_add_dev cpu s = Some (- ENOMEM, s)) /\
     (forall r,
        module_pinnable (d_owner d) s -> (forall t, kzalloc t = true) ->
        r <> 0 -> (forall p, fst (d_init d p) = r) ->
        exists p0,
          cpufreq_add_dev cpu s
            = Some (r, set_trace (trace s ++ [call_init p0])
                         (set_policy_cpu (<[cpu := Z.of_nat cpu]> (cpufreq_policy_cpu s)) s)) /\
          p_cpu p0 = cpu /\ p_cpus p0 = cpumask_of cpu /\ is_Some (p_governor p0))).
Proof.
  split.
  - intros Hoff. apply not_true_is_false in Hoff. unfold cpufreq_add_dev, cpu_online.
    rewrite gets_run. unfold cpu_is_online in Hoff. by rewrite Hoff.
  - intros d Hon Hd Hnone.
    assert (forall B (k : option policy_ptr -> M B),
              bind (if CONFIG_SMP then cpufreq_cpu_get cpu else ret None) k s = k None s)
      as Halready.
    { intros B k. destruct CONFIG_SMP; [|done].
      rewrite (bind_run _ _ _ _ _ (cpufreq_cpu_get_fails cpu s (or_intror (or_intror Hnone)))).
      done. }
    unfold cpu_is_online in Hon.
    unfold cpufreq_add_dev, cpu_online. rewrite gets_run, Hon. cbn [negb].
    rewrite Halready, gets_run, Hd.
    split; [|split].
    + intros Hpin. by rewrite (bind_run _ _ _ _ _ (try_module_get_unpinnable _ _ Hpin)).
    + intros Hpin Hmem.
      destruct (try_module_get_pinnable _ _ Hpin) as [s1 Hget].
      rewrite (bind_run _ _ _ _ _ Hget). cbn [negb]. rewrite gets_run, Hmem. cbn [negb].
      by rewrite (bind_run _ _ _ _ _ (try_module_get_put _ _ _ Hget)).
    + intros r Hpin Hmem Hr Hinit.
      destruct (try_module_get_pinnable _ _ Hpin) as [s1 Hget].
      pose proof (try_module_get_frame _ _ _ _ Hget) as Hf1.
      rewrite (bind_run _ _ _ _ _ Hget). cbn [negb]. rewrite gets_run, Hmem. cbn [negb].
      rewrite gets_run.
      set (policy := fresh (dom (policies s1))).
      assert (policies s !! policy = None) as Hfresh.
      { apply not_elem_of_dom. unfold policy. rewrite Hf1. cbn. apply is_fresh. }
      rewrite store_run.
      unfold set_per_cpu_policy_cpu, modify. unfold bind at 1.
      set (s2 := set_policy_cpu _ _).
      assert (policy_cpu_known cpu s2) as Hknown.
      { unfold policy_cpu_known, s2. cbn. rewrite lookup_insert_eq. cbn. lia. }
      destruct (lock_policy_rwsem_run cpu s2 Hknown) as [Hlock Hunlock].
      rewrite (bind_run _ _ _ _ _ Hlock).
      set (found := if CONFIG_HOTPLUG_CPU then gets (sibling_governor cpu) else ret None).
      assert (exists o, found s2 = Some (o, s2)) as [o Hfound].
      { unfold found. destruct CONFIG_HOTPLUG_CPU; eexists; done. }
      rewrite (bind_run _ _ _ _ _ Hfound).
      set (gov := match o with Some g => g | None => CPUFREQ_DEFAULT_GOVERNOR end).
      assert (load policy s2 = Some (set_p_cpus (cpumask_of cpu)
                {| p_cpus := 0%N; p_related_cpus := 0%N; p_cpu := cpu;
                   p_cpuinfo := p_cpuinfo zero_policy;
                   p_min := 0; p_max := 0; p_cur := 0; p_policy := 0;
                   p_governor := None;
                   p_user_policy := p_user_policy zero_policy;
                   p_kobj := 0; p_kobj_unregister := false |}, s2)) as Hload.
      { apply load_run. unfold s2. cbn. by rewrite lookup_insert_eq. }
      rewrite (bind_run _ _ _ _ _ Hload), record_run.
      set (p0 := set_p_governor (Some gov) _).
      pose proof (Hinit p0) as Hr0.
      destruct (d_init d p0) as [r0 pv]. cbn in Hr0. subst r0.
      rewrite store_run. rewrite (proj2 (Z.eqb_neq _ _) Hr). cbn [negb].
      set (s3 := set_policies _ _).
      assert (policy_cpu_known cpu s3) as Hknown3 by done.
      destruct (lock_policy_rwsem_run cpu s3 Hknown3) as [_ Hunlock3].
      rewrite (bind_run _ _ _ _ _ Hunlock3).
      unfold kfree, modify. unfold bind at 1.
      set (s4 := set_policies _ s3).
      assert (modules s4 = modules s1) as Hm4 by done.
      rewrite (bind_run _ _ _ _ _ (module_put_restores _ _ _ _ Hget Hm4)).
      exists p0. split; [|done]. unfold ret. do 2 f_equal.
      unfold s4, s3, s2. cbn. rewrite Hf1. cbn.
      rewrite delete_insert_eq, delete_insert_id by done.
      by destruct s.
Qed.

End AttachFailures.

Arguments __cpufreq_get : simpl never.

Section Reads.

Context {K : kernel_env} {L : kernel_lib}.

(** Dropping the reference taken at [s], after steps that left the heap of
    policies and the module counts as [cpufreq_cpu_get] made them. *)
Lemma cpufreq_cpu_put_back cpu s data s1 s2 :
  cpufreq_cpu_get cpu s = Some (Some data, s1) -> kref data s <> 0 ->
  policies s2 = policies s1 -> modules s2 = modules s1 ->
  cpufreq_driver s2 = cpufreq_driver s ->
  cpufreq_cpu_put data s2 = Some (tt, set_modules (modules s) (set_policies (policies s) s2)).
Proof.
  intros Hget Hk Hp2 Hm2 Hd2.
  destruct (cpufreq_cpu_get_success _ _ _ _ Hget)
    as (d & v & s0 & _ & Hd & _ & Hv & Hmod & Hs1).
  pose proof (try_module_get_frame _ _ _ _ Hmod) as Hf0.
  unfold kref in Hk. rewrite Hv in Hk.
  unfold cpufreq_cpu_put, kobject_put.
  assert (load data s2 = Some (set_p_kobj (p_kobj v + 1) (p_kobj_unregister v) v, s2)) as Hload.
  { apply load_run. rewrite Hp2, Hs1. cbn. by rewrite lookup_insert_eq. }
  rewrite bind_assoc, (bind_run _ _ _ _ _ Hload). cbn [p_kobj set_p_kobj p_kobj_unregister].
  rewrite store_run, gets_run. cbn [cpufreq_driver set_policies]. rewrite Hd2, Hd.
  assert (p_kobj v + 1 - 1 = p_kobj v) as -> by lia.
  rewrite (proj2 (Z.eqb_neq _ _) Hk).
  set (s3 := set_policies _ s2).
  assert (modules s3 = modules s0) as Hm3.
  { unfold s3. cbn. rewrite Hm2, Hs1. done. }
  rewrite (module_put_restores _ _ _ _ Hmod Hm3). do 2 f_equal.
  unfold s3. cbn. rewrite Hp2, Hs1. cbn. rewrite insert_insert_eq.
  assert (set_p_kobj (p_kobj v) (p_kobj_unregister v)
            (set_p_kobj (p_kobj v + 1) (p_kobj_unregister v) v) = v) as -> by (by destruct v).
  by rewrite insert_id.
Qed.

(** X18: cpufreq_get returns 0 without asking the driver when the cpu has no
    policy or is offline, and 0 when the driver has no get method; the state
    is unchanged.  When the driver's answer is 0, [cur] is 0, the two agree or
    const_loops is set, cpufreq_get returns the driver's answer and only the
    record of calls grows: no notice is sent and no work is queued. *)
Theorem cpufreq_get_reads_the_driver cpu s :
  table_wf s ->
  ((nr_cpu_ids <= cpu)%nat \/ cpufreq_driver s = None \/ cpufreq_cpu_data s !! cpu = None ->
   cpufreq_get cpu s = Some (0, s)) /\
  (forall d data v,
     (cpu < nr_cpu_ids)%nat -> cpufreq_driver s = Some d ->
     module_pinnable (d_owner d) s ->
     cpufreq_cpu_data s !! cpu = Some data -> policies s !! data = Some v ->
     policy_cpu_known cpu s ->
     (* the cpu has gone offline: the driver is not asked *)
     (~ cpu_is_online cpu s -> cpufreq_get cpu s = Some (0, s)) /\
     (* the driver cannot tell *)
     (cpu_is_online cpu s -> d_get d = None -> cpufreq_get cpu s = Some (0, s)) /\
     (* the driver's answer agrees with the policy, or cannot be compared with it *)
     (forall get, cpu_is_online cpu s -> d_get d = Some get ->
        get cpu = 0 \/ p_cur v = 0 \/ get cpu = p_cur v \/
        Z.land (d_flags d) CPUFREQ_CONST_LOOPS <> 0 ->
        cpufreq_get cpu s = Some (get cpu, set_trace (trace s ++ [call_get cpu]) s))).
Proof.
  intros Hwf. split.
  - intros H. pose proof (cpufreq_cpu_get_fails _ _ H) as Hget.
    unfold cpufreq_get. by rewrite (bind_run _ _ _ _ _ Hget).
  - intros d data v Hcpu Hd Hpin Hdata Hv Hknown.
    destruct (Hwf _ _ Hdata) as (v0 & Hv0 & Hk).
    assert (v0 = v) as -> by congruence.
    destruct (cpufreq_cpu_get_hold _ _ _ _ _ Hcpu Hd Hpin Hdata Hv Hk)
      as (s1 & Hget & Hput & Hp1 & Hf1 & _).
    set (held := set_p_kobj (p_kobj v + 1) (p_kobj_unregister v) v) in *.
    destruct (lock_policy_rwsem_held cpu s (policies s1) (modules s1) Hknown)
      as [Hlock Hunlock].
    rewrite <- Hf1 in Hlock, Hunlock.
    assert (cpufreq_driver s1 = Some d) as Hd1 by (by rewrite Hf1).
    assert (cpufreq_cpu_data s1 !! cpu = Some data) as Hdata1 by (by rewrite Hf1).
    unfold cpu_is_online, cpufreq_get.
    rewrite (bind_run _ _ _ _ _ Hget), (bind_run _ _ _ _ _ Hlock).
    split; [|split].
    + intros Hoff. apply not_true_is_false in Hoff. rewrite Hoff. cbn.
      by rewrite (bind_run _ _ _ _ _ Hput).
    + intros Hon Hnone. rewrite Hon. cbn.
      assert (__cpufreq_get cpu s1 = Some (0, s1)) as Hrun.
      { unfold __cpufreq_get. by rewrite gets_run, gets_run, Hd1, Hnone. }
      rewrite bind_assoc, (bind_run _ _ _ _ _ Hrun), bind_assoc,
        (bind_run _ _ _ _ _ Hunlock), ret_run.
      by rewrite (bind_run _ _ _ _ _ Hput).
    + intros get Hon Hsome Hsync. rewrite Hon. cbn.
      set (s2 := set_trace (trace s1 ++ [call_get cpu]) s1).
      assert (__cpufreq_get cpu s1 = Some (get cpu, s2)) as Hrun.
      { unfold __cpufreq_get. rewrite gets_run, gets_run, Hd1, Hsome, Hdata1.
        rewrite record_run. fold s2.
        destruct (get cpu =? 0) eqn:E0; [done|]. cbn [negb].
        assert (load data s2 = Some (held, s2)) as Hload.
        { apply load_run. unfold s2. cbn. by rewrite Hp1, lookup_insert_eq. }
        rewrite bind_assoc, (bind_run _ _ _ _ _ Hload).
        change (p_cur held) with (p_cur v).
        destruct (p_cur v =? 0) eqn:E1; [done|]. cbn [negb andb].
        destruct (Z.land (d_flags d) CPUFREQ_CONST_LOOPS =? 0) eqn:E2; [|done].
        destruct (get cpu =? p_cur v) eqn:E3; [done|].
        apply Z.eqb_neq in E0, E1, E3. apply Z.eqb_eq in E2.
        destruct Hsync as [?|[?|[?|?]]]; done. }
      rewrite bind_assoc, (bind_run _ _ _ _ _ Hrun), bind_assoc.
      assert (policy_cpu_known cpu s2) as Hknown2.
      { unfold policy_cpu_known, s2. cbn. by rewrite Hf1. }
      destruct (lock_policy_rwsem_run cpu s2 Hknown2) as [_ Hunlock2].
      rewrite (bind_run _ _ _ _ _ Hunlock2), ret_run.
      rewrite (bind_run _ _ _ _ _
                 (cpufreq_cpu_put_back cpu s data s1 s2 Hget
                    ltac:(unfold kref; by rewrite Hv) eq_refl eq_refl
                    ltac:(unfold s2; cbn; by rewrite Hd1))).
      unfold ret. do 2 f_equal. unfold s2. cbn. rewrite Hf1. cbn. by destruct s.
Qed.

(** X19: a write to scaling_setspeed returns -EINVAL and changes nothing
    when the policy has no governor, the governor has no store_setspeed
    method or the text is not a number; otherwise the governor's method is
    applied to the policy and the byte count is returned.  A read shows
    <unsupported> when the governor has no show_setspeed method. *)
Theorem scaling_setspeed_needs_governor_support policy buf count s pv :
  policies s !! policy = Some pv ->
  (p_governor pv = None \/
   (exists g, p_governor pv = Some g /\ g_store_setspeed (governor_at g) = None) \/
   sscanf_u buf = None ->
   store_scaling_setspeed policy buf count s = Some (- EINVAL, s)) /\
  (forall g f freq,
     p_governor pv = Some g -> g_store_setspeed (governor_at g) = Some f ->
     sscanf_u buf = Some freq ->
     store_scaling_setspeed policy buf count s
       = Some (to_ssize count, set_policies (<[policy := f pv freq]> (policies s)) s)) /\
  (p_governor pv = None \/
   (exists g, p_governor pv = Some g /\ g_show_setspeed (governor_at g) = None) ->
   show_scaling_setspeed pv = sprintf ("<unsupported>" ++ newline)).
Proof.
  intros Hpv. pose proof (load_run _ _ _ Hpv) as Hload.
  unfold store_scaling_setspeed, show_scaling_setspeed.
  rewrite (bind_run _ _ _ _ _ Hload). split; [|split].
  - intros [Hnone|[(g & Hg & Hf)|Hscan]].
    + by rewrite Hnone.
    + by rewrite Hg, Hf.
    + destruct (p_governor pv) as [g|]; [|done].
      destruct (g_store_setspeed (governor_at g)); [|done]. by rewrite Hscan.
  - intros g f freq Hg Hf Hscan. by rewrite Hg, Hf, Hscan.
  - intros [Hnone|(g & Hg & Hf)].
    + by rewrite Hnone.
    + by rewrite Hg, Hf.
Qed.

End Reads.

Arguments driver_exit : simpl never.
Arguments kobject_put : simpl never.
Arguments wait_for_completion : simpl never.
Arguments governor_name : simpl never.

Section Teardown.

Context {K : kernel_env} {L : kernel_lib}.

(** X20: cpufreq_remove_dev on the owner of a policy that no other cpu shares
    either completes or waits forever; it completes exactly when the
    reference it drops was the last one.  Then it returns 0, the table entry
    and the policy are gone, the governor was stopped (for a target driver)
    and the driver's exit called after it, on the record with the count
    dropped and the completion taken, and under CONFIG_SMP and
    CONFIG_HOTPLUG_CPU the name of the governor is saved for the cpu.  (The
    governor's STOP and the driver's exit leave the policy record alone.) *)
Theorem remove_dev_tears_down_unshared_policy fuel cpu (saved : gmap nat string) s d data dv g :
  cpu_is_online cpu s -> policy_cpu_known cpu s ->
  cpufreq_driver s = Some d ->
  cpufreq_cpu_data s !! cpu = Some data -> policies s !! data = Some dv ->
  p_cpu dv = cpu -> cpumask_weight (p_cpus dv) <= 1 ->
  p_governor dv = Some g ->
  tolerates g (transition_latency (p_cpuinfo dv)) ->
  module_pinnable (g_owner (governor_at g)) s ->
  keeps_governor g ->
  snd (g_governor (governor_at g) dv CPUFREQ_GOV_STOP) = dv ->
  (forall f v, d_exit d = Some f -> snd (f v) = v) ->
  let gone := set_p_kobj (p_kobj dv - 1) false dv in
  match cpufreq_remove_dev (S fuel) cpu saved s with
  | Some (r, saved', s') =>
      (* the reference of the sysfs directory was the last one *)
      (p_kobj dv = 1 \/ p_kobj_unregister dv = true) /\
      r = 0 /\
      saved' = (if CONFIG_SMP && CONFIG_HOTPLUG_CPU
                then <[cpu := strncpy (g_name (governor_at g)) CPUFREQ_NAME_LEN]> saved
                else saved) /\
      cpufreq_cpu_data s' = delete cpu (cpufreq_cpu_data s) /\
      policies s' = delete data (policies s) /\
      trace s' = trace s
                 ++ (if bool_decide (is_Some (d_target d))
                     then [call_governor g CPUFREQ_GOV_STOP] else [])
                 ++ (if bool_decide (is_Some (d_exit d)) then [call_exit gone] else [])
  | None =>
      (* somebody else still holds the policy: the wait does not end *)
      p_kobj dv <> 1 /\ p_kobj_unregister dv = false
  end.
Proof.
  intros Hon Hknown Hd Hdata Hdv Howner Hweight Hg Htol Hpin Hkeep Hstop Hexit gone.
  unfold cpu_is_online in Hon.
  destruct (lock_policy_rwsem_run cpu s Hknown) as [Hlock _]. rewrite Hon in Hlock.
  unfold cpufreq_remove_dev, cpu_online.
  rewrite gets_run, Hon. cbn [negb]. rewrite (bind_run _ _ _ _ _ Hlock). cbn [negb Z.eqb].
  cbn [__cpufreq_remove_dev]. rewrite gets_run, Hdata.
  unfold set_per_cpu_data, modify. unfold bind at 1.
  set (s1 := set_cpu_data _ s).
  assert (load data s1 = Some (dv, s1)) as Hload1 by (by apply load_run).
  rewrite (bind_run _ _ _ _ _ Hload1).
  rewrite Howner, Nat.eqb_refl, andb_false_r.
  assert ((1 <? cpumask_weight (p_cpus dv)) = false) as Hw by (apply Z.ltb_ge; lia).
  rewrite Hw.
  assert (governor_name data s1 = Some (g_name (governor_at g), s1)) as Hname.
  { unfold governor_name. by rewrite (bind_run _ _ _ _ _ Hload1), Hg. }
  set (saved' := if CONFIG_SMP && CONFIG_HOTPLUG_CPU
                 then <[cpu := strncpy (g_name (governor_at g)) CPUFREQ_NAME_LEN]> saved
                 else saved).
  assert (forall B (k : gmap nat string -> M B),
            bind (if CONFIG_SMP then
                    let* saved0 :=
                      if CONFIG_HOTPLUG_CPU then
                        let* name := governor_name data in
                        ret (<[cpu := strncpy name CPUFREQ_NAME_LEN]> saved)
                      else ret saved in
                    let* _ := ret tt in ret saved0
                  else ret saved) k s1 = k saved' s1) as Hsaved.
  { intros B k. unfold saved'. destruct CONFIG_SMP; [|done].
    destruct CONFIG_HOTPLUG_CPU; cbn [andb].
    - by rewrite !bind_assoc, (bind_run _ _ _ _ _ Hname).
    - done. }
  rewrite Hsaved. clear Hsaved.
  rewrite gets_run. change (cpufreq_driver s1) with (cpufreq_driver s). rewrite Hd.
  (* the governor is stopped *)
  assert (exists s2,
            only_refs_and_trace s1 s2 /\
            trace s2 = trace s ++ (if bool_decide (is_Some (d_target d))
                                   then [call_governor g CPUFREQ_GOV_STOP] else []) /\
            forall B (k : unit -> M B),
              bind (match d_target d with
                    | Some _ =>
                        let* dv0 := load data in
                        let* (_, dv1) := __cpufreq_governor dv0 CPUFREQ_GOV_STOP in
                        store data dv1
                    | None => ret tt
                    end) k s1 = k tt s2) as (s2 & Hf2 & Ht2 & Hstep).
  { destruct (d_target d) as [t|].
    - assert (module_pinnable (g_owner (governor_at g)) s1) as Hpin1 by exact Hpin.
      destruct (cpufreq_governor_plain g dv CPUFREQ_GOV_STOP s1 Hg Htol Hpin1 Hkeep)
        as (s2 & Hrun & Ht2 & _).
      destruct (g_governor (governor_at g) dv CPUFREQ_GOV_STOP) as [r1 dv1].
      cbn in Hstop. subst dv1.
      pose proof (cpufreq_governor_frame _ _ _ _ _ _ Hrun) as Hf2.
      exists s2. split; [done|]. split; [by rewrite Ht2|].
      intros B k. rewrite bind_assoc, (bind_run _ _ _ _ _ Hload1), bind_assoc,
        (bind_run _ _ _ _ _ Hrun).
      cbn beta iota. rewrite store_run.
      destruct (only_refs_and_trace_fields _ _ Hf2) as (_ & Hp2 & _).
      rewrite insert_id by (by rewrite Hp2). by rewrite kstate_set_policies_id.
    - exists s1. split; [apply only_refs_and_trace_refl|].
      split; [by rewrite app_nil_r|]. done. }
  rewrite Hstep. clear Hstep.
  destruct (only_refs_and_trace_fields _ _ Hf2) as (Hd2 & Hp2 & Hc2 & Hpc2 & _).
  assert (policy_cpu_known cpu s2) as Hknown2.
  { unfold policy_cpu_known. by rewrite Hpc2. }
  destruct (lock_policy_rwsem_run cpu s2 Hknown2) as [_ Hunlock2].
  rewrite (bind_run _ _ _ _ _ Hunlock2).
  (* the reference of the sysfs directory is dropped *)
  set (dropped := set_p_kobj (p_kobj dv - 1)
                    (if p_kobj dv - 1 =? 0 then true else p_kobj_unregister dv) dv).
  set (s3 := set_policies (<[data := dropped]> (policies s2)) s2).
  assert (kobject_put data s2 = Some (tt, s3)) as Hkput.
  { unfold kobject_put. rewrite (bind_run _ _ _ _ _ (load_run data s2 dv ltac:(by rewrite Hp2))).
    done. }
  rewrite (bind_run _ _ _ _ _ Hkput).
  assert (load data s3 = Some (dropped, s3)) as Hload3.
  { apply load_run. unfold s3. cbn. by rewrite lookup_insert_eq. }
  unfold wait_for_completion. rewrite bind_assoc, (bind_run _ _ _ _ _ Hload3).
  destruct (p_kobj_unregister dropped) eqn:Hdone.
  2:{ cbn. unfold dropped in Hdone. cbn in Hdone.
      destruct (p_kobj dv - 1 =? 0) eqn:E; [done|]. apply Z.eqb_neq in E. split; [lia|done]. }
  (* the wait ends and takes the completion *)
  rewrite store_run.
  change (set_p_kobj (p_kobj dropped) false dropped) with gone.
  set (s3w := set_policies (<[data := gone]> (policies s3)) s3).
  assert (load data s3w = Some (gone, s3w)) as Hload3w.
  { apply load_run. unfold s3w. cbn. by rewrite lookup_insert_eq. }
  assert (policy_cpu_known cpu s3w) as Hknown3 by done.
  destruct (lock_policy_rwsem_run cpu s3w Hknown3) as [Hlock3 Hunlock3].
  rewrite (bind_run _ _ _ _ _ Hlock3).
  (* the driver lets go of the cpu *)
  set (s4 := set_trace (trace s3w ++ (if bool_decide (is_Some (d_exit d))
                                       then [call_exit gone] else [])) s3w).
  assert (driver_exit data s3w = Some (tt, s4)) as Hdexit.
  { unfold driver_exit. rewrite gets_run.
    change (cpufreq_driver s3w) with (cpufreq_driver s2). rewrite Hd2. cbn. rewrite Hd.
    destruct (d_exit d) as [f|] eqn:Hf.
    - rewrite (bind_run _ _ _ _ _ Hload3w), record_run.
      rewrite (Hexit f gone eq_refl). unfold store, modify. do 2 f_equal.
      unfold s4. cbn. rewrite insert_insert_eq. done.
    - unfold ret, s4. cbn. rewrite app_nil_r. do 2 f_equal. }
  rewrite (bind_run _ _ _ _ _ Hdexit).
  assert (policy_cpu_known cpu s4) as Hknown4 by done.
  destruct (lock_policy_rwsem_run cpu s4 Hknown4) as [_ Hunlock4].
  rewrite (bind_run _ _ _ _ _ Hunlock4).
  assert (load data s4 = Some (gone, s4)) as Hload4.
  { apply load_run. unfold s4, s3w. cbn. by rewrite lookup_insert_eq. }
  assert (forall B (k : gmap nat string -> M B),
            bind (if CONFIG_HOTPLUG_CPU then
                    let* dv0 := load data in
                    if 1 <? cpumask_weight (p_cpus dv0) then
                      let cpus := cpumask_clear_cpu cpu (p_cpus dv0) in
                      let* _ := store data (set_p_cpus cpus dv0) in
                      let* _ := cpufreq_add_dev (cpumask_first cpus) in
                      let* _ := lock_policy_rwsem cpu in
                      let* (_, saved0) := __cpufreq_remove_dev fuel cpu saved' in
                      ret saved0
                    else ret saved'
                  else ret saved') k s4 = k saved' s4) as Hhot.
  { intros B k. destruct CONFIG_HOTPLUG_CPU; [|done].
    rewrite bind_assoc, (bind_run _ _ _ _ _ Hload4).
    change (p_cpus gone) with (p_cpus dv). by rewrite Hw. }
  rewrite Hhot. clear Hhot.
  unfold kfree, modify, ret. unfold bind. cbn.
  split.
  { unfold dropped in Hdone. cbn in Hdone.
    destruct (p_kobj dv - 1 =? 0) eqn:E; [left; apply Z.eqb_eq in E; lia|by right]. }
  split; [done|]. split; [done|]. split; [by rewrite Hc2|]. split.
  - rewrite !delete_insert_eq. by rewrite Hp2.
  - rewrite Ht2. by rewrite <- app_assoc.
Qed.

End Teardown.

(** ** Attachment of a cpu that shares its policy with nobody *)

Section Attachment.

Context {K : kernel_env} {L : kernel_lib}.

Lemma for_each_cpu_from cpu a n :
  List.filter (fun c => cpumask_test_cpu c (cpumask_of cpu)) (seq a n)
    = if (a <=? cpu)%nat && (cpu <? a + n)%nat then [cpu] else [].
Proof.
  revert a. induction n as [|n IH]; intros a.
  - cbn [seq List.filter].
    destruct (a <=? cpu)%nat eqn:Ha; cbn [andb]; [|done].
    destruct (cpu <? a + 0)%nat eqn:Hb; [|done].
    apply Nat.leb_le in Ha. apply Nat.ltb_lt in Hb. lia.
  - cbn [seq List.filter]. rewrite IH.
    unfold cpumask_test_cpu, cpumask_of. rewrite N.shiftl_1_l, N.pow2_bits_eqb.
    destruct (N.eqb_spec (N.of_nat cpu) (N.of_nat a)) as [He|He].
    + apply Nat2N.inj in He. subst a.
      rewrite (proj2 (Nat.leb_gt _ _)) by lia. cbn [andb].
      rewrite Nat.leb_refl. rewrite (proj2 (Nat.ltb_lt _ _)) by lia. done.
    + assert (a <> cpu) by congruence.
      destruct (S a <=? cpu)%nat eqn:H1; destruct (a <=? cpu)%nat eqn:H2;
        destruct (cpu <? S a + n)%nat eqn:H3; destruct (cpu <? a + S n)%nat eqn:H4;
        try done; exfalso;
        repeat match goal with
               | H : (_ <=? _)%nat = true |- _ => apply Nat.leb_le in H
               | H : (_ <=? _)%nat = false |- _ => apply Nat.leb_gt in H
               | H : (_ <? _)%nat = true |- _ => apply Nat.ltb_lt in H
               | H : (_ <? _)%nat = false |- _ => apply Nat.ltb_ge in H
               end; lia.
Qed.

Lemma for_each_cpu_of nr cpu :
  (cpu < nr)%nat -> for_each_cpu nr (cpumask_of cpu) = [cpu].
Proof.
  intros Hlt. unfold for_each_cpu. rewrite for_each_cpu_from.
  rewrite (proj2 (Nat.leb_le _ _)), (proj2 (Nat.ltb_lt _ _)) by lia. done.
Qed.

Lemma omap_pointwise {A B} (f g : A -> option B) (l : list A) :
  (forall x, f x = g x) -> omap f l = omap g l.
Proof. intros Hfg. induction l as [|x l IH]; [done|]. cbn. by rewrite Hfg, IH. Qed.

(** A policy that is allocated but not yet started has no governor to lend:
    the search for a sibling's governor does not see it. *)
Lemma sibling_governor_fresh cpu s s' policy v :
  cpufreq_cpu_data s' = cpufreq_cpu_data s -> cpu_online_mask s' = cpu_online_mask s ->
  policies s' = <[policy := v]> (policies s) ->
  policies s !! policy = None -> p_governor v = None ->
  sibling_governor cpu s' = sibling_governor cpu s.
Proof.
  intros Hdata Hon Hpol Hnone Hgov. unfold sibling_governor.
  rewrite Hon. f_equal. apply omap_pointwise. intros sibling.
  rewrite Hdata. destruct (cpufreq_cpu_data s !! sibling) as [cp|]; [|done].
  rewrite Hpol. destruct (decide (cp = policy)) as [->|Hne].
  - by rewrite lookup_insert_eq, Hnone, Hgov.
  - by rewrite lookup_insert_ne.
Qed.

Lemma create_files_run cpu names s :
  (forall t c n, sysfs_create_file t c n = 0) ->
  create_files cpu names s
    = Some (0, set_trace (trace s ++ repeat (call_sysfs cpu) (length names)) s).
Proof.
  intros Hok. revert s. induction names as [|n names IH]; intros s.
  - cbn. unfold ret. rewrite app_nil_r. by destruct s.
  - cbn [create_files]. rewrite record_run, gets_run, Hok. cbn [Z.eqb negb].
    rewrite IH. cbn. by rewrite <- app_assoc.
Qed.

Lemma notifier_chain_observers (chain : list notifier_block) ev p :
  (forall nb ev p, nb ∈ chain -> nb ev p = p) ->
  fold_left (fun p (nb : notifier_block) => nb ev p) chain p = p.
Proof.
  revert p. induction chain as [|nb chain IH]; intros p Hid; [done|].
  cbn. rewrite Hid by (apply elem_of_cons; by left). apply IH.
  intros nb' ev' p' Hin. apply Hid. apply elem_of_cons. by right.
Qed.

End Attachment.

Section FirstStart.

Context {K : kernel_env} {L : kernel_lib}.

Lemma set_modules_set_trace t s s1 :
  s1 = set_modules (modules s1) s ->
  set_modules (modules s) (set_trace t s1) = set_trace t s.
Proof. intros ->. by destruct s. Qed.

(** A START or LIMITS callback of a governor that can be pinned and
    tolerates the latency: the result is the callback's, and the governor's
    module stays pinned exactly when the event was a START that succeeded. *)
Lemma cpufreq_governor_run g p ev s sg r p' :
  ev <> CPUFREQ_GOV_STOP ->
  p_governor p = Some g ->
  tolerates g (transition_latency (p_cpuinfo p)) ->
  try_module_get (g_owner (governor_at g)) s = Some (true, sg) ->
  g_governor (governor_at g) p ev = (r, p') ->
  p_governor p' = Some g ->
  __cpufreq_governor p ev s
    = Some (r, p', set_trace (trace s ++ [call_governor g ev])
                     (if gov_event_eqb ev CPUFREQ_GOV_START && (r =? 0) then sg else s)).
Proof.
  intros Hev Hg Htol Hget Hcb Hg'. unfold __cpufreq_governor. rewrite Hg.
  assert (negb (max_transition_latency (governor_at g) =? 0)
          && (max_transition_latency (governor_at g) <? transition_latency (p_cpuinfo p)) = false) as ->.
  { destruct Htol as [->|Hle]; [done|].
    apply andb_false_iff. right. apply Z.ltb_ge. lia. }
  cbn. rewrite (bind_run _ _ _ _ _ Hget). cbn [negb].
  rewrite record_run, Hcb.
  pose proof (try_module_get_frame _ _ _ _ Hget) as Hf.
  assert (trace sg = trace s) as Ht by (by rewrite Hf).
  rewrite Ht.
  set (s2 := set_trace _ sg).
  assert (modules s2 = modules sg) as Hm2 by done.
  pose proof (module_put_restores _ _ _ _ Hget Hm2) as Hput.
  assert (set_modules (modules s) s2 = set_trace (trace s ++ [call_governor g ev]) s) as Hback.
  { unfold s2. by apply set_modules_set_trace. }
  rewrite Hback in Hput.
  unfold put_governor_module. rewrite Hg'.
  destruct ev; cbn [gov_event_eqb negb orb andb].
  - destruct (r =? 0); cbn [negb].
    + by rewrite ret_run, ret_run.
    + by rewrite (bind_run _ _ _ _ _ Hput), ret_run.
  - done.
  - by rewrite (bind_run _ _ _ _ _ Hput), ret_run.
Qed.

Lemma try_module_get_true_pinnable owner s s' :
  try_module_get owner s = Some (true, s') -> module_pinnable owner s.
Proof.
  unfold try_module_get, module_pinnable. destruct owner as [m|]; [|done].
  destruct (modules s !! m) as [md|]; [|done].
  destruct (m_live md) eqn:Hl; [|done]. intros _. by exists md.
Qed.

(** Three steps on module counts: pin [a], pin [b], unpin [a] leaves what
    pinning [b] alone would have left. *)
Lemma module_get_get_put a b s s1 sx sy :
  try_module_get a s = Some (true, s1) ->
  modules sx = modules s1 ->
  try_module_get b sx = Some (true, sy) ->
  exists sb,
    try_module_get b s = Some (true, sb) /\
    forall sz, modules sz = modules sy ->
      module_put a sz = Some (tt, set_modules (modules sb) sz).
Proof.
  unfold try_module_get, module_put.
  destruct a as [ma|], b as [mb|]; cbn.
  - destruct (modules s !! ma) as [mda|] eqn:Ha; [|done].
    destruct (m_live mda) eqn:Hla; [|done].
    intros [= <-] Hx. rewrite Hx. cbn.
    destruct (decide (mb = ma)) as [->|Hne].
    + rewrite lookup_insert_eq. cbn. intros [= <-]. rewrite Ha, Hla.
      eexists. split; [reflexivity|]. intros sz ->. cbn.
      rewrite lookup_insert_eq. cbn. rewrite !insert_insert_eq.
      do 4 f_equal. f_equal. lia.
    + rewrite lookup_insert_ne by done.
      destruct (modules s !! mb) as [mdb|] eqn:Hb; [|done].
      destruct (m_live mdb) eqn:Hlb; [|done].
      intros [= <-]. eexists. split; [reflexivity|]. intros sz ->. cbn.
      rewrite lookup_insert_ne by done. rewrite lookup_insert_eq. cbn.
      rewrite (insert_insert_ne _ ma mb) by done.
      rewrite insert_insert_eq.
      replace (m_refcnt mda + 1 - 1) with (m_refcnt mda) by lia.
      rewrite <- Hla, module_t_eta.
      rewrite (insert_id (modules s) ma mda) by done. done.
  - destruct (modules s !! ma) as [mda|] eqn:Ha; [|done].
    destruct (m_live mda) eqn:Hla; [|done].
    intros [= <-] Hx. unfold ret. intros [= <-].
    eexists. split; [reflexivity|]. intros sz ->. rewrite Hx. cbn.
    rewrite lookup_insert_eq. cbn. rewrite insert_insert_eq.
    replace (m_refcnt mda + 1 - 1) with (m_refcnt mda) by lia.
    rewrite <- Hla, module_t_eta, insert_id by done. done.
  - unfold ret. intros [= <-] Hx. rewrite Hx.
    destruct (modules s !! mb) as [mdb|] eqn:Hb; [|done].
    destruct (m_live mdb) eqn:Hlb; [|done].
    intros [= <-]. eexists. split; [reflexivity|]. intros sz Hz. cbn in *.
    rewrite <- Hz. by destruct sz.
  - unfold ret. intros [= <-] Hx [= <-]. eexists. split; [reflexivity|].
    intros sz Hz. rewrite <- Hx, <- Hz. by destruct sz.
Qed.

End FirstStart.

Section FirstStartEngine.

Context {K : kernel_env} {L : kernel_lib}.

Lemma try_module_get_set_trace owner t s b s' :
  try_module_get owner s = Some (b, s') ->
  try_module_get owner (set_trace t s) = Some (b, set_trace t s').
Proof.
  unfold try_module_get. destruct owner as [m|]; cbn.
  - destruct (modules s !! m) as [md|]; [destruct (m_live md)|]; by intros [= <- <-].
  - unfold ret. by intros [= <- <-].
Qed.

(** The engine on a policy that has no governor yet (the first run, from
    cpufreq_add_dev_interface): the proposed governor is started without a
    STOP before it.  When the start succeeds the governor is told the limits
    and its module stays pinned; when it fails the engine returns -EINVAL,
    there is no old governor to go back to, and the failed governor stays in
    the live policy. *)
Lemma set_policy_first_start data policy s d g sg r0 :
  let umin := u_min (p_user_policy data) in
  let umax := u_max (p_user_policy data) in
  let wmin := window_min (p_min policy) umax (to_uint (pm_qos_cpu_freq_min s)) in
  let wmax := window_max (p_max policy) umin (to_uint (pm_qos_cpu_freq_max s)) in
  let live := set_p_governor (Some g) (set_p_max wmax (set_p_min wmin data)) in
  cpufreq_driver s = Some d -> d_setpolicy d = None ->
  p_governor data = None -> p_governor policy = Some g ->
  ~ (wmin > umax \/ wmax < umin) ->
  (forall p, fst (d_verify d p) = 0 /\
             p_min (snd (d_verify d p)) = p_min p /\ p_max (snd (d_verify d p)) = p_max p /\
             p_governor (snd (d_verify d p)) = p_governor p) ->
  (forall nb ev p, nb ∈ cpufreq_policy_notifier_list s -> nb ev p = p) ->
  tolerates g (transition_latency (p_cpuinfo data)) ->
  try_module_get (g_owner (governor_at g)) s = Some (true, sg) ->
  (forall p ev, snd (g_governor (governor_at g) p ev) = p) ->
  (forall p, fst (g_governor (governor_at g) p CPUFREQ_GOV_START) = r0) ->
  exists policy' calls,
    __cpufreq_set_policy data policy s
      = Some (if r0 =? 0 then 0 else - EINVAL, live, policy',
              set_trace (trace s ++ calls) (if r0 =? 0 then sg else s)) /\
    governor_calls calls
      = (g, CPUFREQ_GOV_START) :: (if r0 =? 0 then [(g, CPUFREQ_GOV_LIMITS)] else []).
Proof.
  intros umin umax wmin wmax live Hd Hset Hnone Hnew Hrange Hver Hobs Htol Hget Hcb Hstart.
  unfold __cpufreq_set_policy, blocking_notifier_call_chain. msimpl.
  match goal with |- context [if ?c then _ else _] => assert (c = false) as -> end.
  { apply orb_false_iff. unfold wmin, wmax, window_min, window_max in Hrange.
    split; [apply Z.ltb_ge|apply Z.ltb_ge]; subst umin umax; lia. }
  rewrite Hd.
  match goal with |- context [d_verify d ?p] =>
    destruct (Hver p) as (Hr1 & Hmin1 & Hmax1 & Hg1); destruct (d_verify d p) as [r1 p1] end.
  cbn in Hr1, Hmin1, Hmax1, Hg1. subst r1. cbn.
  rewrite !notifier_chain_observers by done.
  match goal with |- context [d_verify d ?p] =>
    destruct (Hver p) as (Hr2 & Hmin2 & Hmax2 & Hg2); destruct (d_verify d p) as [r2 p2] end.
  cbn in Hr2, Hmin2, Hmax2, Hg2. subst r2. cbn. rewrite Hset.
  rewrite !notifier_chain_observers by done.
  rewrite Hnone.
  assert (p_governor p2 = Some g) as Hg3 by congruence.
  rewrite Hg3. rewrite bool_decide_eq_false_2 by done. cbn.
  match goal with |- context [__cpufreq_governor ?p CPUFREQ_GOV_START ?st] =>
    set (p3 := p); set (st3 := st) end.
  assert (p3 = live) as Hlive.
  { unfold p3, live, wmin, wmax, window_min, window_max, umin, umax.
    rewrite Hmin2, Hmax2, Hmin1, Hmax1. done. }
  pose proof (try_module_get_set_trace _ (trace st3) _ _ _ Hget) as Hget3.
  change (set_trace (trace st3) s) with st3 in Hget3.
  pose proof (Hcb p3 CPUFREQ_GOV_START) as Hsnd3.
  pose proof (Hstart p3) as Hfst3.
  destruct (g_governor (governor_at g) p3 CPUFREQ_GOV_START) as [r3 d3] eqn:Hcb3.
  cbn in Hsnd3, Hfst3. subst r3 d3.
  rewrite (cpufreq_governor_run g p3 CPUFREQ_GOV_START st3 (set_trace (trace st3) sg) r0 p3);
    [|done|done|done|done|done|done].
  cbn [gov_event_eqb andb].
  destruct (r0 =? 0) eqn:Hr0; cbn [negb].
  - match goal with |- context [__cpufreq_governor p3 CPUFREQ_GOV_LIMITS ?st] =>
      set (st4 := st) end.
    pose proof (try_module_get_total (g_owner (governor_at g)) st4) as (b4 & sg4 & Hget4).
    assert (b4 = true) as ->.
    { pose proof (try_module_get_true_refs _ _ _ Hget) as _.
      revert Hget4. unfold st4. clear -Hget.
      unfold try_module_get in *. destruct (g_owner (governor_at g)) as [m|]; cbn in *.
      - destruct (modules s !! m) as [md|] eqn:Hm; [|done].
        destruct (m_live md); [|done]. injection Hget as <-. cbn.
        rewrite lookup_insert_eq. cbn. by intros [= <- _].
      - unfold ret. by intros [= <- _]. }
    pose proof (Hcb p3 CPUFREQ_GOV_LIMITS) as Hsnd4.
    destruct (g_governor (governor_at g) p3 CPUFREQ_GOV_LIMITS) as [r4 d4] eqn:Hcb4.
    cbn in Hsnd4. subst d4.
    rewrite (cpufreq_governor_run g p3 CPUFREQ_GOV_LIMITS st4 sg4 r4 p3);
      [|done|done|done|done|done|done].
    cbn [gov_event_eqb andb]. rewrite Hlive.
    unfold st4, st3. cbn. rewrite <- !app_assoc.
    eexists _, _. split; [reflexivity|done].
  - rewrite Hlive. unfold st3. cbn. rewrite <- !app_assoc.
    eexists _, _. split; [reflexivity|done].
Qed.

End FirstStartEngine.

Ltac kfields :=
  cbn [cpufreq_driver cpufreq_cpu_data cpufreq_policy_cpu cpufreq_governor_list
       cpufreq_policy_notifier_list policies modules cpu_online_mask cpu_present_mask
       pm_qos_cpu_freq_min pm_qos_cpu_freq_max system_wq trace
       set_modules set_policies set_cpu_data set_policy_cpu set_governor_list
       set_system_wq set_trace].

Section AttachSteps.

Context {K : kernel_env} {L : kernel_lib}.

(** A policy whose [cpus] holds the cpu alone has no managed sibling to
    defer to, and needs no link. *)
Lemma add_dev_policy_alone cpu policy st v :
  (cpu < nr_cpu_ids)%nat -> policies st !! policy = Some v ->
  p_cpus v = cpumask_of cpu ->
  cpufreq_add_dev_policy cpu policy st = Some (0, st) /\
  cpufreq_add_dev_symlink cpu policy st = Some (0, st).
Proof.
  intros Hlt Hv Hcpus. split.
  - unfold cpufreq_add_dev_policy. destruct CONFIG_SMP; [|done].
    rewrite (bind_run _ _ _ _ _ (load_run _ _ _ Hv)).
    rewrite Hcpus, for_each_cpu_of by done.
    cbn [add_dev_policy_loop]. by rewrite Nat.eqb_refl.
  - unfold cpufreq_add_dev_symlink.
    rewrite (bind_run _ _ _ _ _ (load_run _ _ _ Hv)).
    rewrite Hcpus, for_each_cpu_of by done.
    cbn [add_dev_symlink_loop]. unfold cpu_online. rewrite gets_run.
    by rewrite Nat.eqb_refl.
Qed.

Lemma try_module_get_modules owner s b s' st :
  try_module_get owner s = Some (b, s') -> modules st = modules s ->
  try_module_get owner st = Some (b, set_modules (modules s') st).
Proof.
  unfold try_module_get. destruct owner as [m|]; cbn.
  - intros H Hm. rewrite Hm.
    destruct (modules s !! m) as [md|]; [destruct (m_live md)|];
      injection H as <- <-; cbn; rewrite <- ?Hm; by destruct st.
  - unfold ret. intros [= <- <-] Hm. rewrite <- Hm. by destruct st.
Qed.

(** cpufreq_add_dev_interface for a policy that holds the cpu alone, when
    sysfs takes the directory and the files.  The engine starts the governor;
    a governor that refuses leaves the interface with -EINVAL after the
    driver's exit has been called, the limits and the governor pointer
    staying in the policy. *)
Lemma add_dev_interface_alone cpu policy st d v g sg r0 :
  let wmin := window_min (p_min v) (p_max v) (to_uint (pm_qos_cpu_freq_min st)) in
  let wmax := window_max (p_max v) (p_min v) (to_uint (pm_qos_cpu_freq_max st)) in
  (cpu < nr_cpu_ids)%nat -> cpumask_test_cpu cpu (cpu_online_mask st) = true ->
  cpufreq_driver st = Some d -> d_setpolicy d = None ->
  policies st !! policy = Some v ->
  p_cpus v = cpumask_of cpu -> p_governor v = Some g ->
  u_min (p_user_policy v) = p_min v -> u_max (p_user_policy v) = p_max v ->
  p_min v <= p_max v ->
  (forall t c, kobject_init_and_add t c = 0) ->
  (forall t c n, sysfs_create_file t c n = 0) ->
  (forall nb ev p, nb ∈ cpufreq_policy_notifier_list st -> nb ev p = p) ->
  (forall p, fst (d_verify d p) = 0 /\
             p_min (snd (d_verify d p)) = p_min p /\ p_max (snd (d_verify d p)) = p_max p /\
             p_governor (snd (d_verify d p)) = p_governor p) ->
  (forall f p, d_exit d = Some f -> snd (f p) = p) ->
  try_module_get (g_owner (governor_at g)) st = Some (true, sg) ->
  tolerates g (transition_latency (p_cpuinfo v)) ->
  (forall p ev, snd (g_governor (governor_at g) p ev) = p) ->
  (forall p, fst (g_governor (governor_at g) p CPUFREQ_GOV_START) = r0) ->
  exists v' calls,
    cpufreq_add_dev_interface cpu policy st
      = Some (if r0 =? 0 then 0 else - EINVAL,
              set_trace (trace st ++ calls
                         ++ (if (r0 =? 0) || negb (bool_decide (is_Some (d_exit d)))
                             then [] else [call_exit v']))
                (set_policies (<[policy := v']> (policies st))
                   (set_cpu_data (<[cpu := policy]> (cpufreq_cpu_data st))
                      (set_policy_cpu (<[cpu := Z.of_nat (p_cpu v)]> (cpufreq_policy_cpu st))
                         (if r0 =? 0 then set_modules (modules sg) st else st))))) /\
    governor_calls calls
      = (g, CPUFREQ_GOV_START) :: (if r0 =? 0 then [(g, CPUFREQ_GOV_LIMITS)] else []) /\
    p_cpus v' = p_cpus v /\ p_cpu v' = p_cpu v /\
    p_kobj v' = 1 /\ p_kobj_unregister v' = p_kobj_unregister v /\
    p_governor v' = Some g /\ u_governor (p_user_policy v') = Some g /\
    u_min (p_user_policy v') = p_min v /\ u_max (p_user_policy v') = p_max v /\
    p_min v' = wmin /\ p_max v' = wmax.
Proof.
  intros wmin wmax Hlt Hon Hd Hset Hv Hcpus Hg Humin Humax Hord Hkobj Hfile Hobs Hver
    Hexit Hget Htol Hcb Hstart.
  unfold cpufreq_add_dev_interface.
  rewrite (bind_run _ _ _ _ _ (load_run _ _ _ Hv)).
  rewrite store_run, record_run, gets_run, Hkobj. cbn [Z.eqb negb].
  rewrite gets_run. kfields. rewrite Hd.
  rewrite (bind_run _ _ _ _ _ (create_files_run _ _ _ Hfile)). cbn [Z.eqb negb].
  match goal with |- context [repeat (call_sysfs cpu) ?n] => set (nfiles := n) end.
  set (v3 := set_p_kobj 1 (p_kobj_unregister v) v).
  match goal with |- context [bind (load policy) _ ?st] => set (st1 := st) end.
  assert (policies st1 !! policy = Some v3) as Hv3.
  { unfold st1. kfields. by rewrite lookup_insert_eq. }
  rewrite (bind_run _ _ _ _ _ (load_run _ _ _ Hv3)).
  change (p_cpus v3) with (p_cpus v). rewrite Hcpus, for_each_cpu_of by done.
  cbn [for_each]. unfold cpu_online at 1.
  rewrite !bind_assoc. rewrite gets_run.
  assert (cpumask_test_cpu cpu (cpu_online_mask st1) = true) as -> by exact Hon.
  cbn [negb]. rewrite bind_assoc.
  unfold set_per_cpu_data at 1. unfold set_per_cpu_policy_cpu at 1. unfold modify.
  unfold bind at 1. unfold bind at 1. rewrite ret_run.
  match goal with |- context [bind (cpufreq_add_dev_symlink cpu policy) _ ?st] =>
    set (st2 := st) end.
  assert (policies st2 !! policy = Some v3) as Hv3' by exact Hv3.
  destruct (add_dev_policy_alone cpu policy st2 v3 Hlt Hv3' Hcpus) as [_ Hlink].
  rewrite (bind_run _ _ _ _ _ Hlink). cbn [Z.eqb negb].
  rewrite (bind_run _ _ _ _ _ (load_run _ _ _ Hv3')).
  (* set default policy *)
  pose proof (try_module_get_modules _ _ _ _ st2 Hget eq_refl) as Hget2.
  destruct (set_policy_first_start (set_p_governor None v3) v3 st2 d g
              (set_modules (modules sg) st2) r0)
    as (policy' & calls & Hrun & Hcalls); try done.
  { unfold window_min, window_max. cbn. rewrite Humin, Humax. lia. }
  rewrite (bind_run _ _ _ _ _ Hrun).
  rewrite store_run.
  match type of Hrun with _ = Some (_, ?l, _, _) => set (live := l) in * end.
  set (v' := set_p_user_policy
               (set_u_policy_governor (p_policy live) (p_governor live) (p_user_policy live))
               live).
  assert (forall n, omap (fun c => match c with
                                   | call_governor g0 ev => Some (g0, ev)
                                   | _ => None
                                   end) (repeat (call_sysfs cpu) n) = []) as Hsysfs.
  { induction n as [|n IH]; [done|]. cbn. exact IH. }
  exists v', ([call_sysfs cpu] ++ repeat (call_sysfs cpu) nfiles ++ calls). split; [|split].
  2: { unfold governor_calls in *. cbn [omap list_omap]. rewrite !omap_app, Hcalls, Hsysfs. done. }
  2: { unfold v', live, v3, wmin, wmax. cbn. rewrite Humin, Humax. done. }
  destruct (r0 =? 0) eqn:Hr0.
  - cbn [Z.eqb negb orb]. rewrite ret_run.
    unfold ret, st2, st1. kfields.
    rewrite insert_insert_eq, app_nil_r, <- !app_assoc. reflexivity.
  - change (negb (- EINVAL =? 0)) with true. cbn [negb orb].
    unfold driver_exit. rewrite bind_assoc, gets_run. kfields.
    match goal with |- context [cpufreq_driver ?x] =>
      change (cpufreq_driver x) with (cpufreq_driver st) end.
    rewrite Hd.
    destruct (d_exit d) as [f|] eqn:Hf.
    + rewrite bool_decide_eq_true_2 by done. cbn [negb].
      match goal with |- _ ?st = _ => set (st3 := st) end.
      assert (policies st3 !! policy = Some v') as Hv'.
      { unfold st3. kfields. by rewrite lookup_insert_eq. }
      rewrite !bind_assoc.
      rewrite (bind_run _ _ _ _ _ (load_run _ _ _ Hv')).
      rewrite bind_assoc, record_run, store_run.
      rewrite (Hexit f v' eq_refl).
      unfold ret, st3, st2, st1. kfields.
      rewrite !insert_insert_eq, <- !app_assoc. reflexivity.
    + rewrite bool_decide_eq_false_2 by (by intros [? ?]). cbn [negb].
      rewrite ret_run.
      unfold ret, st2, st1. kfields.
      rewrite !insert_insert_eq, app_nil_r, <- !app_assoc. reflexivity.
Qed.

End AttachSteps.

Section Attach.

Context {K : kernel_env} {L : kernel_lib}.

(** X21: cpufreq_add_dev on an online cpu that has no policy, with a driver
    whose init claims no other cpu, allocates a policy, hands it to init with
    the governor of an online sibling that lists the cpu as related (the
    default governor otherwise) and runs the first governor start.  When the
    start succeeds it returns 0 with the cpu attached to the new policy: kobject
    count 1, user limits as init left them, live limits clamped by the QoS
    requests, the governor told START then LIMITS and its module pinned, the
    driver's module count back where it was.  When the governor refuses it
    returns -EINVAL after the driver's exit; table, policies and module counts
    are as before.  Either way the cpu's policy cpu stays set.  (Allocator and
    sysfs succeed; verify accepts and moves neither limits nor governor;
    subscribers only observe; governor and exit leave the record alone.) *)
Theorem cpufreq_add_dev_lone_cpu cpu s d sg r0 :
  let gov := first_governor cpu s in
  let p0 := unattached_policy cpu gov in
  let p1 := snd (d_init d p0) in
  let policy := fresh (dom (policies s)) in
  let wmin := window_min (p_min p1) (p_max p1) (to_uint (pm_qos_cpu_freq_min s)) in
  let wmax := window_max (p_max p1) (p_min p1) (to_uint (pm_qos_cpu_freq_max s)) in
  (cpu < nr_cpu_ids)%nat -> cpu_is_online cpu s ->
  cpufreq_driver s = Some d -> d_setpolicy d = None ->
  module_pinnable (d_owner d) s ->
  cpufreq_cpu_data s !! cpu = None ->
  (forall t, kzalloc t = true) ->
  (forall t c, kobject_init_and_add t c = 0) ->
  (forall t c n, sysfs_create_file t c n = 0) ->
  (forall nb ev p, nb ∈ cpufreq_policy_notifier_list s -> nb ev p = p) ->
  (* the driver's init accepts the cpu and claims no other *)
  fst (d_init d p0) = 0 -> p_cpus p1 = cpumask_of cpu -> p_governor p1 = Some gov ->
  p_min p1 <= p_max p1 ->
  (forall p, fst (d_verify d p) = 0 /\
             p_min (snd (d_verify d p)) = p_min p /\ p_max (snd (d_verify d p)) = p_max p /\
             p_governor (snd (d_verify d p)) = p_governor p) ->
  (forall f p, d_exit d = Some f -> snd (f p) = p) ->
  (* the governor can be pinned and tolerates the hardware; its START returns r0 *)
  try_module_get (g_owner (governor_at gov)) s = Some (true, sg) ->
  tolerates gov (transition_latency (p_cpuinfo p1)) ->
  (forall p ev, snd (g_governor (governor_at gov) p ev) = p) ->
  (forall p, fst (g_governor (governor_at gov) p CPUFREQ_GOV_START) = r0) ->
  exists s' calls,
    cpufreq_add_dev cpu s = Some (if r0 =? 0 then 0 else - EINVAL, s') /\
    trace s' = trace s ++ call_init p0 :: calls /\
    cpufreq_policy_cpu s' = <[cpu := Z.of_nat (p_cpu p1)]> (cpufreq_policy_cpu s) /\
    (* the governor starts: the cpu is attached *)
    (r0 = 0 ->
     governor_calls calls = [(gov, CPUFREQ_GOV_START); (gov, CPUFREQ_GOV_LIMITS)] /\
     cpufreq_cpu_data s' = <[cpu := policy]> (cpufreq_cpu_data s) /\
     modules s' = modules sg /\
     exists v,
       policies s' = <[policy := v]> (policies s) /\
       p_cpus v = cpumask_of cpu /\ p_kobj v = 1 /\
       p_governor v = Some gov /\ u_governor (p_user_policy v) = Some gov /\
       u_min (p_user_policy v) = p_min p1 /\ u_max (p_user_policy v) = p_max p1 /\
       p_min v = wmin /\ p_max v = wmax) /\
    (* the governor refuses: everything is taken back *)
    (r0 <> 0 ->
     governor_calls calls = [(gov, CPUFREQ_GOV_START)] /\
     (is_Some (d_exit d) -> exists v, last calls = Some (call_exit v)) /\
     cpufreq_cpu_data s' = cpufreq_cpu_data s /\
     policies s' = policies s /\
     modules s' = modules s).
Proof.
  intros gov p0 p1 policy wmin wmax Hlt Hon Hd Hset Hpin Hnone Hmem Hkobj Hfile Hobs
    Hinit Hcpus Hgov Hord Hver Hexit Hget Htol Hcb Hstart.
  assert (forall B (k : option policy_ptr -> M B),
            bind (if CONFIG_SMP then cpufreq_cpu_get cpu else ret None) k s = k None s)
    as Halready.
  { intros B k. destruct CONFIG_SMP; [|done].
    rewrite (bind_run _ _ _ _ _ (cpufreq_cpu_get_fails cpu s (or_intror (or_intror Hnone)))).
    done. }
  unfold cpu_is_online in Hon.
  unfold cpufreq_add_dev, cpu_online. rewrite gets_run, Hon. cbn [negb].
  rewrite Halready, gets_run, Hd.
  (* the driver's module is pinned *)
  destruct (try_module_get_pinnable_frame _ _ Hpin) as (s1 & Hget1 & Hf1 & Hpin1).
  assert (module_pinnable (g_owner (governor_at gov)) s1) as Hping.
  { apply Hpin1. eapply try_module_get_true_pinnable, Hget. }
  destruct (try_module_get_pinnable _ _ Hping) as [sy Hgety].
  destruct (module_get_get_put _ _ _ _ s1 _ Hget1 eq_refl Hgety) as (sb & Hgetb & Hput).
  assert (sb = sg) as -> by congruence.
  pose proof (fun sz => module_put_restores (d_owner d) s s1 sz Hget1) as Hback.
  rewrite (bind_run _ _ _ _ _ Hget1). cbn [negb]. rewrite gets_run, Hmem. cbn [negb].
  rewrite gets_run.
  remember (modules s1) as M1 eqn:HM1 in Hf1.
  assert (modules s1 = M1) as HM1' by done.
  clear HM1 Hget1 Hpin1 Hping. subst s1. kfields.
  fold policy.
  assert (policies s !! policy = None) as Hfresh.
  { apply not_elem_of_dom. apply is_fresh. }
  rewrite store_run.
  unfold set_per_cpu_policy_cpu at 1. unfold modify. unfold bind at 1.
  set (s2 := set_policy_cpu _ _).
  assert (policy_cpu_known cpu s2) as Hknown.
  { unfold policy_cpu_known, s2. cbn. rewrite lookup_insert_eq. cbn. lia. }
  destruct (lock_policy_rwsem_run cpu s2 Hknown) as [Hlock Hunlock].
  rewrite (bind_run _ _ _ _ _ Hlock).
  (* the governor that goes to init *)
  assert ((if CONFIG_HOTPLUG_CPU then gets (sibling_governor cpu) else ret None) s2
          = Some (if CONFIG_HOTPLUG_CPU then sibling_governor cpu s else None, s2)) as Hfound.
  { destruct CONFIG_HOTPLUG_CPU; [|done]. unfold gets. do 2 f_equal.
    by apply (sibling_governor_fresh cpu s s2 policy
                (set_p_cpus (cpumask_of cpu)
                   {| p_cpus := 0%N; p_related_cpus := 0%N; p_cpu := cpu;
                      p_cpuinfo := p_cpuinfo zero_policy;
                      p_min := 0; p_max := 0; p_cur := 0; p_policy := 0;
                      p_governor := None;
                      p_user_policy := p_user_policy zero_policy;
                      p_kobj := 0; p_kobj_unregister := false |})). }
  rewrite (bind_run _ _ _ _ _ Hfound).
  change (match (if CONFIG_HOTPLUG_CPU then sibling_governor cpu s else None) with
          | Some g => g | None => CPUFREQ_DEFAULT_GOVERNOR end) with gov.
  assert (load policy s2 = Some (set_p_cpus (cpumask_of cpu)
            {| p_cpus := 0%N; p_related_cpus := 0%N; p_cpu := cpu;
               p_cpuinfo := p_cpuinfo zero_policy;
               p_min := 0; p_max := 0; p_cur := 0; p_policy := 0;
               p_governor := None;
               p_user_policy := p_user_policy zero_policy;
               p_kobj := 0; p_kobj_unregister := false |}, s2)) as Hload.
  { apply load_run. unfold s2. cbn. by rewrite lookup_insert_eq. }
  rewrite (bind_run _ _ _ _ _ Hload), record_run.
  change (set_p_governor (Some gov) _) with p0.
  (* call driver *)
  destruct (d_init d p0) as [r1 pv] eqn:Hdinit. cbn in Hinit. subst r1.
  cbn in p1. subst p1.
  rewrite store_run. cbn [Z.eqb negb].
  unfold blocking_notifier_call_chain.
  rewrite !bind_assoc, record_run, bind_assoc, gets_run, ret_run.
  unfold s2. kfields.
  rewrite notifier_chain_observers by done.
  set (pvu := set_p_user_policy _ pv).
  rewrite store_run. kfields.
  match goal with |- context [bind (cpufreq_add_dev_policy cpu policy) _ ?st] =>
    set (s4 := st) end.
  assert (policies s4 !! policy = Some pvu) as Hpvu.
  { unfold s4. kfields. by rewrite lookup_insert_eq. }
  destruct (add_dev_policy_alone cpu policy s4 pvu Hlt Hpvu Hcpus) as [Halone _].
  rewrite (bind_run _ _ _ _ _ Halone). cbn [Z.eqb negb].
  (* the interface *)
  pose proof (try_module_get_modules _ _ _ _ s4 Hgety eq_refl) as Hget4.
  destruct (add_dev_interface_alone cpu policy s4 d pvu gov (set_modules (modules sy) s4) r0)
    as (v' & calls & Hrun & Hcalls & Hfields); try done.
  destruct Hfields as (Hf1 & Hf2 & Hf3 & Hf3' & Hf4 & Hf5 & Hf6 & Hf7 & Hf8 & Hf9).
  rewrite (bind_run _ _ _ _ _ Hrun).
  set (s5 := set_trace _ _).
  assert (policy_cpu_known cpu s5) as Hknown5.
  { unfold policy_cpu_known, s5. kfields. rewrite lookup_insert_eq. cbn. lia. }
  destruct (r0 =? 0) eqn:Hr0.
  - apply Z.eqb_eq in Hr0. cbn [Z.eqb negb orb] in *.
    destruct (lock_policy_rwsem_run cpu s5 Hknown5) as [_ Hunlock5].
    rewrite (bind_run _ _ _ _ _ Hunlock5).
    rewrite (bind_run _ _ _ _ _ (Hput s5 eq_refl)).
    exists (set_modules (modules sg) s5), (call_policy_notifier CPUFREQ_START pvu :: calls).
    split; [done|].
    unfold s5, s4. kfields. rewrite !insert_insert_eq, app_nil_r, <- !app_assoc.
    split; [done|]. split; [done|]. split; [|done].
    intros _. split; [done|]. split; [done|]. split; [done|].
    exists v'. repeat split; try done. by rewrite Hf1.
  - apply Z.eqb_neq in Hr0. change (negb (- EINVAL =? 0)) with true. cbn [negb orb] in *.
    assert (policies s5 !! policy = Some v') as Hv5.
    { unfold s5. kfields. by rewrite lookup_insert_eq. }
    rewrite (bind_run _ _ _ _ _ (load_run _ _ _ Hv5)).
    rewrite Hf1. change (p_cpus pvu) with (p_cpus pv).
    rewrite Hcpus, for_each_cpu_of by done.
    cbn [for_each]. rewrite bind_assoc.
    unfold set_per_cpu_data at 1. unfold modify. unfold bind at 1. rewrite ret_run.
    (* the last reference goes, and the wait ends *)
    unfold kobject_put. rewrite bind_assoc.
    match goal with |- context [bind (load policy) _ ?st] => set (s6 := st) end.
    assert (policies s6 !! policy = Some v') as Hv6 by exact Hv5.
    rewrite (bind_run _ _ _ _ _ (load_run _ _ _ Hv6)).
    rewrite Hf3. change (1 - 1 =? 0) with true. cbn iota.
    rewrite store_run.
    unfold wait_for_completion. rewrite bind_assoc.
    match goal with |- context [bind (load policy) _ ?st] => set (s7 := st) end.
    assert (policies s7 !! policy = Some (set_p_kobj (1 - 1) true v')) as Hv7.
    { unfold s7. kfields. by rewrite lookup_insert_eq. }
    rewrite (bind_run _ _ _ _ _ (load_run _ _ _ Hv7)).
    cbn [p_kobj_unregister set_p_kobj]. rewrite store_run.
    match goal with |- context [bind (unlock_policy_rwsem cpu) _ ?st] => set (s7w := st) end.
    assert (policy_cpu_known cpu s7w) as Hknown7 by exact Hknown5.
    destruct (lock_policy_rwsem_run cpu s7w Hknown7) as [_ Hunlock7].
    rewrite (bind_run _ _ _ _ _ Hunlock7).
    unfold kfree, modify. unfold bind at 1.
    match goal with |- context [bind (module_put (d_owner d)) _ ?st] => set (s8 := st) end.
    rewrite (bind_run _ _ _ _ _ (Hback s8 eq_refl)).
    exists (set_modules (modules s) s8),
      (call_policy_notifier CPUFREQ_START pvu
       :: calls ++ (if negb (bool_decide (is_Some (d_exit d))) then [] else [call_exit v'])).
    split; [done|].
    unfold s8, s7w, s7, s6, s5, s4. kfields.
    rewrite !insert_insert_eq, <- !app_assoc.
    split; [done|]. split; [done|]. split; [done|].
    intros _. split; [|split; [|split; [|split]]].
    + unfold governor_calls in *. cbn [omap list_omap]. rewrite omap_app, Hcalls.
      by destruct (negb (bool_decide (is_Some (d_exit d)))).
    + intros Hsome. rewrite bool_decide_eq_true_2 by done. cbn [negb].
      exists v'. change (call_policy_notifier CPUFREQ_START pvu :: calls ++ [call_exit v'])
        with ((call_policy_notifier CPUFREQ_START pvu :: calls) ++ [call_exit v']).
      apply last_snoc.
    + by rewrite delete_insert_eq, delete_id.
    + by rewrite delete_insert_eq, delete_id.
    + done.
Qed.

End Attach.

(** ** Governor selection by name, continued *)

Section CurrentGovernor.

Context {K : kernel_env} {L : kernel_lib}.

(** X22: cpufreq_current_gov leaves the state as it found it.  It returns
    -EINVAL when the cpu is out of range, nobody answers for it or the
    policy's cpu is offline.  Otherwise it gives what the scaling_governor
    attribute shows when the policy is one of the two policy constants or has
    no governor, and for a governor its name through scnprintf with room for
    CPUFREQ_NAME_LEN bytes, without the line feed the attribute appends. *)
Theorem cpufreq_current_gov_reads cpu s :
  table_wf s ->
  ((nr_cpu_ids <= cpu)%nat \/ cpufreq_driver s = None \/ cpufreq_cpu_data s !! cpu = None ->
   cpufreq_current_gov cpu s = Some (- EINVAL, EmptyString, s)) /\
  (forall d policy pv,
     (cpu < nr_cpu_ids)%nat -> cpufreq_driver s = Some d ->
     module_pinnable (d_owner d) s ->
     cpufreq_cpu_data s !! cpu = Some policy -> policies s !! policy = Some pv ->
     policy_cpu_known (p_cpu pv) s ->
     (~ cpu_is_online (p_cpu pv) s ->
      cpufreq_current_gov cpu s = Some (- EINVAL, EmptyString, s)) /\
     (cpu_is_online (p_cpu pv) s ->
      p_policy pv = CPUFREQ_POLICY_POWERSAVE \/ p_policy pv = CPUFREQ_POLICY_PERFORMANCE \/
      p_governor pv = None ->
      cpufreq_current_gov cpu s = Some (show_scaling_governor pv, s)) /\
     (forall g,
        cpu_is_online (p_cpu pv) s ->
        p_policy pv <> CPUFREQ_POLICY_POWERSAVE -> p_policy pv <> CPUFREQ_POLICY_PERFORMANCE ->
        p_governor pv = Some g ->
        cpufreq_current_gov cpu s
          = Some (scnprintf_to (Z.of_nat CPUFREQ_NAME_LEN) (g_name (governor_at g)), s) /\
        show_scaling_governor pv
          = scnprintf_to (Z.of_nat CPUFREQ_NAME_LEN) (g_name (governor_at g) ++ newline))).
Proof.
  intros Hwf. split.
  - intros H. unfold cpufreq_current_gov.
    destruct (nr_cpu_ids <=? cpu)%nat eqn:Hn; [done|].
    pose proof (cpufreq_cpu_get_fails _ _ H) as Hget.
    by rewrite (bind_run _ _ _ _ _ Hget).
  - intros d policy pv Hcpu Hd Hpin Hdata Hpv Hknown.
    destruct (Hwf _ _ Hdata) as (v' & Hv' & Hk).
    assert (v' = pv) as -> by congruence.
    destruct (cpufreq_cpu_get_hold _ _ _ _ _ Hcpu Hd Hpin Hdata Hpv Hk)
      as (s1 & Hget & Hput & Hp1 & Hf1 & _).
    set (held := set_p_kobj (p_kobj pv + 1) (p_kobj_unregister pv) pv) in *.
    assert (load policy s1 = Some (held, s1)) as Hload1.
    { apply load_run. by rewrite Hp1, lookup_insert_eq. }
    destruct (lock_policy_rwsem_held (p_cpu pv) s (policies s1) (modules s1) Hknown)
      as [Hlock Hunlock].
    rewrite <- Hf1 in Hlock, Hunlock.
    assert (p_cpu held = p_cpu pv) as Hsame by done.
    assert (p_governor held = p_governor pv) as Hgov by done.
    assert (p_policy held = p_policy pv) as Hpol by done.
    clearbody held.
    unfold cpu_is_online, cpufreq_current_gov.
    rewrite (proj2 (Nat.leb_gt _ _)) by lia.
    rewrite !(bind_run _ _ _ _ _ Hget), !(bind_run _ _ _ _ _ Hload1).
    rewrite Hsame, Hgov, Hpol, !(bind_run _ _ _ _ _ Hlock).
    split; [|split].
    + intros Hoff. apply not_true_is_false in Hoff. rewrite Hoff. cbn.
      unfold bind, ret. by rewrite Hput.
    + intros Hon Hcase. rewrite Hon. cbn [Z.ltb Z.compare].
      rewrite bind_assoc, (bind_run _ _ _ _ _ Hunlock), ret_run.
      rewrite (bind_run _ _ _ _ _ Hput). unfold ret, show_scaling_governor.
      destruct Hcase as [Hc | [Hc | Hc]]; rewrite Hc; [done | done |].
      by repeat case_step.
    + intros g Hon Hps Hpf Hg. rewrite Hon. cbn [Z.ltb Z.compare].
      rewrite bind_assoc, (bind_run _ _ _ _ _ Hunlock), ret_run.
      rewrite (bind_run _ _ _ _ _ Hput). unfold ret, show_scaling_governor.
      rewrite Hg.
      rewrite (proj2 (Z.eqb_neq _ _) Hps), (proj2 (Z.eqb_neq _ _) Hpf). done.
Qed.

End CurrentGovernor.

(** * The governor switch of the transition engine *)

Section Switch.

Context {K : kernel_env} {L : kernel_lib}.

Lemma set_p_governor_id g p : p_governor p = g -> set_p_governor g p = p.
Proof. intros <-. by destruct p. Qed.

Lemma try_module_get_liveness owner s b s' :
  try_module_get owner s = Some (b, s') ->
  (b = true <-> module_pinnable owner s) /\
  forall o, module_pinnable o s' <-> module_pinnable o s.
Proof.
  unfold try_module_get, module_pinnable. destruct owner as [m|].
  - destruct (modules s !! m) as [md|] eqn:Hm.
    + destruct (m_live md) eqn:Hl; intros [= <- <-].
      * split; [split; [by exists md|done]|].
        intros [m'|]; [|done]. cbn.
        destruct (decide (m' = m)) as [->|Hne].
        -- rewrite lookup_insert_eq, Hm. split.
           ++ intros _. by exists md.
           ++ intros _. by eexists.
        -- by rewrite lookup_insert_ne.
      * split; [|done]. split; [done|]. intros (md' & Hmd' & Hl'). congruence.
    + intros [= <- <-]. split; [|done]. split; [done|]. by intros (md' & Hmd' & _).
  - unfold ret. intros [= <- <-]. done.
Qed.

Lemma module_put_liveness owner s :
  exists s', module_put owner s = Some (tt, s') /\ trace s' = trace s /\
    forall o, module_pinnable o s' <-> module_pinnable o s.
Proof.
  unfold module_put, module_pinnable. destruct owner as [m|].
  - destruct (modules s !! m) as [md|] eqn:Hm.
    + eexists. split; [reflexivity|]. split; [done|].
      intros [m'|]; [|done]. cbn.
      destruct (decide (m' = m)) as [->|Hne].
      * rewrite lookup_insert_eq, Hm. split.
        -- intros (md' & [= <-] & Hl). cbn in Hl. by exists md.
        -- intros (md' & [= <-] & Hl). by eexists.
      * by rewrite lookup_insert_ne.
    + eexists. split; [reflexivity|]. done.
  - eexists. split; [reflexivity|]. done.
Qed.

(** What a call of __cpufreq_governor comes to, for governors that leave the
    governor pointer alone: no call when the governor is too slow and there is
    no fallback, or when the module of the governor that is due cannot be
    pinned; otherwise the callback of that governor, on the policy with that
    governor installed. *)
Lemma cpufreq_governor_cases g0 p ev s :
  p_governor p = Some g0 ->
  (forall g, dispatched g0 (transition_latency (p_cpuinfo p)) = Some g -> keeps_governor g) ->
  (dispatched g0 (transition_latency (p_cpuinfo p)) = None /\
   __cpufreq_governor p ev s = Some (- EINVAL, p, s)) \/
  (exists g,
     dispatched g0 (transition_latency (p_cpuinfo p)) = Some g /\
     ~ module_pinnable (g_owner (governor_at g)) s /\
     __cpufreq_governor p ev s = Some (- EINVAL, set_p_governor (Some g) p, s)) \/
  (exists g s',
     dispatched g0 (transition_latency (p_cpuinfo p)) = Some g /\
     module_pinnable (g_owner (governor_at g)) s /\
     __cpufreq_governor p ev s
       = Some (g_governor (governor_at g) (set_p_governor (Some g) p) ev, s') /\
     trace s' = trace s ++ [call_governor g ev] /\
     forall o, module_pinnable o s' <-> module_pinnable o s).
Proof.
  intros Hg Hkeep. unfold __cpufreq_governor, dispatched. rewrite Hg.
  set (too_slow := negb _ && _).
  assert (exists e, (if too_slow then cpufreq_gov_performance else Some g0) = e) as [e He]
    by eauto.
  rewrite He. destruct e as [g|]; [|by left]. right.
  assert ((if too_slow then set_p_governor (Some g) p else p) = set_p_governor (Some g) p)
    as Hp1.
  { destruct too_slow; [done|]. injection He as <-. symmetry. by apply set_p_governor_id. }
  rewrite Hp1.
  destruct (try_module_get_total (g_owner (governor_at g)) s) as (b & s1 & Hget).
  destruct (try_module_get_liveness _ _ _ _ Hget) as [Hb Hl1].
  pose proof (try_module_get_frame _ _ _ _ Hget) as Hf1.
  rewrite (bind_run _ _ _ _ _ Hget).
  destruct b; cbn [negb].
  2:{ left. exists g. split; [done|]. split.
      - intros Hpin. apply Hb in Hpin. done.
      - assert (s1 = s) as ->; [|done].
        revert Hget. unfold try_module_get. destruct (g_owner (governor_at g)) as [m|].
        + destruct (modules s !! m) as [md|]; [destruct (m_live md)|]; by intros [= <-].
        + unfold ret. by intros [= <-]. }
  right. rewrite record_run.
  set (p1 := set_p_governor (Some g) p).
  destruct (Hkeep g He p1 ev) as [Hkg _].
  destruct (g_governor (governor_at g) p1 ev) as [r p'] eqn:Hcb. cbn in Hkg.
  unfold put_governor_module. rewrite Hkg. cbn [p_governor set_p_governor p1].
  set (s2 := set_trace (trace s1 ++ [call_governor g ev]) s1).
  assert (forall o, module_pinnable o s2 <-> module_pinnable o s) as Hl2.
  { intros o. rewrite <- Hl1. by destruct o. }
  assert (trace s2 = trace s ++ [call_governor g ev]) as Ht2.
  { unfold s2. cbn. by rewrite Hf1. }
  destruct (module_put_liveness (g_owner (governor_at g)) s2) as (s3 & Hput3 & Ht3 & Hl3).
  destruct (module_put_liveness (g_owner (governor_at g)) s3) as (s4 & Hput4 & Ht4 & Hl4).
  destruct (negb (gov_event_eqb ev CPUFREQ_GOV_START) || negb (r =? 0)) eqn:E1;
    destruct (gov_event_eqb ev CPUFREQ_GOV_STOP && (r =? 0)) eqn:E2.
  - rewrite (bind_run _ _ _ _ _ Hput3), (bind_run _ _ _ _ _ Hput4).
    exists g, s4. fold p1. rewrite Hcb.
    split; [done|]. split; [by apply Hb|]. split; [done|].
    split; [congruence|]. intros o. by rewrite Hl4, Hl3.
  - rewrite (bind_run _ _ _ _ _ Hput3), ret_run.
    exists g, s3. fold p1. rewrite Hcb.
    split; [done|]. split; [by apply Hb|]. split; [done|].
    split; [congruence|]. intros o. by rewrite Hl3.
  - destruct ev; cbn in *; try discriminate.
  - rewrite ret_run, ret_run.
    exists g, s2. fold p1. rewrite Hcb.
    split; [done|]. split; [by apply Hb|]. split; [done|]. done.
Qed.

Lemma dispatched_tolerated g latency :
  tolerates g latency -> dispatched g latency = Some g.
Proof.
  intros Htol. unfold dispatched.
  assert (negb (max_transition_latency (governor_at g) =? 0)
          && (max_transition_latency (governor_at g) <? latency) = false) as ->; [|done].
  destruct Htol as [->|Hle]; [done|].
  apply andb_false_iff. right. apply Z.ltb_ge. lia.
Qed.

Lemma dispatched_again g g' latency :
  dispatched g latency = Some g' -> dispatched g' latency = Some g'.
Proof.
  unfold dispatched.
  destruct (negb (max_transition_latency (governor_at g) =? 0)
            && (max_transition_latency (governor_at g) <? latency)) eqn:E.
  - intros ->.
    destruct (negb (max_transition_latency (governor_at g') =? 0)
              && (max_transition_latency (governor_at g') <? latency)); reflexivity.
  - intros [= <-]. by rewrite E.
Qed.

(** The callback runs when the governor dispatches to itself and its module
    can be pinned. *)
Lemma cpufreq_governor_runs g p ev s :
  p_governor p = Some g ->
  dispatched g (transition_latency (p_cpuinfo p)) = Some g ->
  module_pinnable (g_owner (governor_at g)) s ->
  keeps_governor g ->
  exists s',
    __cpufreq_governor p ev s = Some (g_governor (governor_at g) p ev, s') /\
    trace s' = trace s ++ [call_governor g ev] /\
    forall o, module_pinnable o s' <-> module_pinnable o s.
Proof.
  intros Hg Hd Hpin Hkeep.
  destruct (cpufreq_governor_cases g p ev s Hg) as [[Hn _] | [(g' & Hd' & Hnp & _) | H]].
  - intros g' Hd'. rewrite Hd in Hd'. by injection Hd' as <-.
  - congruence.
  - rewrite Hd in Hd'. injection Hd' as <-. done.
  - destruct H as (g' & s' & Hd' & _ & Hrun & Ht & Hl).
    rewrite Hd in Hd'. injection Hd' as <-.
    rewrite (set_p_governor_id _ _ Hg) in Hrun. eauto.
Qed.

Lemma notifier_chain_run {B} ev p (k : cpufreq_policy -> M B) s :
  bind (blocking_notifier_call_chain ev p) k s
  = k (policy_chain ev p s) (set_trace (trace s ++ [call_policy_notifier ev p]) s).
Proof. reflexivity. Qed.

Lemma policy_chain_set_trace ev p t s :
  policy_chain ev p (set_trace t s) = policy_chain ev p s.
Proof. reflexivity. Qed.

Lemma governor_calls_app a b :
  governor_calls (a ++ b) = governor_calls a ++ governor_calls b.
Proof. apply omap_app. Qed.

Lemma governor_calls_map l : governor_calls (map governor_call l) = l.
Proof.
  induction l as [|[g ev] l IH]; [done|].
  cbn. unfold governor_calls in IH. by rewrite IH.
Qed.

(** C4: the governor switch of __cpufreq_set_policy on the target-driver
    branch, when the governor the proposed policy carries after verification
    and notification differs from the live one.  The engine stops the old
    governor if the policy has one, installs the new reference and starts the
    governor __cpufreq_governor dispatches for it: the new governor, or the
    performance governor when the new one is too slow for the hardware.  The
    start fails when no governor can be dispatched, when the module of the
    dispatched governor cannot be pinned, or when its callback returns
    non-zero on the policy it is handed; the engine then returns -EINVAL, and
    reinstalls and restarts the old governor when there was one, while with
    no old governor the governor that failed stays installed.  When the start
    succeeds the governor is told the limits and the engine returns 0. *)
Theorem governor_switch_and_rollback data policy s d new :
  let umin := u_min (p_user_policy data) in
  let umax := u_max (p_user_policy data) in
  let latency := transition_latency (p_cpuinfo data) in
  let agreed := agreed_policy d data policy s in
  let committed := set_p_max (p_max agreed) (set_p_min (p_min agreed) data) in
  let stop :=
    match p_governor data with Some old => [(old, CPUFREQ_GOV_STOP)] | None => [] end in
  let restart :=
    match p_governor data with Some old => [(old, CPUFREQ_GOV_START)] | None => [] end in
  let stopped :=
    match p_governor data with
    | Some old => snd (g_governor (governor_at old) committed CPUFREQ_GOV_STOP)
    | None => committed
    end in
  cpufreq_driver s = Some d -> d_setpolicy d = None ->
  ~ (window_min (p_min policy) umax (to_uint (pm_qos_cpu_freq_min s)) > umax \/
     window_max (p_max policy) umin (to_uint (pm_qos_cpu_freq_max s)) < umin) ->
  verify_accepts d data policy s ->
  p_governor agreed = Some new -> p_governor data <> Some new ->
  (forall old, p_governor data = Some old ->
     keeps_governor old /\ tolerates old latency /\
     module_pinnable (g_owner (governor_at old)) s) ->
  (forall g, dispatched new latency = Some g -> keeps_governor g) ->
  exists r data' policy' s' calls,
    __cpufreq_set_policy data policy s = Some (r, data', policy', s') /\
    trace s' = trace s ++ calls /\
    match dispatched new latency with
    | None =>
        r = - EINVAL /\ governor_calls calls = stop ++ restart /\
        p_governor data' = Some (default new (p_governor data))
    | Some g =>
        let started :=
          fst (g_governor (governor_at g) (set_p_governor (Some g) stopped)
                 CPUFREQ_GOV_START) in
        (~ module_pinnable (g_owner (governor_at g)) s ->
           r = - EINVAL /\ governor_calls calls = stop ++ restart /\
           p_governor data' = Some (default g (p_governor data))) /\
        (module_pinnable (g_owner (governor_at g)) s -> started <> 0 ->
           r = - EINVAL /\
           governor_calls calls = stop ++ [(g, CPUFREQ_GOV_START)] ++ restart /\
           p_governor data' = Some (default g (p_governor data))) /\
        (module_pinnable (g_owner (governor_at g)) s -> started = 0 ->
           r = 0 /\
           governor_calls calls
             = stop ++ [(g, CPUFREQ_GOV_START); (g, CPUFREQ_GOV_LIMITS)] /\
           p_governor data' = Some g)
    end.
Proof.
  intros umin umax latency agreed committed stop restart stopped
    Hd Hset Hrange [Hv1 Hv2] Hnew Hne Hold Hkn.
  unfold __cpufreq_set_policy.
  rewrite gets_run, gets_run.
  match goal with |- context [if ?c then _ else _] => assert (c = false) as -> end.
  { apply orb_false_iff. unfold window_min, window_max in Hrange.
    split; apply Z.ltb_ge; cbn; subst umin umax; lia. }
  rewrite gets_run, Hd, record_run.
  match goal with |- context [d_verify d ?p] =>
    change p with (clamped_policy data policy s) end.
  destruct (d_verify d (clamped_policy data policy s)) as [r1 p1] eqn:E1.
  cbn [fst] in Hv1. subst r1. cbn [Z.eqb negb].
  rewrite !notifier_chain_run, record_run, !policy_chain_set_trace. kfields.
  assert (adjusted_policy d data policy s
          = policy_chain CPUFREQ_INCOMPATIBLE (policy_chain CPUFREQ_ADJUST p1 s) s) as Hadj.
  { unfold adjusted_policy. by rewrite E1. }
  rewrite <- Hadj.
  destruct (d_verify d (adjusted_policy d data policy s)) as [r2 p2] eqn:E2.
  cbn [fst] in Hv2. subst r2. cbn [Z.eqb negb].
  rewrite notifier_chain_run, !policy_chain_set_trace. kfields.
  assert (agreed = policy_chain CPUFREQ_NOTIFY p2 s) as Hag.
  { unfold agreed, agreed_policy. by rewrite E2. }
  rewrite <- Hag. rewrite Hset.
  change (set_p_max (p_max agreed) (set_p_min (p_min agreed) data)) with committed.
  assert (p_governor committed = p_governor data) as Hcg by reflexivity.
  assert (p_cpuinfo committed = p_cpuinfo data) as Hci by reflexivity.
  rewrite Hnew, Hcg, bool_decide_eq_false_2 by congruence.
  match goal with |- context [bind _ _ ?st] => set (s0 := st) end.
  assert (forall o, module_pinnable o s0 <-> module_pinnable o s) as Hl0.
  { intros o. by destruct o. }
  assert (exists pre, trace s0 = trace s ++ pre /\ governor_calls pre = []) as (pre & Ht0 & Hpre).
  { eexists. split.
    - unfold s0. kfields. rewrite <- !app_assoc. reflexivity.
    - reflexivity. }
  clearbody s0.
  assert (transition_latency (p_cpuinfo committed) = latency) as Hlc by reflexivity.
  (* end old governor *)
  match goal with |- context [bind ?m _ s0] =>
    assert (exists s1,
      m s0 = Some (stopped, s1) /\
      trace s1 = trace s0 ++ map governor_call stop /\
      (forall o, module_pinnable o s1 <-> module_pinnable o s) /\
      p_governor stopped = p_governor data /\
      p_cpuinfo stopped = p_cpuinfo data) as (s1 & Hstop & Ht1 & Hl1 & Hsg & Hsi)
  end.
  { unfold stopped, stop. destruct (p_governor data) as [old|] eqn:Eold.
    - destruct (Hold old eq_refl) as (Hko & Hto & Hpo).
      destruct (cpufreq_governor_runs old committed CPUFREQ_GOV_STOP s0)
        as (s1 & Hrun & Ht & Hl).
      + done.
      + apply dispatched_tolerated. by rewrite Hlc.
      + by apply Hl0.
      + done.
      + exists s1. rewrite (bind_run _ _ _ _ _ Hrun).
        destruct (Hko committed CPUFREQ_GOV_STOP) as [Hg' Hi'].
        destruct (g_governor (governor_at old) committed CPUFREQ_GOV_STOP) as [rs ds].
        cbn [fst snd] in *.
        split; [done|]. split; [done|]. split; [intros o; by rewrite Hl, Hl0|].
        split; congruence.
    - exists s0. split; [done|]. split; [by rewrite app_nil_r|]. done. }
  rewrite (bind_run _ _ _ _ _ Hstop).
  (* re-start old governor, when there is one *)
  assert (forall data1 s2 g,
    p_governor data1 = Some g -> p_cpuinfo data1 = p_cpuinfo data ->
    (forall o, module_pinnable o s2 <-> module_pinnable o s) ->
    exists data2 s3,
      (match p_governor data with
       | Some _ =>
           let* (_, data2) :=
             __cpufreq_governor (set_p_governor (p_governor data) data1) CPUFREQ_GOV_START in
           ret data2
       | None => ret data1
       end) s2 = Some (data2, s3) /\
      trace s3 = trace s2 ++ map governor_call restart /\
      p_governor data2 = Some (default g (p_governor data))) as Hrestart.
  { intros data1 s2 g Hg1 Hi1 Hl2. unfold restart.
    destruct (p_governor data) as [old|] eqn:Eold.
    - destruct (Hold old eq_refl) as (Hko & Hto & Hpo).
      destruct (cpufreq_governor_runs old (set_p_governor (Some old) data1)
                  CPUFREQ_GOV_START s2) as (s3 & Hrun & Ht & Hl).
      + done.
      + apply dispatched_tolerated. cbn [p_cpuinfo set_p_governor]. by rewrite Hi1.
      + by apply Hl2.
      + done.
      + rewrite (bind_run _ _ _ _ _ Hrun).
        destruct (Hko (set_p_governor (Some old) data1) CPUFREQ_GOV_START) as [Hg' _].
        destruct (g_governor (governor_at old) (set_p_governor (Some old) data1)
                    CPUFREQ_GOV_START) as [rs ds].
        cbn [fst snd] in *. exists ds, s3. done.
    - exists data1, s2. split; [done|]. split; [by rewrite app_nil_r|]. done. }
  (* start new governor *)
  set (p := set_p_governor (Some new) stopped).
  assert (transition_latency (p_cpuinfo p) = latency) as Hlp.
  { unfold p. cbn [p_cpuinfo set_p_governor]. by rewrite Hsi. }
  destruct (cpufreq_governor_cases new p CPUFREQ_GOV_START s1)
    as [[Hn Hrun] | [(g & Hg & Hnp & Hrun) | (g & s2 & Hg & Hp & Hrun & Ht2 & Hl2)]].
  { done. }
  { rewrite Hlp. apply Hkn. }
  - (* too slow for the hardware, and no fallback *)
    rewrite Hlp in Hn. rewrite Hn, (bind_run _ _ _ _ _ Hrun).
    change (negb (- EINVAL =? 0)) with true. cbv iota.
    destruct (Hrestart p s1 new) as (data2 & s3 & Hre & Ht3 & Hg3); [done|done|done|].
    rewrite (bind_run _ _ _ _ _ Hre).
    exists (- EINVAL), data2,
      (set_p_max (p_max policy) (set_p_min (p_min policy) agreed)), s3,
      (pre ++ map governor_call stop ++ map governor_call restart).
    split; [done|]. split; [by rewrite Ht3, Ht1, Ht0, <- !app_assoc|].
    rewrite !governor_calls_app, !governor_calls_map, Hpre. done.
  - (* the module of the governor cannot be pinned *)
    rewrite Hlp in Hg. rewrite Hg, (bind_run _ _ _ _ _ Hrun).
    change (negb (- EINVAL =? 0)) with true. cbv iota.
    destruct (Hrestart (set_p_governor (Some g) p) s1 g) as (data2 & s3 & Hre & Ht3 & Hg3);
      [done|done|done|].
    rewrite (bind_run _ _ _ _ _ Hre).
    exists (- EINVAL), data2,
      (set_p_max (p_max policy) (set_p_min (p_min policy) agreed)), s3,
      (pre ++ map governor_call stop ++ map governor_call restart).
    split; [done|]. split; [by rewrite Ht3, Ht1, Ht0, <- !app_assoc|].
    rewrite !governor_calls_app, !governor_calls_map, Hpre.
    split; [done|]. split; intros Hpin; exfalso; by apply Hnp, Hl1.
  - (* the callback of the governor is called *)
    rewrite Hlp in Hg. rewrite Hg, (bind_run _ _ _ _ _ Hrun).
    change (set_p_governor (Some g) p) with (set_p_governor (Some g) stopped) in *.
    destruct (Hkn g Hg (set_p_governor (Some g) stopped) CPUFREQ_GOV_START) as [Hkg Hki].
    destruct (g_governor (governor_at g) (set_p_governor (Some g) stopped) CPUFREQ_GOV_START)
      as [started data1] eqn:Hcb.
    cbn [fst snd] in *. cbn [p_governor p_cpuinfo set_p_governor] in Hkg, Hki.
    destruct (started =? 0) eqn:Est; cbn [negb].
    + (* the new governor runs: update its limits *)
      apply Z.eqb_eq in Est.
      destruct (cpufreq_governor_runs g data1 CPUFREQ_GOV_LIMITS s2) as (s3 & Hrun3 & Ht3 & Hl3).
      * done.
      * rewrite Hki, Hsi. by apply (dispatched_again new).
      * by apply Hl2.
      * by apply Hkn.
      * rewrite (bind_run _ _ _ _ _ Hrun3).
        destruct (Hkn g Hg data1 CPUFREQ_GOV_LIMITS) as [Hkg3 _].
        destruct (g_governor (governor_at g) data1 CPUFREQ_GOV_LIMITS) as [rl data2].
        cbn [fst snd] in *.
        exists 0, data2,
          (set_p_max (p_max policy) (set_p_min (p_min policy) agreed)), s3,
          (pre ++ map governor_call stop
               ++ [call_governor g CPUFREQ_GOV_START; call_governor g CPUFREQ_GOV_LIMITS]).
        split; [done|]. split; [by rewrite Ht3, Ht2, Ht1, Ht0, <- !app_assoc|].
        rewrite !governor_calls_app, !governor_calls_map, Hpre.
        split; [intros Hnp; exfalso; by apply Hnp, Hl1|].
        split; [intros _ Hs; by exfalso|].
        intros _ _. split; [done|]. split; [done|]. congruence.
    + (* new governor failed, so re-start old one *)
      apply Z.eqb_neq in Est.
      destruct (Hrestart data1 s2 g) as (data2 & s3 & Hre & Ht3 & Hg3).
      * done.
      * by rewrite Hki.
      * intros o. by rewrite Hl2, Hl1.
      * rewrite (bind_run _ _ _ _ _ Hre).
        exists (- EINVAL), data2,
          (set_p_max (p_max policy) (set_p_min (p_min policy) agreed)), s3,
          (pre ++ map governor_call stop ++ [call_governor g CPUFREQ_GOV_START]
               ++ map governor_call restart).
        split; [done|]. split; [by rewrite Ht3, Ht2, Ht1, Ht0, <- !app_assoc|].
        rewrite !governor_calls_app, !governor_calls_map, Hpre.
        split; [intros Hnp; exfalso; by apply Hnp, Hl1|].
        split; [done|]. intros _ Hs. by exfalso.
Qed.

End Switch.

(** * Scenarios on the concrete machine *)

#[local] Existing Instance ex_env.

Lemma ex_governors_keep_limits : governors_keep_limits.
Proof. intros g p ev. by destruct g as [|[|[|g]]]. Defined.

Lemma ex_keeps_governor g : keeps_governor g.
Proof. intros p ev. by destruct g as [|[|[|g]]]. Defined.

Lemma ex_state_wf drv pol qos_min :
  p_kobj pol <> 0 -> table_wf (ex_state drv pol qos_min).
Proof.
  intros Hk cpu p H. cbn in H.
  exists pol. split; [|done]. cbn.
  apply lookup_insert_Some in H as [[_ <-]|[_ H]].
  - apply lookup_singleton_eq.
  - apply lookup_singleton_Some in H as [_ <-]. apply lookup_singleton_eq.
Defined.

Lemma cpufreq_cpu_get_put_references_witness :
  let s := ex_state (ex_driver (fun _ => 1000000)) ex_policy 0 in
  cpufreq_cpu_get 7%nat s = Some (None, s) /\
  exists s',
    cpufreq_cpu_get 0%nat s = Some (Some 10%nat, s') /\
    kref 10%nat s' = 4 /\ module_refs (Some 1%nat) s' = 2 /\
    cpufreq_cpu_put 10%nat s' = Some (tt, s).
Proof.
  intros s.
  destruct (cpufreq_cpu_get_put_references 7%nat s) as [Hfail _].
  split; [apply Hfail; left; cbn; lia|].
  destruct (cpufreq_cpu_get_put_references 0%nat s) as [_ Hok].
  eassert (Hget : cpufreq_cpu_get 0%nat s = Some (Some 10%nat, _))
    by (vm_compute; reflexivity).
  destruct (Hok _ _ Hget) as (d & Hd & _ & Hk & Hm & s'' & Hput & _ & _ & Hs).
  injection Hd as <-.
  eexists. split; [exact Hget|]. split; [|split].
  - exact Hk.
  - exact (Hm 1%nat eq_refl).
  - rewrite Hput, Hs; [reflexivity|]. vm_compute. discriminate.
Defined.

(** Scenario A: scaling_max_freq = 1400000 on limits 200000..2000000. *)
Lemma set_policy_restores_proposed_limits_witness :
  let s := ex_state (ex_driver (fun _ => 1000000)) ex_policy 0 in
  (exists data' policy' s',
     __cpufreq_set_policy ex_policy (set_p_max 1400000 ex_policy) s
       = Some (0, data', policy', s') /\
     p_min data' = 200000 /\ p_max data' = 1400000 /\
     p_min policy' = 200000 /\ p_max policy' = 1400000) /\
  is_Some (__cpufreq_set_policy ex_policy (set_p_max 1400000 ex_policy)
             (ex_state ex_driver_setpolicy ex_policy 0)).
Proof.
  intros s. split.
  - eassert (Hrun : __cpufreq_set_policy ex_policy (set_p_max 1400000 ex_policy) s
                    = Some (0, _, _, _)) by (vm_compute; reflexivity).
    destruct (set_policy_restores_proposed_limits ex_policy (set_p_max 1400000 ex_policy) s)
      as [Hrestore _].
    destruct (Hrestore _ _ _ _ Hrun) as [Hmin Hmax].
    eexists _, _, _. split; [exact Hrun|].
    split; [reflexivity|]. split; [reflexivity|]. split; [exact Hmin|exact Hmax].
  - destruct (set_policy_restores_proposed_limits ex_policy (set_p_max 1400000 ex_policy)
                (ex_state ex_driver_setpolicy ex_policy 0)) as [_ Hreturns].
    apply (Hreturns ex_driver_setpolicy); [reflexivity|]. by eexists.
Defined.

Lemma set_policy_rejects_window_outside_user_limits_witness :
  let s := ex_state (ex_driver (fun _ => 1000000)) ex_policy 0 in
  let proposed := set_p_min 5000000 ex_policy in
  window_min 5000000 2000000 0 > 2000000 /\
  __cpufreq_set_policy ex_policy proposed s = Some (- EINVAL, ex_policy, proposed, s).
Proof.
  intros s proposed. split; [vm_compute; reflexivity|].
  apply (set_policy_rejects_window_outside_user_limits ex_policy proposed s).
  left. vm_compute. reflexivity.
Defined.

(** Scenario B: the user asked for 800000 kHz at least and QoS asks for
    1200000: the committed minimum is 1200000, the user's stays 800000; with
    the QoS request back at 0 the minimum is 800000 again. *)
Lemma set_policy_qos_window_witness :
  let proposed := ex_policy_user_800 in
  (exists data' policy' s',
     __cpufreq_set_policy ex_policy_user_800 proposed
       (ex_state ex_driver_setpolicy ex_policy_user_800 1200000)
       = Some (0, data', policy', s') /\
     p_min data' = 1200000 /\ p_max data' = 2000000 /\
     u_min (p_user_policy data') = 800000 /\
     exists w rest, trace s' = call_verify w :: rest /\ p_min w = 1200000) /\
  (exists data' policy' s',
     __cpufreq_set_policy ex_policy_user_800 proposed
       (ex_state ex_driver_setpolicy ex_policy_user_800 0)
       = Some (0, data', policy', s') /\
     p_min data' = 800000).
Proof.
  intros proposed. split.
  - set (s := ex_state ex_driver_setpolicy ex_policy_user_800 1200000).
    eassert (Hrun : __cpufreq_set_policy ex_policy_user_800 proposed s = Some (0, _, _, _))
      by (vm_compute; reflexivity).
    destruct (set_policy_qos_window _ _ _ _ _ _ _ Hrun) as (_ & Hverify & Hcommit).
    edestruct Hverify as (w & rest & Htrace & Hwmin & _);
      [vm_compute; intros [H|H]; discriminate H|].
    destruct (Hcommit ex_driver_setpolicy eq_refl) as [Hmin Hmax];
      [done|no_subscriber|apply ex_governors_keep_limits|done|].
    eexists _, _, _. split; [exact Hrun|].
    split; [exact Hmin|]. split; [exact Hmax|]. split; [reflexivity|].
    exists w, rest. split; [exact Htrace|exact Hwmin].
  - set (s := ex_state ex_driver_setpolicy ex_policy_user_800 0).
    eassert (Hrun : __cpufreq_set_policy ex_policy_user_800 proposed s = Some (0, _, _, _))
      by (vm_compute; reflexivity).
    destruct (set_policy_qos_window _ _ _ _ _ _ _ Hrun) as (_ & _ & Hcommit).
    destruct (Hcommit ex_driver_setpolicy eq_refl) as [Hmin _];
      [done|no_subscriber|apply ex_governors_keep_limits|done|].
    eexists _, _, _. split; [exact Hrun|exact Hmin].
Defined.

(** A switch from performance to a governor whose START fails: the old
    governor is stopped, the new one called, and the old one started again. *)
Lemma governor_switch_and_rollback_witness :
  let s := ex_state (ex_driver (fun _ => 1000000)) ex_policy 0 in
  (exists data' policy' s',
     __cpufreq_set_policy ex_policy (set_p_governor (Some gov_broken) ex_policy) s
       = Some (- EINVAL, data', policy', s') /\
     p_governor data' = Some gov_performance /\
     governor_calls (trace s') =
       [(gov_performance, CPUFREQ_GOV_STOP); (gov_broken, CPUFREQ_GOV_START);
        (gov_performance, CPUFREQ_GOV_START)]).
Proof.
  intros s.
  pose proof (governor_switch_and_rollback ex_policy
                (set_p_governor (Some gov_broken) ex_policy) s
                (ex_driver (fun _ => 1000000)) gov_broken) as H.
  cbv zeta in H.
  destruct H as (r & data' & policy' & s' & calls & Hrun & Htrace & Hcases).
  - reflexivity.
  - reflexivity.
  - vm_compute. intros [H|H]; discriminate H.
  - split; reflexivity.
  - reflexivity.
  - discriminate.
  - intros old [= <-]. split; [apply ex_keeps_governor|]. split; [left; reflexivity|exact I].
  - intros g _. apply ex_keeps_governor.
  - change (dispatched gov_broken (transition_latency (p_cpuinfo ex_policy)))
      with (Some gov_broken) in Hcases.
    destruct Hcases as (_ & Hfail & _).
    destruct Hfail as (Hr & Hcalls & Hgov); [exact I|discriminate|].
    rewrite Hr in Hrun.
    exists data', policy', s'. split; [exact Hrun|]. split; [exact Hgov|].
    rewrite Htrace. exact Hcalls.
Defined.

(** The claim fails at two runs.  The first start of a policy, with a
    governor whose START fails: the engine returns -EINVAL, calls nothing
    after the failed START and leaves that governor installed, where the
    policy had none.  A switch from performance to strict, which tolerates
    1 us where the hardware needs 10 us: the START that is called is that of
    the performance governor, never that of strict. *)
Lemma switch_starts_new_or_restores_old_counterexample :
  let s := ex_state (ex_driver (fun _ => 1000000)) ex_policy 0 in
  let fresh := set_p_governor None ex_policy in
  (exists data' policy' s',
     __cpufreq_set_policy fresh (set_p_governor (Some gov_broken) ex_policy) s
       = Some (- EINVAL, data', policy', s') /\
     p_governor fresh = None /\
     p_governor data' = Some gov_broken /\
     governor_calls (trace s') = [(gov_broken, CPUFREQ_GOV_START)]) /\
  ~ switch_starts_new_or_restores_old
      fresh (set_p_governor (Some gov_broken) ex_policy) gov_broken s /\
  (exists data' policy' s',
     __cpufreq_set_policy ex_policy (set_p_governor (Some gov_strict) ex_policy) s
       = Some (0, data', policy', s') /\
     p_governor data' = Some gov_performance /\
     governor_calls (trace s') =
       [(gov_performance, CPUFREQ_GOV_STOP); (gov_performance, CPUFREQ_GOV_START);
        (gov_performance, CPUFREQ_GOV_LIMITS)]) /\
  ~ switch_starts_new_or_restores_old
      ex_policy (set_p_governor (Some gov_strict) ex_policy) gov_strict s.
Proof.
  intros s fresh.
  eassert (__cpufreq_set_policy fresh (set_p_governor (Some gov_broken) ex_policy) s
           = Some (- EINVAL, _, _, _)) as Hfirst by (vm_compute; reflexivity).
  eassert (__cpufreq_set_policy ex_policy (set_p_governor (Some gov_strict) ex_policy) s
           = Some (0, _, _, _)) as Hslow by (vm_compute; reflexivity).
  split; [|split; [|split]].
  - eexists _, _, _. split; [exact Hfirst|]. split; [reflexivity|]. split; reflexivity.
  - intros (r & data' & policy' & s' & calls & Hrun & _ & _ & Hend).
    rewrite Hfirst in Hrun. injection Hrun as <- <- _ _.
    destruct Hend as [[Hr _]|[_ Hg]]; [discriminate Hr|discriminate Hg].
  - eexists _, _, _. split; [exact Hslow|]. split; reflexivity.
  - intros (r & data' & policy' & s' & calls & Hrun & Htrace & Hin & _).
    rewrite Hslow in Hrun. injection Hrun as _ _ _ <-.
    change (trace s) with (@nil kcall) in Htrace. cbn [app] in Htrace.
    rewrite <- Htrace in Hin. vm_compute in Hin.
    repeat (apply elem_of_cons in Hin as [Hin|Hin]; [discriminate Hin|]).
    by apply elem_of_nil in Hin.
Qed.

(** Scenario C: governor strict tolerates 1 us, the hardware needs 10 us. *)
Lemma governor_too_slow_falls_back_to_performance_witness :
  let s := ex_state (ex_driver (fun _ => 1000000)) ex_policy 0 in
  let strict := set_p_governor (Some gov_strict) ex_policy in
  (exists s',
     __cpufreq_governor strict CPUFREQ_GOV_START s
       = Some (0, set_p_governor (Some gov_performance) strict, s') /\
     trace s' = [call_governor gov_performance CPUFREQ_GOV_START]) /\
  __cpufreq_governor (K := ex_env_no_fallback) strict CPUFREQ_GOV_START s
    = Some (- EINVAL, strict, s) /\
  (exists s',
     store_scaling_governor 10%nat "strict" 7 s = Some (7, s') /\
     option_map p_governor (policies s' !! 10%nat) = Some (Some gov_performance)).
Proof.
  intros s strict. split; [|split].
  - destruct (governor_too_slow_falls_back_to_performance strict CPUFREQ_GOV_START s gov_strict)
      as [Hfallback _]; [reflexivity|discriminate|reflexivity|].
    cbn in Hfallback. destruct Hfallback as (s' & Hrun & Htrace); [exact I|by eexists|].
    exists s'. split; [exact Hrun|exact Htrace].
  - destruct (governor_too_slow_falls_back_to_performance (K := ex_env_no_fallback)
                strict CPUFREQ_GOV_START s gov_strict)
      as [Hnone _]; [reflexivity|discriminate|reflexivity|].
    exact Hnone.
  - eassert (Hrun : store_scaling_governor 10%nat "strict" 7 s = Some (_, _))
      by (vm_compute; reflexivity).
    destruct (governor_too_slow_falls_back_to_performance strict CPUFREQ_GOV_START s gov_strict)
      as [_ Hwrite]; [reflexivity|discriminate|reflexivity|].
    pose proof (Hwrite _ _ _ _ _ Hrun ltac:(by eexists)) as Hcount.
    eexists. split; [exact Hrun|]. reflexivity.
Defined.

(** A POSTCHANGE for the owner cpu 0 and one for its sibling cpu 1. *)
Lemma postchange_sets_owner_cur_witness :
  let s := ex_state (ex_driver (fun _ => 1000000)) ex_policy 0 in
  let change cpu := {| f_cpu := cpu; f_old := 1000000; f_new := 800000; f_flags := 0 |} in
  (exists delivered s',
     cpufreq_notify_transition (change 0%nat) CPUFREQ_POSTCHANGE s = Some (delivered, s') /\
     policies s' !! 10%nat = Some (set_p_cur 800000 ex_policy)) /\
  (exists delivered s',
     cpufreq_notify_transition (change 1%nat) CPUFREQ_POSTCHANGE s = Some (delivered, s') /\
     policies s' = policies s).
Proof.
  intros s change.
  assert (forall cpu p, cpufreq_cpu_data s !! cpu = Some p -> is_Some (policies s !! p)) as Hwf.
  { intros cpu p H. destruct (ex_state_wf (ex_driver (fun _ => 1000000)) ex_policy 0
                               ltac:(discriminate) cpu p H) as (v & Hv & _). by eexists. }
  split.
  - destruct (postchange_sets_owner_cur (change 0%nat) s _ eq_refl (Hwf _))
      as (delivered & s' & Hrun & _ & Hown & _).
    exists delivered, s'. split; [exact Hrun|].
    exact (proj1 (Hown 10%nat ex_policy eq_refl eq_refl eq_refl)).
  - destruct (postchange_sets_owner_cur (change 1%nat) s _ eq_refl (Hwf _))
      as (delivered & s' & Hrun & _ & _ & Hother).
    exists delivered, s'. split; [exact Hrun|].
    apply Hother. right. exists 10%nat, ex_policy. split; [reflexivity|]. split; [reflexivity|].
    discriminate.
Defined.

(** The driver changes cpus 0 and 1 to 800000 kHz and announces it for each:
    after the POSTCHANGE for the sibling cpu 1 the policy attached to cpu 1
    has [cur] = 800000 although cpu 1 is not its owner. *)
Lemma postchange_cur_iff_owner_counterexample :
  let s := ex_state (ex_driver (fun _ => 800000)) (set_p_cur 800000 ex_policy) 0 in
  let freqs := {| f_cpu := 1%nat; f_old := 1000000; f_new := 800000; f_flags := 0 |} in
  exists delivered s',
    cpufreq_notify_transition freqs CPUFREQ_POSTCHANGE s = Some (delivered, s') /\
    ~ postchange_cur_iff_owner freqs s s'.
Proof.
  intros s freqs.
  eexists _, _. split; [vm_compute; reflexivity|].
  intros [Hclaim _].
  destruct Hclaim as (p & v & Hp & Hv & Hcpu).
  - exists 10%nat, (set_p_cur 800000 ex_policy). by vm_compute.
  - vm_compute in Hp. injection Hp as <-.
    vm_compute in Hv. injection Hv as <-. discriminate Hcpu.
Qed.

(** Scenario E: [cur] is 1000000 and the driver reports 800000. *)
Lemma cpufreq_get_repairs_out_of_sync_witness :
  let s := ex_state (ex_driver (fun _ => 800000)) ex_policy 0 in
  let freqs := {| f_cpu := 0%nat; f_old := 1000000; f_new := 800000; f_flags := 0 |} in
  exists s',
    __cpufreq_get 0%nat s = Some (800000, s') /\
    trace s' = [call_get 0%nat;
                call_transition_notifier CPUFREQ_PRECHANGE freqs;
                call_transition_notifier CPUFREQ_POSTCHANGE freqs] /\
    system_wq s' = [10%nat].
Proof.
  intros s freqs.
  destruct (cpufreq_get_repairs_out_of_sync 0%nat s (ex_driver (fun _ => 800000))
              (fun _ => 800000) 10%nat ex_policy)
    as (s' & Hrun & Htrace & _ & _ & Hqueued & _);
    try reflexivity; try discriminate.
  exists s'. split; [exact Hrun|]. split; [exact Htrace|].
  apply Hqueued. cbn. apply not_elem_of_nil.
Defined.

(** The driver's get fails (returns 0) while [cur] is 1000000: the two differ
    and const_loops is clear, yet nothing is announced and nothing queued. *)
Lemma out_of_sync_always_repaired_counterexample :
  ~ out_of_sync_always_repaired 0%nat (ex_state (ex_driver (fun _ => 0)) ex_policy 0).
Proof.
  intros Hclaim.
  destruct (Hclaim (ex_driver (fun _ => 0)) (fun _ => 0) 10%nat ex_policy)
    as (r & s' & f & Hrun & Hqueued & _); try reflexivity; try discriminate.
  vm_compute in Hrun. injection Hrun as _ <-.
  cbn in Hqueued. by apply elem_of_nil in Hqueued.
Qed.

Lemma ex_bogus_unknown drv pol qos_min :
  d_setpolicy drv = None -> is_Some (d_target drv) ->
  unknown_governor "bogus" (ex_state drv pol qos_min).
Proof.
  intros Hset [f Hf]. unfold unknown_governor. cbn. rewrite Hset, Hf.
  split; [|reflexivity].
  intros t Ht.
  repeat (apply elem_of_cons in Ht as [->|Ht]); try discriminate.
  by apply elem_of_nil in Ht.
Defined.

(** Writes that are turned down: "fast" and "5000000" to scaling_min_freq,
    an empty line and "bogus" to scaling_governor.  The refused 5000000 ends
    up in user_policy.min; "bogus" is answered with the byte count. *)
Lemma rejected_attribute_writes_witness :
  let s := ex_state (ex_driver (fun _ => 1000000)) ex_policy 0 in
  store_scaling_min_freq 10%nat "fast" 5 s = Some (- EINVAL, s) /\
  store_scaling_min_freq 10%nat "5000000" 8 s
    = Some (- EINVAL,
            set_policies
              (<[10%nat := set_p_user_policy (set_u_min 5000000 (p_user_policy ex_policy))
                             ex_policy]> (policies s)) s) /\
  store_scaling_governor 10%nat "" 1 s = Some (- EINVAL, s) /\
  store_scaling_governor 10%nat "bogus" 6 s = Some (6, s).
Proof.
  intros s.
  assert (table_wf s) as Hwf by (apply ex_state_wf; discriminate).
  split; [|split; [|split]].
  - destruct (rejected_attribute_writes object_min 10%nat "fast" 5 s Hwf) as (H & _).
    apply H; [reflexivity|by eexists].
  - destruct (rejected_attribute_writes object_min 10%nat "5000000" 8 s Hwf) as (_ & H & _).
    apply (H 5000000 ex_policy (ex_driver (fun _ => 1000000))); try reflexivity.
    + cbn. lia.
    + eexists. split; reflexivity.
    + left. vm_compute. reflexivity.
  - destruct (rejected_attribute_writes object_min 10%nat "" 1 s Hwf) as (_ & _ & H & _).
    apply H. reflexivity.
  - destruct (rejected_attribute_writes object_min 10%nat "bogus" 6 s Hwf) as (_ & _ & _ & H).
    apply (H "bogus"%string); [reflexivity|].
    apply ex_bogus_unknown; [reflexivity|by eexists].
Defined.

(** The claim fails at both writes: the refused minimum is an error that
    changes the policy, and the name of a governor that does not exist is
    answered with the byte count, as a successful write is. *)
Lemma write_rejected_without_effect_counterexample :
  let s := ex_state (ex_driver (fun _ => 1000000)) ex_policy 0 in
  (exists r s',
     store_scaling_min_freq 10%nat "5000000" 8 s = Some (r, s') /\
     r = - EINVAL /\
     option_map (fun v => u_min (p_user_policy v)) (policies s !! 10%nat) = Some 200000 /\
     option_map (fun v => u_min (p_user_policy v)) (policies s' !! 10%nat) = Some 5000000 /\
     ~ write_rejected_without_effect r s s') /\
  unknown_governor "bogus" s /\
  (exists r s',
     store_scaling_governor 10%nat "bogus" 6 s = Some (r, s') /\
     ~ write_rejected_without_effect r s s').
Proof.
  intros s. split; [|split].
  - eexists _, _. split; [vm_compute; reflexivity|].
    split; [reflexivity|]. split; [reflexivity|]. split; [reflexivity|].
    intros [_ Hsame].
    assert (option_map (fun v => u_min (p_user_policy v)) (policies s !! 10%nat)
            = Some 5000000) as Hmin by (rewrite <- Hsame; reflexivity).
    vm_compute in Hmin. discriminate Hmin.
  - apply ex_bogus_unknown; [reflexivity|by eexists].
  - eexists _, _. split; [vm_compute; reflexivity|].
    intros [Hneg _]. vm_compute in Hneg. discriminate Hneg.
Qed.

(** A minimum above the user's maximum is refused with -EINVAL, and is
    nevertheless recorded as the user's minimum. *)
Example rejected_limit_write_reaches_user_policy :
  let s := ex_state (ex_driver (fun _ => 1000000)) ex_policy 0 in
  exists s',
    store_scaling_min_freq 10%nat "5000000" 8 s = Some (- EINVAL, s') /\
    option_map (fun v => u_min (p_user_policy v)) (policies s' !! 10%nat) = Some 5000000 /\
    option_map (fun v => u_min (p_user_policy v)) (policies s !! 10%nat) = Some 200000.
Proof. intros s. eexists. split; [vm_compute; reflexivity|]. split; reflexivity. Qed.

(** Scenario B through the deferred update: with the QoS floor at 1200000
    cpufreq_update_policy commits 1200000 and leaves the user's 800000; with
    the floor back at 0 it commits 800000. *)
Example qos_floor_scenario :
  let limits r := option_map (fun x => (fst x, option_map (fun v => (p_min v, u_min (p_user_policy v)))
                                                 (policies (snd x) !! 10%nat))) r in
  limits (cpufreq_update_policy 0%nat (ex_state ex_driver_setpolicy ex_policy_user_800 1200000))
    = Some (0, Some (1200000, 800000)) /\
  limits ((let* _ := cpufreq_update_policy 0%nat in
           let* _ := modify (fun s => ex_state ex_driver_setpolicy
                                        (default ex_policy (policies s !! 10%nat)) 0) in
           cpufreq_update_policy 0%nat)
            (ex_state ex_driver_setpolicy ex_policy_user_800 1200000))
    = Some (0, Some (800000, 800000)).
Proof. split; vm_compute; reflexivity. Qed.

(** Attaching cpu 0 on the freshly booted machine, twice. *)
Lemma cpufreq_add_dev_idempotent_witness :
  exists s1,
    cpufreq_add_dev 0%nat ex_boot = Some (0, s1) /\
    cpufreq_cpu_data s1 !! 0%nat = Some 0%nat /\
    cpufreq_cpu_data s1 !! 1%nat = Some 0%nat /\
    cpufreq_add_dev 0%nat s1 = Some (0, s1) /\
    (let* _ := cpufreq_add_dev 0%nat in cpufreq_add_dev 0%nat) ex_boot = Some (0, s1).
Proof.
  eassert (Hfirst : cpufreq_add_dev 0%nat ex_boot = Some (0, _)) by (vm_compute; reflexivity).
  match type of Hfirst with _ = Some (_, ?s1) =>
    eassert (Hpolicy : policies s1 !! 0%nat = Some _) by (vm_compute; reflexivity);
    match type of Hpolicy with _ = Some ?v =>
      destruct (cpufreq_add_dev_idempotent 0%nat s1 (ex_driver (fun _ => 1000000)) 0%nat v)
        as [Hagain Htwice];
      [reflexivity | cbn; lia | reflexivity | eexists; split; reflexivity
      | reflexivity | exact Hpolicy | discriminate |];
      exists s1
    end
  end.
  split; [exact Hfirst|]. split; [reflexivity|]. split; [reflexivity|].
  split; [exact Hagain|]. exact (Htwice _ _ Hfirst).
Defined.

(** * Scenarios for the rest of the interface *)

#[local] Existing Instance ex_lib.

Lemma ex_driver_pinnable drv pol qos_min :
  d_owner drv = Some 1%nat -> module_pinnable (d_owner drv) (ex_state drv pol qos_min).
Proof. intros ->. eexists. split; [vm_compute; reflexivity|reflexivity]. Defined.

(** The kernel believes 1000000 kHz, the notice says 800000. *)
Lemma prechange_adopts_policy_cur_witness :
  let s := ex_state (ex_driver (fun _ => 1000000)) ex_policy 0 in
  let delivered := {| f_cpu := 0; f_old := 1000000; f_new := 1200000; f_flags := 0 |} in
  cpufreq_notify_transition
    {| f_cpu := 0; f_old := 800000; f_new := 1200000; f_flags := 7 |} CPUFREQ_PRECHANGE s
  = Some (delivered, set_trace [call_transition_notifier CPUFREQ_PRECHANGE delivered] s) /\
  cpufreq_notify_transition
    {| f_cpu := 0; f_old := 800000; f_new := 1200000; f_flags := 7 |} CPUFREQ_PRECHANGE
    (ex_state ex_driver_setpolicy ex_policy 0)
  = Some ({| f_cpu := 0; f_old := 800000; f_new := 1200000; f_flags := CPUFREQ_CONST_LOOPS |},
          set_trace [call_transition_notifier CPUFREQ_PRECHANGE
                       {| f_cpu := 0; f_old := 800000; f_new := 1200000;
                          f_flags := CPUFREQ_CONST_LOOPS |}]
            (ex_state ex_driver_setpolicy ex_policy 0)).
Proof.
  intros s delivered. split.
  - destruct (prechange_adopts_policy_cur 0%nat 800000 1200000 7 s
                (ex_driver (fun _ => 1000000)) eq_refl) as [H _].
    apply (H 10%nat ex_policy); [reflexivity|reflexivity|reflexivity|reflexivity| |];
      discriminate.
  - destruct (prechange_adopts_policy_cur 0%nat 800000 1200000 7
                (ex_state ex_driver_setpolicy ex_policy 0) ex_driver_setpolicy eq_refl)
      as [_ H].
    apply H. discriminate.
Defined.

(** Registering ondemand on the booted machine. *)
Lemma register_governor_once_witness :
  cpufreq_register_governor (Some gov_strict) ex_boot = Some (- EBUSY, ex_boot) /\
  exists s',
    cpufreq_register_governor (Some gov_ondemand) ex_boot = Some (0, s') /\
    cpufreq_governor_list s' = [gov_ondemand; gov_broken; gov_strict; gov_performance] /\
    cpufreq_register_governor (Some gov_ondemand) s' = Some (- EBUSY, s').
Proof.
  split.
  - destruct (register_governor_once gov_strict ex_boot) as (_ & Hbusy & _).
    apply (Hbusy gov_strict). reflexivity.
  - destruct (register_governor_once gov_ondemand ex_boot) as (_ & _ & Hfresh).
    destruct Hfresh as (s' & Hrun & -> & _ & Hagain); [reflexivity|reflexivity|].
    eexists. split; [exact Hrun|]. split; [reflexivity|exact Hagain].
Defined.

(** "strict" is registered; "ondemand" comes from its module; "bogus" has none. *)
Lemma parse_governor_resolves_witness :
  let s := ex_state (ex_driver (fun _ => 1000000)) ex_policy 0 in
  cpufreq_parse_governor "STRICT" ex_policy s
    = Some (0, set_p_governor (Some gov_strict) ex_policy, s) /\
  cpufreq_parse_governor (K := ex_env_modprobe) "ondemand" ex_policy s
    = Some (0, set_p_governor (Some gov_ondemand) ex_policy,
            set_governor_list [gov_ondemand; gov_broken; gov_strict; gov_performance] s) /\
  cpufreq_parse_governor "bogus" ex_policy s = Some (- EINVAL, ex_policy, s).
Proof.
  intros s.
  split; [|split].
  - destruct (parse_governor_resolves "STRICT" ex_policy s (ex_driver (fun _ => 1000000)))
      as (Hfound & _); [reflexivity|reflexivity|by eexists|].
    apply Hfound. reflexivity.
  - destruct (parse_governor_resolves (K := ex_env_modprobe) "ondemand" ex_policy s
                (ex_driver (fun _ => 1000000)))
      as (_ & Hload & _); [reflexivity|reflexivity|by eexists|].
    apply (Hload gov_ondemand); reflexivity.
  - destruct (parse_governor_resolves "bogus" ex_policy s (ex_driver (fun _ => 1000000)))
      as (_ & _ & Hnone); [reflexivity|reflexivity|by eexists|].
    apply (Hnone (-2)); reflexivity.
Defined.

Lemma cpufreq_get_policy_snapshot_witness :
  let s := ex_state (ex_driver (fun _ => 1000000)) ex_policy 0 in
  cpufreq_get_policy 1%nat s = Some (Some (set_p_kobj 4 false ex_policy), s) /\
  cpufreq_get_policy 2%nat s = Some (None, s).
Proof.
  intros s.
  destruct (cpufreq_get_policy_snapshot 1%nat s) as [Hcopy _];
    [apply ex_state_wf; discriminate|].
  destruct (cpufreq_get_policy_snapshot 2%nat s) as [_ Hnone];
    [apply ex_state_wf; discriminate|].
  split.
  - apply (Hcopy (ex_driver (fun _ => 1000000)) 10%nat ex_policy);
      [vm_compute; lia|reflexivity|by apply ex_driver_pinnable|reflexivity|reflexivity].
  - apply Hnone. right. right. left. reflexivity.
Defined.

Lemma cpufreq_quick_get_reads_policy_witness :
  let s := ex_state (ex_driver (fun _ => 999)) ex_policy 0 in
  cpufreq_quick_get 1%nat s = Some (1000000, s) /\
  cpufreq_quick_get_max 1%nat s = Some (2000000, s) /\
  cpufreq_quick_get 3%nat s = Some (0, s).
Proof.
  intros s.
  destruct (cpufreq_quick_get_reads_policy 1%nat s) as [Hread _];
    [apply ex_state_wf; discriminate|].
  destruct (cpufreq_quick_get_reads_policy 3%nat s) as [_ Hnone];
    [apply ex_state_wf; discriminate|].
  destruct (Hread (ex_driver (fun _ => 999)) 10%nat ex_policy) as [Hcur Hmax];
    [vm_compute; lia|reflexivity|by apply ex_driver_pinnable|reflexivity|reflexivity|].
  split; [exact Hcur|]. split; [exact Hmax|].
  apply Hnone. right. right. left. reflexivity.
Defined.

(** Reading scaling_min_freq, writing policy_min_freq, and both with cpu 0
    offline. *)
Lemma sysfs_entry_points_witness :
  let s := ex_state (ex_driver (fun _ => 1000000)) ex_policy 0 in
  sysfs_show 10%nat scaling_min_freq s = Some (7, ("200000" ++ newline)%string, s) /\
  sysfs_store 10%nat policy_min_freq "300000" 6 s = Some (- EIO, s).
Proof.
  intros s.
  destruct (sysfs_entry_points 10%nat scaling_min_freq EmptyString 0 s ex_policy) as [_ Hshow];
    [apply ex_state_wf; discriminate|reflexivity|].
  destruct (sysfs_entry_points 10%nat policy_min_freq "300000" 6 s ex_policy) as [_ Hstore];
    [apply ex_state_wf; discriminate|reflexivity|].
  split.
  - destruct (Hshow (ex_driver (fun _ => 1000000)) 10%nat ex_policy)
      as (_ & _ & _ & Hpure);
      [vm_compute; lia|reflexivity|by apply ex_driver_pinnable|reflexivity|reflexivity
      |vm_compute; discriminate|].
    exact (Hpure show_scaling_min_freq eq_refl eq_refl).
  - destruct (Hstore (ex_driver (fun _ => 1000000)) 10%nat ex_policy)
      as (_ & _ & Hnone & _);
      [vm_compute; lia|reflexivity|by apply ex_driver_pinnable|reflexivity|reflexivity
      |vm_compute; discriminate|].
    exact (Hnone eq_refl eq_refl).
Defined.

(** The current governor is performance: "perf" counts as the same governor,
    "bogus" is unknown, and cpu 2 has no policy. *)
Lemma cpufreq_set_gov_rejections_witness :
  let s := ex_state (ex_driver (fun _ => 1000000)) ex_policy 0 in
  cpufreq_set_gov None 0%nat s = Some (- EINVAL, s) /\
  cpufreq_set_gov (Some "perf"%string) 0%nat s = Some (- EINVAL, s) /\
  cpufreq_set_gov (Some "bogus"%string) 0%nat s = Some (- EINVAL, s) /\
  cpufreq_set_gov (Some "strict"%string) 2%nat s = Some (- EINVAL, s).
Proof.
  intros s.
  assert (table_wf s) as Hwf by (apply ex_state_wf; discriminate).
  destruct (cpufreq_set_gov_rejections "perf" 0%nat s Hwf) as (Hnull & _ & Hperf).
  destruct (cpufreq_set_gov_rejections "bogus" 0%nat s Hwf) as (_ & _ & Hbogus).
  destruct (cpufreq_set_gov_rejections "strict" 2%nat s Hwf) as (_ & Hnone & _).
  split; [exact Hnull|]. split; [|split].
  - destruct (Hperf (ex_driver (fun _ => 1000000)) 10%nat ex_policy)
      as (_ & _ & Hsame & _);
      [vm_compute; lia|reflexivity|by apply ex_driver_pinnable|reflexivity|reflexivity
      |vm_compute; discriminate|].
    apply (Hsame gov_performance); reflexivity.
  - destruct (Hbogus (ex_driver (fun _ => 1000000)) 10%nat ex_policy)
      as (_ & _ & _ & Hunknown);
      [vm_compute; lia|reflexivity|by apply ex_driver_pinnable|reflexivity|reflexivity
      |vm_compute; discriminate|].
    apply (Hunknown gov_performance); [reflexivity|reflexivity|vm_compute; discriminate|].
    apply ex_bogus_unknown; [reflexivity|by eexists].
  - apply Hnone. right. right. reflexivity.
Defined.

(** Cpu 2 has no policy; cpu 1 has one but has gone offline. *)
Lemma cpufreq_update_policy_errors_witness :
  let s := ex_state (ex_driver (fun _ => 1000000)) ex_policy 0 in
  let offline := {|
    cpufreq_driver := cpufreq_driver s; cpufreq_cpu_data := cpufreq_cpu_data s;
    cpufreq_policy_cpu := cpufreq_policy_cpu s;
    cpufreq_governor_list := cpufreq_governor_list s;
    cpufreq_policy_notifier_list := cpufreq_policy_notifier_list s;
    policies := policies s; modules := modules s;
    cpu_online_mask := 1%N; cpu_present_mask := cpu_present_mask s;
    pm_qos_cpu_freq_min := 0; pm_qos_cpu_freq_max := pm_qos_cpu_freq_max s;
    system_wq := []; trace := [] |} in
  cpufreq_update_policy 2%nat s = Some (- ENODEV, s) /\
  cpufreq_update_policy 1%nat offline = Some (- EINVAL, offline).
Proof.
  intros s offline. split.
  - destruct (cpufreq_update_policy_errors 2%nat s) as [Hnone _];
      [apply ex_state_wf; discriminate|].
    apply Hnone. right. right. left. reflexivity.
  - destruct (cpufreq_update_policy_errors 1%nat offline) as [_ Hoff].
    { apply (ex_state_wf (ex_driver (fun _ => 1000000)) ex_policy 0). discriminate. }
    apply (Hoff (ex_driver (fun _ => 1000000)) 10%nat ex_policy);
      [vm_compute; lia|reflexivity| |reflexivity|reflexivity|vm_compute; discriminate
      |vm_compute; discriminate].
    eexists. split; [vm_compute; reflexivity|reflexivity].
Defined.

(** Resume with a driver whose callback succeeds, and with one whose callback
    fails. *)
Lemma cpufreq_bp_suspend_resume_witness :
  let s := ex_state (ex_driver (fun _ => 1000000)) ex_policy 0 in
  (exists s', cpufreq_bp_suspend s = Some (0, s') /\ system_wq s' = []) /\
  (exists s', cpufreq_bp_resume s = Some (tt, s') /\ 10%nat ∈ system_wq s') /\
  (exists s', cpufreq_bp_resume (L := ex_lib_resume_fails) s = Some (tt, s') /\
              system_wq s' = []) /\
  cpufreq_bp_resume ex_boot = Some (tt, ex_boot).
Proof.
  intros s.
  destruct (cpufreq_bp_suspend_resume s) as [_ Hok].
  destruct (cpufreq_bp_suspend_resume (L := ex_lib_resume_fails) s) as [_ Hfail].
  destruct (cpufreq_bp_suspend_resume ex_boot) as [Hnone _].
  destruct (Hok (ex_driver (fun _ => 1000000)) 10%nat ex_policy)
    as [(s1 & Hsus & Hwq1) (s2 & Hres & Hqueued & _)];
    [vm_compute; lia|reflexivity|by apply ex_driver_pinnable|reflexivity|reflexivity|].
  destruct (Hfail (ex_driver (fun _ => 1000000)) 10%nat ex_policy)
    as [_ (s3 & Hres3 & _ & Hidle)];
    [vm_compute; lia|reflexivity|by apply ex_driver_pinnable|reflexivity|reflexivity|].
  split; [|split; [|split]].
  - exists s1. split; [exact Hsus|exact Hwq1].
  - exists s2. split; [exact Hres|]. apply Hqueued. right. eexists. split; reflexivity.
  - exists s3. split; [exact Hres3|]. apply (Hidle _ eq_refl). discriminate.
  - apply Hnone. right. right. reflexivity.
Defined.

(** Cpu 1 leaves the policy that cpu 0 owns. *)
Lemma remove_dev_unlinks_sibling_witness :
  let s := ex_state (ex_driver (fun _ => 1000000)) ex_policy 0 in
  __cpufreq_remove_dev 1 3%nat ∅
    (set_policy_cpu (<[3%nat := 3]> (cpufreq_policy_cpu s)) s)
    = Some (- EINVAL, ∅, set_policy_cpu (<[3%nat := 3]> (cpufreq_policy_cpu s)) s) /\
  exists s',
    __cpufreq_remove_dev 1 1%nat ∅ s = Some (0, ∅, s') /\
    cpufreq_cpu_data s' = {[ 0%nat := 10%nat ]} /\
    policies s' = {[ 10%nat := set_p_kobj 2 false (set_p_cpus 1%N ex_policy) ]} /\
    module_refs (Some 1%nat) s' = 0 /\
    trace s' = [call_sysfs 1].
Proof.
  intros s. split.
  - destruct (remove_dev_unlinks_sibling 0 3%nat ∅
                (set_policy_cpu (<[3%nat := 3]> (cpufreq_policy_cpu s)) s)) as [Hnone _];
      [vm_compute; discriminate|].
    apply Hnone. reflexivity.
  - destruct (remove_dev_unlinks_sibling 0 1%nat ∅ s) as [_ Hsibling];
      [vm_compute; discriminate|].
    destruct (Hsibling (ex_driver (fun _ => 1000000)) 10%nat ex_policy)
      as (s' & Hrun & Htable & Hheap & Hrefs & Htrace & _);
      [reflexivity|reflexivity|reflexivity|reflexivity|discriminate|].
    exists s'. split; [exact Hrun|]. split; [|split; [|split]].
    + rewrite Htable. vm_compute. reflexivity.
    + rewrite Hheap. vm_compute. reflexivity.
    + change (module_refs (d_owner (ex_driver (fun _ => 1000000))) s' = 0).
      rewrite (Hrefs 1%nat eq_refl); [reflexivity|]. eexists. vm_compute. reflexivity.
    + exact Htrace.
Defined.

(** Cpus 2 and 3 are present and offline; cpu 2 had governor strict when it
    went down, cpu 3 performance, and so had cpu 1, which is online. *)
Lemma unregister_governor_forgets_witness :
  let s := ex_state (ex_driver (fun _ => 1000000)) ex_policy 0 in
  let saved : gmap nat string :=
    {[ 1%nat := "strict"%string; 2%nat := "strict"%string; 3%nat := "performance"%string ]} in
  cpufreq_unregister_governor (Some gov_ondemand) saved s = None /\
  (exists saved' s',
     cpufreq_unregister_governor (Some gov_strict) saved s = Some (saved', s') /\
     cpufreq_governor_list s' = [gov_broken; gov_performance] /\
     saved_governor saved' 1 = "strict"%string /\
     saved_governor saved' 2 = EmptyString /\
     saved_governor saved' 3 = "performance"%string) /\
  (exists s1 saved',
     cpufreq_register_governor (Some gov_ondemand) s = Some (0, s1) /\
     cpufreq_unregister_governor (Some gov_ondemand) saved s1 = Some (saved', s)).
Proof.
  intros s saved.
  destruct (unregister_governor_forgets gov_ondemand saved s) as (_ & Habsent & _ & Htrip).
  destruct (unregister_governor_forgets gov_strict saved s) as (_ & _ & Hreg & _).
  assert (gov_ondemand ∉ cpufreq_governor_list s) as Hnin.
  { intros H. cbn in H. repeat (apply elem_of_cons in H as [H|H]; [discriminate H|]).
    by apply elem_of_nil in H. }
  split; [by apply Habsent|]. split.
  - destruct Hreg as (saved' & s' & Hrun & _ & _ & Hhot & _).
    { right. left. }
    eassert (Hrun' : cpufreq_unregister_governor (Some gov_strict) saved s = Some (_, _))
      by (vm_compute; reflexivity).
    rewrite Hrun in Hrun'. injection Hrun' as Hsaved Hs'.
    exists saved', s'. split; [exact Hrun|]. split; [by rewrite Hs'|].
    rewrite !(Hhot eq_refl). split; [|split]; vm_compute; reflexivity.
  - eassert (Hadd : cpufreq_register_governor (Some gov_ondemand) s = Some (0, _))
      by (vm_compute; reflexivity).
    destruct (Htrip Hnin _ Hadd) as [saved' Hrun].
    eexists _, saved'. split; [exact Hadd|exact Hrun].
Defined.

Lemma substring_length_le n (t : string) : (String.length (String.substring 0 n t) <= n)%nat.
Proof.
  revert t. induction n as [|n IH]; intros [|c t]; cbn; try lia.
  specialize (IH t). lia.
Defined.

Lemma ex_scnprintf_truncates : scnprintf_truncates.
Proof.
  intros size text Hsize. cbn. unfold scnprintf_model.
  destruct (size <=? 0) eqn:E; [apply Z.leb_le in E; lia|].
  pose proof (substring_length_le (Z.to_nat (size - 1)) text). lia.
Defined.

Lemma cpu_lists_fit_the_page_witness :
  let s := ex_state (ex_driver (fun _ => 1000000)) ex_policy 0 in
  show_cpus 15%N = (8, ("0 1 2 3" ++ newline)%string) /\
  (show_cpus 15%N).1 < 4096 /\
  (exists n text,
     show_scaling_available_governors s = Some (n, text, s) /\
     n = Z.of_nat (String.length text) /\ n < 4096).
Proof.
  intros s.
  destruct cpu_lists_fit_the_page as (Hcpus & _ & Hgovs);
    [apply ex_scnprintf_truncates|vm_compute; discriminate|].
  split; [vm_compute; reflexivity|]. split.
  - exact (proj2 (Hcpus 15%N)).
  - apply Hgovs. by eexists.
Defined.

(** Governor ondemand lives in module 7. *)
Lemma governor_module_accounting_witness :
  let s := ex_state (ex_driver (fun _ => 1000000)) ex_policy 0 in
  let p := set_p_governor (Some gov_ondemand) ex_policy in
  exists s1 s2,
    __cpufreq_governor p CPUFREQ_GOV_START s = Some (0, p, s1) /\
    module_refs (Some 7%nat) s1 = 1 /\
    __cpufreq_governor p CPUFREQ_GOV_LIMITS s1 = Some (0, p, s2) /\
    module_refs (Some 7%nat) s2 = 1 /\
    module_refs (Some 1%nat) s2 = 1.
Proof.
  intros s p.
  assert (tolerates gov_ondemand (transition_latency (p_cpuinfo p))) as Htol.
  { right. vm_compute. discriminate. }
  set (s1 := set_trace [call_governor gov_ondemand CPUFREQ_GOV_START]
               (set_modules (<[7%nat := {| m_live := true; m_refcnt := 1 |}]> (modules s)) s)).
  assert (__cpufreq_governor p CPUFREQ_GOV_START s = Some (0, p, s1)) as Hstart
    by (vm_compute; reflexivity).
  destruct (governor_module_accounting p CPUFREQ_GOV_START s gov_ondemand 7%nat _ _ _
              eq_refl Htol (ex_keeps_governor gov_ondemand) eq_refl Hstart) as [Hup _].
  eassert (Hlimits : __cpufreq_governor p CPUFREQ_GOV_LIMITS s1 = Some (0, p, _))
    by (vm_compute; reflexivity).
  destruct (governor_module_accounting p CPUFREQ_GOV_LIMITS s1 gov_ondemand 7%nat _ _ _
              eq_refl Htol (ex_keeps_governor gov_ondemand) eq_refl Hlimits)
    as [Hsame Hother].
  eexists _, _. split; [exact Hstart|]. split; [exact Hup|].
  split; [exact Hlimits|]. split.
  - etransitivity; [exact Hsame|]. vm_compute. reflexivity.
  - etransitivity; [apply Hother; discriminate|]. vm_compute. reflexivity.
Defined.

(** A switch to the governor that refuses to start, asking for a maximum of
    1400000 kHz in the same call: the call fails and the old governor is
    back, but the maximum is committed. *)
Lemma set_policy_commits_window_before_governor_witness :
  let s := ex_state ex_driver_plain ex_policy 0 in
  let proposed := set_p_governor (Some gov_broken) (set_p_max 1400000 ex_policy) in
  exists data' policy' s',
    __cpufreq_set_policy ex_policy proposed s = Some (- EINVAL, data', policy', s') /\
    p_governor data' = Some gov_performance /\
    p_min data' = 200000 /\ p_max data' = 1400000 /\
    policies s' = policies s.
Proof.
  intros s proposed.
  eassert (Hrun : __cpufreq_set_policy ex_policy proposed s = Some (- EINVAL, _, _, _))
    by (vm_compute; reflexivity).
  assert (forall p, fst (d_verify ex_driver_plain p) = 0 /\
                    p_min (snd (d_verify ex_driver_plain p)) = p_min p /\
                    p_max (snd (d_verify ex_driver_plain p)) = p_max p) as Hver
    by (intros p; repeat split).
  assert (forall nb ev p, nb ∈ cpufreq_policy_notifier_list s ->
                          p_min (nb ev p) = p_min p /\ p_max (nb ev p) = p_max p) as Hnot
    by no_subscriber.
  destruct (set_policy_commits_window_before_governor ex_policy proposed s ex_driver_plain
              eq_refl ltac:(vm_compute; intros [H|H]; discriminate H) Hver Hnot
              ex_governors_keep_limits _ _ _ _ Hrun) as (Hmin & Hmax & _ & _ & Hframe).
  eexists _, _, _. split; [exact Hrun|]. split; [reflexivity|].
  split; [exact Hmin|]. split; [exact Hmax|]. reflexivity.
Defined.

(** The user asked for 800000 kHz at least; QoS asks for 1200000. *)
Lemma update_policy_recommits_user_limits_witness :
  let s := ex_state ex_driver_plain (set_p_min 250000 ex_policy_user_800) 1200000 in
  exists s' v',
    cpufreq_update_policy 0%nat s = Some (0, s') /\
    policies s' !! 10%nat = Some v' /\
    p_min v' = 1200000 /\ p_max v' = 2000000.
Proof.
  intros s.
  eassert (Hrun : cpufreq_update_policy 0%nat s = Some (0, _)) by (vm_compute; reflexivity).
  assert (forall p, fst (d_verify ex_driver_plain p) = 0 /\
                    p_min (snd (d_verify ex_driver_plain p)) = p_min p /\
                    p_max (snd (d_verify ex_driver_plain p)) = p_max p) as Hver
    by (intros p; repeat split).
  assert (forall nb ev p, nb ∈ cpufreq_policy_notifier_list s ->
                          p_min (nb ev p) = p_min p /\ p_max (nb ev p) = p_max p) as Hnot
    by no_subscriber.
  assert (table_wf s) as Hwf by (apply ex_state_wf; discriminate).
  assert ((0 < nr_cpu_ids)%nat) as Hcpu by (cbn; lia).
  assert (policy_cpu_known 0 s) as Hknown by (vm_compute; discriminate).
  assert (u_min (p_user_policy (set_p_min 250000 ex_policy_user_800))
          <= u_max (p_user_policy (set_p_min 250000 ex_policy_user_800))) as Huser
    by (vm_compute; discriminate).
  assert (cpufreq_driver s = Some ex_driver_plain) as Hd by reflexivity.
  assert (cpufreq_cpu_data s !! 0%nat = Some 10%nat) as Hdata by reflexivity.
  assert (policies s !! 10%nat = Some (set_p_min 250000 ex_policy_user_800)) as Hv
    by reflexivity.
  assert (cpu_is_online 0 s) as Hon by reflexivity.
  assert (match d_get ex_driver_plain with
          | Some get => p_cur (set_p_min 250000 ex_policy_user_800) <> 0 /\
                        get 0%nat = p_cur (set_p_min 250000 ex_policy_user_800)
          | None => True
          end) as Hsync by (split; [discriminate|reflexivity]).
  destruct (update_policy_recommits_user_limits 0%nat s ex_driver_plain 10%nat
              (set_p_min 250000 ex_policy_user_800) 0 _
              Hwf Hcpu Hd (ex_driver_pinnable ex_driver_plain _ _ eq_refl) Hdata Hv
              Hknown Hon Hsync Hver Hnot ex_governors_keep_limits Huser Hrun)
    as (v' & Hv' & Hmin & Hmax).
  eexists _, v'. split; [exact Hrun|]. split; [exact Hv'|]. split; [exact Hmin|exact Hmax].
Defined.

(** "5000000" is written to scaling_min_freq: the write is refused, and
    policy_min_freq shows 5000000 afterwards. *)
Lemma store_one_records_request_witness :
  let s := ex_state (ex_driver (fun _ => 1000000)) ex_policy 0 in
  exists s' v',
    store_scaling_min_freq 10%nat "5000000" 7 s = Some (- EINVAL, s') /\
    policies s' !! 10%nat = Some v' /\
    u_min (p_user_policy v') = 5000000 /\ p_min v' = 200000 /\
    show_policy_min_freq v' = (8, ("5000000" ++ newline)%string).
Proof.
  intros s.
  eassert (Hrun : store_scaling_min_freq 10%nat "5000000" 7 s = Some (- EINVAL, _))
    by (vm_compute; reflexivity).
  assert (table_wf s) as Hwf by (apply ex_state_wf; discriminate).
  assert ((p_cpu ex_policy < nr_cpu_ids)%nat) as Hcpu by (cbn; lia).
  assert (sscanf_u "5000000" = Some 5000000) as Hscan by (vm_compute; reflexivity).
  assert (policies s !! 10%nat = Some ex_policy) as Hpv by reflexivity.
  assert (cpufreq_driver s = Some (ex_driver (fun _ => 1000000))) as Hd by reflexivity.
  assert (cpufreq_cpu_data s !! p_cpu ex_policy = Some 10%nat) as Hdata by reflexivity.
  destruct (store_one_records_request object_min 10%nat "5000000" 7 s 5000000 ex_policy
              (ex_driver (fun _ => 1000000)) Hwf Hscan Hpv Hcpu Hd
              (ex_driver_pinnable (ex_driver (fun _ => 1000000)) _ _ eq_refl) Hdata
              _ _ Hrun)
    as (r0 & data' & np' & s2 & Hengine & _ & Hv' & Hu & Hshow & _).
  eassert (Hengine' : __cpufreq_set_policy ex_policy
                        (set_object object_min 5000000
                           (set_p_kobj (p_kobj ex_policy + 1) (p_kobj_unregister ex_policy)
                              ex_policy)) s
                      = Some (_, _, _, _)) by (vm_compute; reflexivity).
  rewrite Hengine in Hengine'. injection Hengine' as -> -> _ _.
  eexists _, _. split; [exact Hrun|]. split; [exact Hv'|].
  split; [exact Hu|]. split; [reflexivity|]. exact Hshow.
Defined.

(** Cpu 2 is offline; the allocator is out of memory; the driver finds no
    hardware. *)
Lemma cpufreq_add_dev_failures_witness :
  cpufreq_add_dev 2%nat ex_boot = Some (0, ex_boot) /\
  cpufreq_add_dev (K := ex_env_nomem) 0%nat ex_boot = Some (- ENOMEM, ex_boot) /\
  exists p0,
    cpufreq_add_dev 0%nat (ex_boot_with ex_driver_init_fails)
      = Some (- ENODEV,
              set_trace [call_init p0]
                (set_policy_cpu (<[0%nat := 0]> (cpufreq_policy_cpu ex_boot))
                   (ex_boot_with ex_driver_init_fails))) /\
    p_cpu p0 = 0%nat /\ p_governor p0 = Some gov_performance.
Proof.
  split; [|split].
  - destruct (cpufreq_add_dev_failures 2%nat ex_boot) as [Hoff _].
    apply Hoff. vm_compute. discriminate.
  - destruct (cpufreq_add_dev_failures (K := ex_env_nomem) 0%nat ex_boot) as [_ Hon].
    destruct (Hon (ex_driver (fun _ => 1000000)) eq_refl eq_refl eq_refl) as (_ & Hmem & _).
    apply Hmem; [|reflexivity].
    eexists. split; [vm_compute; reflexivity|reflexivity].
  - destruct (cpufreq_add_dev_failures 0%nat (ex_boot_with ex_driver_init_fails)) as [_ Hon].
    destruct (Hon ex_driver_init_fails eq_refl eq_refl eq_refl) as (_ & _ & Hinit).
    destruct (Hinit (- ENODEV)) as (p0 & Hrun & Hcpu & _ & _);
      [eexists; split; [vm_compute; reflexivity|reflexivity]|reflexivity|discriminate
      |reflexivity|].
    eassert (Hrun' : cpufreq_add_dev 0%nat (ex_boot_with ex_driver_init_fails)
                     = Some (- ENODEV, _)) by (vm_compute; reflexivity).
    exists p0. split; [exact Hrun|]. split; [exact Hcpu|].
    rewrite Hrun in Hrun'. injection Hrun' as ->. reflexivity.
Defined.

(** A sysfs that cannot add the kobject: cpufreq_add_dev_interface returns
    the error, and cpufreq_add_dev drops the kobject, waits for its release
    and returns the error.  A sysfs that adds the kobject and then fails on a
    file: cpufreq_add_dev_interface drops the kobject and takes the completion
    itself, and the second wait, in cpufreq_add_dev, never gets a result. *)
Example cpufreq_add_dev_waits_twice :
  (exists s', cpufreq_add_dev (K := ex_env_no_kobject) 0%nat ex_boot = Some (- ENOMEM, s')) /\
  cpufreq_add_dev (K := ex_env_no_files) 0%nat ex_boot = None.
Proof. split; [eexists|]; vm_compute; reflexivity. Qed.

(** The driver reports the frequency the policy has. *)
Lemma cpufreq_get_reads_the_driver_witness :
  let s := ex_state (ex_driver (fun _ => 1000000)) ex_policy 0 in
  cpufreq_get 0%nat s = Some (1000000, set_trace [call_get 0] s) /\
  cpufreq_get 2%nat s = Some (0, s).
Proof.
  intros s.
  destruct (cpufreq_get_reads_the_driver 0%nat s) as [_ Hok];
    [apply ex_state_wf; discriminate|].
  destruct (cpufreq_get_reads_the_driver 2%nat s) as [Hnone _];
    [apply ex_state_wf; discriminate|].
  split.
  - destruct (Hok (ex_driver (fun _ => 1000000)) 10%nat ex_policy) as (_ & _ & Hsync);
      [vm_compute; lia|reflexivity|by apply ex_driver_pinnable|reflexivity|reflexivity
      |vm_compute; discriminate|].
    apply (Hsync (fun _ => 1000000)); [reflexivity|reflexivity|].
    right. right. left. reflexivity.
  - apply Hnone. right. right. reflexivity.
Defined.

(** The performance governor has no speed of its own to set. *)
Lemma scaling_setspeed_needs_governor_support_witness :
  let s := ex_state (ex_driver (fun _ => 1000000)) ex_policy 0 in
  store_scaling_setspeed 10%nat "800000" 6 s = Some (- EINVAL, s) /\
  show_scaling_setspeed ex_policy = (14, ("<unsupported>" ++ newline)%string).
Proof.
  intros s.
  destruct (scaling_setspeed_needs_governor_support 10%nat "800000" 6 s ex_policy eq_refl)
    as (Hstore & _ & Hshow).
  split.
  - apply Hstore. right. left. exists gov_performance. split; reflexivity.
  - apply Hshow. right. exists gov_performance. split; reflexivity.
Defined.

(** Cpu 0 is detached while nobody else holds its policy, and while somebody
    does. *)
Lemma remove_dev_tears_down_unshared_policy_witness :
  let s := ex_state_unshared ex_driver_plain in
  let held := set_policies {[ 10%nat := set_p_kobj 2 false (set_p_cpus 1%N ex_policy) ]} s in
  (exists s',
     cpufreq_remove_dev 1 0%nat ∅ s = Some (0, {[ 0%nat := "performance"%string ]}, s') /\
     cpufreq_cpu_data s' = ∅ /\ policies s' = ∅ /\
     trace s' = [call_governor gov_performance CPUFREQ_GOV_STOP;
                 call_exit (set_p_kobj 0 false (set_p_cpus 1%N ex_policy))]) /\
  cpufreq_remove_dev 1 0%nat ∅ held = None.
Proof.
  intros s held. split.
  - eassert (Hrun : cpufreq_remove_dev 1 0%nat ∅ s = Some (0, _, _))
      by (vm_compute; reflexivity).
    pose proof (remove_dev_tears_down_unshared_policy 0 0%nat ∅ s ex_driver_plain 10%nat
                  (set_p_kobj 1 false (set_p_cpus 1%N ex_policy)) gov_performance
                  eq_refl ltac:(vm_compute; discriminate) eq_refl eq_refl eq_refl eq_refl
                  ltac:(vm_compute; discriminate) eq_refl ltac:(left; reflexivity) I
                  (ex_keeps_governor _) eq_refl
                  ltac:(intros f v [= <-]; reflexivity)) as H.
    cbn zeta in H. rewrite Hrun in H.
    destruct H as (_ & _ & Hsaved & Htable & Hheap & Htrace).
    eexists. split; [exact Hrun|]. split; [|split].
    + rewrite Htable. vm_compute. reflexivity.
    + rewrite Hheap. vm_compute. reflexivity.
    + exact Htrace.
  - pose proof (remove_dev_tears_down_unshared_policy 0 0%nat ∅ held ex_driver_plain 10%nat
                  (set_p_kobj 2 false (set_p_cpus 1%N ex_policy)) gov_performance
                  eq_refl ltac:(vm_compute; discriminate) eq_refl eq_refl eq_refl eq_refl
                  ltac:(vm_compute; discriminate) eq_refl ltac:(left; reflexivity) I
                  (ex_keeps_governor _) eq_refl
                  ltac:(intros f v [= <-]; reflexivity)) as H.
    cbn zeta in H.
    destruct (cpufreq_remove_dev 1 0%nat ∅ held) as [[[r saved'] s']|]; [|reflexivity].
    destruct H as ([H|H] & _); discriminate H.
Defined.

(** At boot cpu 0 gets a policy of its own under the default governor; with
    a sibling whose governor does not start, the attempt is undone. *)
Lemma cpufreq_add_dev_lone_cpu_witness :
  (exists s' v,
     cpufreq_add_dev 0%nat (ex_boot_with ex_driver_percpu) = Some (0, s') /\
     cpufreq_cpu_data s' !! 0%nat = Some 0%nat /\ policies s' !! 0%nat = Some v /\
     p_kobj v = 1 /\ p_governor v = Some gov_performance /\
     p_min v = 200000 /\ p_max v = 2000000) /\
  (exists s',
     cpufreq_add_dev 0%nat ex_state_sibling_broken = Some (- EINVAL, s') /\
     cpufreq_cpu_data s' = cpufreq_cpu_data ex_state_sibling_broken /\
     policies s' = policies ex_state_sibling_broken /\
     modules s' = modules ex_state_sibling_broken).
Proof.
  split.
  - set (s := ex_boot_with ex_driver_percpu).
    assert ((0 < nr_cpu_ids)%nat) as H1 by (vm_compute; lia).
    assert (cpu_is_online 0 s) as H2 by reflexivity.
    assert (cpufreq_driver s = Some ex_driver_percpu) as H3 by reflexivity.
    assert (d_setpolicy ex_driver_percpu = None) as H4 by reflexivity.
    assert (module_pinnable (d_owner ex_driver_percpu) s) as H5.
    { eexists. split; [vm_compute; reflexivity|reflexivity]. }
    assert (cpufreq_cpu_data s !! 0%nat = None) as H6 by reflexivity.
    assert (forall t, kzalloc t = true) as H7 by reflexivity.
    assert (forall t c, kobject_init_and_add t c = 0) as H8 by reflexivity.
    assert (forall t c n, sysfs_create_file t c n = 0) as H9 by reflexivity.
    assert (forall (nb : notifier_block) (ev : policy_event) (p : cpufreq_policy),
              nb ∈ cpufreq_policy_notifier_list s -> nb ev p = p) as H10 by no_subscriber.
    assert (forall p, fst (d_verify ex_driver_percpu p) = 0 /\
              p_min (snd (d_verify ex_driver_percpu p)) = p_min p /\
              p_max (snd (d_verify ex_driver_percpu p)) = p_max p /\
              p_governor (snd (d_verify ex_driver_percpu p)) = p_governor p) as H11 by done.
    assert (forall f p, d_exit ex_driver_percpu = Some f -> snd (f p) = p) as H12.
    { intros f p [= <-]. reflexivity. }
    assert (try_module_get (g_owner (governor_at (first_governor 0 s))) s = Some (true, s))
      as H13 by (vm_compute; reflexivity).
    assert (forall p ev, snd (g_governor (governor_at (first_governor 0 s)) p ev) = p)
      as H14 by reflexivity.
    assert (forall p, fst (g_governor (governor_at (first_governor 0 s)) p CPUFREQ_GOV_START) = 0)
      as H15 by reflexivity.
    assert (fst (d_init ex_driver_percpu (unattached_policy 0 (first_governor 0 s))) = 0)
      as H16 by reflexivity.
    assert (p_cpus (snd (d_init ex_driver_percpu (unattached_policy 0 (first_governor 0 s))))
            = cpumask_of 0) as H17 by reflexivity.
    assert (p_governor (snd (d_init ex_driver_percpu (unattached_policy 0 (first_governor 0 s))))
            = Some (first_governor 0 s)) as H18 by reflexivity.
    assert (p_min (snd (d_init ex_driver_percpu (unattached_policy 0 (first_governor 0 s))))
            <= p_max (snd (d_init ex_driver_percpu (unattached_policy 0 (first_governor 0 s)))))
      as H19 by (cbn; lia).
    assert (tolerates (first_governor 0 s)
              (transition_latency
                 (p_cpuinfo (snd (d_init ex_driver_percpu
                                    (unattached_policy 0 (first_governor 0 s)))))))
      as H20 by (left; reflexivity).
    destruct (cpufreq_add_dev_lone_cpu 0%nat s ex_driver_percpu s 0 H1 H2 H3 H4 H5 H6 H7 H8 H9
                H10 H16 H17 H18 H19 H11 H12 H13 H20 H14 H15)
      as (s' & calls & Hrun & _ & _ & Hok & _).
    destruct (Hok eq_refl) as (_ & Hdata & _ & v & Hpol & _ & Hkobj & Hgov & _ & _ & _ & Hmin & Hmax).
    exists s', v. split; [exact Hrun|].
    rewrite Hdata, Hpol, !lookup_insert_eq.
    repeat split; done.
  - set (s := ex_state_sibling_broken).
    assert ((0 < nr_cpu_ids)%nat) as H1 by (vm_compute; lia).
    assert (cpu_is_online 0 s) as H2 by reflexivity.
    assert (cpufreq_driver s = Some ex_driver_percpu) as H3 by reflexivity.
    assert (d_setpolicy ex_driver_percpu = None) as H4 by reflexivity.
    assert (module_pinnable (d_owner ex_driver_percpu) s) as H5.
    { eexists. split; [vm_compute; reflexivity|reflexivity]. }
    assert (cpufreq_cpu_data s !! 0%nat = None) as H6 by reflexivity.
    assert (forall t, kzalloc t = true) as H7 by reflexivity.
    assert (forall t c, kobject_init_and_add t c = 0) as H8 by reflexivity.
    assert (forall t c n, sysfs_create_file t c n = 0) as H9 by reflexivity.
    assert (forall (nb : notifier_block) (ev : policy_event) (p : cpufreq_policy),
              nb ∈ cpufreq_policy_notifier_list s -> nb ev p = p) as H10 by no_subscriber.
    assert (forall p, fst (d_verify ex_driver_percpu p) = 0 /\
              p_min (snd (d_verify ex_driver_percpu p)) = p_min p /\
              p_max (snd (d_verify ex_driver_percpu p)) = p_max p /\
              p_governor (snd (d_verify ex_driver_percpu p)) = p_governor p) as H11 by done.
    assert (forall f p, d_exit ex_driver_percpu = Some f -> snd (f p) = p) as H12.
    { intros f p [= <-]. reflexivity. }
    assert (first_governor 0 s = gov_broken) as Hgov by (vm_compute; reflexivity).
    assert (try_module_get (g_owner (governor_at (first_governor 0 s))) s = Some (true, s))
      as H13 by (vm_compute; reflexivity).
    assert (forall p ev, snd (g_governor (governor_at (first_governor 0 s)) p ev) = p)
      as H14 by (rewrite Hgov; reflexivity).
    assert (forall p, fst (g_governor (governor_at (first_governor 0 s)) p CPUFREQ_GOV_START)
                      = - EINVAL)
      as H15 by (rewrite Hgov; reflexivity).
    assert (p_governor (snd (d_init ex_driver_percpu (unattached_policy 0 (first_governor 0 s))))
            = Some (first_governor 0 s)) as H16 by (rewrite Hgov; reflexivity).
    assert (tolerates (first_governor 0 s)
              (transition_latency
                 (p_cpuinfo (snd (d_init ex_driver_percpu
                                    (unattached_policy 0 (first_governor 0 s)))))))
      as H17 by (rewrite Hgov; left; reflexivity).
    assert (fst (d_init ex_driver_percpu (unattached_policy 0 (first_governor 0 s))) = 0)
      as H18 by reflexivity.
    assert (p_cpus (snd (d_init ex_driver_percpu (unattached_policy 0 (first_governor 0 s))))
            = cpumask_of 0) as H19 by reflexivity.
    assert (p_min (snd (d_init ex_driver_percpu (unattached_policy 0 (first_governor 0 s))))
            <= p_max (snd (d_init ex_driver_percpu (unattached_policy 0 (first_governor 0 s)))))
      as H20 by (cbn; lia).
    destruct (cpufreq_add_dev_lone_cpu 0%nat s ex_driver_percpu s (- EINVAL) H1 H2 H3 H4 H5 H6
                H7 H8 H9 H10 H18 H19 H16 H20 H11 H12 H13 H17 H14 H15)
      as (s' & calls & Hrun & _ & _ & _ & Hbad).
    assert (- EINVAL <> 0) as Hne by discriminate.
    destruct (Hbad Hne) as (_ & _ & Hdata & Hpol & Hmod).
    exists s'. split; [exact Hrun|]. split; [exact Hdata|]. split; [exact Hpol|exact Hmod].
Defined.

(** On the example machine cpu 0 runs the performance governor: the caller
    gets 11 characters, the attribute shows 12. *)
Lemma cpufreq_current_gov_reads_witness :
  let s := ex_state (ex_driver (fun _ => 1000000)) ex_policy 0 in
  cpufreq_current_gov 0%nat s = Some (11, "performance"%string, s) /\
  show_scaling_governor ex_policy = (12, ("performance" ++ newline)%string) /\
  cpufreq_current_gov 2%nat s = Some (- EINVAL, EmptyString, s).
Proof.
  intros s.
  assert (table_wf s) as Hwf by (apply ex_state_wf; discriminate).
  destruct (cpufreq_current_gov_reads 0%nat s Hwf) as [_ Hok].
  destruct (cpufreq_current_gov_reads 2%nat s Hwf) as [Hnone _].
  assert ((0 < nr_cpu_ids)%nat) as H1 by (vm_compute; lia).
  assert (cpufreq_driver s = Some (ex_driver (fun _ => 1000000))) as H2 by reflexivity.
  assert (module_pinnable (d_owner (ex_driver (fun _ => 1000000))) s) as H3.
  { eexists. split; [vm_compute; reflexivity|reflexivity]. }
  assert (cpufreq_cpu_data s !! 0%nat = Some 10%nat) as H4 by reflexivity.
  assert (policies s !! 10%nat = Some ex_policy) as H5 by reflexivity.
  assert (policy_cpu_known (p_cpu ex_policy) s) as H6 by (vm_compute; discriminate).
  destruct (Hok _ _ _ H1 H2 H3 H4 H5 H6) as (_ & _ & Hname).
  assert (cpu_is_online (p_cpu ex_policy) s) as H7 by reflexivity.
  assert (p_policy ex_policy <> CPUFREQ_POLICY_POWERSAVE) as H8 by discriminate.
  assert (p_policy ex_policy <> CPUFREQ_POLICY_PERFORMANCE) as H9 by discriminate.
  destruct (Hname gov_performance H7 H8 H9 eq_refl) as [Hrun Hshow].
  split; [|split].
  - etransitivity; [exact Hrun|]. vm_compute. reflexivity.
  - etransitivity; [exact Hshow|]. vm_compute. reflexivity.
  - apply Hnone. right. right. reflexivity.
Defined.
